(** * Direct I/O on raw block devices: block/fops.c (Linux 5.15)

    A shallow embedding of the direct-I/O submission and completion code of
    [block/fops.c]: [dio_bio_write_op], [blkdev_bio_end_io_simple],
    [__blkdev_direct_IO_simple], [blkdev_bio_end_io], [__blkdev_direct_IO]
    and [blkdev_direct_IO].

    Bios live in a store indexed by natural numbers; the [blkdev_dio] of a
    request is embedded in its first bio, so [dio->bio.bi_status] and the
    first bio's own [bi_status] are one and the same store cell.  The device
    queue is an explicit component of the state: [submit_bio] hands a bio
    to it, and wherever the kernel code can be overtaken by completions
    (inside [submit_bio], [blk_poll], [blk_io_schedule]) the device delivers
    the next batch of its schedule.  Calls that leave the file are recorded in
    a trace, newest event first. *)

From stdpp Require Import base numbers list.

#[local] Set Warnings "-clear-no-such-hyp".

Open Scope Z_scope.

(** ** Machine integers *)

Definition wrap_u (w x : Z) : Z := x mod 2 ^ w.
Definition wrap_s (w x : Z) : Z := (x + 2 ^ (w - 1)) mod 2 ^ w - 2 ^ (w - 1).

Lemma wrap_u_small w x : 0 <= x < 2 ^ w -> wrap_u w x = x.
Proof. intros; unfold wrap_u; apply Z.mod_small; lia. Qed.

Lemma wrap_s_small w x :
  0 < w -> - 2 ^ (w - 1) <= x < 2 ^ (w - 1) -> wrap_s w x = x.
Proof.
  intros Hw Hx; unfold wrap_s.
  assert (2 ^ w = 2 * 2 ^ (w - 1)) as E.
  { rewrite <- Z.pow_succ_r by lia. f_equal; lia. }
  rewrite Z.mod_small by lia. lia.
Qed.

(** ** What the kernel headers provide

    Constants and tables that [fops.c] uses and other files define. *)

Class KernelHeaders := {
  BIO_MAX_VECS : Z;
  IOCB_HIPRI : Z;
  IOCB_DSYNC : Z;
  IOCB_NOWAIT : Z;
  REQ_OP_READ : Z;
  REQ_OP_WRITE : Z;
  REQ_SYNC : Z;
  REQ_IDLE : Z;
  REQ_FUA : Z;
  REQ_NOWAIT : Z;
  REQ_HIPRI : Z;
  BLK_STS_IOERR : Z;
  BLK_QC_T_NONE : Z;
  EINVAL : Z;
  EAGAIN : Z;
  ENOMEM : Z;
  EIOCBQUEUED : Z;
  blk_status_to_errno : Z -> Z;
}.

(** [BLK_STS_OK] is 0 and maps to errno 0; every other status is a failure
    and maps to a negative errno; errno constants are positive. *)
Class KernelHeadersLaws `{KernelHeaders} : Prop := {
  BLK_STS_IOERR_nonzero : BLK_STS_IOERR <> 0;
  blk_status_to_errno_ok : blk_status_to_errno 0 = 0;
  blk_status_to_errno_neg : forall s, s <> 0 -> blk_status_to_errno s < 0;
  EAGAIN_pos : 0 < EAGAIN;
  EIOCBQUEUED_pos : 0 < EIOCBQUEUED;
}.

(** [rw_verify_area] never lets a request longer than this reach the
    file's methods: [INT_MAX & PAGE_MASK]. *)
Definition MAX_RW_COUNT : Z := 2 ^ 31 - 4096.

Inductive rw_dir := READ | WRITE.

(** ** The iov_iter capability

    The cursor over the caller's memory (lib/iov_iter.c, block/bio.c):
    [iter_get_pages max_vecs i] is what [bio_iov_iter_get_pages] does on an
    empty bio of capacity [max_vecs]: it gives the return code, the bytes
    added to the bio ([bi_iter.bi_size]) and the advanced iterator. *)

Class IovIter := {
  iov_iter : Type;
  iov_iter_count : iov_iter -> Z;
  iov_iter_alignment : iov_iter -> Z;
  iov_iter_rw : iov_iter -> rw_dir;
  iter_is_iovec : iov_iter -> bool;
  bio_iov_vecs_to_alloc : iov_iter -> Z -> Z;
  iter_get_pages : Z -> iov_iter -> Z * Z * iov_iter;
}.

(** The contract of the capability that the engine relies on: the remaining
    count is never negative, a failure is a negative errno, and a success
    adds at least one byte to the bio and advances the iterator by what it
    added. *)
Class IovIterLaws `{IovIter} : Prop := {
  iov_iter_count_nonneg : forall i, 0 <= iov_iter_count i;
  get_pages_ret : forall m i, (iter_get_pages m i).1.1 <= 0;
  get_pages_advance : forall m i,
    (iter_get_pages m i).1.1 = 0 ->
    0 < (iter_get_pages m i).1.2 /\
    iov_iter_count (iter_get_pages m i).2 =
      iov_iter_count i - (iter_get_pages m i).1.2;
}.

(** ** Data model *)

Record block_device := { bd_logical_block_size : Z }.
Record inode := { i_bdev : block_device }.
Record file := { f_mapping_host : inode }.

Definition I_BDEV (i : inode) : block_device := i_bdev i.
Definition bdev_logical_block_size (bdev : block_device) : Z :=
  bd_logical_block_size bdev.

(** [ki_complete] is [true] when the callback pointer is not NULL. *)
Record kiocb := {
  ki_filp : file;
  ki_pos : Z;
  ki_flags : Z;
  ki_hint : Z;
  ki_ioprio : Z;
  ki_cookie : Z;
  ki_complete : bool;
}.

Definition is_sync_kiocb (iocb : kiocb) : bool := negb (ki_complete iocb).

(** Which function [bi_end_io] points to, and what [bi_private] points to. *)
Inductive end_io_fn := end_io_unset | end_io_simple | end_io_dio.
Inductive private_ptr := private_null | private_task | private_dio.
Inductive vec_storage := inline_vecs | heap_vecs | pool_vecs.

Record bio := {
  bi_sector : Z;
  bi_size : Z;
  bi_opf : Z;
  bi_status : Z;
  bi_write_hint : Z;
  bi_ioprio : Z;
  bi_private : private_ptr;
  bi_end_io : end_io_fn;
  bi_max_vecs : Z;
  bi_io_vec : vec_storage;
  bi_reffed : bool;
  bi_cnt : Z;
  bi_freed : bool;
}.

Definition bio_zero (vecs : vec_storage) (max_vecs : Z) : bio :=
  {| bi_sector := 0; bi_size := 0; bi_opf := 0; bi_status := 0;
     bi_write_hint := 0; bi_ioprio := 0; bi_private := private_null;
     bi_end_io := end_io_unset; bi_max_vecs := max_vecs; bi_io_vec := vecs;
     bi_reffed := false; bi_cnt := 1; bi_freed := false |}.

Definition set_bi_sector (v : Z) (b : bio) : bio :=
  {| bi_sector := v; bi_size := bi_size b; bi_opf := bi_opf b;
     bi_status := bi_status b; bi_write_hint := bi_write_hint b;
     bi_ioprio := bi_ioprio b; bi_private := bi_private b;
     bi_end_io := bi_end_io b; bi_max_vecs := bi_max_vecs b;
     bi_io_vec := bi_io_vec b; bi_reffed := bi_reffed b;
     bi_cnt := bi_cnt b; bi_freed := bi_freed b |}.
Definition set_bi_size (v : Z) (b : bio) : bio :=
  {| bi_sector := bi_sector b; bi_size := v; bi_opf := bi_opf b;
     bi_status := bi_status b; bi_write_hint := bi_write_hint b;
     bi_ioprio := bi_ioprio b; bi_private := bi_private b;
     bi_end_io := bi_end_io b; bi_max_vecs := bi_max_vecs b;
     bi_io_vec := bi_io_vec b; bi_reffed := bi_reffed b;
     bi_cnt := bi_cnt b; bi_freed := bi_freed b |}.
Definition set_bi_opf (v : Z) (b : bio) : bio :=
  {| bi_sector := bi_sector b; bi_size := bi_size b; bi_opf := v;
     bi_status := bi_status b; bi_write_hint := bi_write_hint b;
     bi_ioprio := bi_ioprio b; bi_private := bi_private b;
     bi_end_io := bi_end_io b; bi_max_vecs := bi_max_vecs b;
     bi_io_vec := bi_io_vec b; bi_reffed := bi_reffed b;
     bi_cnt := bi_cnt b; bi_freed := bi_freed b |}.
Definition set_bi_status (v : Z) (b : bio) : bio :=
  {| bi_sector := bi_sector b; bi_size := bi_size b; bi_opf := bi_opf b;
     bi_status := v; bi_write_hint := bi_write_hint b;
     bi_ioprio := bi_ioprio b; bi_private := bi_private b;
     bi_end_io := bi_end_io b; bi_max_vecs := bi_max_vecs b;
     bi_io_vec := bi_io_vec b; bi_reffed := bi_reffed b;
     bi_cnt := bi_cnt b; bi_freed := bi_freed b |}.
Definition set_bi_private (v : private_ptr) (b : bio) : bio :=
  {| bi_sector := bi_sector b; bi_size := bi_size b; bi_opf := bi_opf b;
     bi_status := bi_status b; bi_write_hint := bi_write_hint b;
     bi_ioprio := bi_ioprio b; bi_private := v;
     bi_end_io := bi_end_io b; bi_max_vecs := bi_max_vecs b;
     bi_io_vec := bi_io_vec b; bi_reffed := bi_reffed b;
     bi_cnt := bi_cnt b; bi_freed := bi_freed b |}.
Definition set_bi_reffed (v : bool) (b : bio) : bio :=
  {| bi_sector := bi_sector b; bi_size := bi_size b; bi_opf := bi_opf b;
     bi_status := bi_status b; bi_write_hint := bi_write_hint b;
     bi_ioprio := bi_ioprio b; bi_private := bi_private b;
     bi_end_io := bi_end_io b; bi_max_vecs := bi_max_vecs b;
     bi_io_vec := bi_io_vec b; bi_reffed := v;
     bi_cnt := bi_cnt b; bi_freed := bi_freed b |}.
Definition set_bi_cnt (v : Z) (b : bio) : bio :=
  {| bi_sector := bi_sector b; bi_size := bi_size b; bi_opf := bi_opf b;
     bi_status := bi_status b; bi_write_hint := bi_write_hint b;
     bi_ioprio := bi_ioprio b; bi_private := bi_private b;
     bi_end_io := bi_end_io b; bi_max_vecs := bi_max_vecs b;
     bi_io_vec := bi_io_vec b; bi_reffed := bi_reffed b;
     bi_cnt := v; bi_freed := bi_freed b |}.
Definition set_bi_freed (v : bool) (b : bio) : bio :=
  {| bi_sector := bi_sector b; bi_size := bi_size b; bi_opf := bi_opf b;
     bi_status := bi_status b; bi_write_hint := bi_write_hint b;
     bi_ioprio := bi_ioprio b; bi_private := bi_private b;
     bi_end_io := bi_end_io b; bi_max_vecs := bi_max_vecs b;
     bi_io_vec := bi_io_vec b; bi_reffed := bi_reffed b;
     bi_cnt := bi_cnt b; bi_freed := v |}.

(** The fields every bio of a request gets before its pages:
    [bi_sector], [bi_write_hint], [bi_private], [bi_end_io], [bi_ioprio]. *)
Definition bio_setup (sector hint ioprio : Z) (priv : private_ptr)
    (hook : end_io_fn) (b : bio) : bio :=
  {| bi_sector := sector; bi_size := bi_size b; bi_opf := bi_opf b;
     bi_status := bi_status b; bi_write_hint := hint;
     bi_ioprio := ioprio; bi_private := priv;
     bi_end_io := hook; bi_max_vecs := bi_max_vecs b;
     bi_io_vec := bi_io_vec b; bi_reffed := bi_reffed b;
     bi_cnt := bi_cnt b; bi_freed := bi_freed b |}.

(** The union of [struct blkdev_dio]: the kiocb in asynchronous mode, the
    waiting task (or NULL once woken) in synchronous mode. *)
Inductive dio_union := union_iocb | union_waiter | union_null.

(** [dio_bio] is the store index of the bio the dio is embedded in. *)
Record blkdev_dio := {
  dio_u : dio_union;
  dio_size : Z;
  dio_ref : Z;
  multi_bio : bool;
  should_dirty : bool;
  is_sync : bool;
  dio_bio : nat;
}.

Inductive event :=
| EvGetPages (b : nat) (ret : Z)
| EvSubmit (b : nat) (size : Z)
| EvKiComplete (ret : Z)
| EvWake
| EvSetPagesDirty (b : nat)
| EvCheckPagesDirty (b : nat)
| EvReleasePages (b : nat) (mark_dirty : bool)
| EvFree (b : nat)
| EvStartPlug
| EvFinishPlug
| EvAccountWrite (n : Z)
| EvKmalloc (n : Z)
| EvKfree.

Definition set_ki_pos (v : Z) (k : kiocb) : kiocb :=
  {| ki_filp := ki_filp k; ki_pos := v; ki_flags := ki_flags k;
     ki_hint := ki_hint k; ki_ioprio := ki_ioprio k;
     ki_cookie := ki_cookie k; ki_complete := ki_complete k |}.
Definition set_ki_cookie (v : Z) (k : kiocb) : kiocb :=
  {| ki_filp := ki_filp k; ki_pos := ki_pos k; ki_flags := ki_flags k;
     ki_hint := ki_hint k; ki_ioprio := ki_ioprio k;
     ki_cookie := v; ki_complete := ki_complete k |}.

Definition set_dio_u (v : dio_union) (d : blkdev_dio) : blkdev_dio :=
  {| dio_u := v; dio_size := dio_size d; dio_ref := dio_ref d;
     multi_bio := multi_bio d; should_dirty := should_dirty d;
     is_sync := is_sync d; dio_bio := dio_bio d |}.
Definition set_dio_size (v : Z) (d : blkdev_dio) : blkdev_dio :=
  {| dio_u := dio_u d; dio_size := v; dio_ref := dio_ref d;
     multi_bio := multi_bio d; should_dirty := should_dirty d;
     is_sync := is_sync d; dio_bio := dio_bio d |}.
Definition set_dio_ref (v : Z) (d : blkdev_dio) : blkdev_dio :=
  {| dio_u := dio_u d; dio_size := dio_size d; dio_ref := v;
     multi_bio := multi_bio d; should_dirty := should_dirty d;
     is_sync := is_sync d; dio_bio := dio_bio d |}.
Definition set_multi_bio (v : bool) (d : blkdev_dio) : blkdev_dio :=
  {| dio_u := dio_u d; dio_size := dio_size d; dio_ref := dio_ref d;
     multi_bio := v; should_dirty := should_dirty d;
     is_sync := is_sync d; dio_bio := dio_bio d |}.

Definition DIO_INLINE_BIO_VECS : Z := 4.

Definition bdev_file_inode (f : file) : inode := f_mapping_host f.

Section fops.
Context `{KH : KernelHeaders} `{IT : IovIter}.

(** ** The state a request runs in

    [st_queue] holds the bios the device has accepted and not yet completed;
    [st_sched] is what the device will do: each batch lists, in order, the
    bios it completes and the status it gives each one, at the next point
    where the code can be overtaken.  [st_kmalloc_ok] tells whether
    [kmalloc_array] finds memory. *)

Record state := {
  st_bios : list bio;
  st_dio : blkdev_dio;
  st_iocb : kiocb;
  st_iter : iov_iter;
  st_queue : list nat;
  st_sched : list (list (nat * Z));
  st_kmalloc_ok : bool;
  st_trace : list event;
}.

Definition upd_bios (f : list bio -> list bio) (st : state) : state :=
  {| st_bios := f (st_bios st); st_dio := st_dio st; st_iocb := st_iocb st;
     st_iter := st_iter st; st_queue := st_queue st; st_sched := st_sched st;
     st_kmalloc_ok := st_kmalloc_ok st; st_trace := st_trace st |}.
Definition upd_dio (f : blkdev_dio -> blkdev_dio) (st : state) : state :=
  {| st_bios := st_bios st; st_dio := f (st_dio st); st_iocb := st_iocb st;
     st_iter := st_iter st; st_queue := st_queue st; st_sched := st_sched st;
     st_kmalloc_ok := st_kmalloc_ok st; st_trace := st_trace st |}.
Definition upd_iocb (f : kiocb -> kiocb) (st : state) : state :=
  {| st_bios := st_bios st; st_dio := st_dio st; st_iocb := f (st_iocb st);
     st_iter := st_iter st; st_queue := st_queue st; st_sched := st_sched st;
     st_kmalloc_ok := st_kmalloc_ok st; st_trace := st_trace st |}.
Definition set_iter (i : iov_iter) (st : state) : state :=
  {| st_bios := st_bios st; st_dio := st_dio st; st_iocb := st_iocb st;
     st_iter := i; st_queue := st_queue st; st_sched := st_sched st;
     st_kmalloc_ok := st_kmalloc_ok st; st_trace := st_trace st |}.
Definition set_queue (q : list nat) (st : state) : state :=
  {| st_bios := st_bios st; st_dio := st_dio st; st_iocb := st_iocb st;
     st_iter := st_iter st; st_queue := q; st_sched := st_sched st;
     st_kmalloc_ok := st_kmalloc_ok st; st_trace := st_trace st |}.
Definition set_sched (s : list (list (nat * Z))) (st : state) : state :=
  {| st_bios := st_bios st; st_dio := st_dio st; st_iocb := st_iocb st;
     st_iter := st_iter st; st_queue := st_queue st; st_sched := s;
     st_kmalloc_ok := st_kmalloc_ok st; st_trace := st_trace st |}.
Definition log (e : event) (st : state) : state :=
  {| st_bios := st_bios st; st_dio := st_dio st; st_iocb := st_iocb st;
     st_iter := st_iter st; st_queue := st_queue st; st_sched := st_sched st;
     st_kmalloc_ok := st_kmalloc_ok st; st_trace := e :: st_trace st |}.

(** [bio_at b st] reads the bio behind pointer [b]; [upd_bio b f st] writes
    through it. *)
Definition bio_at (b : nat) (st : state) : bio :=
  default (bio_zero pool_vecs 0) (st_bios st !! b).
Definition upd_bio (b : nat) (f : bio -> bio) (st : state) : state :=
  upd_bios (alter f b) st.

Definition iocb_flag (flag : Z) (st : state) : bool :=
  negb (Z.land (ki_flags (st_iocb st)) flag =? 0).

(** ** Block-layer helpers called by fops.c

    These live in block/bio.c, include/linux/bio.h and block/blk-core.c;
    each is given the behaviour the callers in fops.c depend on. *)

(** Modelled from the spec: [bio_alloc_kiocb], [bio_alloc] and [bio_init]
    (block/bio.c) produce a fresh Segment with room for [nr_vecs] pages, one
    ownership reference and an ok status; the pointer is its store index. *)
Definition bio_new (vecs : vec_storage) (nr_vecs : Z) (st : state)
    : nat * state :=
  (length (st_bios st), upd_bios (fun l => l ++ [bio_zero vecs nr_vecs]) st).
Definition bio_alloc_kiocb (nr_vecs : Z) (st : state) : nat * state :=
  bio_new pool_vecs nr_vecs st.
Definition bio_alloc (nr_vecs : Z) (st : state) : nat * state :=
  bio_new pool_vecs nr_vecs st.
Definition bio_init (vecs : vec_storage) (nr_vecs : Z) (st : state)
    : nat * state :=
  bio_new vecs nr_vecs st.
Definition bio_uninit (b : nat) (st : state) : state := st.

(** Modelled from the spec: ownership references on a Segment,
    [bio_get], [bio_put], [bio_clear_flag (BIO_REFFED)] (include/linux/bio.h,
    block/bio.c).  [bio_get] marks the bio as reference-counted and adds a
    reference; [bio_put] frees at once a bio that is not marked, and
    otherwise drops one reference and frees the bio when none is left. *)
Definition bio_get (b : nat) (st : state) : state :=
  upd_bio b (fun x => set_bi_cnt (wrap_s 32 (bi_cnt x + 1))
                        (set_bi_reffed true x)) st.
Definition bio_free (b : nat) (st : state) : state :=
  log (EvFree b) (upd_bio b (set_bi_freed true) st).
Definition bio_put (b : nat) (st : state) : state :=
  if negb (bi_reffed (bio_at b st)) then bio_free b st
  else
    let c := wrap_s 32 (bi_cnt (bio_at b st) - 1) in
    let st := upd_bio b (set_bi_cnt c) st in
    if c =? 0 then bio_free b st else st.
Definition bio_clear_flag_REFFED (b : nat) (st : state) : state :=
  upd_bio b (set_bi_reffed false) st.

(** Modelled from the spec: page bookkeeping of a Segment,
    [bio_release_pages], [bio_set_pages_dirty], [bio_check_pages_dirty]
    (block/bio.c).  The last one releases the pages with dirty accounting
    and drops the completion's reference on the bio. *)
Definition bio_release_pages (b : nat) (mark_dirty : bool) (st : state)
    : state :=
  log (EvReleasePages b mark_dirty) st.
Definition bio_set_pages_dirty (b : nat) (st : state) : state :=
  log (EvSetPagesDirty b) st.
Definition bio_check_pages_dirty (b : nat) (st : state) : state :=
  bio_put b (log (EvCheckPagesDirty b) st).

(** [bio_iov_iter_get_pages(bio, iter)]: the iterator fills the bio. *)
Definition bio_iov_iter_get_pages (b : nat) (st : state) : Z * state :=
  let r := iter_get_pages (bi_max_vecs (bio_at b st)) (st_iter st) in
  let st := set_iter r.2 st in
  let st := if r.1.1 =? 0 then upd_bio b (set_bi_size r.1.2) st else st in
  (r.1.1, log (EvGetPages b r.1.1) st).

(** Modelled from the spec: [bio_set_polled] (include/linux/bio.h) marks the
    Segment pollable, and non-blocking when the kiocb is asynchronous. *)
Definition bio_set_polled (b : nat) (st : state) : state :=
  let st := upd_bio b (fun x => set_bi_opf (Z.lor (bi_opf x) REQ_HIPRI) x) st in
  if negb (is_sync_kiocb (st_iocb st))
  then upd_bio b (fun x => set_bi_opf (Z.lor (bi_opf x) REQ_NOWAIT) x) st
  else st.

Definition blk_start_plug (st : state) : state := log EvStartPlug st.
Definition blk_finish_plug (st : state) : state := log EvFinishPlug st.
Definition task_io_account_write (n : Z) (st : state) : state :=
  log (EvAccountWrite n) st.
Definition blk_wake_io_task (st : state) : state := log EvWake st.
Definition kfree (st : state) : state := log EvKfree st.
Definition kmalloc_array (n : Z) (st : state) : option vec_storage * state :=
  if st_kmalloc_ok st then (Some heap_vecs, log (EvKmalloc n) st)
  else (None, st).

(** ** fops.c *)

Definition dio_bio_write_op (iocb : kiocb) : Z :=
  let op := Z.lor (Z.lor REQ_OP_WRITE REQ_SYNC) REQ_IDLE in
  if negb (Z.land (ki_flags iocb) IOCB_DSYNC =? 0)
  then Z.lor op REQ_FUA
  else op.

Definition blkdev_bio_end_io_simple (bio : nat) (st : state) : state :=
  let st := upd_bio bio (set_bi_private private_null) st in
  blk_wake_io_task st.

(** [atomic_dec_and_test(&dio->ref)] *)
Definition atomic_dec_and_test_ref (st : state) : bool * state :=
  let v := wrap_s 32 (dio_ref (st_dio st) - 1) in
  (v =? 0, upd_dio (set_dio_ref v) st).

(** Lines 157-158 of [blkdev_bio_end_io]: the status of the completed bio
    is recorded in [dio->bio.bi_status] unless one is recorded already. *)
Definition dio_record_status (bio : nat) (st : state) : state :=
  if negb (bi_status (bio_at bio st) =? 0)
     && (bi_status (bio_at (dio_bio (st_dio st)) st) =? 0)
  then upd_bio (dio_bio (st_dio st))
         (set_bi_status (bi_status (bio_at bio st))) st
  else st.

(** Lines 161-180 of [blkdev_bio_end_io]: the last completion reports to
    the kiocb, or clears the waiter and wakes it. *)
Definition dio_finalize (st : state) : state :=
  if negb (is_sync (st_dio st)) then
    let status := bi_status (bio_at (dio_bio (st_dio st)) st) in
    let '(ret, st) :=
      if status =? 0 then
        let ret := dio_size (st_dio st) in
        (ret, upd_iocb (fun k => set_ki_pos (wrap_s 64 (ki_pos k + ret)) k) st)
      else (blk_status_to_errno status, st) in
    let st := log (EvKiComplete ret) st in
    if multi_bio (st_dio st) then bio_put (dio_bio (st_dio st)) st
    else st
  else
    let st := upd_dio (set_dio_u union_null) st in
    blk_wake_io_task st.

Definition blkdev_bio_end_io (bio : nat) (st : state) : state :=
  let should_dirty := should_dirty (st_dio st) in
  let st := dio_record_status bio st in
  let '(last, st) :=
    if negb (multi_bio (st_dio st)) then (true, st)
    else atomic_dec_and_test_ref st in
  let st := if last then dio_finalize st else st in
  if should_dirty then bio_check_pages_dirty bio st
  else
    let st := bio_release_pages bio false st in
    bio_put bio st.

(** ** The device queue

    Modelled from the spec: the device queue (block/blk-core.c, the
    drivers) completes a Segment by storing a failure status in its
    [bi_status], an ok completion leaving the field alone, and calling
    [bio_endio], which runs the bio's [bi_end_io]; lines 242-243 of fops.c
    do the same by hand.  A completion is delivered only for a bio that is
    in flight.  When its schedule is used up the device completes the bio
    at the head of its queue with an ok status, so every accepted bio is
    completed in the end. *)

Definition bio_endio (b : nat) (st : state) : state :=
  match bi_end_io (bio_at b st) with
  | end_io_dio => blkdev_bio_end_io b st
  | end_io_simple => blkdev_bio_end_io_simple b st
  | end_io_unset => st
  end.

Fixpoint dequeue (b : nat) (q : list nat) : list nat :=
  match q with
  | [] => []
  | x :: q' => if decide (x = b) then q' else x :: dequeue b q'
  end.

Definition device_complete (st : state) (c : nat * Z) : state :=
  if decide (c.1 ∈ st_queue st) then
    let st := set_queue (dequeue c.1 (st_queue st)) st in
    let st := if c.2 =? 0 then st else upd_bio c.1 (set_bi_status c.2) st in
    bio_endio c.1 st
  else st.

Definition device_run (batch : list (nat * Z)) (st : state) : state :=
  fold_left device_complete batch st.

Definition device_yield (st : state) : state :=
  match st_sched st with
  | batch :: rest => device_run batch (set_sched rest st)
  | [] =>
    match st_queue st with
    | b :: _ => device_complete st (b, 0)
    | [] => st
    end
  end.

(** [submit_bio] queues the bio; the token it returns is the bio's index. *)
Definition submit_bio (b : nat) (st : state) : Z * state :=
  let st := log (EvSubmit b (bi_size (bio_at b st))) st in
  let st := set_queue (st_queue st ++ [b]) st in
  (Z.of_nat b, device_yield st).

(** [blk_poll] reports how many completions it found. *)
Definition blk_poll (qc : Z) (st : state) : Z * state :=
  let st' := device_yield st in
  (Z.of_nat (length (st_queue st) - length (st_queue st')), st').

Definition blk_io_schedule (st : state) : state := device_yield st.

(** The alignment test of both paths:
    [(pos | iov_iter_alignment(iter)) & (bdev_logical_block_size(bdev) - 1)],
    the left operand an unsigned long, the right one an unsigned int. *)
Definition dio_misaligned (pos : Z) (iter : iov_iter) (bdev : block_device)
    : bool :=
  negb (Z.land (wrap_u 64 (Z.lor pos (iov_iter_alignment iter)))
               (wrap_u 32 (bdev_logical_block_size bdev - 1)) =? 0).

(** The body of both waiting loops after the test of the wake-up flag:
    [if (!(iocb->ki_flags & IOCB_HIPRI) || !blk_poll(q, qc, true))
       blk_io_schedule();] *)
Definition poll_or_sleep (qc : Z) (st : state) : state :=
  let '(sleep, st) :=
    if negb (iocb_flag IOCB_HIPRI st) then (true, st)
    else let '(n, st') := blk_poll qc st in (n =? 0, st') in
  if sleep then blk_io_schedule st else st.

Fixpoint simple_wait (fuel : nat) (bio : nat) (qc : Z) (st : state)
    : option state :=
  match fuel with
  | O => None
  | S fuel =>
    match bi_private (bio_at bio st) with
    | private_null => Some st
    | _ => simple_wait fuel bio qc (poll_or_sleep qc st)
    end
  end.

Definition wait_fuel (st : state) : nat :=
  S (length (st_sched st) + length (st_queue st))%nat.

(** Lines 70-77 of [__blkdev_direct_IO_simple]: the page array is the
    inline one, or comes from the heap. *)
Definition simple_vecs (nr_pages : Z) (st : state)
    : option vec_storage * state :=
  if nr_pages <=? DIO_INLINE_BIO_VECS then (Some inline_vecs, st)
  else kmalloc_array nr_pages st.

(** Lines 79-87: the bio on the stack is set up and filled. *)
Definition simple_fill (vecs : vec_storage) (nr_pages pos : Z) (st : state)
    : nat * Z * state :=
  let iocb := st_iocb st in
  let '(bio, st) := bio_init vecs nr_pages st in
  let st := upd_bio bio
    (bio_setup (wrap_u 64 (Z.shiftr pos 9)) (ki_hint iocb)
       (ki_ioprio iocb) private_task end_io_simple) st in
  let '(ret, st) := bio_iov_iter_get_pages bio st in
  (bio, ret, st).

(** Lines 92-103: direction and flags; gives [should_dirty]. *)
Definition simple_prepare (bio : nat) (ret : Z) (st : state)
    : bool * state :=
  let iocb := st_iocb st in
  let '(should_dirty, st) :=
    match iov_iter_rw (st_iter st) with
    | READ =>
      (iter_is_iovec (st_iter st), upd_bio bio (set_bi_opf REQ_OP_READ) st)
    | WRITE =>
      (false,
       task_io_account_write ret
         (upd_bio bio (set_bi_opf (dio_bio_write_op iocb)) st))
    end in
  let st :=
    if iocb_flag IOCB_NOWAIT st
    then upd_bio bio (fun x => set_bi_opf (Z.lor (bi_opf x) REQ_NOWAIT) x) st
    else st in
  let st := if iocb_flag IOCB_HIPRI st then bio_set_polled bio st else st in
  (should_dirty, st).

(** Lines 120-126, the label [out]. *)
Definition simple_out (vecs : vec_storage) (bio : nat) (ret : Z) (st : state)
    : Z * state :=
  let st := match vecs with inline_vecs => st | _ => kfree st end in
  (ret, bio_uninit bio st).

Definition __blkdev_direct_IO_simple (nr_pages : Z) (st : state)
    : option (Z * state) :=
  let iocb := st_iocb st in
  let file := ki_filp iocb in
  let bdev := I_BDEV (bdev_file_inode file) in
  let pos := ki_pos iocb in
  if dio_misaligned pos (st_iter st) bdev then Some (- EINVAL, st)
  else
    let '(vecs, st) := simple_vecs nr_pages st in
    match vecs with
    | None => Some (- ENOMEM, st)
    | Some vecs =>
      let '(bio, ret, st) := simple_fill vecs nr_pages pos st in
      if negb (ret =? 0) then Some (simple_out vecs bio ret st)
      else
        let ret := bi_size (bio_at bio st) in
        let '(should_dirty, st) := simple_prepare bio ret st in
        let '(qc, st) := submit_bio bio st in
        match simple_wait (wait_fuel st) bio qc st with
        | None => None
        | Some st =>
          let st := bio_release_pages bio should_dirty st in
          let ret :=
            if negb (bi_status (bio_at bio st) =? 0)
            then blk_status_to_errno (bi_status (bio_at bio st))
            else ret in
          Some (simple_out vecs bio ret st)
        end
    end.

(** How the submission loop of [__blkdev_direct_IO] is left: by [break],
    with the values of [ret] and [qc], or by [return]. *)
Inductive loop_exit :=
| loop_break (ret qc : Z)
| loop_return (v : Z).

(** Lines 233-240: the bio is set up and filled from the iterator. *)
Definition dio_fill (bio : nat) (pos : Z) (st : state) : Z * state :=
  let iocb := st_iocb st in
  let st := upd_bio bio
    (bio_setup (wrap_u 64 (Z.shiftr pos 9)) (ki_hint iocb) (ki_ioprio iocb)
       private_dio end_io_dio) st in
  bio_iov_iter_get_pages bio st.

(** Lines 242-243: the bio that got no pages is failed in place. *)
Definition dio_fail (bio : nat) (st : state) : state :=
  let st := upd_bio bio (set_bi_status BLK_STS_IOERR) st in
  bio_endio bio st.

(** Lines 256-259: the non-blocking request that needs another bio is
    unwound. *)
Definition dio_nowait_abort (bio : nat) (st : state) : state :=
  let st := bio_release_pages bio false st in
  let st := bio_clear_flag_REFFED bio st in
  let st := bio_put bio st in
  blk_finish_plug st.

(** Lines 246-273 on the path that goes on: [REQ_NOWAIT], the direction,
    dirty marking or write accounting, and the byte total. *)
Definition dio_account (is_read : bool) (bio : nat) (st : state) : state :=
  let iocb := st_iocb st in
  let st :=
    if iocb_flag IOCB_NOWAIT st
    then upd_bio bio (fun x => set_bi_opf (Z.lor (bi_opf x) REQ_NOWAIT) x) st
    else st in
  let st :=
    if is_read then
      let st := upd_bio bio (set_bi_opf REQ_OP_READ) st in
      if should_dirty (st_dio st) then bio_set_pages_dirty bio st else st
    else
      let st := upd_bio bio (set_bi_opf (dio_bio_write_op iocb)) st in
      task_io_account_write (bi_size (bio_at bio st)) st in
  upd_dio (fun d =>
    set_dio_size (wrap_u 64 (dio_size d + bi_size (bio_at bio st))) d) st.

(** Lines 278-289: the last bio is submitted. *)
Definition dio_submit_last (bio : nat) (st : state) : Z * state :=
  let polled := iocb_flag IOCB_HIPRI st in
  let st := if polled then bio_set_polled bio st else st in
  let '(qc, st) := submit_bio bio st in
  let st := if polled then upd_iocb (set_ki_cookie qc) st else st in
  (qc, st).

(** Lines 292-304: another bio will follow this one. *)
Definition dio_ref_up (is_sync : bool) (bio : nat) (st : state) : state :=
  if negb (multi_bio (st_dio st)) then
    let st := if negb is_sync then bio_get bio st else st in
    let st := upd_dio (set_multi_bio true) st in
    upd_dio (set_dio_ref 2) st
  else upd_dio (fun d => set_dio_ref (wrap_s 32 (dio_ref d + 1)) d) st.

(** One turn of the [for (;;)] loop of [__blkdev_direct_IO], lines 233-307:
    [inl] carries the next bio and offset into the following turn. *)
Definition dio_iterate (is_read is_sync : bool) (bio : nat) (pos : Z)
    (st : state) : (nat * Z * state) + (loop_exit * state) :=
  let '(ret, st) := dio_fill bio pos st in
  if negb (ret =? 0) then
    inr (loop_break ret BLK_QC_T_NONE, dio_fail bio st)
  else if iocb_flag IOCB_NOWAIT st
          && negb (iov_iter_count (st_iter st) =? 0) then
    inr (loop_return (- EAGAIN), dio_nowait_abort bio st)
  else
    let st := dio_account is_read bio st in
    let pos := wrap_s 64 (pos + bi_size (bio_at bio st)) in
    let nr_pages := bio_iov_vecs_to_alloc (st_iter st) BIO_MAX_VECS in
    if nr_pages =? 0 then
      let '(qc, st) := dio_submit_last bio st in
      inr (loop_break ret qc, st)
    else
      let st := dio_ref_up is_sync bio st in
      let '(_, st) := submit_bio bio st in
      let '(bio, st) := bio_alloc nr_pages st in
      inl (bio, pos, st).

Fixpoint dio_submit_loop (fuel : nat) (is_read is_sync : bool) (bio : nat)
    (pos : Z) (st : state) : option (loop_exit * state) :=
  match fuel with
  | O => None
  | S fuel =>
    match dio_iterate is_read is_sync bio pos st with
    | inl (bio, pos, st) => dio_submit_loop fuel is_read is_sync bio pos st
    | inr r => Some r
    end
  end.

(** The state in which the loop starts its turn number [n], counted from
    zero, if it gets that far. *)
Fixpoint dio_turn (n : nat) (is_read is_sync : bool) (bio : nat) (pos : Z)
    (st : state) : option (nat * Z * state) :=
  match n with
  | O => Some (bio, pos, st)
  | S n =>
    match dio_iterate is_read is_sync bio pos st with
    | inl (bio, pos, st) => dio_turn n is_read is_sync bio pos st
    | inr _ => None
    end
  end.

(** The waiting loop of [__blkdev_direct_IO], lines 316-324. *)
Fixpoint dio_wait (fuel : nat) (qc : Z) (st : state) : option state :=
  match fuel with
  | O => None
  | S fuel =>
    match dio_u (st_dio st) with
    | union_null => Some st
    | _ => dio_wait fuel qc (poll_or_sleep qc st)
    end
  end.

(** The submission loop runs at most once per byte of the iterator and
    once more. *)
Definition submit_fuel (st : state) : nat :=
  S (S (Z.to_nat (iov_iter_count (st_iter st)))).

(** Lines 210-230 of [__blkdev_direct_IO]: the first bio and the dio
    embedded in it are set up, and the plug is started. *)
Definition dio_begin (nr_pages : Z) (st : state) : nat * state :=
  let iocb := st_iocb st in
  let is_poll := iocb_flag IOCB_HIPRI st in
  let is_read :=
    match iov_iter_rw (st_iter st) with READ => true | WRITE => false end in
  let '(bio, st) := bio_alloc_kiocb nr_pages st in
  let is_sync := is_sync_kiocb iocb in
  let st := upd_dio (fun d =>
    {| dio_u := if is_sync then union_waiter else union_iocb;
       dio_size := 0; dio_ref := dio_ref d; multi_bio := false;
       should_dirty := is_read && iter_is_iovec (st_iter st);
       is_sync := is_sync; dio_bio := bio |}) st in
  let st := if is_sync then bio_get bio st else st in
  let st := if negb is_poll then blk_start_plug st else st in
  (bio, st).

(** Lines 310-333 of [__blkdev_direct_IO]: after the loop. *)
Definition dio_end (is_sync is_poll : bool) (ret qc : Z) (st : state)
    : option (Z * state) :=
  let st := if negb is_poll then blk_finish_plug st else st in
  if negb is_sync then Some (- EIOCBQUEUED, st)
  else
    match dio_wait (wait_fuel st) qc st with
    | None => None
    | Some st =>
      let ret :=
        if ret =? 0
        then blk_status_to_errno (bi_status (bio_at (dio_bio (st_dio st)) st))
        else ret in
      let ret :=
        if ret =? 0 then wrap_s 32 (dio_size (st_dio st)) else ret in
      let st := bio_put (dio_bio (st_dio st)) st in
      Some (ret, st)
    end.

Definition __blkdev_direct_IO (nr_pages : Z) (st : state)
    : option (Z * state) :=
  let iocb := st_iocb st in
  let file := ki_filp iocb in
  let inode := bdev_file_inode file in
  let bdev := I_BDEV inode in
  let is_poll := iocb_flag IOCB_HIPRI st in
  let is_read :=
    match iov_iter_rw (st_iter st) with READ => true | WRITE => false end in
  let is_sync := is_sync_kiocb iocb in
  let pos := ki_pos iocb in
  if dio_misaligned pos (st_iter st) bdev then Some (- EINVAL, st)
  else
    let '(bio, st) := dio_begin nr_pages st in
    match dio_submit_loop (submit_fuel st) is_read is_sync bio pos st with
    | None => None
    | Some (loop_return v, st) => Some (v, st)
    | Some (loop_break ret qc, st) => dio_end is_sync is_poll ret qc st
    end.

(** [bio_max_segs] (include/linux/bio.h). *)
Definition bio_max_segs (nr_segs : Z) : Z := Z.min nr_segs BIO_MAX_VECS.

Definition blkdev_direct_IO (st : state) : option (Z * state) :=
  if iov_iter_count (st_iter st) =? 0 then Some (0, st)
  else
    let nr_pages := bio_iov_vecs_to_alloc (st_iter st) (BIO_MAX_VECS + 1) in
    if is_sync_kiocb (st_iocb st) && (nr_pages <=? BIO_MAX_VECS)
    then __blkdev_direct_IO_simple nr_pages st
    else __blkdev_direct_IO (bio_max_segs nr_pages) st.

End fops.

(** ** A concrete configuration

    The constants of Linux 5.15 on x86-64, and an iterator over one
    page-aligned buffer: it holds [pi_count] bytes, fills a bio with whole
    pages of 4096 bytes up to the bio's capacity, and faults once no more
    than [pi_fault] bytes remain. *)

Definition linux_headers : KernelHeaders :=
  {| BIO_MAX_VECS := 256;
     IOCB_HIPRI := 1; IOCB_DSYNC := 2; IOCB_NOWAIT := 8;
     REQ_OP_READ := 0; REQ_OP_WRITE := 1;
     REQ_SYNC := 2 ^ 11; REQ_IDLE := 2 ^ 15; REQ_FUA := 2 ^ 17;
     REQ_NOWAIT := 2 ^ 21; REQ_HIPRI := 2 ^ 24;
     BLK_STS_IOERR := 10; BLK_QC_T_NONE := 2 ^ 32 - 1;
     EINVAL := 22; EAGAIN := 11; ENOMEM := 12; EIOCBQUEUED := 529;
     blk_status_to_errno := fun s =>
       if s =? 0 then 0
       else if s =? 3 then -28
       else if s =? 9 then -12
       else -5 |}.

Record page_iter := {
  pi_count : N;
  pi_align : Z;
  pi_rw : rw_dir;
  pi_iovec : bool;
  pi_fault : Z;
}.

Definition page_iter_get_pages (m : Z) (i : page_iter) : Z * Z * page_iter :=
  let c := Z.of_N (pi_count i) in
  if (c <=? 0) || (m <=? 0) || (c <=? pi_fault i) then (-14, 0, i)
  else
    let n := Z.min c (m * 4096) in
    (0, n, {| pi_count := Z.to_N (c - n); pi_align := pi_align i;
              pi_rw := pi_rw i; pi_iovec := pi_iovec i;
              pi_fault := pi_fault i |}).

Definition page_iov_iter : IovIter :=
  {| iov_iter := page_iter;
     iov_iter_count := fun i => Z.of_N (pi_count i);
     iov_iter_alignment := pi_align;
     iov_iter_rw := pi_rw;
     iter_is_iovec := pi_iovec;
     bio_iov_vecs_to_alloc := fun i max =>
       Z.min ((Z.of_N (pi_count i) + 4095) / 4096) max;
     iter_get_pages := page_iter_get_pages |}.

Definition sda : block_device := {| bd_logical_block_size := 512 |}.
Definition sda_file : file := {| f_mapping_host := {| i_bdev := sda |} |}.

(** A request on [sda]: [complete] tells whether the kiocb has a
    completion callback, that is, whether it is asynchronous. *)
Definition request (pos flags : Z) (complete : bool) (iter : page_iter)
    (sched : list (list (nat * Z))) : @state page_iov_iter :=
  @Build_state page_iov_iter []
    {| dio_u := union_null; dio_size := 77; dio_ref := 77;
       multi_bio := true; should_dirty := true; is_sync := false;
       dio_bio := 0 |}
    {| ki_filp := sda_file; ki_pos := pos; ki_flags := flags;
       ki_hint := 0; ki_ioprio := 0; ki_cookie := 0;
       ki_complete := complete |}
    iter [] sched true [].

Definition buffer (count : N) (rw : rw_dir) : page_iter :=
  {| pi_count := count; pi_align := 0; pi_rw := rw; pi_iovec := true;
     pi_fault := -1 |}.

(** A buffer whose pages cannot be pinned once [fault] bytes or fewer are
    left of it. *)
Definition faulty_buffer (count : N) (rw : rw_dir) (fault : Z) : page_iter :=
  {| pi_count := count; pi_align := 0; pi_rw := rw; pi_iovec := true;
     pi_fault := fault |}.

(** ** Observations on a state *)

Definition is_final (e : event) : bool :=
  match e with
  | EvKiComplete _ | EvWake => true
  | _ => false
  end.

(** The finalizations of a request: the calls of [ki_complete] and the
    wake-ups of the waiter, newest first. *)
Definition finals (tr : list event) : list event := List.filter is_final tr.

Definition is_submit (e : event) : bool :=
  match e with EvSubmit _ _ => true | _ => false end.

(** The bytes queued at the device: the sizes of the submitted bios. *)
Fixpoint submitted_bytes (tr : list event) : Z :=
  match tr with
  | [] => 0
  | EvSubmit _ n :: tr => n + submitted_bytes tr
  | _ :: tr => submitted_bytes tr
  end.

Fixpoint free_count (b : nat) (tr : list event) : nat :=
  match tr with
  | [] => 0
  | EvFree b' :: tr => (if decide (b' = b) then 1 else 0) + free_count b tr
  | _ :: tr => free_count b tr
  end.

Section observations.
Context `{KH : KernelHeaders} `{IT : IovIter}.

Definition hooks (st : state) : list end_io_fn := map bi_end_io (st_bios st).

(** A request that is about to be submitted: no bio exists yet, nothing
    is in flight, nothing has happened. *)
Definition fresh (st : state) : Prop :=
  st_bios st = [] /\ st_queue st = [] /\ st_trace st = [].

End observations.

Section invariants.
Context `{KH : KernelHeaders} `{IT : IovIter}.

(** ** The completion fan-in invariant

    [dio_count n st]: with [n] Segments of the request not yet completed,
    the reference count is [n] once [multi_bio] is set, a request that is
    not [multi_bio] has at most one Segment, the request has been finalized
    exactly when [n] is zero, and in synchronous mode the waiter field is
    cleared exactly then. *)
Definition dio_count (n : nat) (st : state) : Prop :=
  Z.of_nat n < 2 ^ 31 /\
  (multi_bio (st_dio st) = true -> dio_ref (st_dio st) = Z.of_nat n) /\
  (multi_bio (st_dio st) = false -> (n <= 1)%nat) /\
  length (finals (st_trace st)) = (if n is O then 1 else 0)%nat /\
  (is_sync (st_dio st) = true ->
   dio_u (st_dio st) = if n is O then union_null else union_waiter).

(** Every bio in flight completes through [blkdev_bio_end_io]. *)
Definition queue_hooked (st : state) : Prop :=
  forall b, b ∈ st_queue st -> hooks st !! b = Some end_io_dio.

(** [e] is 1 while the submission loop is building a Segment and 0 after:
    the Segments not yet completed are those in flight and the one being
    built. *)
Definition dio_inv (e : nat) (st : state) : Prop :=
  queue_hooked st /\ dio_count (length (st_queue st) + e) st.

(** The dio sits in the first bio of the store, and the bios in flight are
    distinct bios of the store, all older than the one being built. *)
Definition dio_wf (e : nat) (st : state) : Prop :=
  dio_bio (st_dio st) = 0%nat /\
  (1 <= length (st_bios st))%nat /\
  NoDup (st_queue st) /\
  (forall b, b ∈ st_queue st -> (b + e < length (st_bios st))%nat).

(** What holds whenever the submission loop starts a turn. *)
Definition loop_inv (st : state) : Prop :=
  dio_inv 1 st /\ dio_wf 1 st /\
  Z.of_nat (length (st_queue st)) + iov_iter_count (st_iter st)
    <= MAX_RW_COUNT /\
  ((2 <= length (st_bios st))%nat -> iocb_flag IOCB_NOWAIT st = true ->
   iov_iter_count (st_iter st) = 0) /\
  (multi_bio (st_dio st) = true <-> (2 <= length (st_bios st))%nat).

(** What holds once the loop is left by [break], and from then on. *)
Definition done_inv (st : state) : Prop :=
  dio_inv 0 st /\ dio_wf 0 st /\
  (multi_bio (st_dio st) = true <-> (2 <= length (st_bios st))%nat).

End invariants.

(** * The file operations of a block device

    [blkdev_llseek], [blkdev_fsync], [blkdev_open], [blkdev_close],
    [block_ioctl], [blkdev_write_iter], [blkdev_read_iter] and
    [blkdev_fallocate] (fops.c, lines 405-639).  They read more of [struct
    file], [struct inode] and [struct block_device] than the direct-I/O
    engine does, so the module has its own records.  Calls into the rest of
    the kernel are recorded, newest first; what such a call returns is up to
    the rest of the kernel and may depend on every call made before. *)

(** Constants of [fcntl.h], [fs.h], [falloc.h], [blkdev.h], [err.h] and
    [errno.h]. *)
Class FsHeaders := {
  O_ACCMODE : Z;
  O_EXCL : Z;
  O_NDELAY : Z;
  O_LARGEFILE : Z;
  FMODE_NDELAY : Z;
  FMODE_EXCL : Z;
  FMODE_WRITE_IOCTL : Z;
  FMODE_NOWAIT : Z;
  FMODE_BUF_RASYNC : Z;
  FALLOC_FL_KEEP_SIZE : Z;
  FALLOC_FL_PUNCH_HOLE : Z;
  FALLOC_FL_NO_HIDE_STALE : Z;
  FALLOC_FL_ZERO_RANGE : Z;
  BLKDEV_ZERO_NOUNMAP : Z;
  BLKDEV_ZERO_NOFALLBACK : Z;
  IOCB_DIRECT : Z;
  MAX_ERRNO : Z;
  EPERM : Z;
  ETXTBSY : Z;
  ENOSPC : Z;
  EOPNOTSUPP : Z;
}.

(** [iov_iter_truncate] and [iov_iter_reexpand] of [uio.h]: the first
    lowers the count of the iterator to [count] if it is above, the second
    sets it. *)
Class IovIterResize `{IovIter} := {
  iov_iter_truncate : iov_iter -> Z -> iov_iter;
  iov_iter_reexpand : iov_iter -> Z -> iov_iter;
}.

(** The count that both take is unsigned. *)
Class IovIterResizeLaws `{IovIterResize} : Prop := {
  iov_iter_truncate_count : forall i count,
    0 <= count ->
    iov_iter_count (iov_iter_truncate i count) =
      if count <? iov_iter_count i then count else iov_iter_count i;
  iov_iter_reexpand_count : forall i count,
    0 <= count ->
    iov_iter_count (iov_iter_reexpand i count) = count;
}.

Module fileops.

Record block_device := {
  bd_logical_block_size : Z;
  (** [i_size_read(bdev->bd_inode)] *)
  bd_inode_size : Z;
  (** [bdev_read_only(bdev)] *)
  bd_read_only : bool;
}.

Record inode := {
  i_bdev : block_device;
  i_size : Z;
  i_rdev : Z;
  (** [IS_SWAPFILE(inode)] *)
  i_swapfile : bool;
  (** [is_hibernate_resume_dev(inode->i_rdev)] *)
  i_hibernate_resume : bool;
}.

(** [f_mapping] stands for [file->f_mapping->host]. *)
Record file := {
  f_flags : Z;
  f_mode : Z;
  f_mapping : inode;
  f_wb_err : Z;
}.

Record kiocb := {
  ki_filp : file;
  ki_pos : Z;
  ki_flags : Z;
}.

Definition set_f_flags (v : Z) (f : file) : file :=
  {| f_flags := v; f_mode := f_mode f; f_mapping := f_mapping f;
     f_wb_err := f_wb_err f |}.
Definition set_f_mode (v : Z) (f : file) : file :=
  {| f_flags := f_flags f; f_mode := v; f_mapping := f_mapping f;
     f_wb_err := f_wb_err f |}.
Definition set_f_mapping (v : inode) (f : file) : file :=
  {| f_flags := f_flags f; f_mode := f_mode f; f_mapping := v;
     f_wb_err := f_wb_err f |}.
Definition set_f_wb_err (v : Z) (f : file) : file :=
  {| f_flags := f_flags f; f_mode := f_mode f; f_mapping := f_mapping f;
     f_wb_err := v |}.

Definition I_BDEV (i : inode) : block_device := i_bdev i.
Definition i_size_read (i : inode) : Z := i_size i.
Definition bdev_read_only (bdev : block_device) : bool := bd_read_only bdev.
Definition IS_SWAPFILE (i : inode) : bool := i_swapfile i.
Definition is_hibernate_resume_dev (i : inode) : bool := i_hibernate_resume i.
Definition bdev_logical_block_size (bdev : block_device) : Z :=
  bd_logical_block_size bdev.
Definition bdev_file_inode (f : file) : inode := f_mapping f.

(** The calls that leave the file, with the arguments that the file
    computes; for the two transfer functions, the position of the iocb and
    the count of the iterator they are given. *)
Inductive call :=
| inode_lock
| inode_unlock
| fixed_size_llseek (offset whence size : Z)
| file_write_and_wait_range (start end_ : Z)
| blkdev_issue_flush
| blkdev_get_by_dev (dev mode : Z)
| filemap_sample_wb_err
| blkdev_put (mode : Z)
| blkdev_ioctl (mode cmd arg : Z)
| blk_start_plug
| blk_finish_plug
| generic_file_write_iter (pos count : Z)
| generic_write_sync (count : Z)
| generic_file_read_iter (pos count : Z)
| filemap_invalidate_lock
| filemap_invalidate_unlock
| truncate_bdev_range (mode start end_ : Z)
| blkdev_issue_zeroout (sector nr_sects flags : Z)
| blkdev_issue_discard (sector nr_sects flags : Z).

(** A computation that makes calls: from the calls made so far to a result
    and the calls made then. *)
Definition M (A : Type) : Type := list call -> A * list call.

Definition ret {A} (x : A) : M A := fun tr => (x, tr).
Definition bind {A B} (m : M A) (k : A -> M B) : M B :=
  fun tr => let '(x, tr) := m tr in k x tr.
Definition log (c : call) : M unit := fun tr => (tt, c :: tr).

#[export] Instance M_ret : MRet M := @ret.
#[export] Instance M_bind : MBind M := fun A B k m => bind m k.

Section ops.
Context `{KH : KernelHeaders} `{FH : FsHeaders} `{IT : IovIter}
  `{ITR : !IovIterResize}.

(** What the rest of the kernel answers to a call, given the calls before
    it. *)
Variable kernel : list call -> call -> Z.

(** What a transfer function makes of the iocb and of the iterator, given
    the calls before it. *)
Variable transfer : list call -> kiocb -> iov_iter -> kiocb * iov_iter.

(** A call whose result is a [w]-bit signed integer. *)
Definition call_ (w : Z) (c : call) : M Z :=
  fun tr => (wrap_s w (kernel tr c), c :: tr).

(** What the transfer function just called leaves of its arguments. *)
Definition transferred (iocb : kiocb) (i : iov_iter) : M (kiocb * iov_iter) :=
  fun tr => (transfer tr iocb i, tr).

(** Lines 409-418. *)
Definition blkdev_llseek (f : file) (offset whence : Z) : M Z :=
  let bd_inode := bdev_file_inode f in
  log inode_lock;;
  retval ← call_ 64 (fixed_size_llseek offset whence (i_size_read bd_inode));
  log inode_unlock;;
  ret retval.

(** Lines 420-441. *)
Definition blkdev_fsync (filp : file) (start end_ datasync : Z) : M Z :=
  error ← call_ 32 (file_write_and_wait_range start end_);
  if negb (error =? 0) then ret error
  else
    error ← call_ 32 blkdev_issue_flush;
    let error := if error =? - EOPNOTSUPP then 0 else error in
    ret error.

(** [IS_ERR]: the pointer lies in the last [MAX_ERRNO] addresses. *)
Definition IS_ERR (p : Z) : bool := (- MAX_ERRNO <=? p) && (p <? 0).

(** Lines 443-469.  [bd_inode] is [bdev->bd_inode] of the block device
    that [blkdev_get_by_dev] finds. *)
Definition blkdev_open (bd_inode : inode) (i : inode) (filp : file)
    : M (Z * file) :=
  let filp := set_f_flags (Z.lor (f_flags filp) O_LARGEFILE) filp in
  let filp :=
    set_f_mode (Z.lor (f_mode filp) (Z.lor FMODE_NOWAIT FMODE_BUF_RASYNC))
      filp in
  let filp :=
    if negb (Z.land (f_flags filp) O_NDELAY =? 0)
    then set_f_mode (Z.lor (f_mode filp) FMODE_NDELAY) filp else filp in
  let filp :=
    if negb (Z.land (f_flags filp) O_EXCL =? 0)
    then set_f_mode (Z.lor (f_mode filp) FMODE_EXCL) filp else filp in
  let filp :=
    if Z.land (f_flags filp) O_ACCMODE =? 3
    then set_f_mode (Z.lor (f_mode filp) FMODE_WRITE_IOCTL) filp else filp in
  bdev ← call_ 64 (blkdev_get_by_dev (i_rdev i) (f_mode filp));
  if IS_ERR bdev then ret (wrap_s 32 bdev, filp)
  else
    let filp := set_f_mapping bd_inode filp in
    err ← call_ 32 filemap_sample_wb_err;
    let filp := set_f_wb_err (wrap_u 32 err) filp in
    ret (0, filp).

(** Lines 471-477. *)
Definition blkdev_close (i : inode) (filp : file) : M Z :=
  log (blkdev_put (f_mode filp));;
  ret 0.

(** Lines 479-494. *)
Definition block_ioctl (f : file) (cmd arg : Z) : M Z :=
  let mode := f_mode f in
  let mode :=
    if negb (Z.land (f_flags f) O_NDELAY =? 0)
    then Z.lor mode FMODE_NDELAY
    else Z.land mode (wrap_u 32 (Z.lnot FMODE_NDELAY)) in
  call_ 32 (blkdev_ioctl mode cmd arg).

(** Lines 503-540: the result, and the iocb and the iterator as the
    function leaves them. *)
Definition blkdev_write_iter (iocb : kiocb) (from : iov_iter)
    : M (Z * kiocb * iov_iter) :=
  let f := ki_filp iocb in
  let bd_inode := bdev_file_inode f in
  let size := i_size_read bd_inode in
  if bdev_read_only (I_BDEV bd_inode) then ret (- EPERM, iocb, from)
  else if IS_SWAPFILE bd_inode && negb (is_hibernate_resume_dev bd_inode)
  then ret (- ETXTBSY, iocb, from)
  else if iov_iter_count from =? 0 then ret (0, iocb, from)
  else if ki_pos iocb >=? size then ret (- ENOSPC, iocb, from)
  else if Z.land (ki_flags iocb) (Z.lor IOCB_NOWAIT IOCB_DIRECT)
          =? IOCB_NOWAIT
  then ret (- EOPNOTSUPP, iocb, from)
  else
    let size := wrap_s 64 (size - ki_pos iocb) in
    let '(shorted, from) :=
      if wrap_u 64 size <? iov_iter_count from
      then (wrap_u 64 (iov_iter_count from - size),
            iov_iter_truncate from (wrap_u 64 size))
      else (0, from) in
    log blk_start_plug;;
    r ← call_ 64 (generic_file_write_iter (ki_pos iocb)
                     (iov_iter_count from));
    '(iocb, from) ← transferred iocb from;
    r ← (if 0 <? r then call_ 64 (generic_write_sync r) else ret r);
    let from :=
      iov_iter_reexpand from (wrap_u 64 (iov_iter_count from + shorted)) in
    log blk_finish_plug;;
    ret (r, iocb, from).

(** Lines 542-563. *)
Definition blkdev_read_iter (iocb : kiocb) (to : iov_iter)
    : M (Z * kiocb * iov_iter) :=
  let f := ki_filp iocb in
  let bd_inode := bdev_file_inode f in
  let size := i_size_read bd_inode in
  let pos := ki_pos iocb in
  if pos >=? size then ret (0, iocb, to)
  else
    let size := wrap_s 64 (size - pos) in
    let '(shorted, to) :=
      if wrap_u 64 size <? iov_iter_count to
      then (wrap_u 64 (iov_iter_count to - size),
            iov_iter_truncate to (wrap_u 64 size))
      else (0, to) in
    r ← call_ 64 (generic_file_read_iter (ki_pos iocb)
                     (iov_iter_count to));
    '(iocb, to) ← transferred iocb to;
    let to :=
      iov_iter_reexpand to (wrap_u 64 (iov_iter_count to + shorted)) in
    ret (r, iocb, to).

Definition BLKDEV_FALLOC_FL_SUPPORTED : Z :=
  Z.lor (Z.lor (Z.lor FALLOC_FL_KEEP_SIZE FALLOC_FL_PUNCH_HOLE)
           FALLOC_FL_ZERO_RANGE) FALLOC_FL_NO_HIDE_STALE.

(** Lines 606-634: the [switch] on the mode. *)
Definition fallocate_range (f : file) (mode start len end_ : Z) : M Z :=
  if (mode =? FALLOC_FL_ZERO_RANGE)
     || (mode =? Z.lor FALLOC_FL_ZERO_RANGE FALLOC_FL_KEEP_SIZE) then
    error ← call_ 32 (truncate_bdev_range (f_mode f) start end_);
    if negb (error =? 0) then ret error
    else
      call_ 32 (blkdev_issue_zeroout (wrap_u 64 (Z.shiftr start 9))
                  (wrap_u 64 (Z.shiftr len 9)) BLKDEV_ZERO_NOUNMAP)
  else if mode =? Z.lor FALLOC_FL_PUNCH_HOLE FALLOC_FL_KEEP_SIZE then
    error ← call_ 32 (truncate_bdev_range (f_mode f) start end_);
    if negb (error =? 0) then ret error
    else
      call_ 32 (blkdev_issue_zeroout (wrap_u 64 (Z.shiftr start 9))
                  (wrap_u 64 (Z.shiftr len 9)) BLKDEV_ZERO_NOFALLBACK)
  else if mode =? Z.lor (Z.lor FALLOC_FL_PUNCH_HOLE FALLOC_FL_KEEP_SIZE)
                    FALLOC_FL_NO_HIDE_STALE then
    error ← call_ 32 (truncate_bdev_range (f_mode f) start end_);
    if negb (error =? 0) then ret error
    else
      call_ 32 (blkdev_issue_discard (wrap_u 64 (Z.shiftr start 9))
                  (wrap_u 64 (Z.shiftr len 9)) 0)
  else ret (- EOPNOTSUPP).

(** Lines 569-639. *)
Definition blkdev_fallocate (f : file) (mode start len : Z) : M Z :=
  let i := bdev_file_inode f in
  let bdev := I_BDEV i in
  let end_ := wrap_s 64 (start + len - 1) in
  if negb (Z.land mode (Z.lnot BLKDEV_FALLOC_FL_SUPPORTED) =? 0)
  then ret (- EOPNOTSUPP)
  else
    let isize := bd_inode_size bdev in
    if start >=? isize then ret (- EINVAL)
    else
      let clipped :=
        if end_ >=? isize then
          if negb (Z.land mode FALLOC_FL_KEEP_SIZE =? 0) then
            let len := wrap_s 64 (isize - start) in
            Some (len, wrap_s 64 (start + len - 1))
          else None
        else Some (len, end_) in
      match clipped with
      | None => ret (- EINVAL)
      | Some (len, end_) =>
        if negb (Z.land (Z.lor start len)
                   (wrap_u 32 (bdev_logical_block_size bdev - 1)) =? 0)
        then ret (- EINVAL)
        else
          log filemap_invalidate_lock;;
          error ← fallocate_range f mode start len end_;
          log filemap_invalidate_unlock;;
          ret error
      end.

End ops.

(** ** The paths of [blkdev_fallocate] *)

Section paths.
Context `{KH : KernelHeaders} `{FH : FsHeaders}.

(** The modes that the [switch] of [blkdev_fallocate] serves. *)
Definition fallocate_served (mode : Z) : bool :=
  (mode =? FALLOC_FL_ZERO_RANGE)
  || (mode =? Z.lor FALLOC_FL_ZERO_RANGE FALLOC_FL_KEEP_SIZE)
  || (mode =? Z.lor FALLOC_FL_PUNCH_HOLE FALLOC_FL_KEEP_SIZE)
  || (mode =? Z.lor (Z.lor FALLOC_FL_PUNCH_HOLE FALLOC_FL_KEEP_SIZE)
                FALLOC_FL_NO_HIDE_STALE).

(** The device operation that a served mode asks for. *)
Definition fallocate_op (mode start len : Z) : call :=
  let sector := wrap_u 64 (Z.shiftr start 9) in
  let nr := wrap_u 64 (Z.shiftr len 9) in
  if (mode =? FALLOC_FL_ZERO_RANGE)
     || (mode =? Z.lor FALLOC_FL_ZERO_RANGE FALLOC_FL_KEEP_SIZE)
  then blkdev_issue_zeroout sector nr BLKDEV_ZERO_NOUNMAP
  else if mode =? Z.lor FALLOC_FL_PUNCH_HOLE FALLOC_FL_KEEP_SIZE
  then blkdev_issue_zeroout sector nr BLKDEV_ZERO_NOFALLBACK
  else blkdev_issue_discard sector nr 0.

(** The length that [blkdev_fallocate] works on, if it gets past its
    checks of the range. *)
Definition fallocate_len (f : file) (mode start len : Z) : option Z :=
  let isize := bd_inode_size (I_BDEV (bdev_file_inode f)) in
  if negb (Z.land mode (Z.lnot BLKDEV_FALLOC_FL_SUPPORTED) =? 0) then None
  else if start >=? isize then None
  else
    let len' :=
      if wrap_s 64 (start + len - 1) >=? isize
      then wrap_s 64 (isize - start) else len in
    if (wrap_s 64 (start + len - 1) >=? isize)
       && (Z.land mode FALLOC_FL_KEEP_SIZE =? 0) then None
    else if negb (Z.land (Z.lor start len')
                    (wrap_u 32 (bdev_logical_block_size
                                  (I_BDEV (bdev_file_inode f)) - 1)) =? 0)
    then None
    else Some len'.

End paths.
End fileops.

(** ** The file operations on a concrete device

    The constants of Linux 5.15 on x86-64, a disk of 2048 blocks of 512
    bytes, a kernel in which every call succeeds, and transfer functions
    that take all of the iterator they are given. *)

Definition linux_fs_headers : FsHeaders :=
  {| O_ACCMODE := 3; O_EXCL := 128; O_NDELAY := 2048; O_LARGEFILE := 32768;
     FMODE_NDELAY := 64; FMODE_EXCL := 128; FMODE_WRITE_IOCTL := 256;
     FMODE_NOWAIT := 134217728; FMODE_BUF_RASYNC := 1073741824;
     FALLOC_FL_KEEP_SIZE := 1; FALLOC_FL_PUNCH_HOLE := 2;
     FALLOC_FL_NO_HIDE_STALE := 4; FALLOC_FL_ZERO_RANGE := 16;
     BLKDEV_ZERO_NOUNMAP := 1; BLKDEV_ZERO_NOFALLBACK := 2;
     IOCB_DIRECT := 131072; MAX_ERRNO := 4095;
     EPERM := 1; ETXTBSY := 26; ENOSPC := 28; EOPNOTSUPP := 95 |}.

Definition page_iter_set_count (c : Z) (i : page_iter) : page_iter :=
  {| pi_count := Z.to_N c; pi_align := pi_align i; pi_rw := pi_rw i;
     pi_iovec := pi_iovec i; pi_fault := pi_fault i |}.

Definition page_iter_truncate (i : page_iter) (count : Z) : page_iter :=
  if count <? Z.of_N (pi_count i) then page_iter_set_count count i else i.

Definition page_iter_resize : @IovIterResize page_iov_iter :=
  @Build_IovIterResize page_iov_iter page_iter_truncate
    (fun i count => page_iter_set_count count i).

Definition disk : fileops.inode :=
  {| fileops.i_bdev :=
       {| fileops.bd_logical_block_size := 512;
          fileops.bd_inode_size := 1048576;
          fileops.bd_read_only := false |};
     fileops.i_size := 1048576; fileops.i_rdev := 2048;
     fileops.i_swapfile := false; fileops.i_hibernate_resume := false |}.

Definition disk_file (flags mode : Z) : fileops.file :=
  {| fileops.f_flags := flags; fileops.f_mode := mode;
     fileops.f_mapping := disk; fileops.f_wb_err := 0 |}.

Definition obliging_kernel : list fileops.call -> fileops.call -> Z :=
  fun _ _ => 0.

Definition greedy_transfer : list fileops.call -> fileops.kiocb
    -> @iov_iter page_iov_iter -> fileops.kiocb * @iov_iter page_iov_iter :=
  fun _ iocb i =>
    ({| fileops.ki_filp := fileops.ki_filp iocb;
        fileops.ki_pos := fileops.ki_pos iocb + Z.of_N (pi_count i);
        fileops.ki_flags := fileops.ki_flags iocb |},
     page_iter_set_count 0 i).

(** * Proofs *)

Ltac unfold_ops :=
  unfold blkdev_bio_end_io, blkdev_bio_end_io_simple, dio_record_status,
    dio_finalize, atomic_dec_and_test_ref,
    bio_check_pages_dirty, bio_release_pages,
    bio_set_pages_dirty, bio_put, bio_free, bio_get, bio_clear_flag_REFFED,
    blk_wake_io_task, blk_start_plug, blk_finish_plug,
    task_io_account_write, kfree, bio_set_polled, bio_uninit in *.

Section frame.
Context `{KH : KernelHeaders} `{IT : IovIter}.

Lemma map_alter_same {A} (g : bio -> A) (f : bio -> bio) (b : nat)
    (l : list bio) :
  (forall x, g (f x) = g x) -> map g (alter f b l) = map g l.
Proof.
  intros Hf. revert b.
  induction l as [|x l IH]; intros [|b]; simpl; auto; f_equal; auto.
  apply IH.
Qed.

Lemma bio_at_upd_bio_ne b b' f st :
  b' <> b -> bio_at b' (upd_bio b f st) = bio_at b' st.
Proof.
  intros Hne. unfold bio_at, upd_bio, upd_bios; simpl.
  by rewrite list_lookup_alter_ne.
Qed.

Lemma bio_at_upd_bio_eq b f st :
  (b < length (st_bios st))%nat ->
  bio_at b (upd_bio b f st) = f (bio_at b st).
Proof.
  intros Hlt. unfold bio_at, upd_bio, upd_bios; simpl.
  rewrite list_lookup_alter_eq.
  destruct (lookup_lt_is_Some_2 _ _ Hlt) as [x ->]. done.
Qed.

Lemma hook_of_bio_at b st :
  bi_end_io (bio_at b st) = default end_io_unset (hooks st !! b).
Proof.
  unfold bio_at, hooks. rewrite list_lookup_fmap.
  by destruct (st_bios st !! b).
Qed.

Lemma hooks_length st : length (hooks st) = length (st_bios st).
Proof. unfold hooks. apply length_map. Qed.

(** ** Frames

    [static st st']: nothing changed that only the submission loop
    writes. *)
Definition dio_static (d d' : blkdev_dio) : Prop :=
  is_sync d' = is_sync d /\ should_dirty d' = should_dirty d /\
  dio_bio d' = dio_bio d /\ dio_size d' = dio_size d /\
  multi_bio d' = multi_bio d.

Definition iocb_static (k k' : kiocb) : Prop :=
  ki_filp k' = ki_filp k /\ ki_flags k' = ki_flags k /\
  ki_hint k' = ki_hint k /\ ki_ioprio k' = ki_ioprio k /\
  ki_complete k' = ki_complete k.

Definition static (st st' : state) : Prop :=
  st_iter st' = st_iter st /\ st_kmalloc_ok st' = st_kmalloc_ok st /\
  hooks st' = hooks st /\
  map bi_size (st_bios st') = map bi_size (st_bios st) /\
  dio_static (st_dio st) (st_dio st') /\
  iocb_static (st_iocb st) (st_iocb st') /\
  submitted_bytes (st_trace st') = submitted_bytes (st_trace st).

(** What a completion callback leaves alone. *)
Definition callback_frame (st st' : state) : Prop :=
  st_queue st' = st_queue st /\ st_sched st' = st_sched st /\ static st st'.

(** What stays when the device runs. *)
Definition device_frame (st st' : state) : Prop :=
  (forall x, x ∈ st_queue st' -> x ∈ st_queue st) /\
  (length (st_queue st') <= length (st_queue st))%nat /\
  (NoDup (st_queue st) -> NoDup (st_queue st')) /\
  (length (st_sched st') <= length (st_sched st))%nat /\
  static st st'.

(** What does not touch the fan-in state of the request. *)
Definition same_count (st st' : state) : Prop :=
  multi_bio (st_dio st') = multi_bio (st_dio st) /\
  dio_ref (st_dio st') = dio_ref (st_dio st) /\
  is_sync (st_dio st') = is_sync (st_dio st) /\
  dio_u (st_dio st') = dio_u (st_dio st) /\
  finals (st_trace st') = finals (st_trace st).

Lemma static_refl st : static st st.
Proof. by unfold static, dio_static, iocb_static. Qed.

Lemma static_trans st1 st2 st3 :
  static st1 st2 -> static st2 st3 -> static st1 st3.
Proof. unfold static, dio_static, iocb_static. intuition congruence. Qed.

Lemma device_frame_refl st : device_frame st st.
Proof. unfold device_frame. auto using static_refl. Qed.

Lemma device_frame_trans st1 st2 st3 :
  device_frame st1 st2 -> device_frame st2 st3 -> device_frame st1 st3.
Proof.
  intros (? & ? & ? & ? & ?) (? & ? & ? & ? & ?).
  unfold device_frame. split_and!; eauto using static_trans; lia.
Qed.

Lemma same_count_refl st : same_count st st.
Proof. done. Qed.

Lemma same_count_trans st1 st2 st3 :
  same_count st1 st2 -> same_count st2 st3 -> same_count st1 st3.
Proof. unfold same_count. intuition congruence. Qed.

Lemma same_count_log e st : is_final e = false -> same_count st (log e st).
Proof.
  intros He. unfold same_count, finals; simpl. by rewrite He.
Qed.

Lemma dio_count_same n st st' :
  same_count st st' -> dio_count n st -> dio_count n st'.
Proof.
  intros (Hm & Hr & Hy & Hu & Hf). unfold dio_count.
  by rewrite Hm, Hr, Hy, Hu, Hf.
Qed.

Ltac frame_solve :=
  unfold callback_frame, static, dio_static, iocb_static, same_count, hooks;
  unfold_ops;
  repeat case_match; simplify_eq; simpl;
  rewrite ?map_alter_same by done; done.

Lemma bio_put_frame b st : callback_frame st (bio_put b st).
Proof. frame_solve. Qed.

Lemma end_io_frame b st : callback_frame st (blkdev_bio_end_io b st).
Proof. frame_solve. Qed.

Lemma end_io_simple_frame b st :
  callback_frame st (blkdev_bio_end_io_simple b st).
Proof. frame_solve. Qed.

Lemma bio_endio_frame b st : callback_frame st (bio_endio b st).
Proof.
  unfold bio_endio. case_match;
    auto using end_io_frame, end_io_simple_frame.
  split_and!; auto using static_refl.
Qed.

Lemma bio_put_same_count b st : same_count st (bio_put b st).
Proof. frame_solve. Qed.

Lemma record_status_same_count b st : same_count st (dio_record_status b st).
Proof. frame_solve. Qed.

Lemma finalize_dio st :
  multi_bio (st_dio (dio_finalize st)) = multi_bio (st_dio st) /\
  dio_ref (st_dio (dio_finalize st)) = dio_ref (st_dio st) /\
  is_sync (st_dio (dio_finalize st)) = is_sync (st_dio st) /\
  (is_sync (st_dio st) = true ->
   dio_u (st_dio (dio_finalize st)) = union_null) /\
  length (finals (st_trace (dio_finalize st))) =
    S (length (finals (st_trace st))).
Proof.
  unfold_ops. destruct (is_sync (st_dio st)) eqn:Ey; simpl; [done|].
  repeat case_match; simplify_eq; simpl; rewrite ?Ey; done.
Qed.

Lemma end_io_count n b st :
  dio_count (S n) st -> dio_count n (blkdev_bio_end_io b st).
Proof.
  intros (Hb & Hm & Hs & Hf & Hw).
  unfold blkdev_bio_end_io.
  destruct (record_status_same_count b st) as (Hm1 & Hr1 & Hy1 & Hu1 & Hf1).
  set (st1 := dio_record_status b st) in *.
  assert (exists last st2,
    (if negb (multi_bio (st_dio st1)) then (true, st1)
     else atomic_dec_and_test_ref st1) = (last, st2) /\
    last = (if n is O then true else false) /\
    finals (st_trace st2) = finals (st_trace st) /\
    is_sync (st_dio st2) = is_sync (st_dio st) /\
    dio_u (st_dio st2) = dio_u (st_dio st) /\
    multi_bio (st_dio st2) = multi_bio (st_dio st) /\
    (multi_bio (st_dio st) = true -> dio_ref (st_dio st2) = Z.of_nat n))
    as (last & st2 & -> & -> & Hf2 & Hy2 & Hu2 & Hm2 & Hr2).
  { rewrite Hm1. destruct (multi_bio (st_dio st)) eqn:Em; simpl.
    - unfold atomic_dec_and_test_ref. eexists _, _; split; [done|].
      simpl. rewrite Hr1, Hm by done.
      rewrite wrap_s_small by lia.
      split_and!; try done; try lia.
      destruct n; [done|]. apply Z.eqb_neq. lia.
    - eexists _, _; split; [done|].
      split_and!; try done. destruct n; [done|].
      specialize (Hs eq_refl). lia. }
  apply dio_count_same with
    (st := if match n with O => true | S _ => false end
           then dio_finalize st2 else st2).
  { destruct (should_dirty (st_dio st)); unfold bio_check_pages_dirty,
      bio_release_pages;
      (eapply same_count_trans; [|apply (bio_put_same_count b)]);
      by apply same_count_log. }
  unfold dio_count. destruct n as [|n].
  - destruct (finalize_dio st2) as (-> & -> & -> & Hu & ->).
    rewrite Hf2, Hf, Hy2, Hm2. split_and!; auto; try lia.
    intros Ey. apply Hu. congruence.
  - rewrite Hf2, Hf, Hm2, Hy2, Hu2. split_and!; auto; try lia.
    intros Em. specialize (Hs Em). lia.
Qed.

(** ** The device *)

Lemma dequeue_length b q :
  b ∈ q -> S (length (dequeue b q)) = length q.
Proof.
  induction q as [|x q IH]; simpl; [by intros ?%elem_of_nil|].
  intros Hin. case_decide; [done|]. simpl. f_equal. apply IH.
  apply elem_of_cons in Hin as [->|]; done.
Qed.

Lemma dequeue_subset b q x : x ∈ dequeue b q -> x ∈ q.
Proof.
  induction q as [|y q IH]; simpl; [done|].
  case_decide; rewrite !elem_of_cons; naive_solver.
Qed.

Lemma dequeue_length_le b q : (length (dequeue b q) <= length q)%nat.
Proof.
  induction q as [|y q IH]; simpl; [done|]. case_decide; simpl; lia.
Qed.

Lemma dequeue_NoDup b q : NoDup q -> NoDup (dequeue b q).
Proof.
  induction 1 as [|y q Hy Hq IH]; simpl; [constructor|].
  case_decide; [done|]. constructor; [|done].
  intros ?%dequeue_subset. done.
Qed.

Lemma dequeue_not_in b q : NoDup q -> b ∉ dequeue b q.
Proof.
  induction 1 as [|y q Hy Hq IH]; simpl; [apply not_elem_of_nil|].
  case_decide; [by subst|]. rewrite elem_of_cons. naive_solver.
Qed.

Lemma dequeue_other b q x : x <> b -> x ∈ q -> x ∈ dequeue b q.
Proof.
  intros Hne. induction q as [|y q IH]; simpl; [done|].
  case_decide; rewrite !elem_of_cons; naive_solver.
Qed.

(** The state in which the callback of a completed bio runs. *)
Definition device_pick (st : state) (c : nat * Z) : state :=
  let st := set_queue (dequeue c.1 (st_queue st)) st in
  if c.2 =? 0 then st else upd_bio c.1 (set_bi_status c.2) st.

Lemma device_complete_eq st c :
  device_complete st c =
    if decide (c.1 ∈ st_queue st) then bio_endio c.1 (device_pick st c)
    else st.
Proof. done. Qed.

Lemma device_pick_frame st c :
  st_queue (device_pick st c) = dequeue c.1 (st_queue st) /\
  st_sched (device_pick st c) = st_sched st /\
  st_trace (device_pick st c) = st_trace st /\
  st_dio (device_pick st c) = st_dio st /\
  static st (device_pick st c).
Proof.
  unfold device_pick, static, dio_static, iocb_static, hooks.
  case_match; simpl; rewrite ?map_alter_same by done; done.
Qed.

Lemma device_pick_same_count st c : same_count st (device_pick st c).
Proof.
  destruct (device_pick_frame st c) as (_ & _ & Ht & Hd & _).
  unfold same_count. by rewrite Ht, Hd.
Qed.

Lemma device_complete_frame st c : device_frame st (device_complete st c).
Proof.
  rewrite device_complete_eq. case_decide; [|apply device_frame_refl].
  destruct (device_pick_frame st c) as (Hq & Hs & _ & _ & Hst).
  destruct (bio_endio_frame c.1 (device_pick st c)) as (Hq' & Hs' & Hst').
  unfold device_frame. rewrite Hq', Hs', Hq, Hs. split_and!.
  - intros x. apply dequeue_subset.
  - apply dequeue_length_le.
  - apply dequeue_NoDup.
  - done.
  - eauto using static_trans.
Qed.

Lemma device_run_frame batch st : device_frame st (device_run batch st).
Proof.
  unfold device_run. revert st.
  induction batch as [|c batch IH]; simpl; intros st;
    [apply device_frame_refl|].
  eapply device_frame_trans; [apply device_complete_frame|apply IH].
Qed.

Lemma device_yield_frame st : device_frame st (device_yield st).
Proof.
  unfold device_yield. destruct (st_sched st) as [|batch rest] eqn:Es.
  - destruct (st_queue st) as [|b q] eqn:Eq; [apply device_frame_refl|].
    apply device_complete_frame.
  - eapply device_frame_trans; [|apply device_run_frame].
    unfold device_frame; simpl. rewrite Es; simpl.
    split_and!; auto. by unfold static, dio_static, iocb_static.
Qed.

(** The device makes progress whenever something is in flight. *)
Lemma device_yield_progress st :
  st_queue st <> [] ->
  (length (st_sched (device_yield st)) + length (st_queue (device_yield st))
   < length (st_sched st) + length (st_queue st))%nat.
Proof.
  intros Hq. unfold device_yield.
  destruct (st_sched st) as [|batch rest] eqn:Es.
  - destruct (st_queue st) as [|b q] eqn:Eq; [done|].
    rewrite device_complete_eq. simpl. rewrite Eq.
    rewrite decide_True by apply list_elem_of_here.
    destruct (bio_endio_frame b (device_pick st (b, 0))) as (-> & -> & _).
    destruct (device_pick_frame st (b, 0)) as (-> & -> & _).
    rewrite Es, Eq. simpl. rewrite decide_True by done. simpl. lia.
  - destruct (device_run_frame batch (set_sched rest st))
      as (_ & Hl & _ & Hs & _).
    simpl in *. lia.
Qed.

(** ** Invariants that completions preserve *)

Definition stable (P : state -> Prop) : Prop :=
  (forall st c, c.1 ∈ st_queue st -> P st ->
     P (bio_endio c.1 (device_pick st c))) /\
  (forall st s, P st -> P (set_sched s st)).

Lemma stable_complete P st c : stable P -> P st -> P (device_complete st c).
Proof.
  intros [HP _] Hst. rewrite device_complete_eq. case_decide; auto.
Qed.

Lemma stable_run P batch st : stable P -> P st -> P (device_run batch st).
Proof.
  intros HP. unfold device_run. revert st.
  induction batch as [|c batch IH]; simpl; intros st Hst; [done|].
  by apply IH, stable_complete.
Qed.

Lemma stable_yield P st : stable P -> P st -> P (device_yield st).
Proof.
  intros HP Hst. unfold device_yield. destruct (st_sched st).
  - destruct (st_queue st); [done|]. by apply stable_complete.
  - apply stable_run; [done|]. by apply HP.
Qed.

Lemma poll_or_sleep_eq qc st :
  poll_or_sleep qc st =
    if negb (iocb_flag IOCB_HIPRI st) then device_yield st
    else if Z.of_nat (length (st_queue st)
                      - length (st_queue (device_yield st))) =? 0
         then device_yield (device_yield st)
         else device_yield st.
Proof.
  unfold poll_or_sleep, blk_poll, blk_io_schedule.
  by destruct (negb (iocb_flag IOCB_HIPRI st)).
Qed.

Lemma stable_poll_or_sleep P qc st :
  stable P -> P st -> P (poll_or_sleep qc st).
Proof.
  intros HP Hst. rewrite poll_or_sleep_eq.
  repeat case_match; repeat (apply stable_yield; [done|]); done.
Qed.

Lemma stable_wait P fuel qc st st' :
  stable P -> dio_wait fuel qc st = Some st' -> P st -> P st'.
Proof.
  intros HP. revert st.
  induction fuel as [|fuel IH]; simpl; intros st Hw Hst; [done|].
  destruct (dio_u (st_dio st)); simplify_eq; auto;
    (eapply IH; [done|]; by apply stable_poll_or_sleep).
Qed.

Lemma stable_and P Q : stable P -> stable Q -> stable (fun st => P st /\ Q st).
Proof. intros [? ?] [? ?]. split; naive_solver. Qed.

Lemma poll_or_sleep_frame qc st : device_frame st (poll_or_sleep qc st).
Proof.
  rewrite poll_or_sleep_eq.
  repeat case_match; try apply device_yield_frame.
  eapply device_frame_trans; apply device_yield_frame.
Qed.

Lemma poll_or_sleep_progress qc st :
  st_queue st <> [] ->
  (length (st_sched (poll_or_sleep qc st))
   + length (st_queue (poll_or_sleep qc st))
   < length (st_sched st) + length (st_queue st))%nat.
Proof.
  intros Hq. rewrite poll_or_sleep_eq.
  pose proof (device_yield_progress st Hq).
  repeat case_match; try done.
  destruct (device_yield_frame (device_yield st)) as (_ & ? & _ & ? & _).
  lia.
Qed.

Lemma dio_inv_stable e : stable (dio_inv e).
Proof.
  split.
  - intros st c Hin [Hh Hc].
    destruct (device_pick_frame st c) as (Hq & _ & _ & _ & Hst).
    destruct Hst as (_ & _ & Hk & _).
    assert (bio_endio c.1 (device_pick st c)
            = blkdev_bio_end_io c.1 (device_pick st c)) as ->.
    { unfold bio_endio. rewrite hook_of_bio_at, Hk, (Hh _ Hin). done. }
    destruct (end_io_frame c.1 (device_pick st c))
      as (Hq' & _ & _ & _ & Hk' & _).
    split.
    + intros x. rewrite Hq', Hq, Hk', Hk. intros ?%dequeue_subset. auto.
    + rewrite Hq', Hq. apply end_io_count.
      apply (dio_count_same _ st); [apply device_pick_same_count|].
      replace (S (length (dequeue c.1 (st_queue st)) + e))
        with (length (st_queue st) + e)%nat; [done|].
      rewrite <- (dequeue_length c.1 (st_queue st)) by done. lia.
  - intros st s Hst. exact Hst.
Qed.

Lemma static_bios_length st st' :
  static st st' -> length (st_bios st') = length (st_bios st).
Proof.
  intros (_ & _ & Hk & _). by rewrite <- !hooks_length, Hk.
Qed.

Lemma dio_wf_stable e : stable (dio_wf e).
Proof.
  split; [|done].
  intros st c Hin (H0 & H1 & Hn & Hlt).
  pose proof (device_complete_frame st c) as (Hsub & _ & Hnd & _ & Hst).
  rewrite device_complete_eq, decide_True in * by done.
  pose proof (static_bios_length _ _ Hst) as Hlen.
  destruct Hst as (_ & _ & _ & _ & (_ & _ & Hb & _) & _).
  unfold dio_wf. rewrite Hb, Hlen. split_and!; auto.
Qed.

Lemma done_inv_stable : stable done_inv.
Proof.
  split; [|done].
  intros st c Hin (Hi & Hw & Hm).
  split_and!; [by apply dio_inv_stable|by apply dio_wf_stable|].
  pose proof (device_complete_frame st c) as (_ & _ & _ & _ & Hst).
  rewrite device_complete_eq, decide_True in * by done.
  rewrite (static_bios_length _ _ Hst).
  destruct Hst as (_ & _ & _ & _ & (_ & _ & _ & _ & ->) & _). done.
Qed.

(** ** The stages of a turn of the submission loop *)

Lemma map_alter_set {A} (g : bio -> A) (f : bio -> bio) (v : A) (b : nat)
    (l : list bio) :
  (forall x, g (f x) = v) -> map g (alter f b l) = <[b:=v]> (map g l).
Proof.
  intros Hf. revert b.
  induction l as [|x l IH]; intros [|b]; simpl; auto; f_equal; auto.
  apply IH.
Qed.

(** The reference counts and the freed flags of the bios. *)
Definition owners (st : state) : list (bool * Z * bool) :=
  map (fun x => (bi_reffed x, bi_cnt x, bi_freed x)) (st_bios st).
Definition statuses (st : state) : list Z := map bi_status (st_bios st).

Lemma dio_fill_spec bio pos st ret st1 :
  dio_fill bio pos st = (ret, st1) ->
  (bio < length (st_bios st))%nat ->
  st_queue st1 = st_queue st /\ st_sched st1 = st_sched st /\
  st_dio st1 = st_dio st /\ st_iocb st1 = st_iocb st /\
  st_trace st1 = EvGetPages bio ret :: st_trace st /\
  hooks st1 = <[bio:=end_io_dio]> (hooks st) /\
  statuses st1 = statuses st /\ owners st1 = owners st /\
  length (st_bios st1) = length (st_bios st) /\
  (forall b, b <> bio -> bio_at b st1 = bio_at b st) /\
  (ret = 0 \/
   ret <> 0 /\ map bi_size (st_bios st1) = map bi_size (st_bios st)).
Proof.
  unfold dio_fill, bio_iov_iter_get_pages. intros Hf Hlt.
  set (f := bio_setup _ _ _ _ _) in *.
  set (r := iter_get_pages _ _) in *.
  injection Hf as <- <-.
  unfold hooks, statuses, owners.
  destruct (r.1.1 =? 0) eqn:E; simpl;
    rewrite ?length_alter,
      ?(map_alter_same bi_end_io (set_bi_size r.1.2)),
      ?(map_alter_same bi_status),
      ?(map_alter_same (fun x => (bi_reffed x, bi_cnt x, bi_freed x)))
      by done;
    split_and!; try done; try (by apply map_alter_set).
  - intros b Hne. unfold bio_at; simpl.
    by rewrite !list_lookup_alter_ne by done.
  - left. by apply Z.eqb_eq.
  - intros b Hne. unfold bio_at; simpl.
    by rewrite !list_lookup_alter_ne by done.
  - right. split; [by apply Z.eqb_neq|]. by rewrite map_alter_same.
Qed.

Lemma dio_fill_iter bio pos st :
  let r := iter_get_pages
             (bi_max_vecs (bio_at bio
               (upd_bio bio
                  (bio_setup (wrap_u 64 (Z.shiftr pos 9))
                     (ki_hint (st_iocb st)) (ki_ioprio (st_iocb st))
                     private_dio end_io_dio) st)))
             (st_iter st) in
  (dio_fill bio pos st).1 = r.1.1 /\
  st_iter (dio_fill bio pos st).2 = r.2 /\
  ((bio < length (st_bios st))%nat -> r.1.1 = 0 ->
   bi_size (bio_at bio (dio_fill bio pos st).2) = r.1.2).
Proof.
  unfold dio_fill, bio_iov_iter_get_pages. simpl.
  split_and!; [done|by case_match|].
  intros Hlt ->. simpl.
  change (bio_at bio (log ?e ?s)) with (bio_at bio s).
  rewrite bio_at_upd_bio_eq; [done|].
  simpl. by rewrite length_alter.
Qed.

Lemma size_of_bio_at b st :
  bi_size (bio_at b st) = default 0 (map bi_size (st_bios st) !! b).
Proof.
  unfold bio_at. rewrite list_lookup_fmap. by destruct (st_bios st !! b).
Qed.

Lemma status_of_bio_at b st :
  bi_status (bio_at b st) = default 0 (statuses st !! b).
Proof.
  unfold bio_at, statuses. rewrite list_lookup_fmap.
  by destruct (st_bios st !! b).
Qed.

Lemma dio_account_spec is_read bio st :
  let st' := dio_account is_read bio st in
  st_queue st' = st_queue st /\ st_sched st' = st_sched st /\
  st_iter st' = st_iter st /\ st_iocb st' = st_iocb st /\
  hooks st' = hooks st /\ statuses st' = statuses st /\
  owners st' = owners st /\
  map bi_size (st_bios st') = map bi_size (st_bios st) /\
  length (st_bios st') = length (st_bios st) /\
  finals (st_trace st') = finals (st_trace st) /\
  submitted_bytes (st_trace st') = submitted_bytes (st_trace st) /\
  free_count 0 (st_trace st') = free_count 0 (st_trace st) /\
  st_dio st' =
    set_dio_size (wrap_u 64 (dio_size (st_dio st) + bi_size (bio_at bio st)))
      (st_dio st).
Proof.
  unfold dio_account, hooks, statuses, owners, iocb_flag,
    bio_set_pages_dirty, task_io_account_write.
  repeat case_match; simpl;
    rewrite ?length_alter,
      ?(map_alter_same bi_end_io),
      ?(map_alter_same bi_status),
      ?(map_alter_same bi_size),
      ?(map_alter_same (fun x => (bi_reffed x, bi_cnt x, bi_freed x)))
      by done;
    split_and!; try done;
    rewrite !size_of_bio_at; simpl;
    by rewrite ?(map_alter_same bi_size) by done.
Qed.

Lemma dio_ref_up_spec is_sync bio st :
  let st' := dio_ref_up is_sync bio st in
  st_queue st' = st_queue st /\ st_sched st' = st_sched st /\
  st_iter st' = st_iter st /\ st_iocb st' = st_iocb st /\
  st_trace st' = st_trace st /\
  hooks st' = hooks st /\ statuses st' = statuses st /\
  map bi_size (st_bios st') = map bi_size (st_bios st) /\
  length (st_bios st') = length (st_bios st) /\
  dio_static (set_multi_bio true (st_dio st)) (st_dio st') /\
  dio_u (st_dio st') = dio_u (st_dio st) /\
  dio_ref (st_dio st') =
    (if multi_bio (st_dio st) then wrap_s 32 (dio_ref (st_dio st) + 1)
     else 2).
Proof.
  unfold dio_ref_up, hooks, statuses, dio_static, bio_get.
  repeat case_match; simpl;
    rewrite ?length_alter,
      ?(map_alter_same bi_end_io),
      ?(map_alter_same bi_status),
      ?(map_alter_same bi_size) by done;
    split_and!; done.
Qed.

(** The state [submit_bio] leaves to the device. *)
Definition enqueue (b : nat) (st : state) : state :=
  set_queue (st_queue st ++ [b]) (log (EvSubmit b (bi_size (bio_at b st))) st).

Lemma submit_bio_eq b st :
  submit_bio b st = (Z.of_nat b, device_yield (enqueue b st)).
Proof. done. Qed.

Lemma ref_up_count n is_sync bio st :
  Z.of_nat (S n) < 2 ^ 31 ->
  dio_count n st -> (1 <= n)%nat ->
  dio_count (S n) (dio_ref_up is_sync bio st).
Proof.
  intros Hb (_ & Hm & Hs & Hf & Hw) Hn.
  destruct (dio_ref_up_spec is_sync bio st)
    as (_ & _ & _ & _ & Ht & _ & _ & _ & _ & Hd & Hu & Hr).
  destruct Hd as (Hy & _ & _ & _ & Hm'). simpl in Hy, Hm'.
  unfold dio_count. rewrite Ht, Hy, Hu, Hr, Hm', Hf.
  split_and!; try done.
  - intros _. destruct (multi_bio (st_dio st)).
    + rewrite Hm by done. rewrite wrap_s_small; lia.
    + specialize (Hs eq_refl). lia.
  - destruct n; [lia|done].
  - intros Hs'. rewrite (Hw Hs'). destruct n; [lia|done].
Qed.

Lemma bio_alloc_spec nr st :
  let st' := (bio_alloc nr st).2 in
  (bio_alloc nr st).1 = length (st_bios st) /\
  st_queue st' = st_queue st /\ st_sched st' = st_sched st /\
  st_iter st' = st_iter st /\ st_iocb st' = st_iocb st /\
  st_trace st' = st_trace st /\ st_dio st' = st_dio st /\
  hooks st' = hooks st ++ [end_io_unset] /\
  statuses st' = statuses st ++ [0] /\
  owners st' = owners st ++ [(false, 1, false)] /\
  length (st_bios st') = S (length (st_bios st)).
Proof.
  unfold bio_alloc, bio_new, hooks, statuses, owners; simpl.
  rewrite !map_app, length_app; simpl. split_and!; try done. lia.
Qed.

End frame.

Section submission.
Context `{KH : KernelHeaders} `{IT : IovIter} {ITL : IovIterLaws}.

Lemma fill_laws bio pos st ret st1 :
  dio_fill bio pos st = (ret, st1) ->
  (bio < length (st_bios st))%nat ->
  ret <= 0 /\ 0 <= iov_iter_count (st_iter st1) /\
  (ret = 0 ->
   0 < bi_size (bio_at bio st1) /\
   iov_iter_count (st_iter st1) =
     iov_iter_count (st_iter st) - bi_size (bio_at bio st1)).
Proof.
  intros Hf Hlt.
  destruct (dio_fill_iter bio pos st) as (Hr & Hi & Hs).
  rewrite Hf in Hr, Hi, Hs. simpl in Hr, Hi, Hs.
  split_and!.
  - rewrite Hr. apply get_pages_ret.
  - apply iov_iter_count_nonneg.
  - intros E. rewrite Hr in E. rewrite Hi, (Hs Hlt E).
    by apply get_pages_advance.
Qed.

Lemma enqueue_inv e bio st :
  (forall b, b ∈ st_queue st ++ [bio] -> hooks st !! b = Some end_io_dio) ->
  dio_count (length (st_queue st) + 1 + e) st ->
  dio_inv e (enqueue bio st).
Proof.
  intros Hh Hc. split; [exact Hh|].
  unfold enqueue; simpl. rewrite length_app; simpl.
  eapply dio_count_same; [|exact Hc]. by apply same_count_log.
Qed.

Lemma enqueue_wf bio st :
  dio_wf 1 st -> bio = (length (st_bios st) - 1)%nat ->
  dio_wf 0 (enqueue bio st).
Proof.
  intros (H0 & H1 & Hn & Hlt) ->. unfold dio_wf, enqueue; simpl.
  split_and!; try done.
  - apply NoDup_app. split_and!; [done| |apply NoDup_singleton].
    intros x Hx ->%list_elem_of_singleton. apply Hlt in Hx. lia.
  - intros b [Hb| ->%list_elem_of_singleton]%elem_of_app.
    + apply Hlt in Hb. lia.
    + lia.
Qed.

Lemma dio_inv_upd_iocb e f st : dio_inv e st -> dio_inv e (upd_iocb f st).
Proof. done. Qed.

Lemma hooked_after_fill bio st st1 :
  queue_hooked st -> (bio < length (st_bios st))%nat ->
  st_queue st1 = st_queue st ->
  hooks st1 = <[bio:=end_io_dio]> (hooks st) ->
  forall b, b ∈ st_queue st1 ++ [bio] -> hooks st1 !! b = Some end_io_dio.
Proof.
  intros Hh Hlt -> -> b Hb.
  destruct (decide (b = bio)) as [->|Hne].
  - apply list_lookup_insert_eq. by rewrite hooks_length.
  - rewrite list_lookup_insert_ne by done. apply Hh.
    apply elem_of_app in Hb as [?| ?%list_elem_of_singleton]; done.
Qed.

Lemma iocb_flag_static f st st' :
  iocb_static (st_iocb st) (st_iocb st') -> iocb_flag f st' = iocb_flag f st.
Proof. intros (_ & Hf & _). unfold iocb_flag. by rewrite Hf. Qed.

Lemma done_inv_enqueue bio st :
  (forall b, b ∈ st_queue st ++ [bio] -> hooks st !! b = Some end_io_dio) ->
  dio_count (length (st_queue st) + 1) st ->
  dio_wf 1 st -> bio = (length (st_bios st) - 1)%nat ->
  (multi_bio (st_dio st) = true <-> (2 <= length (st_bios st))%nat) ->
  done_inv (enqueue bio st).
Proof.
  intros Hh Hc Hwf Hb Hm. split_and!.
  - apply enqueue_inv; [done|]. by rewrite Nat.add_0_r.
  - by apply enqueue_wf.
  - done.
Qed.

Lemma dio_fail_core bio st :
  (forall b, b ∈ st_queue st ++ [bio] -> hooks st !! b = Some end_io_dio) ->
  dio_count (length (st_queue st) + 1) st ->
  dio_wf 1 st ->
  (multi_bio (st_dio st) = true <-> (2 <= length (st_bios st))%nat) ->
  done_inv (dio_fail bio st).
Proof.
  intros Hh Hc (H0 & H1 & Hnd & Hlt) Hm. unfold dio_fail.
  set (st' := upd_bio bio _ st).
  assert (hooks st' = hooks st) as Hh'.
  { unfold hooks, st'; simpl. by rewrite map_alter_same. }
  assert (bio_endio bio st' = blkdev_bio_end_io bio st') as ->.
  { unfold bio_endio. rewrite hook_of_bio_at, Hh', Hh; [done|].
    apply elem_of_app. right. by apply list_elem_of_singleton. }
  destruct (end_io_frame bio st') as (Hq & _ & Hst).
  pose proof (static_bios_length _ _ Hst) as Hlen.
  destruct Hst as (_ & _ & Hk & _ & (_ & _ & Hb & _ & Hmm) & _).
  assert (length (st_bios st') = length (st_bios st)) as Hlen'.
  { unfold st'; simpl. apply length_alter. }
  unfold done_inv, dio_inv, dio_wf, queue_hooked.
  rewrite Hq, Hk, Hh', Hb, Hlen, Hlen', Hmm. simpl. split_and!; try done.
  - intros b Hin. apply Hh, elem_of_app. by left.
  - rewrite Nat.add_0_r. apply end_io_count.
    rewrite Nat.add_1_r in Hc. exact Hc.
  - intros b Hin. apply Hlt in Hin. lia.
Qed.

Lemma dio_nowait_abort_frame bio st :
  length (st_bios (dio_nowait_abort bio st)) = length (st_bios st) /\
  st_queue (dio_nowait_abort bio st) = st_queue st /\
  st_dio (dio_nowait_abort bio st) = st_dio st /\
  st_iocb (dio_nowait_abort bio st) = st_iocb st /\
  st_iter (dio_nowait_abort bio st) = st_iter st /\
  finals (st_trace (dio_nowait_abort bio st)) = finals (st_trace st) /\
  submitted_bytes (st_trace (dio_nowait_abort bio st))
    = submitted_bytes (st_trace st).
Proof.
  unfold dio_nowait_abort, blk_finish_plug, bio_put, bio_free,
    bio_clear_flag_REFFED, bio_release_pages.
  repeat case_match; simpl; rewrite ?length_alter; done.
Qed.

Lemma bio_set_polled_frame bio st :
  st_queue (bio_set_polled bio st) = st_queue st /\
  st_sched (bio_set_polled bio st) = st_sched st /\
  st_iter (bio_set_polled bio st) = st_iter st /\
  st_iocb (bio_set_polled bio st) = st_iocb st /\
  st_dio (bio_set_polled bio st) = st_dio st /\
  st_trace (bio_set_polled bio st) = st_trace st /\
  hooks (bio_set_polled bio st) = hooks st /\
  statuses (bio_set_polled bio st) = statuses st /\
  owners (bio_set_polled bio st) = owners st /\
  map bi_size (st_bios (bio_set_polled bio st)) = map bi_size (st_bios st) /\
  length (st_bios (bio_set_polled bio st)) = length (st_bios st).
Proof.
  unfold bio_set_polled, hooks, statuses, owners.
  case_match; simpl;
    rewrite ?length_alter,
      ?(map_alter_same bi_end_io),
      ?(map_alter_same bi_status),
      ?(map_alter_same bi_size),
      ?(map_alter_same (fun x => (bi_reffed x, bi_cnt x, bi_freed x)))
      by done; done.
Qed.

Lemma dio_submit_last_eq bio st :
  dio_submit_last bio st =
    let st1 := if iocb_flag IOCB_HIPRI st then bio_set_polled bio st else st in
    let st2 := device_yield (enqueue bio st1) in
    (Z.of_nat bio,
     if iocb_flag IOCB_HIPRI st
     then upd_iocb (set_ki_cookie (Z.of_nat bio)) st2 else st2).
Proof. done. Qed.

Lemma dio_submit_last_core bio st :
  (forall b, b ∈ st_queue st ++ [bio] -> hooks st !! b = Some end_io_dio) ->
  dio_count (length (st_queue st) + 1) st ->
  dio_wf 1 st -> bio = (length (st_bios st) - 1)%nat ->
  (multi_bio (st_dio st) = true <-> (2 <= length (st_bios st))%nat) ->
  done_inv (dio_submit_last bio st).2.
Proof.
  intros Hh Hc Hwf Hb Hm. rewrite dio_submit_last_eq. simpl.
  set (st1 := if iocb_flag IOCB_HIPRI st then _ else st).
  assert (done_inv (enqueue bio st1)) as Hd.
  { unfold st1. destruct (iocb_flag IOCB_HIPRI st); [|by apply done_inv_enqueue].
    destruct (bio_set_polled_frame bio st)
      as (Hq & _ & _ & _ & Hdio & Ht & Hk & _ & _ & _ & Hl).
    apply done_inv_enqueue; rewrite ?Hq, ?Hk, ?Hl, ?Hdio; try done.
    - unfold dio_count. by rewrite Hdio, Ht.
    - unfold dio_wf. by rewrite Hdio, Hq, Hl. }
  apply (stable_yield _ _ done_inv_stable) in Hd.
  by destruct (iocb_flag IOCB_HIPRI st).
Qed.

(** What a turn of the loop starts from once the bio is filled. *)
Definition filled (bio : nat) (st : state) : Prop :=
  (forall b, b ∈ st_queue st ++ [bio] -> hooks st !! b = Some end_io_dio) /\
  dio_count (length (st_queue st) + 1) st /\
  dio_wf 1 st /\ bio = (length (st_bios st) - 1)%nat /\
  (multi_bio (st_dio st) = true <-> (2 <= length (st_bios st))%nat).

Lemma filled_after_fill bio pos st ret st1 :
  loop_inv st -> bio = (length (st_bios st) - 1)%nat ->
  dio_fill bio pos st = (ret, st1) -> filled bio st1.
Proof.
  intros ((Hh & Hc) & Hwf & _ & _ & Hm) Hb Hf.
  pose proof Hwf as (H0 & H1 & Hnd & Hlt).
  assert (bio < length (st_bios st))%nat as Hlt' by lia.
  destruct (dio_fill_spec _ _ _ _ _ Hf Hlt')
    as (Hq1 & Hs1 & Hd1 & Hk1 & Ht1 & Hh1 & _ & _ & Hl1 & _ & _).
  unfold filled, dio_wf, dio_count. rewrite Hq1, Hd1, Hl1, Ht1.
  split_and!; try done.
  - rewrite <- Hq1. by eapply hooked_after_fill.
  - apply Hc.
  - apply Hc.
  - apply Hc.
  - apply Hc.
  - apply Hc.
Qed.

Lemma filled_after_account is_read bio st :
  filled bio st -> filled bio (dio_account is_read bio st).
Proof.
  intros (Hh & Hc & Hwf & Hb & Hm).
  destruct (dio_account_spec is_read bio st)
    as (Hq & _ & _ & _ & Hk & _ & _ & _ & Hl & Hf & _ & _ & Hd).
  unfold filled, dio_wf, dio_count. rewrite Hq, Hk, Hl, Hf, Hd. simpl.
  split_and!; try done; apply Hc || apply Hwf.
Qed.

Lemma dio_iterate_core is_read is_sync bio pos st :
  loop_inv st -> bio = (length (st_bios st) - 1)%nat ->
  match dio_iterate is_read is_sync bio pos st with
  | inl (bio', pos', st') =>
      loop_inv st' /\ bio' = (length (st_bios st') - 1)%nat /\
      iov_iter_count (st_iter st') < iov_iter_count (st_iter st) /\
      length (st_bios st') = S (length (st_bios st))
  | inr (loop_break ret qc, st') => done_inv st' /\ ret <= 0
  | inr (loop_return v, st') =>
      v = - EAGAIN /\ length (st_bios st') = 1%nat /\ st_queue st' = [] /\
      multi_bio (st_dio st') = false
  end.
Proof.
  intros Hinv Hb. unfold dio_iterate.
  destruct (dio_fill bio pos st) as [ret st1] eqn:Ef.
  pose proof (filled_after_fill _ _ _ _ _ Hinv Hb Ef) as Hfl.
  destruct Hinv as (_ & Hwf & Hbound & Hnw & Hml).
  pose proof Hwf as (H0 & H1 & Hnd & Hlt).
  assert (bio < length (st_bios st))%nat as Hlt' by lia.
  destruct (dio_fill_spec _ _ _ _ _ Ef Hlt')
    as (Hq1 & Hs1 & Hd1 & Hk1 & Ht1 & Hh1 & _ & _ & Hl1 & _ & _).
  destruct (fill_laws _ _ _ _ _ Ef Hlt') as (Hret & Hc1 & Hadv).
  destruct (ret =? 0) eqn:Eret; cbn [negb]; cbn beta iota.
  2: { split; [|done]. destruct Hfl as (? & ? & ? & ? & ?).
       by apply dio_fail_core. }
  apply Z.eqb_eq in Eret. destruct (Hadv Eret) as [Hsz Hcnt].
  destruct (iocb_flag IOCB_NOWAIT st1
            && negb (iov_iter_count (st_iter st1) =? 0)) eqn:Enw.
  { apply andb_true_iff in Enw as [Enw _].
    destruct (dio_nowait_abort_frame bio st1) as (-> & -> & -> & _).
    rewrite Hl1, Hq1, Hd1.
    assert (length (st_bios st) = 1%nat) as Hone.
    { destruct (decide (2 <= length (st_bios st))%nat) as [H2|]; [|lia].
      unfold iocb_flag in Enw, Hnw. rewrite Hk1 in Enw.
      specialize (Hnw H2 Enw). lia. }
    split_and!; try done.
    - destruct (st_queue st) as [|b q]; [done|].
      specialize (Hlt b (list_elem_of_here _ _)). lia.
    - destruct (multi_bio (st_dio st)); [|done].
      destruct Hml as [Hml _]. specialize (Hml eq_refl). lia. }
  pose proof (filled_after_account is_read _ _ Hfl) as Hfl2.
  destruct (dio_account_spec is_read bio st1)
    as (Hq2 & _ & Hi2 & Hk2 & _ & _ & _ & _ & Hl2 & _ & _ & _ & Hd2).
  set (st2 := dio_account is_read bio st1) in *.
  destruct (bio_iov_vecs_to_alloc (st_iter st2) BIO_MAX_VECS =? 0).
  { destruct (dio_submit_last bio st2) as [qc st3] eqn:El.
    cbn beta iota. split; [|lia]. destruct Hfl2 as (? & ? & ? & ? & ?).
    change st3 with (qc, st3).2. rewrite <- El.
    by apply dio_submit_last_core. }
  rewrite submit_bio_eq. cbn beta iota.
  destruct Hfl2 as (Hh2 & Hc2 & Hwf2 & Hb2 & Hm2).
  destruct (dio_ref_up_spec is_sync bio st2)
    as (Hq3 & _ & Hi3 & Hk3 & _ & Hh3 & _ & _ & Hl3 & Hd3 & _ & _).
  pose proof (ref_up_count (length (st_queue st2) + 1) is_sync bio st2)
    as Hc3.
  set (st3 := dio_ref_up is_sync bio st2) in *.
  assert (dio_inv 1 (enqueue bio st3)) as Hi4.
  { apply enqueue_inv; rewrite ?Hq3, ?Hh3; [done|].
    replace (length (st_queue st2) + 1 + 1)%nat
      with (S (length (st_queue st2) + 1)) by lia.
    apply Hc3; [|done|lia].
    rewrite Hq2, Hq1. unfold MAX_RW_COUNT in Hbound. lia. }
  assert (dio_wf 0 (enqueue bio st3)) as Hw4.
  { apply enqueue_wf; [|by rewrite Hl3].
    destruct Hwf2 as (? & ? & ? & ?), Hd3 as (_ & _ & Hdb & _).
    unfold dio_wf. rewrite Hq3, Hl3, Hdb. done. }
  apply (stable_yield _ _ (dio_inv_stable 1)) in Hi4.
  apply (stable_yield _ _ (dio_wf_stable 0)) in Hw4.
  destruct (device_yield_frame (enqueue bio st3))
    as (_ & Hql & _ & _ & Hst4).
  pose proof (static_bios_length _ _ Hst4) as Hl4.
  destruct Hst4 as (Hi4' & _ & _ & _ & (_ & _ & _ & _ & Hm4) & Hk4 & _).
  set (st4 := device_yield (enqueue bio st3)) in *.
  destruct (bio_alloc_spec (bio_iov_vecs_to_alloc (st_iter st2) BIO_MAX_VECS) st4)
    as (Hb5 & Hq5 & _ & Hi5 & Hk5 & Ht5 & Hd5 & Hh5 & _ & _ & Hl5).
  destruct (bio_alloc _ st4) as [bio5 st5]. simpl in *.
  assert (length (st_bios st4) = length (st_bios st)) as Hlen4.
  { rewrite Hl4. unfold enqueue; simpl. by rewrite Hl3, Hl2. }
  assert (iov_iter_count (st_iter st5) = iov_iter_count (st_iter st1))
    as Hcnt5.
  { rewrite Hi5, Hi4'. unfold enqueue; simpl. by rewrite Hi3, Hi2. }
  split_and!.
  - unfold loop_inv. split_and!.
    + destruct Hi4 as [Hh4 Hc4]. split.
      * intros b Hin. rewrite Hq5 in Hin. rewrite Hh5.
        apply lookup_app_l_Some. by apply Hh4.
      * unfold dio_count. rewrite Hq5, Hd5, Ht5. exact Hc4.
    + destruct Hw4 as (? & ? & ? & Hlt4). unfold dio_wf.
      rewrite Hq5, Hd5, Hl5. split_and!; try done; [lia|].
      intros b Hin. apply Hlt4 in Hin. lia.
    + rewrite Hq5, Hcnt5. unfold enqueue in Hql; simpl in Hql.
      rewrite length_app, Hq3, Hq2, Hq1 in Hql. simpl in Hql. lia.
    + intros _ Hfl5. rewrite Hcnt5.
      assert (iocb_flag IOCB_NOWAIT st1 = true) as Hfl1.
      { rewrite <- Hfl5. unfold iocb_flag. rewrite Hk5.
        destruct Hk4 as (_ & -> & _). unfold enqueue; simpl.
        by rewrite Hk3, Hk2. }
      rewrite Hfl1 in Enw. simpl in Enw.
      apply negb_false_iff, Z.eqb_eq in Enw. done.
    + rewrite Hd5, Hl5, Hm4. unfold enqueue; simpl.
      destruct Hd3 as (_ & _ & _ & _ & ->). simpl. split; [lia|done].
  - rewrite Hb5, Hl5. lia.
  - rewrite Hcnt5. lia.
  - by rewrite Hl5, Hlen4.
Qed.

(** How [__blkdev_direct_IO] leaves its loop. *)
Definition loop_post (r : loop_exit) (st' : state) : Prop :=
  match r with
  | loop_break ret qc => done_inv st' /\ ret <= 0
  | loop_return v =>
      v = - EAGAIN /\ length (st_bios st') = 1%nat /\ st_queue st' = [] /\
      multi_bio (st_dio st') = false
  end.

Lemma dio_submit_loop_core fuel is_read is_sync bio pos st :
  loop_inv st -> bio = (length (st_bios st) - 1)%nat ->
  (Z.to_nat (iov_iter_count (st_iter st)) < fuel)%nat ->
  exists r st',
    dio_submit_loop fuel is_read is_sync bio pos st = Some (r, st') /\
    loop_post r st'.
Proof.
  revert bio pos st.
  induction fuel as [|fuel IH]; intros bio pos st Hinv Hb Hfuel; [lia|].
  simpl. pose proof (dio_iterate_core is_read is_sync bio pos st Hinv Hb) as H.
  destruct (dio_iterate is_read is_sync bio pos st)
    as [[[bio' pos'] st']|[r st']].
  - destruct H as (Hinv' & Hb' & Hlt & _). apply IH; try done.
    pose proof (iov_iter_count_nonneg (st_iter st')). lia.
  - exists r, st'. split; [done|]. by destruct r.
Qed.

Lemma dio_begin_core nr st :
  fresh st -> iov_iter_count (st_iter st) <= MAX_RW_COUNT ->
  loop_inv (dio_begin nr st).2 /\
  (dio_begin nr st).1 = (length (st_bios (dio_begin nr st).2) - 1)%nat /\
  st_iter (dio_begin nr st).2 = st_iter st /\
  is_sync (st_dio (dio_begin nr st).2) = is_sync_kiocb (st_iocb st).
Proof.
  intros (Hb & Hq & Ht) Hc.
  unfold dio_begin, bio_alloc_kiocb, bio_new, bio_get, blk_start_plug,
    loop_inv, dio_inv, dio_wf, dio_count, queue_hooked.
  destruct (is_sync_kiocb (st_iocb st)), (negb (iocb_flag IOCB_HIPRI st));
    simpl; rewrite ?length_alter, ?length_app, Hb, Hq, Ht; simpl;
    (split_and!; try done; try lia;
     try (by intros ? ?%elem_of_nil); try constructor).
Qed.

Lemma bio_put_done_inv b st : done_inv st -> done_inv (bio_put b st).
Proof.
  intros ((Hh & Hc) & (H0 & H1 & Hn & Hlt) & Hm).
  destruct (bio_put_frame b st) as (Hq & _ & Hst).
  pose proof (static_bios_length _ _ Hst) as Hl.
  destruct Hst as (_ & _ & Hk & _ & (_ & _ & Hb & _ & Hmm) & _).
  unfold done_inv, dio_inv, dio_wf, queue_hooked.
  rewrite Hq, Hk, Hl, Hb, Hmm. split_and!; try done.
  eapply dio_count_same; [apply bio_put_same_count|done].
Qed.

Lemma done_inv_log e st : is_final e = false -> done_inv st -> done_inv (log e st).
Proof.
  intros He ((Hh & Hc) & Hwf & Hm). split_and!; try done. split; [done|].
  eapply dio_count_same; [by apply same_count_log|done].
Qed.

Lemma dio_wait_total fuel qc st :
  done_inv st -> is_sync (st_dio st) = true ->
  (length (st_sched st) + length (st_queue st) < fuel)%nat ->
  exists st', dio_wait fuel qc st = Some st' /\ done_inv st' /\
    st_queue st' = [] /\ device_frame st st'.
Proof.
  revert st. induction fuel as [|fuel IH]; intros st Hinv Hs Hfuel; [lia|].
  simpl.
  assert (dio_u (st_dio st) = union_null /\ st_queue st = [] \/
          dio_u (st_dio st) = union_waiter /\ st_queue st <> []) as Hu.
  { destruct Hinv as ((_ & (_ & _ & _ & _ & Hw)) & _).
    rewrite (Hw Hs), Nat.add_0_r.
    destruct (st_queue st); simpl; [by left|by right]. }
  destruct Hu as [[-> Hq]|[-> Hq]].
  { exists st. split_and!; auto using device_frame_refl. }
  pose proof (poll_or_sleep_progress qc st Hq).
  pose proof (poll_or_sleep_frame qc st) as Hfr.
  destruct (IH (poll_or_sleep qc st)) as (st' & Hw & Hi & Hq' & Hfr').
  - by apply stable_poll_or_sleep; [apply done_inv_stable|].
  - destruct Hfr as (_ & _ & _ & _ & _ & _ & _ & _ & (-> & _) & _). done.
  - lia.
  - exists st'. split_and!; eauto using device_frame_trans.
Qed.

(** What no step of a request changes: its mode, its dirty flag, where
    its dio lives, and the caller's settings in the kiocb. *)
Definition request_static (st st' : state) : Prop :=
  is_sync (st_dio st') = is_sync (st_dio st) /\
  should_dirty (st_dio st') = should_dirty (st_dio st) /\
  dio_bio (st_dio st') = dio_bio (st_dio st) /\
  iocb_static (st_iocb st) (st_iocb st').

Lemma request_static_refl st : request_static st st.
Proof. by unfold request_static, iocb_static. Qed.

Lemma request_static_trans st1 st2 st3 :
  request_static st1 st2 -> request_static st2 st3 -> request_static st1 st3.
Proof. unfold request_static, iocb_static. intuition congruence. Qed.

Lemma static_request_static st st' : static st st' -> request_static st st'.
Proof.
  intros (_ & _ & _ & _ & (? & ? & ? & _) & ? & _). by unfold request_static.
Qed.

Lemma device_request_static st st' :
  device_frame st st' -> request_static st st'.
Proof. intros (_ & _ & _ & _ & ?). by apply static_request_static. Qed.

Lemma dio_iterate_static is_read is_sync bio pos st :
  (bio < length (st_bios st))%nat ->
  match dio_iterate is_read is_sync bio pos st with
  | inl (_, _, st') => request_static st st'
  | inr (_, st') => request_static st st'
  end.
Proof.
  intros Hlt. unfold dio_iterate.
  destruct (dio_fill bio pos st) as [ret st1] eqn:Ef.
  destruct (dio_fill_spec _ _ _ _ _ Ef Hlt)
    as (_ & _ & Hd1 & Hk1 & _).
  assert (request_static st st1) as H1.
  { unfold request_static. rewrite Hd1, Hk1. by unfold iocb_static. }
  destruct (negb (ret =? 0)).
  { eapply request_static_trans; [exact H1|].
    unfold dio_fail.
    eapply request_static_trans;
      [|apply static_request_static, bio_endio_frame].
    by unfold request_static, iocb_static. }
  destruct (_ && _).
  { eapply request_static_trans; [exact H1|].
    destruct (dio_nowait_abort_frame bio st1) as (_ & _ & Hd & Hk & _).
    unfold request_static. rewrite Hd, Hk. by unfold iocb_static. }
  destruct (dio_account_spec is_read bio st1)
    as (_ & _ & _ & Hk2 & _ & _ & _ & _ & _ & _ & _ & _ & Hd2).
  set (st2 := dio_account is_read bio st1) in *.
  assert (request_static st st2) as H2.
  { eapply request_static_trans; [exact H1|].
    unfold request_static. rewrite Hd2, Hk2. by unfold iocb_static. }
  destruct (_ =? 0).
  { rewrite dio_submit_last_eq. cbn beta iota zeta.
    eapply request_static_trans; [exact H2|].
    set (st2' := if iocb_flag IOCB_HIPRI st2 then _ else st2).
    assert (request_static st2 (enqueue bio st2')) as H3.
    { unfold st2'. destruct (iocb_flag IOCB_HIPRI st2);
        [|by unfold request_static, iocb_static].
      destruct (bio_set_polled_frame bio st2) as (_ & _ & _ & Hk & Hd & _).
      unfold request_static, enqueue; simpl. rewrite Hd, Hk.
      by unfold iocb_static. }
    eapply request_static_trans; [exact H3|].
    eapply request_static_trans;
      [apply device_request_static, device_yield_frame|].
    destruct (iocb_flag IOCB_HIPRI st2); [|apply request_static_refl].
    by unfold request_static, iocb_static. }
  rewrite submit_bio_eq. cbn beta iota zeta.
  destruct (dio_ref_up_spec is_sync bio st2)
    as (_ & _ & _ & Hk3 & _ & _ & _ & _ & _ & (? & ? & ? & _) & _).
  set (st3 := dio_ref_up is_sync bio st2) in *.
  eapply request_static_trans; [exact H2|].
  eapply (request_static_trans _ (enqueue bio st3)).
  { unfold request_static, enqueue; simpl. rewrite Hk3.
    by unfold iocb_static. }
  eapply request_static_trans;
    [apply device_request_static, device_yield_frame|].
  by unfold bio_alloc, bio_new, request_static, iocb_static.
Qed.

Lemma dio_submit_loop_static fuel is_read is_sync bio pos st r st' :
  loop_inv st -> bio = (length (st_bios st) - 1)%nat ->
  dio_submit_loop fuel is_read is_sync bio pos st = Some (r, st') ->
  request_static st st'.
Proof.
  revert bio pos st.
  induction fuel as [|fuel IH]; intros bio pos st Hinv Hb Hl; [done|].
  simpl in Hl.
  pose proof (dio_iterate_core is_read is_sync bio pos st Hinv Hb) as H.
  assert (bio < length (st_bios st))%nat as Hlt.
  { destruct Hinv as (_ & (_ & ? & _) & _). lia. }
  pose proof (dio_iterate_static is_read is_sync bio pos st Hlt) as Hs.
  destruct (dio_iterate is_read is_sync bio pos st)
    as [[[bio' pos'] st1]|[r1 st1]].
  - destruct H as (Hinv' & Hb' & _).
    eapply request_static_trans; [exact Hs|]. by eapply IH.
  - by simplify_eq.
Qed.

(** The four ways through a turn of the loop. *)
Lemma dio_iterate_cases is_read is_sync bio pos st :
  let ret := (dio_fill bio pos st).1 in
  let st1 := (dio_fill bio pos st).2 in
  let st2 := dio_account is_read bio st1 in
  let nr := bio_iov_vecs_to_alloc (st_iter st2) BIO_MAX_VECS in
  ret <> 0 /\
    dio_iterate is_read is_sync bio pos st =
      inr (loop_break ret BLK_QC_T_NONE, dio_fail bio st1) \/
  ret = 0 /\ iocb_flag IOCB_NOWAIT st1 = true /\
    iov_iter_count (st_iter st1) <> 0 /\
    dio_iterate is_read is_sync bio pos st =
      inr (loop_return (- EAGAIN), dio_nowait_abort bio st1) \/
  ret = 0 /\
    dio_iterate is_read is_sync bio pos st =
      inr (loop_break 0 (dio_submit_last bio st2).1,
           (dio_submit_last bio st2).2) \/
  ret = 0 /\
    dio_iterate is_read is_sync bio pos st =
      inl (length (st_bios st2),
           wrap_s 64 (pos + bi_size (bio_at bio st2)),
           (bio_alloc nr
              (device_yield (enqueue bio (dio_ref_up is_sync bio st2)))).2).
Proof.
  intros ret st1 st2 nr. unfold dio_iterate.
  subst ret st1. destruct (dio_fill bio pos st) as [ret st1].
  cbn [fst snd] in *.
  destruct (ret =? 0) eqn:Er; cbn [negb]; cbn beta iota.
  2: { left. by apply Z.eqb_neq in Er. }
  apply Z.eqb_eq in Er. subst ret. right.
  destruct (iocb_flag IOCB_NOWAIT st1) eqn:En; cbn [andb].
  - destruct (iov_iter_count (st_iter st1) =? 0) eqn:Ec; cbn [negb].
    2: { left. apply Z.eqb_neq in Ec. done. }
    right. fold st2. fold nr. destruct (nr =? 0).
    + left. by destruct (dio_submit_last bio st2).
    + right. split; [done|]. rewrite submit_bio_eq. cbn beta iota.
      unfold bio_alloc, bio_new; simpl.
      destruct (device_yield_frame (enqueue bio (dio_ref_up is_sync bio st2)))
        as (_ & _ & _ & _ & Hst).
      rewrite (static_bios_length _ _ Hst). unfold enqueue; simpl.
      destruct (dio_ref_up_spec is_sync bio st2)
        as (_ & _ & _ & _ & _ & _ & _ & _ & -> & _). done.
  - right. fold st2. fold nr. destruct (nr =? 0).
    + left. by destruct (dio_submit_last bio st2).
    + right. split; [done|]. rewrite submit_bio_eq. cbn beta iota.
      unfold bio_alloc, bio_new; simpl.
      destruct (device_yield_frame (enqueue bio (dio_ref_up is_sync bio st2)))
        as (_ & _ & _ & _ & Hst).
      rewrite (static_bios_length _ _ Hst). unfold enqueue; simpl.
      destruct (dio_ref_up_spec is_sync bio st2)
        as (_ & _ & _ & _ & _ & _ & _ & _ & -> & _). done.
Qed.

(** Induction over the turns of the loop, on top of [loop_inv]. *)
Lemma dio_submit_loop_ind (I : state -> Prop)
    (Post : loop_exit -> state -> Prop) is_read is_sync :
  (forall bio pos st,
     loop_inv st -> bio = (length (st_bios st) - 1)%nat -> I st ->
     match dio_iterate is_read is_sync bio pos st with
     | inl (_, _, st') => I st'
     | inr (r, st') => Post r st'
     end) ->
  forall fuel bio pos st r st',
    loop_inv st -> bio = (length (st_bios st) - 1)%nat -> I st ->
    dio_submit_loop fuel is_read is_sync bio pos st = Some (r, st') ->
    Post r st'.
Proof.
  intros Hstep. induction fuel as [|fuel IH];
    intros bio pos st r st' Hinv Hb HI Hl; [done|].
  simpl in Hl.
  pose proof (dio_iterate_core is_read is_sync bio pos st Hinv Hb) as Hc.
  pose proof (Hstep bio pos st Hinv Hb HI) as Hs.
  destruct (dio_iterate is_read is_sync bio pos st)
    as [[[bio' pos'] st1]|[r1 st1]].
  - destruct Hc as (Hinv' & Hb' & _). by eapply IH.
  - by simplify_eq.
Qed.

Lemma dio_turn_ind (I : state -> Prop) is_read is_sync :
  (forall bio pos st,
     loop_inv st -> bio = (length (st_bios st) - 1)%nat -> I st ->
     match dio_iterate is_read is_sync bio pos st with
     | inl (_, _, st') => I st'
     | inr (r, st') => True
     end) ->
  forall n bio pos st b p s,
    loop_inv st -> bio = (length (st_bios st) - 1)%nat -> I st ->
    dio_turn n is_read is_sync bio pos st = Some (b, p, s) ->
    loop_inv s /\ b = (length (st_bios s) - 1)%nat /\ I s /\
    length (st_bios s) = (length (st_bios st) + n)%nat.
Proof.
  intros Hstep. induction n as [|n IH];
    intros bio pos st b p s Hinv Hb HI Hl; simpl in Hl.
  { simplify_eq. split_and!; try done; lia. }
  pose proof (dio_iterate_core is_read is_sync bio pos st Hinv Hb) as Hc.
  pose proof (Hstep bio pos st Hinv Hb HI) as Hs.
  destruct (dio_iterate is_read is_sync bio pos st)
    as [[[bio' pos'] st1]|[r1 st1]]; [|done].
  destruct Hc as (Hinv' & Hb' & _ & Hlen).
  destruct (IH _ _ _ _ _ _ Hinv' Hb' Hs Hl) as (? & ? & ? & ?).
  split_and!; try done. lia.
Qed.

Lemma dio_end_core is_poll ret qc st :
  done_inv st ->
  exists v st',
    dio_end (is_sync (st_dio st)) is_poll ret qc st = Some (v, st') /\
    done_inv st' /\ request_static st st' /\
    (is_sync (st_dio st) = true -> st_queue st' = []).
Proof.
  intros Hinv. unfold dio_end.
  set (st1 := if negb is_poll then blk_finish_plug st else st).
  assert (done_inv st1 /\ st_dio st1 = st_dio st /\
          st_iocb st1 = st_iocb st) as (Hinv1 & Hd1 & Hk1).
  { unfold st1. destruct (negb is_poll); [|done].
    split; [by apply done_inv_log|done]. }
  assert (request_static st st1) as Hs1.
  { unfold request_static. rewrite Hd1, Hk1. by unfold iocb_static. }
  destruct (is_sync (st_dio st)) eqn:Es; cbn [negb]; cbn beta iota.
  2: { exists (- EIOCBQUEUED), st1. split_and!; done. }
  destruct (dio_wait_total (wait_fuel st1) qc st1)
    as (st2 & -> & Hinv2 & Hq2 & Hfr2); [done|congruence|unfold wait_fuel; lia|].
  eexists _, _. split; [done|].
  destruct (bio_put_frame (dio_bio (st_dio st2)) st2) as (Hq3 & _ & Hst3).
  split_and!.
  - by apply bio_put_done_inv.
  - eapply request_static_trans; [exact Hs1|].
    eapply request_static_trans; [by apply device_request_static|].
    by apply static_request_static.
  - intros _. by rewrite Hq3.
Qed.

(** The run of [__blkdev_direct_IO] on a fresh, aligned request. *)
Lemma direct_IO_core nr st :
  fresh st -> iov_iter_count (st_iter st) <= MAX_RW_COUNT ->
  dio_misaligned (ki_pos (st_iocb st)) (st_iter st)
    (I_BDEV (bdev_file_inode (ki_filp (st_iocb st)))) = false ->
  exists r st',
    __blkdev_direct_IO nr st = Some (r, st') /\
    (r = - EAGAIN /\ length (st_bios st') = 1%nat /\ st_queue st' = [] /\
     multi_bio (st_dio st') = false \/
     done_inv st' /\
     is_sync (st_dio st') = is_sync_kiocb (st_iocb st) /\
     (is_sync_kiocb (st_iocb st) = true -> st_queue st' = [])).
Proof.
  intros Hfr Hc Hal. unfold __blkdev_direct_IO. rewrite Hal.
  destruct (dio_begin_core nr st Hfr Hc) as (Hinv & Hb & Hi & Hs).
  destruct (dio_begin nr st) as [bio st0]. simpl in Hinv, Hb, Hi, Hs.
  destruct (dio_submit_loop_core (submit_fuel st0)
              match iov_iter_rw (st_iter st) with
              | READ => true | WRITE => false end
              (is_sync_kiocb (st_iocb st)) bio (ki_pos (st_iocb st)) st0
              Hinv Hb) as (r & st1 & Hl & Hpost).
  { unfold submit_fuel. lia. }
  rewrite Hl.
  pose proof (dio_submit_loop_static _ _ _ _ _ _ _ _ Hinv Hb Hl)
    as (Hs1 & _).
  destruct r as [ret qc|v]; simpl in Hpost.
  - destruct Hpost as [Hinv1 _].
    destruct (dio_end_core (iocb_flag IOCB_HIPRI st) ret qc st1 Hinv1)
      as (v & st2 & He & Hinv2 & (Hs2 & _) & Hq2).
    rewrite Hs1, Hs in He. rewrite He.
    exists v, st2. split; [done|]. right. split_and!; [done|congruence|].
    intros E. apply Hq2. congruence.
  - destruct Hpost as (-> & ? & ? & ?). eexists _, _. split; [done|]. by left.
Qed.

(** The value [__blkdev_direct_IO] returns after the wait, lines 327-330. *)
Definition dio_result (ret : Z) (st : state) : Z :=
  let ret :=
    if ret =? 0
    then blk_status_to_errno (bi_status (bio_at (dio_bio (st_dio st)) st))
    else ret in
  if ret =? 0 then wrap_s 32 (dio_size (st_dio st)) else ret.

Lemma dio_end_run is_poll ret qc st :
  done_inv st ->
  let st1 := if negb is_poll then blk_finish_plug st else st in
  is_sync (st_dio st) = false /\
    dio_end (is_sync (st_dio st)) is_poll ret qc st
      = Some (- EIOCBQUEUED, st1) \/
  is_sync (st_dio st) = true /\
    exists st2,
      dio_wait (wait_fuel st1) qc st1 = Some st2 /\
      st_queue st2 = [] /\ done_inv st2 /\
      dio_end (is_sync (st_dio st)) is_poll ret qc st
        = Some (dio_result ret st2, bio_put (dio_bio (st_dio st2)) st2).
Proof.
  intros Hinv st1. unfold dio_end. fold st1.
  assert (done_inv st1 /\ st_dio st1 = st_dio st) as (Hinv1 & Hd1).
  { unfold st1. destruct (negb is_poll); [|done].
    split; [by apply done_inv_log|done]. }
  destruct (is_sync (st_dio st)) eqn:Es; cbn [negb]; cbn beta iota.
  2: { by left. }
  right. split; [done|].
  destruct (dio_wait_total (wait_fuel st1) qc st1)
    as (st2 & Hw & Hinv2 & Hq2 & Hfr2); [done|congruence|unfold wait_fuel; lia|].
  exists st2. rewrite Hw. done.
Qed.

Lemma direct_IO_run nr st :
  fresh st -> iov_iter_count (st_iter st) <= MAX_RW_COUNT ->
  dio_misaligned (ki_pos (st_iocb st)) (st_iter st)
    (I_BDEV (bdev_file_inode (ki_filp (st_iocb st)))) = false ->
  let read :=
    match iov_iter_rw (st_iter st) with READ => true | WRITE => false end in
  let sync := is_sync_kiocb (st_iocb st) in
  let bio0 := (dio_begin nr st).1 in
  let st0 := (dio_begin nr st).2 in
  loop_inv st0 /\ bio0 = (length (st_bios st0) - 1)%nat /\
  exists r1 st1,
    dio_submit_loop (submit_fuel st0) read sync bio0
      (ki_pos (st_iocb st)) st0 = Some (r1, st1) /\
    loop_post r1 st1 /\ request_static st0 st1 /\
    is_sync (st_dio st1) = sync /\
    __blkdev_direct_IO nr st =
      match r1 with
      | loop_return v => Some (v, st1)
      | loop_break ret qc =>
          dio_end (is_sync (st_dio st1)) (iocb_flag IOCB_HIPRI st) ret qc st1
      end.
Proof.
  intros Hfr Hc Hal read sync bio0 st0.
  destruct (dio_begin_core nr st Hfr Hc) as (Hinv & Hb & Hi & Hs).
  fold st0 in Hinv, Hb, Hi, Hs. fold bio0 in Hb.
  split_and!; [done|done|].
  destruct (dio_submit_loop_core (submit_fuel st0) read sync bio0
              (ki_pos (st_iocb st)) st0 Hinv Hb) as (r & st1 & Hl & Hpost).
  { unfold submit_fuel. lia. }
  pose proof (dio_submit_loop_static _ _ _ _ _ _ _ _ Hinv Hb Hl) as Hst.
  exists r, st1. split_and!; try done.
  - destruct Hst as (-> & _). done.
  - unfold __blkdev_direct_IO. rewrite Hal.
    unfold st0, bio0, read, sync in Hl.
    destruct (dio_begin nr st) as [b0 s0]. cbn [fst snd] in Hl.
    rewrite Hl.
    destruct r; [|done]. destruct Hst as (-> & _). by rewrite Hs.
Qed.

Lemma device_run_idle cs st : st_queue st = [] -> device_run cs st = st.
Proof.
  intros Hq. unfold device_run.
  induction cs as [|c cs IH]; simpl; [done|].
  rewrite device_complete_eq, Hq. rewrite decide_False; [done|].
  apply not_elem_of_nil.
Qed.

End submission.

(** The page iterator keeps the contract of the capability. *)
Lemma page_iov_iter_laws : @IovIterLaws page_iov_iter.
Proof.
  split.
  - intros i. simpl. lia.
  - intros m i. simpl. unfold page_iter_get_pages.
    case_match; simpl; lia.
  - intros m i. simpl. unfold page_iter_get_pages.
    destruct (_ || _) eqn:E; simpl; [lia|].
    intros _. apply orb_false_iff in E as [E _].
    apply orb_false_iff in E as [E1 E2].
    apply Z.leb_gt in E1, E2. lia.
Qed.

Lemma linux_headers_laws : @KernelHeadersLaws linux_headers.
Proof.
  split; simpl; [done|done| |done|done].
  intros s Hs. destruct (s =? 0) eqn:E; [apply Z.eqb_eq in E; lia|].
  repeat case_match; lia.
Qed.

Section byte_total.
Context `{KH : KernelHeaders} `{IT : IovIter}
  {KHL : KernelHeadersLaws} {ITL : IovIterLaws}.

(** ** The byte total

    While the loop runs the byte total is the sum of the sizes of the bios
    submitted so far, and with the bytes the iterator still holds it stays
    within the [C0] bytes of the request. *)
Definition size_inv (C0 : Z) (st : state) : Prop :=
  dio_size (st_dio st) = submitted_bytes (st_trace st) /\
  0 <= dio_size (st_dio st) /\
  dio_size (st_dio st) + iov_iter_count (st_iter st) <= C0.

Definition size_done (C0 : Z) (st : state) : Prop :=
  dio_size (st_dio st) = submitted_bytes (st_trace st) /\
  0 <= dio_size (st_dio st) <= C0.

(** What [ki_complete] was told is an error or the byte total. *)
Definition report_inv (st : state) : Prop :=
  forall v, EvKiComplete v ∈ st_trace st ->
    v < 0 \/ v = dio_size (st_dio st).

Lemma size_done_static C0 st st' :
  static st st' -> size_done C0 st -> size_done C0 st'.
Proof.
  intros (_ & _ & _ & _ & (_ & _ & _ & Hs & _) & _ & Hb).
  unfold size_done. by rewrite Hs, Hb.
Qed.

Lemma no_finals_no_complete tr v :
  finals tr = [] -> EvKiComplete v ∉ tr.
Proof.
  intros Hf Hin. apply list_elem_of_In in Hin.
  assert (In (EvKiComplete v) (finals tr)) as H.
  { apply filter_In. by split. }
  rewrite Hf in H. done.
Qed.

Lemma report_inv_no_finals st : finals (st_trace st) = [] -> report_inv st.
Proof. intros Hf v Hin. by apply no_finals_no_complete in Hin. Qed.

Lemma report_inv_end_io b st :
  report_inv st -> report_inv (blkdev_bio_end_io b st).
Proof.
  unfold report_inv. intros H v. unfold_ops.
  repeat case_match; simplify_eq; simpl; rewrite ?elem_of_cons;
    intros Hin; destruct_or?; simplify_eq; auto;
    left; apply blk_status_to_errno_neg; by apply Z.eqb_neq.
Qed.

Lemma report_inv_endio b st : report_inv st -> report_inv (bio_endio b st).
Proof.
  intros H. unfold bio_endio. case_match; [done| |by apply report_inv_end_io].
  intros v. unfold blkdev_bio_end_io_simple, blk_wake_io_task; simpl.
  rewrite elem_of_cons. intros [?|?]; [done|by apply H].
Qed.

Lemma byte_stable C0 :
  stable (fun st => size_done C0 st /\ report_inv st).
Proof.
  split; [|done].
  intros st c Hin [Hs Hr].
  destruct (device_pick_frame st c) as (_ & _ & Ht & Hd & Hst).
  destruct (bio_endio_frame c.1 (device_pick st c)) as (_ & _ & Hst').
  split.
  - eapply size_done_static; [|exact Hs]. by eapply static_trans.
  - apply report_inv_endio. unfold report_inv. by rewrite Ht, Hd.
Qed.

(** The loop keeps [size_inv] and leaves with [size_done]. *)
Lemma dio_iterate_size C0 is_read is_sync bio pos st :
  C0 <= MAX_RW_COUNT ->
  loop_inv st -> bio = (length (st_bios st) - 1)%nat -> size_inv C0 st ->
  match dio_iterate is_read is_sync bio pos st with
  | inl (_, _, st') => size_inv C0 st'
  | inr (_, st') => size_done C0 st' /\ report_inv st'
  end.
Proof.
  intros HC0 Hinv Hb (Hsz & Hnn & Hle).
  assert (bio < length (st_bios st))%nat as Hlt.
  { destruct Hinv as (_ & (_ & ? & _) & _). lia. }
  assert (finals (st_trace st) = []) as Hnf.
  { destruct Hinv as ((_ & (_ & _ & _ & Hf & _)) & _).
    rewrite Nat.add_1_r in Hf. by apply nil_length_inv. }
  pose proof (dio_iterate_cases is_read is_sync bio pos st) as Hcases.
  destruct (dio_fill bio pos st) as [ret st1] eqn:Ef.
  cbn [fst snd] in Hcases.
  destruct (dio_fill_spec _ _ _ _ _ Ef Hlt)
    as (Hq1 & Hs1 & Hd1 & Hk1 & Ht1 & Hh1 & _ & _ & Hl1 & _ & _).
  destruct (fill_laws _ _ _ _ _ Ef Hlt) as (Hret & Hc1 & Hadv).
  pose proof (iov_iter_count_nonneg (st_iter st)) as Hc0.
  destruct (dio_account_spec is_read bio st1)
    as (Hq2 & _ & Hi2 & Hk2 & _ & _ & _ & Hz2 & Hl2 & Hf2 & Hb2 & _ & Hd2).
  set (st2 := dio_account is_read bio st1) in *.
  assert (finals (st_trace st1) = []) as Hnf1.
  { rewrite Ht1. unfold finals; simpl. exact Hnf. }
  assert (submitted_bytes (st_trace st1) = submitted_bytes (st_trace st))
    as Hb1 by (by rewrite Ht1).
  destruct Hcases as [(Hr & ->)|[(Hr & _ & _ & ->)|[(Hr & ->)|(Hr & ->)]]].
  - unfold dio_fail.
    set (sF := upd_bio bio (set_bi_status BLK_STS_IOERR) st1).
    destruct (bio_endio_frame bio sF) as (_ & _ & Hst).
    split.
    + eapply size_done_static; [exact Hst|].
      unfold size_done, sF; simpl. rewrite Hd1, Hb1. lia.
    + apply report_inv_endio, report_inv_no_finals. exact Hnf1.
  - destruct (dio_nowait_abort_frame bio st1)
      as (_ & _ & Hd & _ & _ & Hf & Hb').
    split.
    + unfold size_done. rewrite Hd, Hb', Hd1, Hb1. lia.
    + apply report_inv_no_finals. by rewrite Hf.
  - destruct (Hadv Hr) as [Hsz1 Hcnt1].
    rewrite dio_submit_last_eq. cbn beta iota zeta. cbn [snd].
    set (sP := if iocb_flag IOCB_HIPRI st2 then _ else st2).
    assert (st_dio sP = st_dio st2 /\ st_trace sP = st_trace st2 /\
            map bi_size (st_bios sP) = map bi_size (st_bios st2))
      as (HdP & HtP & HzP).
    { unfold sP. destruct (iocb_flag IOCB_HIPRI st2); [|done].
      destruct (bio_set_polled_frame bio st2)
        as (_ & _ & _ & _ & ? & ? & _ & _ & _ & ? & _). done. }
    assert (size_done C0 (enqueue bio sP) /\ report_inv (enqueue bio sP))
      as HP.
    { split.
      - assert (dio_size (st_dio (enqueue bio sP))
                = dio_size (st_dio st) + bi_size (bio_at bio st1)) as Hx.
        { unfold enqueue; simpl. rewrite HdP, Hd2. simpl.
          rewrite wrap_u_small; unfold MAX_RW_COUNT in *; rewrite Hd1; lia. }
        assert (submitted_bytes (st_trace (enqueue bio sP))
                = bi_size (bio_at bio st1)
                  + submitted_bytes (st_trace st)) as Hy.
        { unfold enqueue; simpl. rewrite HtP, Hb2, Hb1.
          by rewrite !size_of_bio_at, HzP, Hz2. }
        unfold size_done. rewrite Hx, Hy. lia.
      - apply report_inv_no_finals. unfold enqueue, finals; simpl.
        fold (finals (st_trace sP)). by rewrite HtP, Hf2. }
    apply (stable_yield _ _ (byte_stable C0)) in HP.
    by destruct (iocb_flag IOCB_HIPRI st2).
  - destruct (Hadv Hr) as [Hsz1 Hcnt1].
    destruct (dio_ref_up_spec is_sync bio st2)
      as (_ & _ & Hi3 & _ & Ht3 & _ & _ & Hz3 & _ & (_ & _ & _ & Hd3 & _) & _).
    set (sR := dio_ref_up is_sync bio st2) in *.
    cbn [dio_size set_multi_bio] in Hd3.
    destruct (device_yield_frame (enqueue bio sR))
      as (_ & _ & _ & _ & (Hi4 & _ & _ & _ & (_ & _ & _ & Hd4 & _) & _ & Hb4)).
    set (s4 := device_yield (enqueue bio sR)) in *.
    destruct (bio_alloc_spec
                (bio_iov_vecs_to_alloc (st_iter st2) BIO_MAX_VECS) s4)
      as (_ & _ & _ & Hi5 & _ & Ht5 & Hd5 & _).
    unfold size_inv. rewrite Hd5, Ht5, Hi5, Hd4, Hb4, Hi4.
    assert (dio_size (st_dio (enqueue bio sR))
            = dio_size (st_dio st) + bi_size (bio_at bio st1)) as ->.
    { unfold enqueue; simpl. rewrite Hd3, Hd2. simpl.
      rewrite wrap_u_small; unfold MAX_RW_COUNT in *; rewrite Hd1; lia. }
    assert (submitted_bytes (st_trace (enqueue bio sR))
            = bi_size (bio_at bio st1) + submitted_bytes (st_trace st)) as ->.
    { unfold enqueue; simpl. rewrite Ht3, Hb2, Hb1.
      by rewrite !size_of_bio_at, Hz3, Hz2. }
    assert (st_iter (enqueue bio sR) = st_iter st1) as ->.
    { unfold enqueue; simpl. by rewrite Hi3, Hi2. }
    lia.
Qed.

End byte_total.

Section page_failure.
Context `{KH : KernelHeaders} `{IT : IovIter}
  {KHL : KernelHeadersLaws} {ITL : IovIterLaws}.

(** ** A request that recorded an error

    The status kept in the dio's bio is not ok, and every finalization so
    far woke the waiter of a synchronous request or reported a negative
    errno to the kiocb of an asynchronous one. *)
Definition final_is_error (sync : bool) (e : event) : Prop :=
  if sync then e = EvWake else exists v, e = EvKiComplete v /\ v < 0.

Definition failed_inv (st : state) : Prop :=
  bi_status (bio_at (dio_bio (st_dio st)) st) <> 0 /\
  (dio_bio (st_dio st) < length (st_bios st))%nat /\
  Forall (final_is_error (is_sync (st_dio st))) (finals (st_trace st)).

(** [blkdev_bio_end_io] after lines 157-158. *)
Definition end_io_tail (bio : nat) (should_dirty : bool) (st : state)
    : state :=
  let '(last, st) :=
    if negb (multi_bio (st_dio st)) then (true, st)
    else atomic_dec_and_test_ref st in
  let st := if last then dio_finalize st else st in
  if should_dirty then bio_check_pages_dirty bio st
  else
    let st := bio_release_pages bio false st in
    bio_put bio st.

Lemma blkdev_bio_end_io_eq bio st :
  blkdev_bio_end_io bio st
  = end_io_tail bio (should_dirty (st_dio st)) (dio_record_status bio st).
Proof. done. Qed.

Lemma end_io_tail_failed bio sd st :
  failed_inv st -> failed_inv (end_io_tail bio sd st).
Proof.
  intros (Hs & Hl & Hf). unfold failed_inv.
  assert (statuses (end_io_tail bio sd st) = statuses st /\
          dio_bio (st_dio (end_io_tail bio sd st)) = dio_bio (st_dio st) /\
          is_sync (st_dio (end_io_tail bio sd st)) = is_sync (st_dio st) /\
          length (st_bios (end_io_tail bio sd st)) = length (st_bios st))
    as (Hst & -> & -> & ->).
  { unfold end_io_tail, statuses. unfold_ops.
    repeat case_match; simplify_eq; simpl;
      rewrite ?length_alter, ?(map_alter_same bi_status) by done; done. }
  rewrite !status_of_bio_at, Hst, <- !status_of_bio_at.
  split_and!; [done|done|].
  revert Hf. unfold end_io_tail. unfold_ops.
  repeat case_match; simplify_eq; simpl; try done;
    try (match goal with
         | H : (bi_status _ =? 0) = true |- _ =>
             apply Z.eqb_eq in H; exfalso; exact (Hs H)
         end);
    intros Hf; try (constructor; [|done]);
    unfold final_is_error; simpl in *;
    repeat match goal with
           | H : negb ?b = _ |- _ => destruct b eqn:?; simpl in H; try done
           end;
    try done;
    eexists; (split; [done|]);
    apply blk_status_to_errno_neg; by apply Z.eqb_neq.
Qed.

Lemma record_status_failed bio st :
  (dio_bio (st_dio st) < length (st_bios st))%nat ->
  bi_status (bio_at bio st) <> 0 \/
    bi_status (bio_at (dio_bio (st_dio st)) st) <> 0 ->
  bi_status (bio_at (dio_bio (st_dio (dio_record_status bio st)))
               (dio_record_status bio st)) <> 0 /\
  st_dio (dio_record_status bio st) = st_dio st /\
  st_trace (dio_record_status bio st) = st_trace st /\
  length (st_bios (dio_record_status bio st)) = length (st_bios st).
Proof.
  intros Hl Hs. unfold dio_record_status.
  destruct (bi_status (bio_at (dio_bio (st_dio st)) st) =? 0) eqn:E0.
  - apply Z.eqb_eq in E0. destruct Hs as [Hs|Hs]; [|done].
    apply Z.eqb_neq in Hs as Hs'. rewrite Hs'. simpl.
    rewrite bio_at_upd_bio_eq, length_alter by done. done.
  - rewrite andb_false_r. split_and!; try done. by apply Z.eqb_neq.
Qed.

Lemma end_io_failed bio st :
  (dio_bio (st_dio st) < length (st_bios st))%nat ->
  bi_status (bio_at bio st) <> 0 \/
    bi_status (bio_at (dio_bio (st_dio st)) st) <> 0 ->
  Forall (final_is_error (is_sync (st_dio st))) (finals (st_trace st)) ->
  failed_inv (blkdev_bio_end_io bio st).
Proof.
  intros Hl Hs Hf. rewrite blkdev_bio_end_io_eq.
  destruct (record_status_failed bio st Hl Hs) as (Hs1 & Hd1 & Ht1 & Hl1).
  apply end_io_tail_failed. unfold failed_inv.
  rewrite Ht1, Hl1. rewrite Hd1 in Hs1 |- *. done.
Qed.

Lemma failed_done_stable :
  stable (fun st => done_inv st /\ failed_inv st).
Proof.
  split; [|done].
  intros st c Hin [Hdone (Hs & Hl & Hf)].
  split; [by apply done_inv_stable|].
  destruct Hdone as ((Hh & _) & _).
  destruct (device_pick_frame st c) as (_ & _ & Ht & Hd & Hst).
  pose proof (static_bios_length _ _ Hst) as Hlen.
  destruct Hst as (_ & _ & Hk & _).
  unfold bio_endio. rewrite hook_of_bio_at, Hk, (Hh _ Hin). simpl.
  apply end_io_failed; rewrite ?Hd, ?Hlen, ?Ht; try done.
  right. unfold device_pick.
  destruct (c.2 =? 0) eqn:E; [done|]. apply Z.eqb_neq in E.
  destruct (decide (c.1 = dio_bio (st_dio st))) as [->|Hne].
  - rewrite bio_at_upd_bio_eq by done. done.
  - by rewrite bio_at_upd_bio_ne.
Qed.

(** A run that reaches turn [n] and leaves the loop there. *)
Lemma dio_turn_exit n is_read is_sync fuel bio pos st b p s x r st' :
  dio_turn n is_read is_sync bio pos st = Some (b, p, s) ->
  dio_iterate is_read is_sync b p s = inr x ->
  dio_submit_loop fuel is_read is_sync bio pos st = Some (r, st') ->
  x = (r, st').
Proof.
  revert fuel bio pos st.
  induction n as [|n IH]; intros [|fuel] bio pos st Ht Hi Hl; try done;
    simpl in Ht, Hl.
  - simplify_eq. rewrite Hi in Hl. by simplify_eq.
  - destruct (dio_iterate is_read is_sync bio pos st)
      as [[[b1 p1] s1]|?]; [|done].
    by eapply IH.
Qed.

End page_failure.





Section sticky_status.
Context `{KH : KernelHeaders} `{IT : IovIter} {ITL : IovIterLaws}.

(** The status recorded for the request: [dio->bio.bi_status]. *)
Definition sticky (st : state) : Z :=
  bi_status (bio_at (dio_bio (st_dio st)) st).

(** No bio in flight, the dio's own apart, carries a status yet. *)
Definition status_clean (st : state) : Prop :=
  forall b, b ∈ st_queue st -> b <> dio_bio (st_dio st) ->
    bi_status (bio_at b st) = 0.

Lemma end_io_tail_statuses bio sd st :
  statuses (end_io_tail bio sd st) = statuses st /\
  dio_bio (st_dio (end_io_tail bio sd st)) = dio_bio (st_dio st).
Proof.
  unfold end_io_tail, statuses. unfold_ops.
  repeat case_match; simplify_eq; simpl;
    rewrite ?(map_alter_same bi_status) by done; done.
Qed.









End sticky_status.

Section enqueue_states.
Context `{KH : KernelHeaders} `{IT : IovIter} {ITL : IovIterLaws}.

(** The state in which a bio that is not the last is handed to the device. *)
Lemma continue_enqueue is_sync bio st :
  filled bio st -> Z.of_nat (length (st_queue st)) <= MAX_RW_COUNT ->
  dio_inv 1 (enqueue bio (dio_ref_up is_sync bio st)) /\
  dio_wf 0 (enqueue bio (dio_ref_up is_sync bio st)).
Proof.
  intros (Hh2 & Hc2 & Hwf2 & Hb2 & Hm2) Hbound.
  destruct (dio_ref_up_spec is_sync bio st)
    as (Hq3 & _ & Hi3 & Hk3 & _ & Hh3 & _ & _ & Hl3 & Hd3 & _ & _).
  pose proof (ref_up_count (length (st_queue st) + 1) is_sync bio st) as Hc3.
  set (st3 := dio_ref_up is_sync bio st) in *.
  split.
  - apply enqueue_inv; rewrite ?Hq3, ?Hh3; [done|].
    replace (length (st_queue st) + 1 + 1)%nat
      with (S (length (st_queue st) + 1)) by lia.
    apply Hc3; [|done|lia]. unfold MAX_RW_COUNT in Hbound. lia.
  - apply enqueue_wf; [|by rewrite Hl3].
    destruct Hwf2 as (? & ? & ? & ?), Hd3 as (_ & _ & Hdb & _).
    unfold dio_wf. rewrite Hq3, Hl3, Hdb. done.
Qed.

(** The state in which the last bio is handed to the device. *)
Lemma last_enqueue bio st :
  filled bio st ->
  done_inv (enqueue bio (if iocb_flag IOCB_HIPRI st
                         then bio_set_polled bio st else st)).
Proof.
  intros (Hh & Hc & Hwf & Hb & Hm).
  destruct (iocb_flag IOCB_HIPRI st); [|by apply done_inv_enqueue].
  destruct (bio_set_polled_frame bio st)
    as (Hq & _ & _ & _ & Hdio & Ht & Hk & _ & _ & _ & Hl).
  apply done_inv_enqueue; rewrite ?Hq, ?Hk, ?Hl, ?Hdio; try done.
  - unfold dio_count. by rewrite Hdio, Ht.
  - unfold dio_wf. by rewrite Hdio, Hq, Hl.
Qed.

Lemma filled_hook bio st : filled bio st -> hooks st !! bio = Some end_io_dio.
Proof.
  intros (Hh & _). apply Hh, elem_of_app. right.
  by apply list_elem_of_singleton.
Qed.

Lemma dio_fail_eq bio st :
  filled bio st ->
  dio_fail bio st
  = blkdev_bio_end_io bio (upd_bio bio (set_bi_status BLK_STS_IOERR) st).
Proof.
  intros Hf. unfold dio_fail, bio_endio.
  rewrite hook_of_bio_at.
  assert (hooks (upd_bio bio (set_bi_status BLK_STS_IOERR) st) = hooks st)
    as ->.
  { unfold hooks; simpl. by rewrite map_alter_same. }
  by rewrite (filled_hook _ _ Hf).
Qed.

End enqueue_states.

Section status_pass.
Context `{KH : KernelHeaders} `{IT : IovIter} {ITL : IovIterLaws}.










Lemma status_clean_log e st : status_clean st -> status_clean (log e st).
Proof. done. Qed.


End status_pass.

(** * The claims *)

(** C1. A request split into more than one Segment is finalized exactly
    once, whatever the order in which the device completes its Segments:
    [__blkdev_direct_IO] returns, and whenever it has created at least
    two bios, then after any further completions [cs] the trace holds one
    finalization (a [ki_complete] call or a wake-up of the waiter) if no
    Segment is left in flight, and none yet otherwise.  The schedule of
    the device during submission is arbitrary, as is [cs]. *)
Theorem finalization_exactly_once `{KH : KernelHeaders} `{IT : IovIter}
    {ITL : IovIterLaws} (nr_pages : Z) (st : state) :
  fresh st ->
  iov_iter_count (st_iter st) <= MAX_RW_COUNT ->
  exists r st',
    __blkdev_direct_IO nr_pages st = Some (r, st') /\
    ((2 <= length (st_bios st'))%nat ->
     forall cs,
       length (finals (st_trace (device_run cs st'))) =
         match st_queue (device_run cs st') with
         | [] => 1%nat
         | _ => 0%nat
         end).
Proof.
  intros Hfr Hc.
  destruct (dio_misaligned (ki_pos (st_iocb st)) (st_iter st)
              (I_BDEV (bdev_file_inode (ki_filp (st_iocb st))))) eqn:Hal.
  { exists (- EINVAL), st. unfold __blkdev_direct_IO. rewrite Hal.
    split; [done|]. destruct Hfr as (-> & _). simpl. lia. }
  destruct (direct_IO_core nr_pages st Hfr Hc Hal)
    as (r & st' & Hrun & [(_ & Hone & _ & _)|(Hinv & _)]);
    exists r, st'; (split; [done|]); [lia|].
  intros _ cs.
  apply (stable_run _ cs _ done_inv_stable) in Hinv.
  destruct Hinv as ((_ & (_ & _ & _ & Hf & _)) & _).
  rewrite Hf, Nat.add_0_r. by destruct (st_queue _).
Qed.

(** C10. A request whose iterator has no bytes left returns 0 at once,
    before the alignment test and before any bio exists: the state is
    untouched, whatever the offset, so also when the offset is not a
    multiple of the logical block size. *)
Theorem zero_length_request_succeeds `{KH : KernelHeaders} `{IT : IovIter}
    (st : state) :
  iov_iter_count (st_iter st) = 0 ->
  blkdev_direct_IO st = Some (0, st).
Proof. intros Hc. unfold blkdev_direct_IO. by rewrite Hc. Qed.

Section alignment.
Context `{KH : KernelHeaders} `{IT : IovIter}.

Lemma land_low_bits x k :
  0 <= k < 32 ->
  Z.land (wrap_u 64 x) (wrap_u 32 (2 ^ k - 1)) = x mod 2 ^ k.
Proof.
  intros Hk. unfold wrap_u.
  assert (0 < 2 ^ k <= 2 ^ 31) as Hp.
  { split; [apply Z.pow_pos_nonneg; lia|].
    apply Z.pow_le_mono_r; lia. }
  rewrite (Z.mod_small (2 ^ k - 1)) by lia.
  replace (2 ^ k - 1) with (Z.ones k) by (rewrite Z.ones_equiv; lia).
  rewrite Z.land_ones by lia.
  apply Z.mod_mod_divide.
  exists (2 ^ (64 - k)). rewrite <- Z.pow_add_r by lia. f_equal. lia.
Qed.

Lemma lor_low_bits x y k :
  0 <= k -> Z.lor x y mod 2 ^ k = Z.lor (x mod 2 ^ k) (y mod 2 ^ k).
Proof.
  intros Hk. rewrite <- !Z.land_ones by done. apply Z.land_lor_distr_l.
Qed.

(** The alignment test fires exactly when the offset or the iterator's
    alignment has a bit set below the block size. *)
Lemma dio_misaligned_iff pos iter bdev k :
  0 <= k < 32 -> bdev_logical_block_size bdev = 2 ^ k ->
  dio_misaligned pos iter bdev = true <->
  pos mod 2 ^ k <> 0 \/ iov_iter_alignment iter mod 2 ^ k <> 0.
Proof.
  intros Hk Hbs. unfold dio_misaligned.
  rewrite Hbs, land_low_bits, lor_low_bits by lia.
  rewrite negb_true_iff, Z.eqb_neq, Z.lor_eq_0_iff.
  destruct (decide (pos mod 2 ^ k = 0)),
    (decide (iov_iter_alignment iter mod 2 ^ k = 0)); tauto.
Qed.

End alignment.

(** C6. With a logical block size [2 ^ k], a request whose offset or whose
    iterator alignment (the OR of the addresses and lengths of its
    buffers) is not a multiple of the block size is refused with [-EINVAL]
    by the general path, by the simple path, and, when it is not empty,
    by the entry point; the state comes back unchanged, so no bio was
    built or submitted and nothing else happened. *)
Theorem misaligned_request_rejected `{KH : KernelHeaders} `{IT : IovIter}
    (nr_pages k : Z) (st : state) :
  0 <= k < 32 ->
  bdev_logical_block_size
    (I_BDEV (bdev_file_inode (ki_filp (st_iocb st)))) = 2 ^ k ->
  ki_pos (st_iocb st) mod 2 ^ k <> 0 \/
    iov_iter_alignment (st_iter st) mod 2 ^ k <> 0 ->
  __blkdev_direct_IO nr_pages st = Some (- EINVAL, st) /\
  __blkdev_direct_IO_simple nr_pages st = Some (- EINVAL, st) /\
  (iov_iter_count (st_iter st) <> 0 ->
   blkdev_direct_IO st = Some (- EINVAL, st)).
Proof.
  intros Hk Hbs Hmis.
  apply (dio_misaligned_iff _ _ _ k Hk Hbs) in Hmis.
  assert (forall n, __blkdev_direct_IO n st = Some (- EINVAL, st)) as Hg.
  { intros n. unfold __blkdev_direct_IO. by rewrite Hmis. }
  assert (forall n, __blkdev_direct_IO_simple n st = Some (- EINVAL, st)) as Hs.
  { intros n. unfold __blkdev_direct_IO_simple. by rewrite Hmis. }
  split_and!; [done|done|].
  intros Hc. unfold blkdev_direct_IO.
  apply Z.eqb_neq in Hc. rewrite Hc. by case_match.
Qed.

Section nowait.
Context `{KH : KernelHeaders} `{IT : IovIter}.

Lemma alter_last (f : bio -> bio) (l : list bio) (x : bio) :
  alter f (length l) (l ++ [x]) = l ++ [f x].
Proof.
  induction l as [|y l IH]; simpl; [done|]. f_equal. apply IH.
Qed.

Lemma lookup_last (l : list bio) (x : bio) :
  (l ++ [x]) !! length l = Some x.
Proof. induction l as [|y l IH]; simpl; done. Qed.

End nowait.

(** C2 (as amended). A well-aligned request with [IOCB_NOWAIT] whose
    first bio gets its pages and whose iterator still holds bytes after
    that bio was filled is given up before anything is submitted:
    [__blkdev_direct_IO] returns [-EAGAIN]; since the call it has only
    taken the pages, released them without marking them dirty, freed the
    bio and closed the plug; the bio is freed, the device queue, the kiocb
    and the bytes queued are what they were, and the byte total is zero. *)
Theorem nowait_multi_segment_aborts `{KH : KernelHeaders} `{IT : IovIter}
    (nr_pages : Z) (st : state) :
  let b := length (st_bios st) in
  let r := iter_get_pages nr_pages (st_iter st) in
  dio_misaligned (ki_pos (st_iocb st)) (st_iter st)
    (I_BDEV (bdev_file_inode (ki_filp (st_iocb st)))) = false ->
  iocb_flag IOCB_NOWAIT st = true ->
  r.1.1 = 0 ->
  iov_iter_count r.2 <> 0 ->
  exists st',
    __blkdev_direct_IO nr_pages st = Some (- EAGAIN, st') /\
    st_trace st' =
      [EvFinishPlug; EvFree b; EvReleasePages b false; EvGetPages b 0]
      ++ (if iocb_flag IOCB_HIPRI st then [] else [EvStartPlug])
      ++ st_trace st /\
    bi_freed (bio_at b st') = true /\
    st_queue st' = st_queue st /\
    submitted_bytes (st_trace st') = submitted_bytes (st_trace st) /\
    dio_size (st_dio st') = 0 /\
    st_iocb st' = st_iocb st.
Proof.
  intros b r. subst b r. intros Hal Hnw Hret Hcnt.
  apply Z.eqb_neq in Hcnt.
  unfold __blkdev_direct_IO. rewrite Hal.
  unfold dio_begin, bio_alloc_kiocb, bio_new, submit_fuel.
  cbn beta iota zeta.
  cbn [dio_submit_loop]. unfold dio_iterate at 1.
  unfold dio_fill, bio_iov_iter_get_pages, dio_nowait_abort,
    bio_release_pages, bio_clear_flag_REFFED, bio_put, bio_free,
    blk_finish_plug, bio_get, blk_start_plug, iocb_flag in *.
  destruct (is_sync_kiocb (st_iocb st)),
    (negb (Z.land (ki_flags (st_iocb st)) IOCB_HIPRI =? 0)); simpl;
    unfold bio_at; simpl;
    rewrite ?alter_last, ?lookup_last; simpl;
    rewrite Hret; simpl;
    rewrite ?alter_last, ?lookup_last; simpl;
    rewrite Hnw, Hcnt; simpl;
    rewrite ?alter_last, ?lookup_last; simpl;
    (eexists; split; [reflexivity|]); simpl;
    rewrite ?alter_last, ?lookup_last; done.
Qed.

Section simple_path.
Context `{KH : KernelHeaders} `{IT : IovIter}.

(** While the simple path waits, its bio is either in flight with the
    task still recorded, or completed with the record cleared; the dio
    and the page storage of the bios are not touched. *)
Definition simple_inv (bio : nat) (d0 : blkdev_dio) (v0 : list vec_storage)
    (st : state) : Prop :=
  st_dio st = d0 /\ map bi_io_vec (st_bios st) = v0 /\
  (st_queue st = [bio] /\ bi_private (bio_at bio st) = private_task /\
   hooks st !! bio = Some end_io_simple \/
   st_queue st = [] /\ bi_private (bio_at bio st) = private_null).

Lemma simple_inv_stable bio d0 v0 : stable (simple_inv bio d0 v0).
Proof.
  split; [|done].
  intros st c Hin (Hd & Hv & [(Hq & Hp & Hh)|(Hq & Hp)]).
  2: { rewrite Hq in Hin. by apply elem_of_nil in Hin. }
  rewrite Hq in Hin. apply list_elem_of_singleton in Hin.
  destruct (device_pick_frame st c) as (Hq1 & _ & _ & Hd1 & Hst1).
  destruct Hst1 as (_ & _ & Hk1 & _).
  assert (map bi_io_vec (st_bios (device_pick st c)) = v0) as Hv1.
  { rewrite <- Hv. unfold device_pick. case_match; simpl; [done|].
    by rewrite map_alter_same. }
  assert (bio < length (st_bios (device_pick st c)))%nat as Hlt.
  { rewrite <- hooks_length, Hk1. by eapply lookup_lt_Some. }
  unfold bio_endio. rewrite hook_of_bio_at, Hk1, Hin, Hh. simpl.
  unfold blkdev_bio_end_io_simple, blk_wake_io_task, simple_inv.
  change (bio_at bio (log ?e ?s)) with (bio_at bio s).
  rewrite bio_at_upd_bio_eq by done. simpl.
  rewrite map_alter_same by done.
  split_and!; [congruence|done|]. right.
  rewrite Hq1, Hq, Hin. simpl. by rewrite decide_True.
Qed.

Lemma simple_wait_total bio d0 v0 fuel qc st :
  simple_inv bio d0 v0 st ->
  (length (st_sched st) + length (st_queue st) < fuel)%nat ->
  exists st', simple_wait fuel bio qc st = Some st' /\
    simple_inv bio d0 v0 st' /\ st_queue st' = [] /\
    length (st_bios st') = length (st_bios st).
Proof.
  revert st. induction fuel as [|fuel IH]; intros st Hinv Hfuel; [lia|].
  simpl. pose proof Hinv as (_ & _ & [(Hq & -> & _)|(Hq & ->)]).
  2: { by exists st. }
  destruct (IH (poll_or_sleep qc st)) as (st' & Hw & Hi & Hq' & Hl).
  - by apply stable_poll_or_sleep; [apply simple_inv_stable|].
  - assert (st_queue st <> []) as Hne by (by rewrite Hq).
    pose proof (poll_or_sleep_progress qc st Hne). lia.
  - exists st'. split_and!; try done. rewrite Hl.
    destruct (poll_or_sleep_frame qc st) as (_ & _ & _ & _ & Hst).
    by apply static_bios_length.
Qed.

(** What the simple path leaves behind: the dio as it was, and the bios as
    they were when it refuses the request or finds no memory for the page
    array; otherwise one more bio, whose page array is the inline one when
    [nr_pages] is at most [DIO_INLINE_BIO_VECS] and comes from the heap
    otherwise. *)
Lemma simple_path_spec nr_pages st :
  st_queue st = [] ->
  exists r st',
    __blkdev_direct_IO_simple nr_pages st = Some (r, st') /\
    st_dio st' = st_dio st /\ st_queue st' = [] /\
    if dio_misaligned (ki_pos (st_iocb st)) (st_iter st)
         (I_BDEV (bdev_file_inode (ki_filp (st_iocb st))))
    then r = - EINVAL /\ st' = st
    else if negb (nr_pages <=? DIO_INLINE_BIO_VECS)
            && negb (st_kmalloc_ok st)
    then r = - ENOMEM /\ st' = st
    else
      map bi_io_vec (st_bios st') =
        map bi_io_vec (st_bios st)
        ++ [if nr_pages <=? DIO_INLINE_BIO_VECS
            then inline_vecs else heap_vecs].
Proof.
  intros Hq. unfold __blkdev_direct_IO_simple.
  destruct (dio_misaligned _ _ _); [by eexists _, _; split_and!; eauto|].
  set (v := if nr_pages <=? DIO_INLINE_BIO_VECS
            then inline_vecs else heap_vecs).
  assert (negb (nr_pages <=? DIO_INLINE_BIO_VECS)
            && negb (st_kmalloc_ok st) = true /\
          simple_vecs nr_pages st = (None, st) \/
          negb (nr_pages <=? DIO_INLINE_BIO_VECS)
            && negb (st_kmalloc_ok st) = false /\
          exists st0,
            simple_vecs nr_pages st = (Some v, st0) /\
            st_bios st0 = st_bios st /\ st_dio st0 = st_dio st /\
            st_queue st0 = []) as Hsel.
  { unfold simple_vecs, kmalloc_array, v.
    destruct (nr_pages <=? DIO_INLINE_BIO_VECS);
      [right; split; [done|]; by exists st|].
    destruct (st_kmalloc_ok st); [right|by left].
    split; [done|]. by eexists. }
  destruct Hsel as [[-> ->]|(-> & st0 & -> & Hb0 & Hd0 & Hq0)].
  { by eexists _, _; split_and!; eauto. }
  assert (forall bio r s, st_dio s = st_dio st -> st_queue s = [] ->
            map bi_io_vec (st_bios s) = map bi_io_vec (st_bios st) ++ [v] ->
            exists st', simple_out v bio r s = (r, st') /\
              st_dio st' = st_dio st /\ st_queue st' = [] /\
              map bi_io_vec (st_bios st') =
                map bi_io_vec (st_bios st) ++ [v]) as Hout.
  { intros bio r s Hd Hqs Hv. unfold simple_out, kfree, bio_uninit.
    destruct v; eexists; split_and!; eauto. }
  destruct (simple_fill v nr_pages (ki_pos (st_iocb st)) st0)
    as [[bio ret] st1] eqn:Ef.
  assert (st_dio st1 = st_dio st /\ st_queue st1 = [] /\
          map bi_io_vec (st_bios st1) = map bi_io_vec (st_bios st) ++ [v] /\
          hooks st1 !! bio = Some end_io_simple /\
          bi_private (bio_at bio st1) = private_task)
    as (Hd1 & Hq1 & Hv1 & Hh1 & Hp1).
  { unfold simple_fill, bio_init, bio_new, bio_iov_iter_get_pages in Ef.
    injection Ef as <- <- <-. unfold hooks, bio_at.
    case_match; simpl;
      rewrite ?alter_last, ?lookup_last, ?map_app, Hb0; simpl;
      rewrite ?alter_last, ?lookup_last, ?map_app; simpl;
      rewrite <- Hb0, ?lookup_last;
      split_and!; try done;
      rewrite <- (length_map bi_end_io (st_bios st0));
      by rewrite list_lookup_middle. }
  destruct (negb (ret =? 0)).
  { destruct (Hout bio ret st1) as (st' & -> & ?); try done.
    by exists ret, st'. }
  destruct (simple_prepare bio (bi_size (bio_at bio st1)) st1)
    as [sd st'] eqn:Es.
  rewrite submit_bio_eq.
  assert (simple_inv bio (st_dio st) (map bi_io_vec (st_bios st) ++ [v])
            (enqueue bio st')) as Hinv.
  { unfold simple_prepare in Es.
    unfold simple_inv, enqueue, iocb_flag, bio_set_polled,
      task_io_account_write, hooks in *.
    repeat case_match; simplify_eq; simpl;
      rewrite ?(map_alter_same bi_io_vec), ?(map_alter_same bi_end_io)
        by done;
      (split_and!; try done; left);
      rewrite Hq1; (split_and!; try done);
      unfold bio_at in *; simpl;
      rewrite ?list_lookup_alter_eq;
      by destruct (st_bios st1 !! bio). }
  apply (stable_yield _ _ (simple_inv_stable _ _ _)) in Hinv.
  set (st2 := device_yield (enqueue bio st')) in *.
  set (qc := Z.of_nat bio).
  destruct (simple_wait_total bio _ _ (wait_fuel st2) qc st2 Hinv)
    as (st3 & -> & (Hd3 & Hv3 & _) & Hq3 & _); [unfold wait_fuel; lia|].
  match goal with
  | |- context [simple_out v bio ?r ?s] =>
      destruct (Hout bio r s) as (st4 & -> & ?); try done; by exists r, st4
  end.
Qed.

End simple_path.

(** C9 (as amended). A request that is not empty is served by the simple
    path exactly when the kiocb is synchronous and the iterator needs at
    most [BIO_MAX_VECS] pages, and by the general path otherwise.  With
    nothing else in flight the simple path returns and leaves the dio as
    it was.  It builds exactly one bio, whose page array is the inline one
    when the page count is at most [DIO_INLINE_BIO_VECS] and comes from the
    heap otherwise; it builds none, and changes nothing, only when it
    refuses a misaligned request with [-EINVAL] or finds no memory for the
    page array and returns [-ENOMEM]. *)
Theorem direct_IO_dispatch `{KH : KernelHeaders} `{IT : IovIter}
    (st : state) :
  iov_iter_count (st_iter st) <> 0 ->
  st_queue st = [] ->
  let nr_pages := bio_iov_vecs_to_alloc (st_iter st) (BIO_MAX_VECS + 1) in
  if is_sync_kiocb (st_iocb st) && (nr_pages <=? BIO_MAX_VECS) then
    blkdev_direct_IO st = __blkdev_direct_IO_simple nr_pages st /\
    exists r st',
      blkdev_direct_IO st = Some (r, st') /\
      st_dio st' = st_dio st /\
      if dio_misaligned (ki_pos (st_iocb st)) (st_iter st)
           (I_BDEV (bdev_file_inode (ki_filp (st_iocb st))))
      then r = - EINVAL /\ st' = st
      else if negb (nr_pages <=? DIO_INLINE_BIO_VECS)
              && negb (st_kmalloc_ok st)
      then r = - ENOMEM /\ st' = st
      else
        map bi_io_vec (st_bios st') =
          map bi_io_vec (st_bios st)
          ++ [if nr_pages <=? DIO_INLINE_BIO_VECS
              then inline_vecs else heap_vecs]
  else
    blkdev_direct_IO st = __blkdev_direct_IO (bio_max_segs nr_pages) st.
Proof.
  intros Hc Hq nr_pages. unfold blkdev_direct_IO.
  apply Z.eqb_neq in Hc. rewrite Hc. fold nr_pages.
  destruct (is_sync_kiocb (st_iocb st) && (nr_pages <=? BIO_MAX_VECS));
    [|done].
  split; [done|].
  destruct (simple_path_spec nr_pages st Hq) as (r & st' & ? & ? & _ & ?).
  by exists r, st'.
Qed.


Section byte_total_claim.
Context `{KH : KernelHeaders} `{IT : IovIter}
  {KHL : KernelHeadersLaws} {ITL : IovIterLaws}.

Lemma byte_bio_put C0 b st :
  size_done C0 st /\ report_inv st ->
  size_done C0 (bio_put b st) /\ report_inv (bio_put b st).
Proof.
  intros [Hs Hr]. destruct (bio_put_frame b st) as (_ & _ & Hst).
  split; [by eapply size_done_static|].
  revert Hr. unfold report_inv, bio_put, bio_free.
  repeat case_match; simpl; intros Hr v; rewrite ?elem_of_cons;
    intros Hin; destruct_or?; simplify_eq; auto.
Qed.

Lemma dio_begin_size nr st :
  fresh st ->
  size_inv (iov_iter_count (st_iter st)) (dio_begin nr st).2.
Proof.
  intros (_ & _ & Ht).
  unfold dio_begin, bio_alloc_kiocb, bio_new, bio_get, blk_start_plug,
    size_inv.
  repeat case_match; simpl; rewrite Ht; simpl; lia.
Qed.

End byte_total_claim.

(** C5. For a fresh aligned request, [__blkdev_direct_IO] returns, and from
    then on, whatever completions follow and whatever their statuses: the
    byte total of the dio is the sum of the sizes of the bios that were
    submitted, it does not change, and it lies between 0 and the length the
    caller asked for; a result that is not an error, whether returned by
    the synchronous path or handed to [ki_complete], is that sum. *)
Theorem byte_total_counts_queued_segments `{KH : KernelHeaders}
    `{IT : IovIter} {KHL : KernelHeadersLaws} {ITL : IovIterLaws}
    (nr_pages : Z) (st : state) :
  fresh st ->
  iov_iter_count (st_iter st) <= MAX_RW_COUNT ->
  dio_misaligned (ki_pos (st_iocb st)) (st_iter st)
    (I_BDEV (bdev_file_inode (ki_filp (st_iocb st)))) = false ->
  exists r st',
    __blkdev_direct_IO nr_pages st = Some (r, st') /\
    (0 <= r -> r = submitted_bytes (st_trace st')) /\
    forall cs,
      dio_size (st_dio (device_run cs st'))
        = submitted_bytes (st_trace (device_run cs st')) /\
      submitted_bytes (st_trace (device_run cs st'))
        = submitted_bytes (st_trace st') /\
      0 <= dio_size (st_dio (device_run cs st'))
        <= iov_iter_count (st_iter st) /\
      forall v, EvKiComplete v ∈ st_trace (device_run cs st') -> 0 <= v ->
        v = submitted_bytes (st_trace (device_run cs st')).
Proof.
  intros Hfr Hc Hal.
  set (C0 := iov_iter_count (st_iter st)).
  destruct (direct_IO_run nr_pages st Hfr Hc Hal)
    as (Hinv0 & Hb0 & r1 & st1 & Hloop & Hpost & _ & _ & Hrun).
  assert (size_done C0 st1 /\ report_inv st1) as HP1.
  { eapply (dio_submit_loop_ind (size_inv C0)
              (fun _ s => size_done C0 s /\ report_inv s)
              match iov_iter_rw (st_iter st) with
              | READ => true | WRITE => false end
              (is_sync_kiocb (st_iocb st)));
      [| exact Hinv0 | exact Hb0 | by apply dio_begin_size | exact Hloop].
    intros bio pos s Hi Hb Hs.
    pose proof (dio_iterate_size C0
                  match iov_iter_rw (st_iter st) with
                  | READ => true | WRITE => false end
                  (is_sync_kiocb (st_iocb st))
                  bio pos s Hc Hi Hb Hs) as H.
    revert H. by repeat case_match. }
  assert (forall r st',
            __blkdev_direct_IO nr_pages st = Some (r, st') ->
            (0 <= r -> r = dio_size (st_dio st')) ->
            size_done C0 st' /\ report_inv st' ->
            exists r st',
              __blkdev_direct_IO nr_pages st = Some (r, st') /\
              (0 <= r -> r = submitted_bytes (st_trace st')) /\
              forall cs,
                dio_size (st_dio (device_run cs st'))
                  = submitted_bytes (st_trace (device_run cs st')) /\
                submitted_bytes (st_trace (device_run cs st'))
                  = submitted_bytes (st_trace st') /\
                0 <= dio_size (st_dio (device_run cs st')) <= C0 /\
                forall v, EvKiComplete v ∈ st_trace (device_run cs st') ->
                  0 <= v ->
                  v = submitted_bytes (st_trace (device_run cs st')))
    as Hfin.
  { intros r st' Hr Hres HP. exists r, st'. split; [done|].
    split; [destruct HP as [[<- _] _]; exact Hres|].
    intros cs. pose proof (stable_run _ cs _ (byte_stable C0) HP)
      as [(Hs & Hb) Hrep].
    destruct (device_run_frame cs st') as (_ & _ & _ & _ & Hst).
    destruct Hst as (_ & _ & _ & _ & _ & _ & Hsb).
    split; [exact Hs|]. split; [exact Hsb|]. split; [exact Hb|].
    intros v Hin Hv. destruct (Hrep v Hin); [lia|congruence]. }
  destruct r1 as [ret qc|v].
  - destruct Hpost as [Hdone Hret].
    destruct (dio_end_run (iocb_flag IOCB_HIPRI st) ret qc st1 Hdone)
      as [(_ & He)|(_ & st2 & Hw & Hq & Hdone2 & He)];
      rewrite He in Hrun.
    + eapply Hfin; [exact Hrun| |].
      * pose proof EIOCBQUEUED_pos. lia.
      * destruct (negb _); [|done]. destruct HP1 as [Hs Hr].
        split; [done|]. intros w. unfold blk_finish_plug; simpl.
        rewrite elem_of_cons. intros [?|?]; [done|by apply Hr].
    + assert (size_done C0 st2 /\ report_inv st2) as HP2.
      { eapply (stable_wait _ _ _ _ _ (byte_stable C0)); [exact Hw|].
        destruct (negb _); [|done]. destruct HP1 as [Hs Hr].
        split; [done|]. intros w. unfold blk_finish_plug; simpl.
        rewrite elem_of_cons. intros [?|?]; [done|by apply Hr]. }
      eapply Hfin; [exact Hrun| |by apply byte_bio_put].
      destruct (bio_put_frame (dio_bio (st_dio st2)) st2)
        as (_ & _ & (_ & _ & _ & _ & (_ & _ & _ & -> & _) & _)).
      unfold dio_result. cbn zeta. destruct HP2 as [(_ & Hnn) _].
      destruct (ret =? 0) eqn:Er; [|rewrite Er; apply Z.eqb_neq in Er; lia].
      destruct (decide (bi_status (bio_at (dio_bio (st_dio st2)) st2) = 0))
        as [->|Hne].
      * rewrite blk_status_to_errno_ok. simpl. intros _.
        apply wrap_s_small; unfold MAX_RW_COUNT, C0 in *; lia.
      * pose proof (blk_status_to_errno_neg _ Hne) as Hneg.
        rewrite (proj2 (Z.eqb_neq _ 0)) by lia. lia.
  - destruct Hpost as (-> & _). eapply Hfin; [exact Hrun| |exact HP1].
    pose proof EAGAIN_pos. lia.
Qed.

Section page_failure_claim.
Context `{KH : KernelHeaders} `{IT : IovIter}
  {KHL : KernelHeadersLaws} {ITL : IovIterLaws}.

Lemma failed_inv_log e st :
  is_final e = false -> failed_inv st -> failed_inv (log e st).
Proof.
  intros He (Hs & Hl & Hf). unfold failed_inv, finals; simpl.
  rewrite He. done.
Qed.

Lemma finals_singleton sync st :
  done_inv st -> failed_inv st -> st_queue st = [] ->
  is_sync (st_dio st) = sync ->
  exists e, finals (st_trace st) = [e] /\ final_is_error sync e.
Proof.
  intros ((_ & (_ & _ & _ & Hlen & _)) & _) (_ & _ & Hf) Hq <-.
  rewrite Hq in Hlen. simpl in Hlen.
  destruct (finals (st_trace st)) as [|e [|? ?]]; try done.
  exists e. split; [done|]. by inversion Hf.
Qed.

End page_failure_claim.

(** C8. Let a fresh aligned request reach turn [n] of the submission loop,
    and let the iterator fail to give pages to the bio [b] of that turn.
    Then the turn leaves the loop with the bio failed in place:
    [BLK_STS_IOERR] is stored in it and its own completion callback
    [blkdev_bio_end_io] runs on it; the bios already in flight stay in
    flight.  And the request completes with an error: a synchronous
    request returns the negative errno of the page acquisition after its
    waiter was woken, once; an asynchronous one returns [-EIOCBQUEUED]
    and, when the last sibling has completed, [ki_complete] has been
    called once, with a negative errno. *)
Theorem page_failure_completes_with_error `{KH : KernelHeaders}
    `{IT : IovIter} {KHL : KernelHeadersLaws} {ITL : IovIterLaws}
    (nr_pages : Z) (st : state) (n b : nat) (p : Z) (s : state) :
  let read :=
    match iov_iter_rw (st_iter st) with READ => true | WRITE => false end in
  let sync := is_sync_kiocb (st_iocb st) in
  fresh st ->
  iov_iter_count (st_iter st) <= MAX_RW_COUNT ->
  dio_misaligned (ki_pos (st_iocb st)) (st_iter st)
    (I_BDEV (bdev_file_inode (ki_filp (st_iocb st)))) = false ->
  dio_turn n read sync (dio_begin nr_pages st).1 (ki_pos (st_iocb st))
    (dio_begin nr_pages st).2 = Some (b, p, s) ->
  (dio_fill b p s).1 <> 0 ->
  let ret := (dio_fill b p s).1 in
  let failed :=
    blkdev_bio_end_io b
      (upd_bio b (set_bi_status BLK_STS_IOERR) (dio_fill b p s).2) in
  dio_iterate read sync b p s = inr (loop_break ret BLK_QC_T_NONE, failed) /\
  st_queue failed = st_queue s /\
  exists r st',
    __blkdev_direct_IO nr_pages st = Some (r, st') /\
    (sync = true ->
     r = ret /\ r < 0 /\ finals (st_trace st') = [EvWake]) /\
    (sync = false ->
     r = - EIOCBQUEUED /\
     forall cs, st_queue (device_run cs st') = [] ->
       exists v, finals (st_trace (device_run cs st')) = [EvKiComplete v] /\
                 v < 0).
Proof.
  intros read sync Hfr Hc Hal Hturn Hfail ret failed.
  destruct (direct_IO_run nr_pages st Hfr Hc Hal)
    as (Hinv0 & Hb0 & r1 & st1 & Hloop & Hpost & _ & Hsync & Hrun).
  fold read sync in Hloop, Hsync.
  destruct (dio_turn_ind (fun _ => True) read sync
              (fun _ _ _ _ _ _ => ltac:(repeat case_match; exact I))
              n _ _ _ _ _ _ Hinv0 Hb0 I Hturn)
    as (Hinv & Hb & _ & _).
  assert (b < length (st_bios s))%nat as Hlt.
  { destruct Hinv as (_ & (_ & ? & _) & _). lia. }
  destruct (dio_fill b p s) as [ret' s1] eqn:Ef.
  pose proof (filled_after_fill _ _ _ _ _ Hinv Hb Ef) as (Hh1 & _).
  destruct (dio_fill_spec _ _ _ _ _ Ef Hlt)
    as (Hq1 & _ & Hd1 & _ & Ht1 & _ & _ & _ & Hl1 & _ & _).
  destruct (fill_laws _ _ _ _ _ Ef Hlt) as (Hret & _ & _).
  cbn [fst snd] in *. subst ret.
  set (sF := upd_bio b (set_bi_status BLK_STS_IOERR) s1) in *.
  assert (dio_fail b s1 = failed) as Hfl.
  { unfold dio_fail, bio_endio. fold sF.
    assert (hooks sF = hooks s1) as Hk.
    { unfold hooks, sF; simpl. by rewrite map_alter_same. }
    rewrite hook_of_bio_at, Hk, Hh1; [done|].
    apply elem_of_app. right. by apply list_elem_of_singleton. }
  assert (dio_iterate read sync b p s
          = inr (loop_break ret' BLK_QC_T_NONE, failed)) as Hit.
  { pose proof (dio_iterate_cases read sync b p s) as Hcases.
    rewrite Ef in Hcases. cbn [fst snd] in Hcases. rewrite Hfl in Hcases.
    destruct Hcases as [(_ & ->)|[(? & _)|[(? & _)|(? & _)]]]; done. }
  pose proof (dio_turn_exit _ _ _ _ _ _ _ _ _ _ _ _ _ Hturn Hit Hloop) as Hx.
  injection Hx as <- <-. destruct Hpost as [Hdone _].
  assert (failed_inv failed) as Hfailed.
  { unfold failed. destruct Hinv as ((_ & (_ & _ & _ & Hf & _)) &
                                      (H0 & H1 & _) & _).
    rewrite Nat.add_1_r in Hf. apply nil_length_inv in Hf.
    apply end_io_failed.
    - unfold sF; simpl. rewrite length_alter, Hd1, Hl1, H0. lia.
    - left. unfold sF. rewrite bio_at_upd_bio_eq by lia. simpl.
      apply BLK_STS_IOERR_nonzero.
    - unfold sF; simpl. rewrite Ht1. unfold finals; simpl.
      fold (finals (st_trace s)). rewrite Hf. constructor. }
  split_and!; [done| |].
  { unfold failed. destruct (end_io_frame b sF) as (-> & _).
    unfold sF; simpl. done. }
  destruct (dio_end_run (iocb_flag IOCB_HIPRI st) ret' BLK_QC_T_NONE
              failed Hdone)
    as [(Hs & He)|(Hs & st2 & Hw & Hq & Hdone2 & He)];
    rewrite He in Hrun; eexists _, _; (split; [exact Hrun|]);
    rewrite Hsync in Hs.
  - split; [intros E; congruence|]. intros _.
    split; [done|]. intros cs Hq.
    set (st' := if negb (iocb_flag IOCB_HIPRI st) then _ else failed) in *.
    assert (done_inv st' /\ failed_inv st' /\
            is_sync (st_dio st') = false) as (Hd' & Hf' & Hs').
    { unfold st'. destruct (negb _).
      - split_and!; [by apply done_inv_log|by apply failed_inv_log|].
        simpl. congruence.
      - split_and!; try done. congruence. }
    pose proof (stable_run _ cs _ failed_done_stable (conj Hd' Hf'))
      as [Hd'' Hf''].
    destruct (finals_singleton false _ Hd'' Hf'' Hq) as (e & -> & Hv).
    { destruct (device_run_frame cs st')
        as (_ & _ & _ & _ & (_ & _ & _ & _ & (-> & _) & _)). done. }
    destruct Hv as (v & -> & Hv). by exists v.
  - split; [|intros E; congruence]. intros _.
    set (st1 := if negb (iocb_flag IOCB_HIPRI st) then _ else failed) in *.
    assert (done_inv st1 /\ failed_inv st1) as HP1.
    { unfold st1. destruct (negb _); [|done].
      split; [by apply done_inv_log|by apply failed_inv_log]. }
    pose proof (stable_wait _ _ _ _ _ failed_done_stable Hw HP1)
      as [_ Hf2].
    unfold dio_result. cbn zeta.
    assert (ret' <> 0) as Hne by done.
    apply Z.eqb_neq in Hne as Hne'. rewrite !Hne'.
    split_and!; [done|lia|].
    destruct (bio_put_same_count (dio_bio (st_dio st2)) st2)
      as (_ & _ & _ & _ & ->).
    destruct (finals_singleton true _ Hdone2 Hf2 Hq) as (e & -> & ->);
      [|done].
    destruct (dio_wait_total (wait_fuel st1) BLK_QC_T_NONE st1)
      as (st2' & Hw' & _ & _ & Hfr2); [apply HP1|..].
    + unfold st1. destruct (negb _); simpl; congruence.
    + unfold wait_fuel. lia.
    + rewrite Hw in Hw'. injection Hw' as <-.
      destruct Hfr2 as (_ & _ & _ & _ & (_ & _ & _ & _ & (-> & _) & _)).
      unfold st1. destruct (negb _); simpl; congruence.
Qed.


Lemma option_holds {A} (o : option A) (P : A -> Prop) :
  match o with Some x => P x | None => False end ->
  exists x, o = Some x /\ P x.
Proof. destruct o; [eauto|done]. Qed.

(** * The claims on a concrete request

    Requests on [sda] under the Linux 5.15 constants, read or written
    through the page iterator. *)

Section linux.
#[local] Existing Instance linux_headers.
#[local] Existing Instance page_iov_iter.
#[local] Existing Instance page_iov_iter_laws.
#[local] Existing Instance linux_headers_laws.

Lemma finalization_exactly_once_witness :
  let st := request 0 0 true (buffer (3 * 256 * 4096) READ) [[]; []; []] in
  exists r st',
    __blkdev_direct_IO 256 st = Some (r, st') /\
    ((2 <= length (st_bios st'))%nat ->
     forall cs,
       length (finals (st_trace (device_run cs st'))) =
         match st_queue (device_run cs st') with
         | [] => 1%nat
         | _ => 0%nat
         end).
Proof.
  apply (finalization_exactly_once 256).
  - repeat split.
  - vm_compute. discriminate.
Defined.

Lemma zero_length_request_succeeds_witness :
  let st := request 1 0 false (buffer 0 READ) [] in
  dio_misaligned (ki_pos (st_iocb st)) (st_iter st) sda = true /\
  blkdev_direct_IO st = Some (0, st).
Proof.
  split; [reflexivity|].
  apply zero_length_request_succeeds. reflexivity.
Defined.

Lemma misaligned_request_rejected_witness :
  let st := request 1 0 false (buffer 1536 READ) [] in
  __blkdev_direct_IO 1 st = Some (- EINVAL, st) /\
  __blkdev_direct_IO_simple 1 st = Some (- EINVAL, st) /\
  (iov_iter_count (st_iter st) <> 0 ->
   blkdev_direct_IO st = Some (- EINVAL, st)).
Proof.
  apply (misaligned_request_rejected 1 9).
  - lia.
  - reflexivity.
  - left. vm_compute. discriminate.
Defined.

Lemma nowait_multi_segment_aborts_witness :
  let st := request 0 8 true (buffer (3 * 256 * 4096) READ) [] in
  exists st',
    __blkdev_direct_IO 256 st = Some (- EAGAIN, st') /\
    st_trace st' =
      [EvFinishPlug; EvFree 0%nat; EvReleasePages 0%nat false;
       EvGetPages 0%nat 0]
      ++ (if iocb_flag IOCB_HIPRI st then [] else [EvStartPlug])
      ++ st_trace st /\
    bi_freed (bio_at 0%nat st') = true /\
    st_queue st' = st_queue st /\
    submitted_bytes (st_trace st') = submitted_bytes (st_trace st) /\
    dio_size (st_dio st') = 0 /\
    st_iocb st' = st_iocb st.
Proof.
  apply (nowait_multi_segment_aborts 256
           (request 0 8 true (buffer (3 * 256 * 4096) READ) [])).
  - reflexivity.
  - reflexivity.
  - reflexivity.
  - vm_compute. discriminate.
Defined.

(** C2 as stated fails: a request with [IOCB_NOWAIT] that needs three bios
    and whose first bio cannot get its pages is not given up with
    [-EAGAIN].  Lines 240-245 fail the bio in place before [IOCB_NOWAIT] is
    looked at: the request completes through the callback of the kiocb
    with [-EIO] (errno 5), and the caller is told [-EIOCBQUEUED]. *)
Lemma nowait_pin_failure_counterexample :
  let st :=
    request 0 IOCB_NOWAIT true
      (faulty_buffer (3 * 256 * 4096) READ (3 * 256 * 4096)) [] in
  let nr_pages := bio_iov_vecs_to_alloc (st_iter st) (BIO_MAX_VECS + 1) in
  dio_misaligned (ki_pos (st_iocb st)) (st_iter st)
    (I_BDEV (bdev_file_inode (ki_filp (st_iocb st)))) = false /\
  iocb_flag IOCB_NOWAIT st = true /\
  BIO_MAX_VECS < nr_pages /\
  iov_iter_count (iter_get_pages (bio_max_segs nr_pages) (st_iter st)).2
    <> 0 /\
  blkdev_direct_IO st = __blkdev_direct_IO (bio_max_segs nr_pages) st /\
  - EIOCBQUEUED <> - EAGAIN /\
  exists st',
    blkdev_direct_IO st = Some (- EIOCBQUEUED, st') /\
    st_trace st' =
      [EvFinishPlug; EvFree 0%nat; EvCheckPagesDirty 0%nat;
       EvKiComplete (-5); EvGetPages 0%nat (-14); EvStartPlug].
Proof.
  intros st nr_pages.
  assert (match blkdev_direct_IO st with
          | Some (r, st') =>
              r = - EIOCBQUEUED /\
              st_trace st' =
                [EvFinishPlug; EvFree 0%nat; EvCheckPagesDirty 0%nat;
                 EvKiComplete (-5); EvGetPages 0%nat (-14); EvStartPlug]
          | None => False
          end) as Hrun by (vm_compute; split; reflexivity).
  assert (blkdev_direct_IO st
          = __blkdev_direct_IO (bio_max_segs nr_pages) st) as Hd.
  { unfold blkdev_direct_IO. fold nr_pages.
    assert ((iov_iter_count (st_iter st) =? 0) = false) as ->
      by (vm_compute; reflexivity).
    assert ((is_sync_kiocb (st_iocb st) && (nr_pages <=? BIO_MAX_VECS))
            = false)
      as -> by (vm_compute; reflexivity).
    reflexivity. }
  split; [vm_compute; reflexivity|].
  split; [vm_compute; reflexivity|].
  split; [vm_compute; reflexivity|].
  split; [vm_compute; discriminate|].
  split; [exact Hd|].
  split; [vm_compute; discriminate|].
  clearbody st.
  apply option_holds in Hrun as ([r st'] & Hrun & -> & Ht).
  exists st'. split; [exact Hrun|exact Ht].
Defined.

(** C9 as stated fails: a synchronous request of five pages, one more
    than the inline array holds, is not sent to the general path; the
    simple path serves it with a page array from the heap. *)
Lemma small_sync_dispatch_counterexample :
  let st := request 0 0 false (buffer (5 * 4096) READ) [] in
  let nr_pages := bio_iov_vecs_to_alloc (st_iter st) (BIO_MAX_VECS + 1) in
  is_sync_kiocb (st_iocb st) = true /\
  nr_pages = 5 /\ DIO_INLINE_BIO_VECS < nr_pages /\
  blkdev_direct_IO st = __blkdev_direct_IO_simple nr_pages st /\
  blkdev_direct_IO st <> __blkdev_direct_IO (bio_max_segs nr_pages) st /\
  exists r st',
    blkdev_direct_IO st = Some (r, st') /\
    map bi_io_vec (st_bios st') = [heap_vecs] /\
    st_dio st' = st_dio st.
Proof.
  intros st nr_pages.
  assert (match blkdev_direct_IO st with
          | Some (r, st') =>
              map bi_io_vec (st_bios st') = [heap_vecs] /\
              st_dio st' = st_dio st
          | None => False
          end) as Hrun by (vm_compute; split; reflexivity).
  assert (match __blkdev_direct_IO (bio_max_segs nr_pages) st with
          | Some (r, st') => map bi_io_vec (st_bios st') = [pool_vecs]
          | None => True
          end) as Hgen by (vm_compute; reflexivity).
  assert (blkdev_direct_IO st = __blkdev_direct_IO_simple nr_pages st) as Hd.
  { unfold blkdev_direct_IO. fold nr_pages.
    assert ((iov_iter_count (st_iter st) =? 0) = false) as ->
      by (vm_compute; reflexivity).
    assert ((is_sync_kiocb (st_iocb st) && (nr_pages <=? BIO_MAX_VECS))
            = true) as -> by (vm_compute; reflexivity).
    reflexivity. }
  split; [vm_compute; reflexivity|].
  split; [vm_compute; reflexivity|].
  split; [vm_compute; reflexivity|].
  split; [exact Hd|].
  split.
  - intros Heq. rewrite Heq in Hrun.
    destruct (__blkdev_direct_IO (bio_max_segs nr_pages) st) as [[r s]|];
      [|exact Hrun].
    destruct Hrun as [H1 _]. rewrite H1 in Hgen. discriminate Hgen.
  - clear Hgen Hd. clearbody st.
    apply option_holds in Hrun as ([r st'] & Hrun & H).
    exists r, st'. exact (conj Hrun H).
Defined.

Lemma direct_IO_dispatch_witness :
  let st := request 0 0 false (buffer (5 * 4096) READ) [] in
  blkdev_direct_IO st = __blkdev_direct_IO_simple 5 st /\
  exists r st',
    blkdev_direct_IO st = Some (r, st') /\
    st_dio st' = st_dio st /\
    map bi_io_vec (st_bios st') = map bi_io_vec (st_bios st) ++ [heap_vecs].
Proof.
  intros st.
  assert (iov_iter_count (st_iter st) <> 0) as Hc
    by (vm_compute; discriminate).
  exact (direct_IO_dispatch st Hc eq_refl).
Defined.




Lemma byte_total_counts_queued_segments_witness :
  let st :=
    request 0 0 false
      (faulty_buffer (3 * 256 * 4096) READ (256 * 4096)) [] in
  exists r st',
    __blkdev_direct_IO 256 st = Some (r, st') /\
    (0 <= r -> r = submitted_bytes (st_trace st')) /\
    forall cs,
      dio_size (st_dio (device_run cs st'))
        = submitted_bytes (st_trace (device_run cs st')) /\
      submitted_bytes (st_trace (device_run cs st'))
        = submitted_bytes (st_trace st') /\
      0 <= dio_size (st_dio (device_run cs st'))
        <= iov_iter_count (st_iter st) /\
      forall v, EvKiComplete v ∈ st_trace (device_run cs st') -> 0 <= v ->
        v = submitted_bytes (st_trace (device_run cs st')).
Proof.
  apply (byte_total_counts_queued_segments 256).
  - repeat split.
  - vm_compute. discriminate.
  - reflexivity.
Defined.

Lemma page_failure_completes_with_error_witness :
  let st :=
    request 0 0 true
      (faulty_buffer (3 * 256 * 4096) READ (256 * 4096)) [[]; []; []] in
  exists b p s,
    dio_turn 2 true false (dio_begin 256 st).1 0 (dio_begin 256 st).2
      = Some (b, p, s) /\
    (dio_fill b p s).1 = -14 /\
    st_queue (blkdev_bio_end_io b
                (upd_bio b (set_bi_status BLK_STS_IOERR) (dio_fill b p s).2))
      = st_queue s /\
    exists r st',
      __blkdev_direct_IO 256 st = Some (r, st') /\
      r = - EIOCBQUEUED /\
      forall cs, st_queue (device_run cs st') = [] ->
        exists v,
          finals (st_trace (device_run cs st')) = [EvKiComplete v] /\ v < 0.
Proof.
  intros st.
  assert (fresh st) as Hfr by repeat split.
  assert (iov_iter_count (st_iter st) <= MAX_RW_COUNT) as Hc
    by (vm_compute; discriminate).
  assert (dio_misaligned (ki_pos (st_iocb st)) (st_iter st)
            (I_BDEV (bdev_file_inode (ki_filp (st_iocb st)))) = false) as Hal
    by reflexivity.
  assert (is_sync_kiocb (st_iocb st) = false) as Hs by reflexivity.
  assert (match
            dio_turn 2
              match iov_iter_rw (st_iter st) with
              | READ => true | WRITE => false end
              (is_sync_kiocb (st_iocb st))
              (dio_begin 256 st).1 (ki_pos (st_iocb st)) (dio_begin 256 st).2
          with
          | Some (b, p, s) => (dio_fill b p s).1 = -14
          | None => False
          end) as Ht by (vm_compute; reflexivity).
  assert (dio_turn 2 true false (dio_begin 256 st).1 0 (dio_begin 256 st).2
          = dio_turn 2
              match iov_iter_rw (st_iter st) with
              | READ => true | WRITE => false end
              (is_sync_kiocb (st_iocb st))
              (dio_begin 256 st).1 (ki_pos (st_iocb st)) (dio_begin 256 st).2)
    as -> by reflexivity.
  clearbody st.
  apply option_holds in Ht as ([[b p] s] & Ht & Hf).
  assert ((dio_fill b p s).1 <> 0) as Hne by (rewrite Hf; discriminate).
  destruct (page_failure_completes_with_error 256 st 2 b p s Hfr Hc Hal
              Ht Hne) as (_ & Hq & r & st' & Hrun & _ & Ha).
  destruct (Ha Hs) as [Hr Hcs].
  exists b, p, s. split; [exact Ht|]. split; [exact Hf|]. split; [exact Hq|].
  exists r, st'. exact (conj Hrun (conj Hr Hcs)).
Defined.

End linux.

(** * The file operations: proofs *)

Ltac munfold :=
  unfold mbind, mret, fileops.M_bind, fileops.M_ret, fileops.bind,
    fileops.ret, fileops.log, fileops.call_, fileops.transferred in *.

Section bits.

Lemma land_ones_low x k : 0 <= k -> Z.land x (2 ^ k - 1) = x mod 2 ^ k.
Proof.
  intros Hk. replace (2 ^ k - 1) with (Z.ones k) by (rewrite Z.ones_equiv; lia).
  by apply Z.land_ones.
Qed.

Lemma pow2_u32 k : 0 <= k < 32 -> wrap_u 32 (2 ^ k - 1) = 2 ^ k - 1.
Proof.
  intros Hk. apply wrap_u_small.
  assert (0 < 2 ^ k <= 2 ^ 31) as Hp.
  { split; [apply Z.pow_pos_nonneg; lia|apply Z.pow_le_mono_r; lia]. }
  lia.
Qed.

(** Both are multiples of [2 ^ k] exactly when their OR has no bit below
    bit [k]. *)
Lemma lor_aligned x y k :
  0 <= k < 32 ->
  Z.land (Z.lor x y) (wrap_u 32 (2 ^ k - 1)) = 0 <->
  x mod 2 ^ k = 0 /\ y mod 2 ^ k = 0.
Proof.
  intros Hk. rewrite pow2_u32, land_ones_low by lia.
  rewrite <- !Z.land_ones by lia.
  rewrite Z.land_lor_distr_l. apply Z.lor_eq_0_iff.
Qed.

Lemma shiftr_9_sector x k :
  9 <= k -> 0 <= x -> x mod 2 ^ k = 0 -> Z.shiftr x 9 * 512 = x.
Proof.
  intros Hk Hx Hm. rewrite Z.shiftr_div_pow2 by lia.
  change (2 ^ 9) with 512.
  assert (x mod 512 = 0) as H9.
  { apply Z.mod_divide; [lia|].
    apply Z.mod_divide in Hm; [|apply Z.pow_nonzero; lia].
    destruct Hm as [q ->]. exists (q * 2 ^ (k - 9)).
    replace k with (k - 9 + 9) at 1 by lia.
    rewrite Z.pow_add_r by lia. change (2 ^ 9) with 512. lia. }
  pose proof (Z.div_mod x 512). lia.
Qed.

End bits.

Section fallocate.
Import fileops.
Context `{KH : KernelHeaders} `{FH : FsHeaders}.
Variable kernel : list call -> call -> Z.

Lemma fallocate_range_cases f mode start len end_ tr :
  let T := truncate_bdev_range (f_mode f) start end_ in
  let e := wrap_s 32 (kernel tr T) in
  fallocate_range kernel f mode start len end_ tr =
    if fallocate_served mode then
      if e =? 0
      then (wrap_s 32 (kernel (T :: tr) (fallocate_op mode start len)),
            fallocate_op mode start len :: T :: tr)
      else (e, T :: tr)
    else (- EOPNOTSUPP, tr).
Proof.
  intros T e. unfold fallocate_range, fallocate_served, fallocate_op.
  munfold. fold T. fold e.
  destruct (mode =? FALLOC_FL_ZERO_RANGE),
    (mode =? Z.lor FALLOC_FL_ZERO_RANGE FALLOC_FL_KEEP_SIZE),
    (mode =? Z.lor FALLOC_FL_PUNCH_HOLE FALLOC_FL_KEEP_SIZE),
    (mode =? Z.lor (Z.lor FALLOC_FL_PUNCH_HOLE FALLOC_FL_KEEP_SIZE)
               FALLOC_FL_NO_HIDE_STALE);
    cbn [orb]; cbn beta iota; try done;
    subst e; by destruct (wrap_s 32 (kernel tr T) =? 0).
Qed.

(** [blkdev_fallocate], path by path. *)
Lemma fallocate_paths f mode start len tr :
  match fallocate_len f mode start len with
  | None =>
      exists r, blkdev_fallocate kernel f mode start len tr = (r, tr) /\
        (r = - EOPNOTSUPP \/ r = - EINVAL)
  | Some len' =>
      let end' := wrap_s 64 (start + len' - 1) in
      let T := truncate_bdev_range (f_mode f) start end' in
      let tr1 := filemap_invalidate_lock :: tr in
      let e := wrap_s 32 (kernel tr1 T) in
      let D := fallocate_op mode start len' in
      blkdev_fallocate kernel f mode start len tr =
        if fallocate_served mode then
          if e =? 0
          then (wrap_s 32 (kernel (T :: tr1) D),
                filemap_invalidate_unlock :: D :: T :: tr1)
          else (e, filemap_invalidate_unlock :: T :: tr1)
        else (- EOPNOTSUPP, filemap_invalidate_unlock :: tr1)
  end.
Proof.
  unfold fallocate_len, blkdev_fallocate. munfold.
  destruct (negb (Z.land mode _ =? 0)) eqn:E1; cbn beta iota;
    [eexists; eauto|].
  destruct (start >=? _) eqn:E2; cbn beta iota; [eexists; eauto|].
  destruct (wrap_s 64 (start + len - 1) >=? _) eqn:E3; cbn [andb].
  - destruct (Z.land mode FALLOC_FL_KEEP_SIZE =? 0) eqn:E4;
      cbn [negb andb]; cbn beta iota; [eexists; eauto|].
    destruct (negb (Z.land (Z.lor _ _) _ =? 0)) eqn:E5; cbn beta iota;
      [eexists; eauto|].
    rewrite fallocate_range_cases. cbn zeta.
    destruct (fallocate_served mode); [|done].
    by destruct (wrap_s 32 _ =? 0).
  - destruct (negb (Z.land (Z.lor _ _) _ =? 0)) eqn:E5; cbn beta iota;
      [eexists; eauto|].
    rewrite fallocate_range_cases. cbn zeta.
    destruct (fallocate_served mode); [|done].
    by destruct (wrap_s 32 _ =? 0).
Qed.


Lemma fallocate_op_cases mode start len :
  fallocate_op mode start len =
    blkdev_issue_zeroout (wrap_u 64 (Z.shiftr start 9))
      (wrap_u 64 (Z.shiftr len 9)) BLKDEV_ZERO_NOUNMAP \/
  fallocate_op mode start len =
    blkdev_issue_zeroout (wrap_u 64 (Z.shiftr start 9))
      (wrap_u 64 (Z.shiftr len 9)) BLKDEV_ZERO_NOFALLBACK \/
  fallocate_op mode start len =
    blkdev_issue_discard (wrap_u 64 (Z.shiftr start 9))
      (wrap_u 64 (Z.shiftr len 9)) 0.
Proof. unfold fallocate_op. repeat case_match; auto. Qed.

(** What gets past the checks of the range, for a caller that passes a
    range that does not wrap around. *)
Lemma fallocate_len_spec f mode start len len' k :
  let bdev := I_BDEV (bdev_file_inode f) in
  0 <= start -> 0 < len -> start + len < 2 ^ 63 ->
  bd_inode_size bdev < 2 ^ 63 ->
  9 <= k < 32 -> bdev_logical_block_size bdev = 2 ^ k ->
  fallocate_len f mode start len = Some len' ->
  len' = Z.min len (bd_inode_size bdev - start) /\
  0 < len' /\ start + len' <= bd_inode_size bdev /\
  start mod 2 ^ k = 0 /\ len' mod 2 ^ k = 0 /\
  (len' <> len -> Z.land mode FALLOC_FL_KEEP_SIZE <> 0).
Proof.
  intros bdev Hs Hl Hsl Hi Hk Hb. unfold fallocate_len. fold bdev.
  rewrite Hb.
  destruct (negb (Z.land mode _ =? 0)); [done|].
  destruct (start >=? _) eqn:E2; [done|].
  rewrite Z.geb_leb in E2. apply Z.leb_gt in E2.
  rewrite (wrap_s_small 64 (start + len - 1)) by lia.
  rewrite (wrap_s_small 64 (bd_inode_size bdev - start)) by lia.
  destruct (start + len - 1 >=? _) eqn:E3; cbn [andb].
  - rewrite Z.geb_leb in E3. apply Z.leb_le in E3.
    destruct (Z.land mode FALLOC_FL_KEEP_SIZE =? 0) eqn:E4; [done|].
    apply Z.eqb_neq in E4.
    destruct (negb (Z.land (Z.lor _ _) _ =? 0)) eqn:E5; [done|].
    apply negb_false_iff, Z.eqb_eq, lor_aligned in E5 as [? ?]; [|lia].
    intros [= <-]. split_and!; try done; lia.
  - rewrite Z.geb_leb in E3. apply Z.leb_gt in E3.
    destruct (negb (Z.land (Z.lor _ _) _ =? 0)) eqn:E5; [done|].
    apply negb_false_iff, Z.eqb_eq, lor_aligned in E5 as [? ?]; [|lia].
    intros [= <-]. split_and!; try done; lia.
Qed.

End fallocate.

(** X1. A mode that is none of the four that the [switch] serves never
    reaches the device: whatever the range, [blkdev_fallocate] fails with
    [-EOPNOTSUPP] or [-EINVAL], and all it may have done is take the
    invalidate lock and release it.  So plain preallocation (mode 0 or
    [FALLOC_FL_KEEP_SIZE] alone) and hole punching without
    [FALLOC_FL_KEEP_SIZE] are refused. *)
Theorem fallocate_unserved_mode `{KH : KernelHeaders} `{FH : FsHeaders}
    (kernel : list fileops.call -> fileops.call -> Z)
    (f : fileops.file) (mode start len : Z) (tr : list fileops.call) :
  mode <> FALLOC_FL_ZERO_RANGE ->
  mode <> Z.lor FALLOC_FL_ZERO_RANGE FALLOC_FL_KEEP_SIZE ->
  mode <> Z.lor FALLOC_FL_PUNCH_HOLE FALLOC_FL_KEEP_SIZE ->
  mode <> Z.lor (Z.lor FALLOC_FL_PUNCH_HOLE FALLOC_FL_KEEP_SIZE)
            FALLOC_FL_NO_HIDE_STALE ->
  exists r tr',
    fileops.blkdev_fallocate kernel f mode start len tr = (r, tr') /\
    (r = - EOPNOTSUPP \/ r = - EINVAL) /\
    (tr' = tr \/
     tr' = fileops.filemap_invalidate_unlock
           :: fileops.filemap_invalidate_lock :: tr).
Proof.
  intros H1 H2 H3 H4.
  assert (fileops.fallocate_served mode = false) as Hs.
  { unfold fileops.fallocate_served.
    by rewrite !(proj2 (Z.eqb_neq _ _)). }
  pose proof (fallocate_paths kernel f mode start len tr) as H.
  destruct (fileops.fallocate_len f mode start len) as [len'|].
  - cbn zeta in H. rewrite Hs in H. eexists _, _. split; [exact H|]. auto.
  - destruct H as (r & -> & Hr). eexists _, _. split; [done|]. auto.
Qed.

(** X2. On every path [blkdev_fallocate] leaves the invalidate lock as it
    found it: either it made no call at all, or its calls are the taking of
    the lock, at most one [truncate_bdev_range] followed by at most one
    device operation, and the release of the lock.  If
    [truncate_bdev_range] fails, its error is the result and no device
    operation is issued. *)
Theorem fallocate_lock_released `{KH : KernelHeaders} `{FH : FsHeaders}
    (kernel : list fileops.call -> fileops.call -> Z)
    (f : fileops.file) (mode start len : Z) (tr : list fileops.call) :
  exists r cs,
    fileops.blkdev_fallocate kernel f mode start len tr = (r, cs ++ tr) /\
    (cs = [] \/
     cs = [fileops.filemap_invalidate_unlock;
           fileops.filemap_invalidate_lock] \/
     exists m s e,
       let T := fileops.truncate_bdev_range m s e in
       let err :=
         wrap_s 32 (kernel (fileops.filemap_invalidate_lock :: tr) T) in
       (err <> 0 /\ r = err /\
        cs = [fileops.filemap_invalidate_unlock; T;
              fileops.filemap_invalidate_lock]) \/
       (err = 0 /\
        exists D,
          cs = [fileops.filemap_invalidate_unlock; D; T;
                fileops.filemap_invalidate_lock] /\
          r = wrap_s 32
                (kernel (T :: fileops.filemap_invalidate_lock :: tr) D) /\
          exists sector nr flags,
            D = fileops.blkdev_issue_zeroout sector nr flags \/
            D = fileops.blkdev_issue_discard sector nr flags)).
Proof.
  pose proof (fallocate_paths kernel f mode start len tr) as H.
  destruct (fileops.fallocate_len f mode start len) as [len'|].
  2: { destruct H as (r & -> & _). exists r, []. split; [done|]. by left. }
  cbn zeta in H. rewrite H. clear H.
  destruct (fileops.fallocate_served mode).
  2: { eexists _, [_; _]. split; [done|]. right. by left. }
  destruct (wrap_s 32 _ =? 0) eqn:E.
  - apply Z.eqb_eq in E.
    eexists _, [_; _; _; _]. split; [done|]. right. right.
    eexists _, _, _. right. split; [exact E|].
    eexists. split; [done|]. split; [done|].
    destruct (fallocate_op_cases mode start len') as [-> | [-> | ->]]; eauto.
  - apply Z.eqb_neq in E.
    eexists _, [_; _; _]. split; [done|]. right. right.
    eexists _, _, _. left. done.
Qed.

(** X3. For a range that starts in the device and does not wrap around, on
    a device whose block size is [2 ^ k] bytes with [k] at least 9, every
    call that [blkdev_fallocate] makes on the device is for a range of
    whole blocks inside the device: with [n] the bytes from [start] to the
    end of the range or of the device, whichever comes first,
    [truncate_bdev_range] is called for the bytes [start] to
    [start + n - 1], and the device operation for [n / 512] sectors from
    sector [start / 512]. *)
Theorem fallocate_range_in_device `{KH : KernelHeaders} `{FH : FsHeaders}
    (kernel : list fileops.call -> fileops.call -> Z)
    (f : fileops.file) (mode start len k : Z) (tr : list fileops.call) :
  let bdev := fileops.I_BDEV (fileops.bdev_file_inode f) in
  let isize := fileops.bd_inode_size bdev in
  let n := Z.min len (isize - start) in
  0 <= start -> 0 < len -> start + len < 2 ^ 63 -> isize < 2 ^ 63 ->
  9 <= k < 32 -> fileops.bdev_logical_block_size bdev = 2 ^ k ->
  exists r cs,
    fileops.blkdev_fallocate kernel f mode start len tr = (r, cs ++ tr) /\
    forall c, c ∈ cs ->
      match c with
      | fileops.truncate_bdev_range m s e =>
          m = fileops.f_mode f /\ s = start /\ e = start + n - 1
      | fileops.blkdev_issue_zeroout sector nr _
      | fileops.blkdev_issue_discard sector nr _ =>
          sector * 512 = start /\ nr * 512 = n
      | fileops.filemap_invalidate_lock
      | fileops.filemap_invalidate_unlock => True
      | _ => False
      end /\
      (c <> fileops.filemap_invalidate_lock ->
       c <> fileops.filemap_invalidate_unlock ->
       0 < n /\ start + n <= isize /\
       start mod 2 ^ k = 0 /\ n mod 2 ^ k = 0 /\
       (n <> len -> Z.land mode FALLOC_FL_KEEP_SIZE <> 0)).
Proof.
  intros bdev isize n Hs Hl Hsl Hi Hk Hb.
  pose proof (fallocate_paths kernel f mode start len tr) as H.
  pose proof (fallocate_len_spec f mode start len) as Hspec.
  destruct (fileops.fallocate_len f mode start len) as [len'|].
  2: { destruct H as (r & -> & _). exists r, []. split; [done|].
       by intros c ?%elem_of_nil. }
  destruct (Hspec len' k Hs Hl Hsl Hi Hk Hb eq_refl)
    as (Hn & Hpos & Hin & Hsa & Hla & Hkeep).
  fold bdev isize n in Hn, Hin. subst len'. clear Hspec.
  cbn zeta in H. rewrite H. clear H.
  rewrite (wrap_s_small 64 (start + n - 1)) by lia.
  assert (wrap_u 64 (Z.shiftr start 9) * 512 = start) as Hsec.
  { rewrite wrap_u_small; [by apply (shiftr_9_sector _ k); lia|].
    rewrite Z.shiftr_div_pow2 by lia. split; [apply Z.div_pos; lia|].
    apply Z.div_lt_upper_bound; lia. }
  assert (wrap_u 64 (Z.shiftr n 9) * 512 = n) as Hnr.
  { rewrite wrap_u_small; [by apply (shiftr_9_sector _ k); lia|].
    rewrite Z.shiftr_div_pow2 by lia. split; [apply Z.div_pos; lia|].
    apply Z.div_lt_upper_bound; lia. }
  destruct (fileops.fallocate_served mode).
  2: { eexists _, [_; _]. split; [done|]. intros c.
       rewrite !elem_of_cons, elem_of_nil.
       intros Hc. destruct_or!; by subst. }
  destruct (wrap_s 32 _ =? 0).
  - eexists _, [_; _; _; _]. split; [done|]. intros c.
    rewrite !elem_of_cons, elem_of_nil.
    intros Hc. destruct_or!; subst; try done.
    destruct (fallocate_op_cases mode start n) as [-> | [-> | ->]]; done.
  - eexists _, [_; _; _]. split; [done|]. intros c.
    rewrite !elem_of_cons, elem_of_nil.
    intros Hc. destruct_or!; by subst.
Qed.

(** X4. With [FALLOC_FL_KEEP_SIZE], a range that starts in the device and
    runs past its end is cut at the end of the device: the call does what
    the call for the range up to the end of the device does.  Without the
    flag it fails with [-EINVAL] before any call is made, unless the mode
    has a flag that is not supported. *)
Theorem fallocate_keep_size_clips `{KH : KernelHeaders} `{FH : FsHeaders}
    (kernel : list fileops.call -> fileops.call -> Z)
    (f : fileops.file) (mode start len : Z) (tr : list fileops.call) :
  let isize :=
    fileops.bd_inode_size (fileops.I_BDEV (fileops.bdev_file_inode f)) in
  0 <= start < isize -> isize <= start + len - 1 -> start + len < 2 ^ 63 ->
  (Z.land mode FALLOC_FL_KEEP_SIZE <> 0 ->
   fileops.blkdev_fallocate kernel f mode start len tr =
   fileops.blkdev_fallocate kernel f mode start (isize - start) tr) /\
  (Z.land mode FALLOC_FL_KEEP_SIZE = 0 ->
   fileops.blkdev_fallocate kernel f mode start len tr =
     (if Z.land mode (Z.lnot fileops.BLKDEV_FALLOC_FL_SUPPORTED) =? 0
      then - EINVAL else - EOPNOTSUPP, tr)).
Proof.
  intros isize Hs He Hsl. unfold fileops.blkdev_fallocate. fold isize.
  rewrite (wrap_s_small 64 (start + len - 1)) by lia.
  rewrite (wrap_s_small 64 (isize - start)) by lia.
  rewrite (wrap_s_small 64 (start + (isize - start) - 1)) by lia.
  assert ((start >=? isize) = false) as ->.
  { rewrite Z.geb_leb. apply Z.leb_gt. lia. }
  assert ((start + len - 1 >=? isize) = true) as ->.
  { rewrite Z.geb_leb. apply Z.leb_le. lia. }
  assert ((start + (isize - start) - 1 >=? isize) = false) as ->.
  { rewrite Z.geb_leb. apply Z.leb_gt. lia. }
  split; intros Hk.
  - apply Z.eqb_neq in Hk. rewrite Hk. simpl. done.
  - rewrite Hk. simpl. by destruct (Z.land mode _ =? 0).
Qed.

Section transfer.
Import fileops.
Context `{KH : KernelHeaders} `{FH : FsHeaders} `{IT : IovIter}
  `{ITR : !IovIterResize} {ITL : IovIterLaws} {ITRL : IovIterResizeLaws}.
Variable kernel : list call -> call -> Z.
Variable transfer : list call -> kiocb -> iov_iter -> kiocb * iov_iter.

(** Lines 527-531 and 554-558 for an iterator of [count] bytes and [size]
    bytes left on the device: what is kept in [shorted], and the count that
    is left in the iterator. *)
Lemma clip_counts (size : Z) (i : iov_iter) :
  0 < size < 2 ^ 63 -> iov_iter_count i < 2 ^ 64 ->
  let clipped :=
    if wrap_u 64 size <? iov_iter_count i
    then (wrap_u 64 (iov_iter_count i - size),
          iov_iter_truncate i (wrap_u 64 size))
    else (0, i) in
  iov_iter_count clipped.2 = Z.min (iov_iter_count i) size /\
  clipped.1 = iov_iter_count i - iov_iter_count clipped.2.
Proof.
  intros Hs Hc. pose proof (iov_iter_count_nonneg i) as Hn.
  rewrite (wrap_u_small 64 size) by lia.
  destruct (size <? iov_iter_count i) eqn:E; cbn [fst snd].
  - apply Z.ltb_lt in E. rewrite iov_iter_truncate_count by lia.
    rewrite (proj2 (Z.ltb_lt _ _)) by lia.
    rewrite wrap_u_small by lia. lia.
  - apply Z.ltb_ge in E. lia.
Qed.

(** The iterator after lines 537 and 561, when the transfer function left
    [after] of the clipped iterator. *)
Lemma reexpand_count (i clipped after : iov_iter) (shorted : Z) :
  iov_iter_count i < 2 ^ 64 ->
  iov_iter_count after <= iov_iter_count clipped ->
  shorted = iov_iter_count i - iov_iter_count clipped ->
  0 <= shorted ->
  iov_iter_count i
  - iov_iter_count
      (iov_iter_reexpand after (wrap_u 64 (iov_iter_count after + shorted)))
  = iov_iter_count clipped - iov_iter_count after.
Proof.
  intros Hc Ha -> Hs. pose proof (iov_iter_count_nonneg after).
  rewrite wrap_u_small by lia. rewrite iov_iter_reexpand_count by lia. lia.
Qed.

End transfer.

(** X5. [blkdev_write_iter] never lets a write run past the end of the
    device.  For a position that is not negative, either it makes no call
    and leaves the iocb and the iterator alone, or the device is writable
    and not an active swap device, and between [blk_start_plug] and
    [blk_finish_plug] it calls [__generic_file_write_iter] once, at the
    position of the iocb and with an iterator whose count is the smaller of
    the count asked for and the bytes from the position to the end of the
    device, which is at least one; [generic_write_sync] follows exactly
    when that call returned a positive count. *)
Theorem write_iter_within_device `{KH : KernelHeaders} `{FH : FsHeaders}
    `{IT : IovIter} `{ITR : !IovIterResize}
    {ITL : IovIterLaws} {ITRL : IovIterResizeLaws}
    (kernel : list fileops.call -> fileops.call -> Z)
    (transfer : list fileops.call -> fileops.kiocb -> iov_iter
                -> fileops.kiocb * iov_iter)
    (iocb : fileops.kiocb) (from : iov_iter) (tr : list fileops.call) :
  let bd_inode := fileops.bdev_file_inode (fileops.ki_filp iocb) in
  let size := fileops.i_size_read bd_inode in
  let pos := fileops.ki_pos iocb in
  0 <= pos -> size < 2 ^ 63 -> iov_iter_count from < 2 ^ 64 ->
  exists r iocb' from' cs,
    fileops.blkdev_write_iter kernel transfer iocb from tr
      = (r, iocb', from', cs ++ tr) /\
    (cs = [] /\ iocb' = iocb /\ from' = from \/
     exists count r1,
       count = Z.min (iov_iter_count from) (size - pos) /\ 0 < count /\
       r1 = wrap_s 64 (kernel (fileops.blk_start_plug :: tr)
                         (fileops.generic_file_write_iter pos count)) /\
       cs = [fileops.blk_finish_plug]
            ++ (if 0 <? r1 then [fileops.generic_write_sync r1] else [])
            ++ [fileops.generic_file_write_iter pos count;
                fileops.blk_start_plug] /\
       fileops.bdev_read_only (fileops.I_BDEV bd_inode) = false /\
       (fileops.IS_SWAPFILE bd_inode = true ->
        fileops.is_hibernate_resume_dev bd_inode = true)).
Proof.
  intros bd_inode size pos Hp Hs Hc.
  unfold fileops.blkdev_write_iter. fold bd_inode. fold size. fold pos.
  destruct (fileops.bdev_read_only _) eqn:Ero.
  { eexists _, _, _, []. split; [done|]. by left. }
  destruct (fileops.IS_SWAPFILE bd_inode
            && negb (fileops.is_hibernate_resume_dev bd_inode)) eqn:Esw.
  { eexists _, _, _, []. split; [done|]. by left. }
  destruct (iov_iter_count from =? 0) eqn:E0.
  { eexists _, _, _, []. split; [done|]. by left. }
  destruct (pos >=? size) eqn:Epos.
  { eexists _, _, _, []. split; [done|]. by left. }
  destruct (Z.land _ _ =? IOCB_NOWAIT).
  { eexists _, _, _, []. split; [done|]. by left. }
  rewrite Z.geb_leb in Epos. apply Z.leb_gt in Epos.
  apply Z.eqb_neq in E0. pose proof (iov_iter_count_nonneg from) as Hn.
  rewrite (wrap_s_small 64 (size - pos)) by lia.
  destruct (clip_counts (size - pos) from) as [Hcl Hsh]; [lia|lia|].
  cbn zeta in Hcl, Hsh.
  destruct (if wrap_u 64 (size - pos) <? iov_iter_count from
            then _ else _) as [shorted clipped].
  cbn [fst snd] in Hcl, Hsh. munfold. rewrite Hcl.
  set (count := Z.min (iov_iter_count from) (size - pos)).
  set (r1 := wrap_s 64 (kernel _ _)).
  destruct (transfer _ iocb clipped) as [iocb1 after].
  destruct (0 <? r1) eqn:Er.
  - eexists _, _, _, [_; _; _; _]. split; [done|]. right.
    exists count, r1. fold r1. rewrite Er. split_and!; try done; [lia|].
    intros Hsf. rewrite Hsf in Esw. by destruct (fileops.is_hibernate_resume_dev _).
  - eexists _, _, _, [_; _; _]. split; [done|]. right.
    exists count, r1. fold r1. rewrite Er. split_and!; try done; [lia|].
    intros Hsf. rewrite Hsf in Esw. by destruct (fileops.is_hibernate_resume_dev _).
Qed.

(** X6. [blkdev_write_iter] gives the iterator back with the part beyond
    the end of the device restored: if the transfer function does not grow
    the iterator it is given, the bytes by which the caller's iterator
    shrinks are exactly the bytes that the transfer function took from the
    clipped one, so at most the bytes between the position and the end of
    the device; and the iocb is as the transfer function left it. *)
Theorem write_iter_restores_iterator `{KH : KernelHeaders} `{FH : FsHeaders}
    `{IT : IovIter} `{ITR : !IovIterResize}
    {ITL : IovIterLaws} {ITRL : IovIterResizeLaws}
    (kernel : list fileops.call -> fileops.call -> Z)
    (transfer : list fileops.call -> fileops.kiocb -> iov_iter
                -> fileops.kiocb * iov_iter)
    (iocb : fileops.kiocb) (from : iov_iter) (tr : list fileops.call) :
  let size :=
    fileops.i_size_read (fileops.bdev_file_inode (fileops.ki_filp iocb)) in
  let pos := fileops.ki_pos iocb in
  0 <= pos -> size < 2 ^ 63 -> iov_iter_count from < 2 ^ 64 ->
  (forall tr k i,
     iov_iter_count (transfer tr k i).2 <= iov_iter_count i) ->
  exists r iocb' from' tr',
    fileops.blkdev_write_iter kernel transfer iocb from tr
      = (r, iocb', from', tr') /\
    (tr' = tr /\ iocb' = iocb /\ from' = from \/
     exists clipped tr1,
       iov_iter_count clipped = Z.min (iov_iter_count from) (size - pos) /\
       iocb' = (transfer tr1 iocb clipped).1 /\
       iov_iter_count from - iov_iter_count from'
         = iov_iter_count clipped
           - iov_iter_count (transfer tr1 iocb clipped).2 /\
       0 <= iov_iter_count from - iov_iter_count from' <= size - pos).
Proof.
  intros size pos Hp Hs Hc Htr.
  unfold fileops.blkdev_write_iter. fold size. fold pos.
  destruct (fileops.bdev_read_only _).
  { eexists _, _, _, _. split; [done|]. by left. }
  destruct (fileops.IS_SWAPFILE _ && _).
  { eexists _, _, _, _. split; [done|]. by left. }
  destruct (iov_iter_count from =? 0) eqn:E0.
  { eexists _, _, _, _. split; [done|]. by left. }
  destruct (pos >=? size) eqn:Epos.
  { eexists _, _, _, _. split; [done|]. by left. }
  destruct (Z.land _ _ =? IOCB_NOWAIT).
  { eexists _, _, _, _. split; [done|]. by left. }
  rewrite Z.geb_leb in Epos. apply Z.leb_gt in Epos.
  pose proof (iov_iter_count_nonneg from) as Hn.
  rewrite (wrap_s_small 64 (size - pos)) by lia.
  destruct (clip_counts (size - pos) from) as [Hcl Hsh]; [lia|lia|].
  cbn zeta in Hcl, Hsh.
  destruct (if wrap_u 64 (size - pos) <? iov_iter_count from
            then _ else _) as [shorted clipped].
  cbn [fst snd] in Hcl, Hsh. munfold.
  set (tr1 := fileops.generic_file_write_iter _ _ :: _).
  pose proof (Htr tr1 iocb clipped) as Hle.
  pose proof (reexpand_count from clipped (transfer tr1 iocb clipped).2
                shorted Hc Hle Hsh) as Hre.
  destruct (transfer tr1 iocb clipped) as [iocb1 after] eqn:Et.
  cbn [fst snd] in *.
  pose proof (iov_iter_count_nonneg after) as Hna.
  destruct (0 <? wrap_s 64 _);
    (eexists _, _, _, _; split; [done|]; right;
     exists clipped, tr1; rewrite Et; cbn [fst snd];
     split_and!; try done; [apply Hre; lia|rewrite Hre; lia..]).
Qed.

(** X7. [blkdev_read_iter] at or past the end of the device reads nothing:
    it returns 0 and makes no call.  Before the end it calls
    [generic_file_read_iter] once, with an iterator whose count is the
    smaller of the count asked for and the bytes from the position to the
    end of the device, returns what that call returns, and gives the
    iterator back with the part beyond the end restored: if the transfer
    function does not grow the iterator, the caller's iterator shrinks by
    exactly the bytes that were taken from the clipped one. *)
Theorem read_iter_within_device `{KH : KernelHeaders} `{FH : FsHeaders}
    `{IT : IovIter} `{ITR : !IovIterResize}
    {ITL : IovIterLaws} {ITRL : IovIterResizeLaws}
    (kernel : list fileops.call -> fileops.call -> Z)
    (transfer : list fileops.call -> fileops.kiocb -> iov_iter
                -> fileops.kiocb * iov_iter)
    (iocb : fileops.kiocb) (to : iov_iter) (tr : list fileops.call) :
  let size :=
    fileops.i_size_read (fileops.bdev_file_inode (fileops.ki_filp iocb)) in
  let pos := fileops.ki_pos iocb in
  0 <= pos -> size < 2 ^ 63 -> iov_iter_count to < 2 ^ 64 ->
  (forall tr k i,
     iov_iter_count (transfer tr k i).2 <= iov_iter_count i) ->
  (size <= pos ->
   fileops.blkdev_read_iter kernel transfer iocb to tr = (0, iocb, to, tr)) /\
  (pos < size ->
   exists clipped to',
     let c := fileops.generic_file_read_iter pos (iov_iter_count clipped) in
     fileops.blkdev_read_iter kernel transfer iocb to tr
       = (wrap_s 64 (kernel tr c), (transfer (c :: tr) iocb clipped).1, to',
          c :: tr) /\
     iov_iter_count clipped = Z.min (iov_iter_count to) (size - pos) /\
     iov_iter_count to - iov_iter_count to'
       = iov_iter_count clipped
         - iov_iter_count (transfer (c :: tr) iocb clipped).2).
Proof.
  intros size pos Hp Hs Hc Htr.
  unfold fileops.blkdev_read_iter. fold size. fold pos. split.
  - intros Hle. by rewrite Z.geb_leb, (proj2 (Z.leb_le _ _)).
  - intros Hlt. rewrite Z.geb_leb, (proj2 (Z.leb_gt _ _)) by done.
    pose proof (iov_iter_count_nonneg to) as Hn.
    rewrite (wrap_s_small 64 (size - pos)) by lia.
    destruct (clip_counts (size - pos) to) as [Hcl Hsh]; [lia|lia|].
    cbn zeta in Hcl, Hsh.
    destruct (if wrap_u 64 (size - pos) <? iov_iter_count to
              then _ else _) as [shorted clipped].
    cbn [fst snd] in Hcl, Hsh. munfold.
    set (c := fileops.generic_file_read_iter _ _).
    pose proof (Htr (c :: tr) iocb clipped) as Hle.
    pose proof (reexpand_count to clipped (transfer (c :: tr) iocb clipped).2
                  shorted Hc Hle Hsh) as Hre.
    destruct (transfer (c :: tr) iocb clipped) as [iocb1 after] eqn:Et.
    cbn [fst snd] in *.
    eexists clipped, _. fold c. rewrite Et. cbn [fst snd].
    split_and!; [done|done|]. apply Hre. lia.
Qed.

Ltac bitwise :=
  apply Z.bits_inj'; intros ?n ?Hn;
  repeat first [rewrite Z.land_spec | rewrite Z.lor_spec
               | rewrite Z.lnot_spec by lia | rewrite Z.bits_0];
  repeat match goal with
         | |- context [Z.testbit ?x ?n] => destruct (Z.testbit x n)
         end; done.

Section bitwise.

Lemma wrap_u_land w x : 0 <= w -> wrap_u w x = Z.land x (Z.ones w).
Proof. intros. unfold wrap_u. by rewrite Z.land_ones. Qed.

(** Clearing the bits of [n] in a 32-bit [m], as C does with [m & ~n] on
    unsigned ints. *)
Lemma clear_bits_u32 m n :
  0 <= m < 2 ^ 32 ->
  Z.land (Z.land m (wrap_u 32 (Z.lnot n))) (Z.lnot n) = Z.land m (Z.lnot n) /\
  Z.land (Z.land m (wrap_u 32 (Z.lnot n))) n = 0.
Proof.
  intros Hm.
  assert (m = Z.land m (Z.ones 32)) as ->.
  { rewrite Z.land_ones by lia. symmetry. by apply Z.mod_small. }
  rewrite wrap_u_land by lia. split; bitwise.
Qed.

Lemma set_bits m n :
  Z.land (Z.lor m n) (Z.lnot n) = Z.land m (Z.lnot n) /\
  Z.land (Z.lor m n) n = n.
Proof. split; bitwise. Qed.

End bitwise.

(** X8. [blkdev_fsync] asks the device to flush only after the dirty pages
    of the range were written and waited for without error; it succeeds
    exactly when that write-back succeeded and the flush succeeded or is
    not supported by the device, and otherwise returns the error of the
    step that failed. *)
Theorem fsync_flush_after_writeback `{KH : KernelHeaders} `{FH : FsHeaders}
    (kernel : list fileops.call -> fileops.call -> Z)
    (filp : fileops.file) (start end_ datasync : Z)
    (tr : list fileops.call) :
  let W := fileops.file_write_and_wait_range start end_ in
  let e1 := wrap_s 32 (kernel tr W) in
  let e2 := wrap_s 32 (kernel (W :: tr) fileops.blkdev_issue_flush) in
  exists r cs,
    fileops.blkdev_fsync kernel filp start end_ datasync tr = (r, cs ++ tr) /\
    (fileops.blkdev_issue_flush ∈ cs <-> e1 = 0) /\
    (r = 0 <-> e1 = 0 /\ (e2 = 0 \/ e2 = - EOPNOTSUPP)) /\
    (r <> 0 -> r = if e1 =? 0 then e2 else e1).
Proof.
  intros W e1 e2. unfold fileops.blkdev_fsync. munfold. fold W e1.
  destruct (e1 =? 0) eqn:E1; cbn [negb]; cbn beta iota.
  - apply Z.eqb_eq in E1. fold e2.
    exists (if e2 =? - EOPNOTSUPP then 0 else e2), [fileops.blkdev_issue_flush; W].
    split; [done|]. split_and!.
    + split; [done|]. intros _. apply list_elem_of_here.
    + destruct (e2 =? - EOPNOTSUPP) eqn:E2.
      * apply Z.eqb_eq in E2. naive_solver.
      * apply Z.eqb_neq in E2. naive_solver.
    + destruct (e2 =? - EOPNOTSUPP); done.
  - apply Z.eqb_neq in E1. exists e1, [W]. split; [done|]. split_and!.
    + split; [|done]. rewrite list_elem_of_singleton. done.
    + naive_solver.
    + done.
Qed.

(** X9. The mode that [block_ioctl] hands to [blkdev_ioctl] is the mode of
    the file with its [FMODE_NDELAY] bits taken from the present state of
    [O_NDELAY] in the flags of the file, not from what [blkdev_open] saw:
    they are set if [O_NDELAY] is set, cleared if it is not, and no other
    bit differs.  The result is that of [blkdev_ioctl]. *)
Theorem block_ioctl_mode `{KH : KernelHeaders} `{FH : FsHeaders}
    (kernel : list fileops.call -> fileops.call -> Z)
    (f : fileops.file) (cmd arg : Z) (tr : list fileops.call) :
  0 <= fileops.f_mode f < 2 ^ 32 ->
  exists mode,
    let c := fileops.blkdev_ioctl mode cmd arg in
    fileops.block_ioctl kernel f cmd arg tr
      = (wrap_s 32 (kernel tr c), c :: tr) /\
    Z.land mode (Z.lnot FMODE_NDELAY)
      = Z.land (fileops.f_mode f) (Z.lnot FMODE_NDELAY) /\
    Z.land mode FMODE_NDELAY
      = if Z.land (fileops.f_flags f) O_NDELAY =? 0 then 0
        else FMODE_NDELAY.
Proof.
  intros Hm. unfold fileops.block_ioctl. munfold.
  eexists. split; [done|].
  destruct (Z.land (fileops.f_flags f) O_NDELAY =? 0); cbn [negb].
  - by apply clear_bits_u32.
  - apply set_bits.
Qed.

(** X10. [blkdev_open] changes the file before it knows whether the device
    can be opened, and only by setting bits: whether it succeeds or fails,
    the flags of the file are the old ones with [O_LARGEFILE], the mode
    has every bit it had and [FMODE_NOWAIT] and [FMODE_BUF_RASYNC], and
    differs from the old one only in these and in [FMODE_NDELAY],
    [FMODE_EXCL] and [FMODE_WRITE_IOCTL]; that mode is the one passed to
    [blkdev_get_by_dev].  On failure the result is the error and the
    mapping of the file is the old one; on success the result is 0 and the
    mapping is that of the block device. *)
Theorem blkdev_open_sets_flags `{KH : KernelHeaders} `{FH : FsHeaders}
    (kernel : list fileops.call -> fileops.call -> Z)
    (bd_inode i : fileops.inode) (filp : fileops.file)
    (tr : list fileops.call) :
  exists r filp' cs,
    let G :=
      fileops.blkdev_get_by_dev (fileops.i_rdev i) (fileops.f_mode filp') in
    let bdev := wrap_s 64 (kernel tr G) in
    fileops.blkdev_open kernel bd_inode i filp tr = (r, filp', cs ++ tr) /\
    G ∈ cs /\
    fileops.f_flags filp' = Z.lor (fileops.f_flags filp) O_LARGEFILE /\
    Z.land (fileops.f_mode filp')
      (Z.lor (fileops.f_mode filp) (Z.lor FMODE_NOWAIT FMODE_BUF_RASYNC))
      = Z.lor (fileops.f_mode filp) (Z.lor FMODE_NOWAIT FMODE_BUF_RASYNC) /\
    (let gained :=
       Z.lor (Z.lor FMODE_NOWAIT FMODE_BUF_RASYNC)
         (Z.lor FMODE_NDELAY (Z.lor FMODE_EXCL FMODE_WRITE_IOCTL)) in
     Z.land (fileops.f_mode filp') (Z.lnot gained)
       = Z.land (fileops.f_mode filp) (Z.lnot gained)) /\
    (if fileops.IS_ERR bdev
     then r = wrap_s 32 bdev /\
          fileops.f_mapping filp' = fileops.f_mapping filp /\
          fileops.f_wb_err filp' = fileops.f_wb_err filp
     else r = 0 /\ fileops.f_mapping filp' = bd_inode).
Proof.
  unfold fileops.blkdev_open. munfold.
  set (f1 := fileops.set_f_mode _ (fileops.set_f_flags _ filp)).
  set (f2 := if negb (Z.land (fileops.f_flags f1) O_NDELAY =? 0)
             then _ else f1).
  set (f3 := if negb (Z.land (fileops.f_flags f2) O_EXCL =? 0)
             then _ else f2).
  set (f4 := if Z.land (fileops.f_flags f3) O_ACCMODE =? 3 then _ else f3).
  assert (fileops.f_flags f4 = Z.lor (fileops.f_flags filp) O_LARGEFILE /\
          fileops.f_mapping f4 = fileops.f_mapping filp /\
          fileops.f_wb_err f4 = fileops.f_wb_err filp /\
          exists a b c,
            fileops.f_mode f4 =
              Z.lor (Z.lor (Z.lor (Z.lor (fileops.f_mode filp)
                                     (Z.lor FMODE_NOWAIT FMODE_BUF_RASYNC))
                              (Z.land a FMODE_NDELAY))
                       (Z.land b FMODE_EXCL))
                (Z.land c FMODE_WRITE_IOCTL))
    as (Hfl & Hmap & Hwb & a & b & c & Hmode).
  { unfold f4, f3, f2, f1.
    destruct (negb (Z.land _ O_NDELAY =? 0)), (negb (Z.land _ O_EXCL =? 0)),
      (Z.land _ O_ACCMODE =? 3); cbn; split_and!; try done;
      [exists (-1), (-1), (-1)|exists (-1), (-1), 0|exists (-1), 0, (-1)
      |exists (-1), 0, 0|exists 0, (-1), (-1)|exists 0, (-1), 0
      |exists 0, 0, (-1)|exists 0, 0, 0];
      rewrite ?Z.land_m1_l, ?Z.land_0_l, ?Z.lor_0_r; done. }
  clearbody f4. clear f1 f2 f3.
  set (G := fileops.blkdev_get_by_dev _ _).
  destruct (fileops.IS_ERR (wrap_s 64 (kernel tr G))) eqn:Eerr.
  - exists (wrap_s 32 (wrap_s 64 (kernel tr G))), f4, [G].
    cbn zeta. fold G. rewrite Eerr.
    split_and!; try done.
    + apply list_elem_of_here.
    + rewrite Hmode. bitwise.
    + rewrite Hmode. bitwise.
  - eexists 0, _, [_; G]. cbn zeta.
    unfold fileops.set_f_wb_err, fileops.set_f_mapping.
    cbn [fileops.f_mode fileops.f_flags fileops.f_mapping fileops.f_wb_err].
    split; [reflexivity|].
    cbn [fileops.f_mode fileops.f_flags fileops.f_mapping fileops.f_wb_err].
    fold G. rewrite Eerr.
    split_and!; try done.
    + apply list_elem_of_further, list_elem_of_here.
    + rewrite Hmode. bitwise.
    + rewrite Hmode. bitwise.
Qed.

Lemma page_iter_resize_laws :
  @IovIterResizeLaws page_iov_iter page_iter_resize.
Proof.
  split; intros i count Hc; simpl.
  - unfold page_iter_truncate.
    destruct (count <? Z.of_N (pi_count i)); [|done]. simpl. lia.
  - lia.
Qed.

Section linux_fileops.
#[local] Existing Instance linux_headers.
#[local] Existing Instance linux_fs_headers.
#[local] Existing Instance page_iov_iter.
#[local] Existing Instance page_iov_iter_laws.
#[local] Existing Instance page_iter_resize.
#[local] Existing Instance page_iter_resize_laws.

Lemma fallocate_unserved_mode_witness :
  exists r tr',
    fileops.blkdev_fallocate obliging_kernel (disk_file 0 0) 0 0 4096 []
      = (r, tr') /\
    (r = - EOPNOTSUPP \/ r = - EINVAL) /\
    (tr' = [] \/
     tr' = [fileops.filemap_invalidate_unlock;
            fileops.filemap_invalidate_lock]).
Proof.
  apply (fallocate_unserved_mode obliging_kernel (disk_file 0 0) 0 0 4096 []);
    discriminate.
Defined.

Lemma fallocate_range_in_device_witness :
  let f := disk_file 0 0 in
  let n := Z.min 8192 (1048576 - 1044480) in
  exists r cs,
    fileops.blkdev_fallocate obliging_kernel f 17 1044480 8192 []
      = (r, cs ++ []) /\
    forall c, c ∈ cs ->
      match c with
      | fileops.truncate_bdev_range m s e =>
          m = fileops.f_mode f /\ s = 1044480 /\ e = 1044480 + n - 1
      | fileops.blkdev_issue_zeroout sector nr _
      | fileops.blkdev_issue_discard sector nr _ =>
          sector * 512 = 1044480 /\ nr * 512 = n
      | fileops.filemap_invalidate_lock
      | fileops.filemap_invalidate_unlock => True
      | _ => False
      end /\
      (c <> fileops.filemap_invalidate_lock ->
       c <> fileops.filemap_invalidate_unlock ->
       0 < n /\ 1044480 + n <= 1048576 /\
       1044480 mod 2 ^ 9 = 0 /\ n mod 2 ^ 9 = 0 /\
       (n <> 8192 -> Z.land 17 FALLOC_FL_KEEP_SIZE <> 0)).
Proof.
  apply (fallocate_range_in_device obliging_kernel (disk_file 0 0) 17
           1044480 8192 9 []); try reflexivity; try lia.
Defined.

Lemma fallocate_keep_size_clips_witness :
  let f := disk_file 0 0 in
  (Z.land 17 FALLOC_FL_KEEP_SIZE <> 0 ->
   fileops.blkdev_fallocate obliging_kernel f 17 1044480 8192 [] =
   fileops.blkdev_fallocate obliging_kernel f 17 1044480
     (1048576 - 1044480) []) /\
  (Z.land 17 FALLOC_FL_KEEP_SIZE = 0 ->
   fileops.blkdev_fallocate obliging_kernel f 17 1044480 8192 [] =
     (if Z.land 17 (Z.lnot fileops.BLKDEV_FALLOC_FL_SUPPORTED) =? 0
      then - EINVAL else - EOPNOTSUPP, [])).
Proof.
  apply (fallocate_keep_size_clips obliging_kernel (disk_file 0 0) 17
           1044480 8192 []); simpl; lia.
Defined.

Lemma write_iter_within_device_witness :
  let iocb :=
    {| fileops.ki_filp := disk_file 0 0; fileops.ki_pos := 1044480;
       fileops.ki_flags := 0 |} in
  let from := buffer 8192 WRITE in
  exists r iocb' from' cs,
    fileops.blkdev_write_iter obliging_kernel greedy_transfer iocb from []
      = (r, iocb', from', cs ++ []) /\
    (cs = [] /\ iocb' = iocb /\ from' = from \/
     exists count r1,
       count = Z.min (iov_iter_count from) (1048576 - 1044480) /\
       0 < count /\
       r1 = wrap_s 64 (obliging_kernel [fileops.blk_start_plug]
                         (fileops.generic_file_write_iter 1044480 count)) /\
       cs = [fileops.blk_finish_plug]
            ++ (if 0 <? r1 then [fileops.generic_write_sync r1] else [])
            ++ [fileops.generic_file_write_iter 1044480 count;
                fileops.blk_start_plug] /\
       fileops.bdev_read_only (fileops.I_BDEV disk) = false /\
       (fileops.IS_SWAPFILE disk = true ->
        fileops.is_hibernate_resume_dev disk = true)).
Proof.
  apply (write_iter_within_device obliging_kernel greedy_transfer
           {| fileops.ki_filp := disk_file 0 0; fileops.ki_pos := 1044480;
              fileops.ki_flags := 0 |} (buffer 8192 WRITE) []);
    simpl; lia.
Defined.

Lemma write_iter_restores_iterator_witness :
  let iocb :=
    {| fileops.ki_filp := disk_file 0 0; fileops.ki_pos := 1044480;
       fileops.ki_flags := 0 |} in
  let from := buffer 8192 WRITE in
  exists r iocb' from' tr',
    fileops.blkdev_write_iter obliging_kernel greedy_transfer iocb from []
      = (r, iocb', from', tr') /\
    (tr' = [] /\ iocb' = iocb /\ from' = from \/
     exists clipped tr1,
       iov_iter_count clipped
         = Z.min (iov_iter_count from) (1048576 - 1044480) /\
       iocb' = (greedy_transfer tr1 iocb clipped).1 /\
       iov_iter_count from - iov_iter_count from'
         = iov_iter_count clipped
           - iov_iter_count (greedy_transfer tr1 iocb clipped).2 /\
       0 <= iov_iter_count from - iov_iter_count from'
         <= 1048576 - 1044480).
Proof.
  apply (write_iter_restores_iterator obliging_kernel greedy_transfer
           {| fileops.ki_filp := disk_file 0 0; fileops.ki_pos := 1044480;
              fileops.ki_flags := 0 |} (buffer 8192 WRITE) []);
    simpl; lia.
Defined.

Lemma read_iter_within_device_witness :
  let iocb :=
    {| fileops.ki_filp := disk_file 0 0; fileops.ki_pos := 1044480;
       fileops.ki_flags := 0 |} in
  let to := buffer 8192 READ in
  (1048576 <= 1044480 ->
   fileops.blkdev_read_iter obliging_kernel greedy_transfer iocb to []
     = (0, iocb, to, [])) /\
  (1044480 < 1048576 ->
   exists clipped to',
     let c :=
       fileops.generic_file_read_iter 1044480 (iov_iter_count clipped) in
     fileops.blkdev_read_iter obliging_kernel greedy_transfer iocb to []
       = (wrap_s 64 (obliging_kernel [] c),
          (greedy_transfer [c] iocb clipped).1, to', [c]) /\
     iov_iter_count clipped = Z.min (iov_iter_count to) (1048576 - 1044480) /\
     iov_iter_count to - iov_iter_count to'
       = iov_iter_count clipped
         - iov_iter_count (greedy_transfer [c] iocb clipped).2).
Proof.
  apply (read_iter_within_device obliging_kernel greedy_transfer
           {| fileops.ki_filp := disk_file 0 0; fileops.ki_pos := 1044480;
              fileops.ki_flags := 0 |} (buffer 8192 READ) []);
    simpl; lia.
Defined.

Lemma block_ioctl_mode_witness :
  let f := disk_file 32768 (64 + 1 + 2) in
  exists mode,
    let c := fileops.blkdev_ioctl mode 4704 0 in
    fileops.block_ioctl obliging_kernel f 4704 0 []
      = (wrap_s 32 (obliging_kernel [] c), [c]) /\
    Z.land mode (Z.lnot FMODE_NDELAY)
      = Z.land (fileops.f_mode f) (Z.lnot FMODE_NDELAY) /\
    Z.land mode FMODE_NDELAY
      = if Z.land (fileops.f_flags f) O_NDELAY =? 0 then 0
        else FMODE_NDELAY.
Proof.
  apply (block_ioctl_mode obliging_kernel (disk_file 32768 (64 + 1 + 2))
           4704 0 []).
  simpl. lia.
Defined.

End linux_fileops.

(** * The direct I/O engine: further properties *)

(** * The simple path, step by step *)

Section simple_outcome.
Context `{KH : KernelHeaders} `{IT : IovIter}.

(** While the simple path waits, its trace is the one it had when it
    submitted its bio, with the wake-up on top once the bio completed. *)
Definition simple_trace (bio : nat) (T0 : list event) (n : Z) (st : state)
    : Prop :=
  bi_size (bio_at bio st) = n /\
  (st_queue st = [bio] /\ st_trace st = T0 \/
   st_queue st = [] /\ st_trace st = EvWake :: T0).

Lemma simple_trace_stable bio d0 v0 T0 n :
  stable (fun st => simple_inv bio d0 v0 st /\ simple_trace bio T0 n st).
Proof.
  split; [|done].
  intros st c Hin [Hinv (Hn & Ht)].
  split; [by apply (simple_inv_stable bio d0 v0)|].
  destruct (device_pick_frame st c) as (Hq1 & _ & Ht1 & _ & Hst1).
  destruct (bio_endio_frame c.1 (device_pick st c)) as (Hq2 & _ & Hst2).
  pose proof (static_trans _ _ _ Hst1 Hst2) as (_ & _ & _ & Hsz & _).
  split.
  { rewrite size_of_bio_at, Hsz, <- size_of_bio_at. exact Hn. }
  destruct Hinv as (_ & _ & [(Hq & _ & Hh)|(Hq & _)]).
  2: { rewrite Hq in Hin. by apply elem_of_nil in Hin. }
  destruct Ht as [(_ & Ht)|(Hq' & _)]; [|congruence].
  rewrite Hq in Hin. apply list_elem_of_singleton in Hin.
  right. split.
  - rewrite Hq2, Hq1, Hq, Hin. simpl. by rewrite decide_True.
  - destruct Hst1 as (_ & _ & Hk1 & _).
    unfold bio_endio. rewrite hook_of_bio_at, Hk1, Hin, Hh. simpl.
    unfold blkdev_bio_end_io_simple, blk_wake_io_task. simpl.
    by rewrite Ht1, Ht.
Qed.

Lemma stable_simple_wait P fuel bio qc st st' :
  stable P -> simple_wait fuel bio qc st = Some st' -> P st -> P st'.
Proof.
  intros HP. revert st.
  induction fuel as [|fuel IH]; simpl; intros st Hw Hst; [done|].
  destruct (bi_private (bio_at bio st)); simplify_eq; auto;
    (eapply IH; [done|]; by apply stable_poll_or_sleep).
Qed.

Lemma simple_fill_spec v nr pos st bio ret st1 :
  simple_fill v nr pos st = (bio, ret, st1) ->
  let got := iter_get_pages nr (st_iter st) in
  bio = length (st_bios st) /\ ret = got.1.1 /\
  st_iter st1 = got.2 /\
  st_trace st1 = EvGetPages bio ret :: st_trace st /\
  st_queue st1 = st_queue st /\ st_dio st1 = st_dio st /\
  st_iocb st1 = st_iocb st /\
  map bi_io_vec (st_bios st1) = map bi_io_vec (st_bios st) ++ [v] /\
  hooks st1 !! bio = Some end_io_simple /\
  bi_private (bio_at bio st1) = private_task /\
  bi_status (bio_at bio st1) = 0 /\
  (ret = 0 -> bi_size (bio_at bio st1) = got.1.2).
Proof.
  intros Ef got. revert Ef.
  unfold simple_fill, bio_init, bio_new, bio_iov_iter_get_pages.
  intros Ef. injection Ef as <- <- <-.
  unfold hooks, bio_at, upd_bio, upd_bios; simpl.
  rewrite !alter_last, !lookup_last. simpl. fold got.
  destruct (got.1.1 =? 0) eqn:E; simpl;
    rewrite ?alter_last, ?lookup_last, ?map_app; simpl;
    (split_and!; try done);
    try (rewrite <- (length_map bi_end_io (st_bios st));
         by rewrite list_lookup_middle).
  intros E'. rewrite E' in E. done.
Qed.

Lemma simple_prepare_spec bio n st sd st' :
  simple_prepare bio n st = (sd, st') ->
  sd = match iov_iter_rw (st_iter st) with
       | READ => iter_is_iovec (st_iter st) | WRITE => false end /\
  st_trace st' =
    match iov_iter_rw (st_iter st) with
    | READ => [] | WRITE => [EvAccountWrite n] end ++ st_trace st /\
  st_queue st' = st_queue st /\ st_dio st' = st_dio st /\
  st_iocb st' = st_iocb st /\
  map bi_io_vec (st_bios st') = map bi_io_vec (st_bios st) /\
  map bi_size (st_bios st') = map bi_size (st_bios st) /\
  map bi_status (st_bios st') = map bi_status (st_bios st) /\
  hooks st' = hooks st /\
  bi_private (bio_at bio st') = bi_private (bio_at bio st).
Proof.
  unfold simple_prepare, iocb_flag, bio_set_polled, task_io_account_write,
    hooks.
  intros Es.
  repeat case_match; simplify_eq; simpl;
    rewrite ?(map_alter_same bi_io_vec), ?(map_alter_same bi_end_io),
      ?(map_alter_same bi_size), ?(map_alter_same bi_status) by done;
    (split_and!; try done);
    unfold bio_at; simpl; rewrite ?list_lookup_alter_eq;
    by destruct (st_bios st !! bio).
Qed.

End simple_outcome.

(** The simple path on an aligned request, path by path. *)
Lemma simple_path_run `{KH : KernelHeaders} `{IT : IovIter}
    (nr_pages : Z) (st : state) :
  st_queue st = [] ->
  dio_misaligned (ki_pos (st_iocb st)) (st_iter st)
    (I_BDEV (bdev_file_inode (ki_filp (st_iocb st)))) = false ->
  let heap := negb (nr_pages <=? DIO_INLINE_BIO_VECS) in
  let b := length (st_bios st) in
  let got := iter_get_pages nr_pages (st_iter st) in
  let alloc := if heap then [EvKmalloc nr_pages] else [] in
  let free := if heap then [EvKfree] else [] in
  exists r st',
    __blkdev_direct_IO_simple nr_pages st = Some (r, st') /\
    st_queue st' = [] /\
    if heap && negb (st_kmalloc_ok st) then r = - ENOMEM /\ st' = st
    else if negb (got.1.1 =? 0) then
      r = got.1.1 /\
      st_trace st' = free ++ [EvGetPages b got.1.1] ++ alloc ++ st_trace st
    else
      let n := got.1.2 in
      let dirty :=
        match iov_iter_rw got.2 with
        | READ => iter_is_iovec got.2 | WRITE => false end in
      let account :=
        match iov_iter_rw got.2 with
        | READ => [] | WRITE => [EvAccountWrite n] end in
      st_trace st' =
        free ++ [EvReleasePages b dirty; EvWake; EvSubmit b n] ++ account
        ++ [EvGetPages b 0] ++ alloc ++ st_trace st /\
      r = if bi_status (bio_at b st') =? 0 then n
          else blk_status_to_errno (bi_status (bio_at b st')).
Proof.
  intros Hq Hal heap b got alloc free.
  unfold __blkdev_direct_IO_simple. rewrite Hal.
  set (v := if nr_pages <=? DIO_INLINE_BIO_VECS
            then inline_vecs else heap_vecs).
  assert (heap && negb (st_kmalloc_ok st) = true /\
          simple_vecs nr_pages st = (None, st) \/
          heap && negb (st_kmalloc_ok st) = false /\
          exists st0,
            simple_vecs nr_pages st = (Some v, st0) /\
            st_bios st0 = st_bios st /\ st_dio st0 = st_dio st /\
            st_iocb st0 = st_iocb st /\ st_iter st0 = st_iter st /\
            st_queue st0 = [] /\ st_trace st0 = alloc ++ st_trace st)
    as Hsel.
  { unfold simple_vecs, kmalloc_array, v, heap, alloc.
    destruct (nr_pages <=? DIO_INLINE_BIO_VECS); simpl;
      [right; split; [done|]; by exists st|].
    destruct (st_kmalloc_ok st); simpl; [right|by left].
    split; [done|]. by eexists. }
  destruct Hsel as [[-> ->]|(-> & st0 & -> & Hb0 & Hd0 & Hk0 & Hi0 & Hq0 & Ht0)].
  { by eexists _, _. }
  destruct (simple_fill v nr_pages (ki_pos (st_iocb st)) st0)
    as [[bio ret] st1] eqn:Ef.
  destruct (simple_fill_spec _ _ _ _ _ _ _ Ef)
    as (Hb & Hret & Hi1 & Ht1 & Hq1 & Hd1 & Hk1 & Hv1 & Hh1 & Hp1 & Hs1 & Hsz1).
  rewrite Hi0 in Hret, Hi1, Hsz1. rewrite Hb0 in Hb, Hv1.
  fold got in Hret, Hi1, Hsz1. fold b in Hb. subst bio ret.
  assert (forall r s, st_queue s = [] ->
            exists s', simple_out v b r s = (r, s') /\ st_queue s' = [] /\
              st_trace s' = free ++ st_trace s /\
              bio_at b s' = bio_at b s) as Hout.
  { intros r s Hqs. unfold simple_out, kfree, bio_uninit, v, free, heap.
    destruct (nr_pages <=? DIO_INLINE_BIO_VECS); eexists; simpl; eauto. }
  destruct (negb (got.1.1 =? 0)) eqn:Eg.
  { destruct (Hout got.1.1 st1) as (s' & -> & Hqs & Hts & _);
      [congruence|].
    exists got.1.1, s'. split_and!; try done.
    by rewrite Hts, Ht1, Ht0. }
  apply negb_false_iff, Z.eqb_eq in Eg. specialize (Hsz1 Eg).
  destruct (simple_prepare b (bi_size (bio_at b st1)) st1)
    as [sd st2] eqn:Es.
  destruct (simple_prepare_spec _ _ _ _ _ Es)
    as (Hsd & Ht2 & Hq2 & Hd2 & Hk2 & Hv2 & Hz2 & _ & Hh2 & Hp2).
  rewrite Hi1 in Hsd, Ht2. rewrite Hsz1 in Ht2.
  rewrite submit_bio_eq.
  set (T0 := st_trace (enqueue b st2)).
  assert (bi_size (bio_at b st2) = got.1.2) as Hsz2.
  { by rewrite size_of_bio_at, Hz2, <- size_of_bio_at. }
  assert (simple_inv b (st_dio st) (map bi_io_vec (st_bios st) ++ [v])
            (enqueue b st2) /\
          simple_trace b T0 got.1.2 (enqueue b st2)) as Hinv.
  { unfold simple_inv, simple_trace, enqueue; simpl.
    change (bio_at b (set_queue ?q (log ?e ?s))) with (bio_at b s).
    change (hooks (set_queue ?q (log ?e ?s))) with (hooks s).
    rewrite Hq2, Hq1, Hq0, Hd2, Hd1, Hd0, Hv2, Hv1, Hh2, Hp2. simpl.
    split_and!; try done; left; done. }
  apply (stable_yield _ _ (simple_trace_stable _ _ _ _ _)) in Hinv.
  set (st3 := device_yield (enqueue b st2)) in *.
  destruct Hinv as [Hinv Htr].
  destruct (simple_wait_total b _ _ (wait_fuel st3) (Z.of_nat b) st3 Hinv)
    as (st4 & Hw & Hinv4 & Hq4 & _); [unfold wait_fuel; lia|].
  rewrite Hw.
  pose proof (stable_simple_wait _ _ _ _ _ _
                (simple_trace_stable _ _ _ _ _) Hw (conj Hinv Htr))
    as (_ & Hn4 & Ht4).
  destruct Ht4 as [(Hq4' & _)|(_ & Ht4)]; [congruence|].
  match goal with
  | |- context [simple_out v b ?r ?s] =>
      destruct (Hout r s) as (s' & -> & Hqs & Hts & Hbs); [done|]
  end.
  eexists _, s'. split_and!; [done|done| |].
  - rewrite Hts. unfold bio_release_pages; simpl. rewrite Ht4.
    unfold T0, enqueue; simpl. rewrite Hsz2, Ht2, Ht1, Ht0, Hsd.
    cbn zeta. by rewrite Eg.
  - rewrite Hbs. unfold bio_release_pages.
    change (bio_at b (log ?e ?s)) with (bio_at b s).
    rewrite Hsz1. by destruct (bi_status (bio_at b st4) =? 0).
Qed.

(** X11. What the simple path does on an aligned request when nothing is in
    flight.  If it needs a page array from the heap and gets none, the
    result is [-ENOMEM] and nothing happened.  Otherwise it fills one bio;
    if that fails, the result is the error of the page acquisition and
    nothing is submitted.  Otherwise it submits the bio, returns only once
    the bio is completed and the task woken, releases the pages once, dirty
    exactly for a read into user memory, and returns the size of the bio if
    the bio completed with status ok and the errno of its status if not.
    On each of these paths a page array taken from the heap is freed, and
    freed last. *)
Theorem simple_path_outcome `{KH : KernelHeaders} `{IT : IovIter}
    (nr_pages : Z) (st : state) :
  st_queue st = [] ->
  dio_misaligned (ki_pos (st_iocb st)) (st_iter st)
    (I_BDEV (bdev_file_inode (ki_filp (st_iocb st)))) = false ->
  let heap := negb (nr_pages <=? DIO_INLINE_BIO_VECS) in
  let b := length (st_bios st) in
  let got := iter_get_pages nr_pages (st_iter st) in
  let alloc := if heap then [EvKmalloc nr_pages] else [] in
  let free := if heap then [EvKfree] else [] in
  exists r st',
    __blkdev_direct_IO_simple nr_pages st = Some (r, st') /\
    st_queue st' = [] /\
    if heap && negb (st_kmalloc_ok st) then r = - ENOMEM /\ st' = st
    else if negb (got.1.1 =? 0) then
      r = got.1.1 /\
      st_trace st' = free ++ [EvGetPages b got.1.1] ++ alloc ++ st_trace st
    else
      let n := got.1.2 in
      let dirty :=
        match iov_iter_rw got.2 with
        | READ => iter_is_iovec got.2 | WRITE => false end in
      let account :=
        match iov_iter_rw got.2 with
        | READ => [] | WRITE => [EvAccountWrite n] end in
      st_trace st' =
        free ++ [EvReleasePages b dirty; EvWake; EvSubmit b n] ++ account
        ++ [EvGetPages b 0] ++ alloc ++ st_trace st /\
      r = if bi_status (bio_at b st') =? 0 then n
          else blk_status_to_errno (bi_status (bio_at b st')).
Proof. apply simple_path_run. Qed.

Section entry.
Context `{KH : KernelHeaders} `{IT : IovIter}
  {KHL : KernelHeadersLaws} {ITL : IovIterLaws}.

(** The general path never calls back a request that it gives up with
    [-EAGAIN]. *)
Lemma dio_iterate_return_quiet is_read is_sync bio pos st :
  loop_inv st -> bio = (length (st_bios st) - 1)%nat ->
  match dio_iterate is_read is_sync bio pos st with
  | inr (loop_return _, st') => finals (st_trace st') = []
  | _ => True
  end.
Proof.
  intros Hinv Hb.
  assert (bio < length (st_bios st))%nat as Hlt.
  { destruct Hinv as (_ & (_ & ? & _) & _). lia. }
  assert (finals (st_trace st) = []) as Hnf.
  { destruct Hinv as ((_ & (_ & _ & _ & Hf & _)) & _).
    rewrite Nat.add_1_r in Hf. by apply nil_length_inv. }
  pose proof (dio_iterate_cases is_read is_sync bio pos st) as Hcases.
  destruct (dio_fill bio pos st) as [ret st1] eqn:Ef.
  cbn [fst snd] in Hcases.
  destruct (dio_fill_spec _ _ _ _ _ Ef Hlt) as (_ & _ & _ & _ & Ht1 & _).
  destruct Hcases as [(Hr & ->)|[(Hr & _ & _ & ->)|[(Hr & ->)|(Hr & ->)]]];
    try done.
  destruct (dio_nowait_abort_frame bio st1) as (_ & _ & _ & _ & _ & -> & _).
  by rewrite Ht1.
Qed.

(** The general path on a fresh aligned request: it returns; a result that
    is not negative is the byte total; a synchronous caller gets its result
    with nothing in flight; an asynchronous one is told that the request is
    queued, or that it must try again, and then nothing is in flight and
    its callback was not and will not be called. *)
Lemma general_path_run nr_pages st :
  fresh st -> iov_iter_count (st_iter st) <= MAX_RW_COUNT ->
  dio_misaligned (ki_pos (st_iocb st)) (st_iter st)
    (I_BDEV (bdev_file_inode (ki_filp (st_iocb st)))) = false ->
  exists r st',
    __blkdev_direct_IO nr_pages st = Some (r, st') /\
    (0 <= r -> r = dio_size (st_dio st')) /\
    size_done (iov_iter_count (st_iter st)) st' /\ report_inv st' /\
    (is_sync_kiocb (st_iocb st) = true -> st_queue st' = []) /\
    (is_sync_kiocb (st_iocb st) = false ->
     r = - EIOCBQUEUED \/
     r = - EAGAIN /\ st_queue st' = [] /\ finals (st_trace st') = []).
Proof.
  intros Hfr Hc Hal.
  set (C0 := iov_iter_count (st_iter st)).
  destruct (direct_IO_run nr_pages st Hfr Hc Hal)
    as (Hinv0 & Hb0 & r1 & st1 & Hloop & Hpost & _ & Hsync & Hrun).
  assert ((size_done C0 st1 /\ report_inv st1) /\
          match r1 with
          | loop_return _ => finals (st_trace st1) = []
          | _ => True
          end) as [HP1 HQ1].
  { eapply (dio_submit_loop_ind
              (fun s => size_inv C0 s)
              (fun r s => (size_done C0 s /\ report_inv s) /\
                 match r with
                 | loop_return _ => finals (st_trace s) = []
                 | _ => True
                 end)
              match iov_iter_rw (st_iter st) with
              | READ => true | WRITE => false end
              (is_sync_kiocb (st_iocb st)));
      [| exact Hinv0 | exact Hb0 | by apply dio_begin_size | exact Hloop].
    intros bio pos s Hi Hb Hs.
    pose proof (dio_iterate_size C0
                  match iov_iter_rw (st_iter st) with
                  | READ => true | WRITE => false end
                  (is_sync_kiocb (st_iocb st))
                  bio pos s Hc Hi Hb Hs) as H.
    pose proof (dio_iterate_return_quiet
                  match iov_iter_rw (st_iter st) with
                  | READ => true | WRITE => false end
                  (is_sync_kiocb (st_iocb st))
                  bio pos s Hi Hb) as H'.
    revert H H'. by repeat case_match. }
  destruct r1 as [ret qc|v].
  - destruct Hpost as [Hdone Hret].
    destruct (dio_end_run (iocb_flag IOCB_HIPRI st) ret qc st1 Hdone)
      as [(Hs & He)|(Hs & st2 & Hw & Hq & Hdone2 & He)];
      rewrite He in Hrun.
    + eexists _, _. split; [exact Hrun|]. split_and!.
      * pose proof EIOCBQUEUED_pos. lia.
      * destruct (negb _); [|by destruct HP1]. by destruct HP1.
      * destruct (negb _); [|by destruct HP1]. destruct HP1 as [_ Hr].
        intros w. unfold blk_finish_plug; simpl.
        rewrite elem_of_cons. intros [?|?]; [done|by apply Hr].
      * congruence.
      * by left.
    + assert (size_done C0 st2 /\ report_inv st2) as HP2.
      { eapply (stable_wait _ _ _ _ _ (byte_stable C0)); [exact Hw|].
        destruct (negb _); [|done]. destruct HP1 as [Hsz Hr].
        split; [done|]. intros w. unfold blk_finish_plug; simpl.
        rewrite elem_of_cons. intros [?|?]; [done|by apply Hr]. }
      destruct (byte_bio_put C0 (dio_bio (st_dio st2)) st2 HP2) as [HP3 HR3].
      destruct (bio_put_frame (dio_bio (st_dio st2)) st2)
        as (Hq3 & _ & (_ & _ & _ & _ & (_ & _ & _ & Hsz3 & _) & _)).
      eexists _, _. split; [exact Hrun|]. split_and!; try done.
      * rewrite Hsz3.
        unfold dio_result. cbn zeta. destruct HP2 as [(_ & Hnn) _].
        destruct (ret =? 0) eqn:Er; [|rewrite Er; apply Z.eqb_neq in Er; lia].
        destruct (decide (bi_status (bio_at (dio_bio (st_dio st2)) st2) = 0))
          as [->|Hne].
        -- rewrite blk_status_to_errno_ok. simpl. intros _.
           apply wrap_s_small; unfold MAX_RW_COUNT, C0 in *; lia.
        -- pose proof (blk_status_to_errno_neg _ Hne) as Hneg.
           rewrite (proj2 (Z.eqb_neq _ 0)) by lia. lia.
      * intros _. by rewrite Hq3.
      * congruence.
  - destruct Hpost as (-> & _ & Hq & _).
    eexists _, _. split; [exact Hrun|]. destruct HP1.
    split_and!; try done.
    + pose proof EAGAIN_pos. lia.
    + intros _. by right.
Qed.

End entry.

(** X12. Against a device that completes every bio it has accepted, in any
    order and with any status, [blkdev_direct_IO] on a fresh request of at
    most [MAX_RW_COUNT] bytes returns, whether the heap has memory or not:
    the waits at lines 106-113 and 316-324 end because the completions
    they wait for arrive, not by themselves.  The result is never more
    than the bytes asked for.  A synchronous caller gets the result only
    when nothing is in flight any more.  An asynchronous caller either is
    told [-EIOCBQUEUED], or nothing is in flight, nothing was reported to
    its callback, and the result is 0, [-EINVAL] or [-EAGAIN]. *)
Theorem blkdev_direct_IO_returns `{KH : KernelHeaders} `{IT : IovIter}
    {KHL : KernelHeadersLaws} {ITL : IovIterLaws} (st : state) :
  fresh st -> iov_iter_count (st_iter st) <= MAX_RW_COUNT ->
  0 < EINVAL -> 0 < ENOMEM ->
  exists r st',
    blkdev_direct_IO st = Some (r, st') /\
    r <= iov_iter_count (st_iter st) /\
    (is_sync_kiocb (st_iocb st) = true -> st_queue st' = []) /\
    (is_sync_kiocb (st_iocb st) = false ->
     r = - EIOCBQUEUED \/
     st_queue st' = [] /\ finals (st_trace st') = [] /\
     (r = 0 \/ r = - EINVAL \/ r = - EAGAIN)).
Proof.
  intros Hfr Hc Hinval Hnomem.
  pose proof Hfr as (Hb & Hq & Ht).
  pose proof (iov_iter_count_nonneg (st_iter st)) as Hnn.
  unfold blkdev_direct_IO.
  destruct (iov_iter_count (st_iter st) =? 0) eqn:E0.
  { apply Z.eqb_eq in E0. exists 0, st. rewrite E0, Hq, Ht.
    split_and!; try done. intros _. right. auto. }
  set (nr_pages := bio_iov_vecs_to_alloc _ _).
  destruct (dio_misaligned (ki_pos (st_iocb st)) (st_iter st)
              (I_BDEV (bdev_file_inode (ki_filp (st_iocb st))))) eqn:Hal.
  { assert (__blkdev_direct_IO_simple nr_pages st = Some (- EINVAL, st)) as ->
      by (unfold __blkdev_direct_IO_simple; by rewrite Hal).
    assert (__blkdev_direct_IO (bio_max_segs nr_pages) st
            = Some (- EINVAL, st)) as ->
      by (unfold __blkdev_direct_IO; by rewrite Hal).
    exists (- EINVAL), st. rewrite Hq, Ht.
    split_and!; try done; [by destruct (_ && _)|lia|].
    intros _. right. auto. }
  destruct (is_sync_kiocb (st_iocb st) && (nr_pages <=? BIO_MAX_VECS)) eqn:Ed.
  - apply andb_true_iff in Ed as [Es _].
    destruct (simple_path_run nr_pages st Hq Hal) as (r & st' & -> & Hq' & H).
    exists r, st'. split_and!; try done; [|congruence].
    destruct (negb (nr_pages <=? DIO_INLINE_BIO_VECS)
              && negb (st_kmalloc_ok st)); [destruct H as [-> _]; lia|].
    pose proof (get_pages_ret nr_pages (st_iter st)) as Hret.
    pose proof (get_pages_advance nr_pages (st_iter st)) as Hadv.
    pose proof (iov_iter_count_nonneg (iter_get_pages nr_pages (st_iter st)).2).
    destruct (negb (_ =? 0)) eqn:Eg; [destruct H as [-> _]; lia|].
    apply negb_false_iff, Z.eqb_eq in Eg. destruct (Hadv Eg) as [? ?].
    destruct H as [_ ->].
    destruct (bi_status (bio_at (length (st_bios st)) st') =? 0) eqn:Est;
      [lia|].
    apply Z.eqb_neq, blk_status_to_errno_neg in Est. lia.
  - destruct (general_path_run (bio_max_segs nr_pages) st Hfr Hc Hal)
      as (r & st' & -> & Hr & (_ & Hsz) & _ & Hsq & Has).
    exists r, st'. split_and!; try done.
    + destruct (decide (0 <= r)) as [H0|]; [|lia]. rewrite (Hr H0). lia.
    + intros Hs. destruct (Has Hs) as [?|(-> & ? & ?)]; [by left|].
      right. auto.
Qed.

(** * How the submission loop is left *)

Section loop_exit.
Context `{KH : KernelHeaders} `{IT : IovIter} {ITL : IovIterLaws}.

(** Whether the first turn of the loop gives the request up at lines
    246-260: the kiocb has [IOCB_NOWAIT], the first bio got its pages, and
    the iterator has bytes left. *)
Definition nowait_gives_up (nr_pages : Z) (st : state) : bool :=
  let got := iter_get_pages nr_pages (st_iter st) in
  iocb_flag IOCB_NOWAIT st && (got.1.1 =? 0)
  && negb (iov_iter_count got.2 =? 0).

(** The first bio is filled from the iterator of the request. *)
Lemma first_fill nr st pos :
  fresh st ->
  let got := iter_get_pages nr (st_iter st) in
  let f := dio_fill (dio_begin nr st).1 pos (dio_begin nr st).2 in
  f.1 = got.1.1 /\ st_iter f.2 = got.2 /\
  iocb_flag IOCB_NOWAIT f.2 = iocb_flag IOCB_NOWAIT st.
Proof.
  intros (Hb & _ & _) got f. unfold f, got.
  unfold dio_begin, bio_alloc_kiocb, bio_new, bio_get, blk_start_plug,
    dio_fill, bio_iov_iter_get_pages, iocb_flag, bio_at.
  cbn beta iota zeta.
  destruct (is_sync_kiocb (st_iocb st)),
    (negb (Z.land (ki_flags (st_iocb st)) IOCB_HIPRI =? 0));
    cbn; rewrite Hb; cbn; by case_match.
Qed.

(** The loop is left by [return] exactly when the first turn gives the
    request up. *)
Lemma loop_exit_kind nr st r1 st1 :
  fresh st -> iov_iter_count (st_iter st) <= MAX_RW_COUNT ->
  dio_submit_loop (submit_fuel (dio_begin nr st).2)
    match iov_iter_rw (st_iter st) with READ => true | WRITE => false end
    (is_sync_kiocb (st_iocb st)) (dio_begin nr st).1 (ki_pos (st_iocb st))
    (dio_begin nr st).2 = Some (r1, st1) ->
  match r1 with
  | loop_return _ => nowait_gives_up nr st = true
  | loop_break _ _ => nowait_gives_up nr st = false
  end.
Proof.
  intros Hfr Hc.
  destruct (dio_begin_core nr st Hfr Hc) as (Hinv & Hb & _ & _).
  set (rd := match iov_iter_rw (st_iter st) with
             | READ => true | WRITE => false end).
  set (sy := is_sync_kiocb (st_iocb st)).
  set (pos := ki_pos (st_iocb st)).
  destruct (first_fill nr st pos Hfr) as (Hret & Hit & Hnw).
  cbn zeta in Hret, Hit, Hnw.
  set (st0 := (dio_begin nr st).2) in *.
  set (bio0 := (dio_begin nr st).1) in *.
  assert (forall f b p s,
            dio_submit_loop (S f) rd sy b p s
            = match dio_iterate rd sy b p s with
              | inl (b', p', s') => dio_submit_loop f rd sy b' p' s'
              | inr r => Some r
              end) as Hstep by done.
  unfold submit_fuel. rewrite Hstep. clear Hstep.
  pose proof (dio_iterate_core rd sy bio0 pos st0 Hinv Hb) as Hcore.
  unfold nowait_gives_up.
  destruct (iocb_flag IOCB_NOWAIT st
            && ((iter_get_pages nr (st_iter st)).1.1 =? 0)
            && negb (iov_iter_count (iter_get_pages nr (st_iter st)).2 =? 0))
    eqn:Ea.
  - (* the first turn gives the request up *)
    apply andb_true_iff in Ea as [Ea E3].
    apply andb_true_iff in Ea as [E1 E2].
    clear Hcore. unfold dio_iterate.
    destruct (dio_fill bio0 pos st0) as [ret s1].
    cbn [fst snd] in Hret, Hit, Hnw.
    rewrite Hret, E2, Hnw, E1, Hit, E3. cbn [negb andb].
    intros Hl. by simplify_eq.
  - pose proof (dio_iterate_cases rd sy bio0 pos st0) as Hcases.
    cbn zeta in Hcases.
    destruct Hcases
      as [(Hr & Hi)|[(Hr & Hn & Hcn & Hi)|[(Hr & Hi)|(Hr & Hi)]]];
      rewrite Hi in Hcore |- *.
    + intros Hl. by simplify_eq.
    + exfalso. rewrite Hret in Hr. rewrite Hnw in Hn. rewrite Hit in Hcn.
      apply Z.eqb_neq in Hcn. rewrite Hn, Hr, Hcn in Ea. done.
    + intros Hl. by simplify_eq.
    + destruct Hcore as (Hinv' & Hb' & _ & Hlen).
      cbn beta iota. intros Hl.
      assert (match r1 with loop_return _ => False | _ => True end) as Hk.
      { eapply (dio_submit_loop_ind
                  (fun s => (2 <= length (st_bios s))%nat)
                  (fun r _ => match r with
                              | loop_return _ => False | _ => True end)
                  rd sy); [| exact Hinv' | exact Hb' | | exact Hl].
        - intros bio p s Hs Hbs H2.
          pose proof (dio_iterate_core rd sy bio p s Hs Hbs) as Hco.
          pose proof (dio_iterate_cases rd sy bio p s) as Hca.
          cbn zeta in Hca.
          assert (bio < length (st_bios s))%nat as Hlt by lia.
          destruct (dio_fill bio p s) as [ret' s1'] eqn:Ef.
          destruct (dio_fill_spec _ _ _ _ _ Ef Hlt)
            as (_ & _ & _ & _ & _ & _ & _ & _ & Hl1 & _).
          cbn [fst snd] in Hca.
          destruct Hca as [(_ & Hj)|[(_ & _ & _ & Hj)|[(_ & Hj)|(_ & Hj)]]];
            rewrite Hj in Hco |- *; try done.
          + destruct Hco as (_ & Hone & _).
            destruct (dio_nowait_abort_frame bio s1') as (Hla & _).
            lia.
          + destruct Hco as (_ & _ & _ & ->). lia.
        - rewrite Hlen. destruct Hinv as (_ & (_ & ? & _) & _). lia. }
      by destruct r1.
Qed.

End loop_exit.

(** * Plugging *)

Definition is_plug (e : event) : bool :=
  match e with EvStartPlug | EvFinishPlug => true | _ => false end.

(** The plug calls of a trace, newest first. *)
Definition plugs (tr : list event) : list event := List.filter is_plug tr.

Section plugging.
Context `{KH : KernelHeaders} `{IT : IovIter} {ITL : IovIterLaws}.

Lemma plugs_end_io b st :
  plugs (st_trace (blkdev_bio_end_io b st)) = plugs (st_trace st).
Proof. unfold_ops. repeat case_match; simplify_eq; done. Qed.

Lemma plugs_bio_endio b st :
  plugs (st_trace (bio_endio b st)) = plugs (st_trace st).
Proof.
  unfold bio_endio. case_match; [done| |apply plugs_end_io].
  by unfold_ops.
Qed.

Lemma plugs_stable P : stable (fun st => plugs (st_trace st) = P).
Proof.
  split; [|done]. intros st c _ <-.
  destruct (device_pick_frame st c) as (_ & _ & Ht & _).
  by rewrite plugs_bio_endio, Ht.
Qed.

Lemma plugs_bio_put b st :
  plugs (st_trace (bio_put b st)) = plugs (st_trace st).
Proof. unfold_ops. repeat case_match; simplify_eq; done. Qed.

Lemma plugs_account is_read bio st :
  plugs (st_trace (dio_account is_read bio st)) = plugs (st_trace st).
Proof.
  unfold dio_account. unfold_ops. repeat case_match; simplify_eq; done.
Qed.

Lemma plugs_nowait_abort bio st :
  plugs (st_trace (dio_nowait_abort bio st))
  = EvFinishPlug :: plugs (st_trace st).
Proof.
  unfold dio_nowait_abort. unfold_ops.
  repeat case_match; simplify_eq; done.
Qed.

(** The loop makes no plug call, unless it gives the request up. *)
Lemma dio_iterate_plugs P is_read is_sync bio pos st :
  loop_inv st -> bio = (length (st_bios st) - 1)%nat ->
  plugs (st_trace st) = P ->
  match dio_iterate is_read is_sync bio pos st with
  | inl (_, _, st') => plugs (st_trace st') = P
  | inr (loop_break _ _, st') => plugs (st_trace st') = P
  | inr (loop_return _, st') => plugs (st_trace st') = EvFinishPlug :: P
  end.
Proof.
  intros Hinv Hb HP.
  assert (bio < length (st_bios st))%nat as Hlt.
  { destruct Hinv as (_ & (_ & ? & _) & _). lia. }
  pose proof (dio_iterate_cases is_read is_sync bio pos st) as Hcases.
  destruct (dio_fill bio pos st) as [ret st1] eqn:Ef.
  cbn [fst snd] in Hcases.
  destruct (dio_fill_spec _ _ _ _ _ Ef Hlt) as (_ & _ & _ & _ & Ht1 & _).
  assert (plugs (st_trace st1) = P) as HP1 by (by rewrite Ht1).
  pose proof (plugs_account is_read bio st1) as HP2.
  rewrite HP1 in HP2.
  set (st2 := dio_account is_read bio st1) in *.
  destruct Hcases as [(Hr & ->)|[(Hr & _ & _ & ->)|[(Hr & ->)|(Hr & ->)]]].
  - unfold dio_fail. by rewrite plugs_bio_endio.
  - by rewrite plugs_nowait_abort, HP1.
  - rewrite dio_submit_last_eq. cbn beta iota zeta. cbn [snd].
    set (sP := if iocb_flag IOCB_HIPRI st2 then _ else st2).
    assert (plugs (st_trace (enqueue bio sP)) = P) as HPe.
    { unfold enqueue; simpl. unfold sP.
      destruct (iocb_flag IOCB_HIPRI st2); [|done].
      destruct (bio_set_polled_frame bio st2)
        as (_ & _ & _ & _ & _ & -> & _). done. }
    apply (stable_yield _ _ (plugs_stable P)) in HPe.
    by destruct (iocb_flag IOCB_HIPRI st2).
  - destruct (dio_ref_up_spec is_sync bio st2) as (_ & _ & _ & _ & Ht3 & _).
    set (sR := dio_ref_up is_sync bio st2) in *.
    assert (plugs (st_trace (enqueue bio sR)) = P) as HPe.
    { unfold enqueue; simpl. by rewrite Ht3. }
    apply (stable_yield _ _ (plugs_stable P)) in HPe.
    destruct (bio_alloc_spec
                (bio_iov_vecs_to_alloc (st_iter st2) BIO_MAX_VECS)
                (device_yield (enqueue bio sR)))
      as (_ & _ & _ & _ & _ & -> & _).
    done.
Qed.

Lemma dio_begin_plugs nr st :
  fresh st ->
  plugs (st_trace (dio_begin nr st).2)
  = if iocb_flag IOCB_HIPRI st then [] else [EvStartPlug].
Proof.
  intros (_ & _ & Ht).
  unfold dio_begin, bio_alloc_kiocb, bio_new, bio_get, blk_start_plug.
  repeat case_match; simpl in *; rewrite ?Ht; simplify_eq; done.
Qed.

End plugging.

(** X13. The plug calls of [__blkdev_direct_IO] on a fresh aligned request,
    in the order in which they are made (the list is newest first); no
    completion callback adds one.  Without [IOCB_HIPRI] the function starts
    a plug before its loop and finishes it once, after the loop or when it
    gives the request up.  With [IOCB_HIPRI] it starts no plug; it then
    makes no plug call at all, except when the first turn of the loop gives
    the request up (lines 246-260): then it returns [-EAGAIN] having called
    [blk_finish_plug] on the plug that it never started. *)
Theorem direct_IO_plugging `{KH : KernelHeaders} `{IT : IovIter}
    {ITL : IovIterLaws} (nr_pages : Z) (st : state) :
  fresh st -> iov_iter_count (st_iter st) <= MAX_RW_COUNT ->
  dio_misaligned (ki_pos (st_iocb st)) (st_iter st)
    (I_BDEV (bdev_file_inode (ki_filp (st_iocb st)))) = false ->
  exists r st',
    __blkdev_direct_IO nr_pages st = Some (r, st') /\
    (nowait_gives_up nr_pages st = true -> r = - EAGAIN) /\
    forall cs,
      plugs (st_trace (device_run cs st'))
      = if iocb_flag IOCB_HIPRI st
        then if nowait_gives_up nr_pages st then [EvFinishPlug] else []
        else [EvFinishPlug; EvStartPlug].
Proof.
  intros Hfr Hc Hal.
  destruct (direct_IO_run nr_pages st Hfr Hc Hal)
    as (Hinv0 & Hb0 & r1 & st1 & Hloop & Hpost & _ & _ & Hrun).
  pose proof (loop_exit_kind nr_pages st r1 st1 Hfr Hc Hloop) as Hkind.
  set (P := if iocb_flag IOCB_HIPRI st then [] else [EvStartPlug]).
  assert (plugs (st_trace st1)
          = match r1 with
            | loop_break _ _ => P
            | loop_return _ => EvFinishPlug :: P
            end) as HP1.
  { eapply (dio_submit_loop_ind
              (fun s => plugs (st_trace s) = P)
              (fun r s => plugs (st_trace s)
                          = match r with
                            | loop_break _ _ => P
                            | loop_return _ => EvFinishPlug :: P
                            end)
              match iov_iter_rw (st_iter st) with
              | READ => true | WRITE => false end
              (is_sync_kiocb (st_iocb st)));
      [| exact Hinv0 | exact Hb0 | by apply dio_begin_plugs | exact Hloop].
    intros bio pos s Hi Hb Hs.
    pose proof (dio_iterate_plugs P
                  match iov_iter_rw (st_iter st) with
                  | READ => true | WRITE => false end
                  (is_sync_kiocb (st_iocb st)) bio pos s Hi Hb Hs) as H.
    revert H. by repeat case_match. }
  destruct r1 as [ret qc|v].
  - destruct Hpost as [Hdone Hret]. rewrite Hkind.
    assert (forall s, plugs (st_trace s) = P ->
              plugs (st_trace (if negb (iocb_flag IOCB_HIPRI st)
                               then blk_finish_plug s else s))
              = if iocb_flag IOCB_HIPRI st then []
                else [EvFinishPlug; EvStartPlug]) as Hfin.
    { intros s Hs. unfold P in Hs.
      destruct (iocb_flag IOCB_HIPRI st); simpl; by rewrite Hs. }
    destruct (dio_end_run (iocb_flag IOCB_HIPRI st) ret qc st1 Hdone)
      as [(_ & He)|(_ & st2 & Hw & Hq & Hdone2 & He)];
      rewrite He in Hrun.
    + eexists _, _. split; [exact Hrun|]. split; [done|]. intros cs.
      by rewrite (stable_run _ cs _ (plugs_stable _) (Hfin st1 HP1)).
    + eexists _, _. split; [exact Hrun|]. split; [done|]. intros cs.
      pose proof (stable_wait _ _ _ _ _ (plugs_stable _) Hw (Hfin st1 HP1))
        as HP2.
      cbn beta in HP2.
      rewrite <- (plugs_bio_put (dio_bio (st_dio st2))) in HP2.
      by rewrite (stable_run _ cs _ (plugs_stable _) HP2).
  - destruct Hpost as (-> & _ & Hq & _). rewrite Hkind.
    eexists _, _. split; [exact Hrun|]. split; [done|]. intros cs.
    rewrite (stable_run _ cs _ (plugs_stable _) HP1).
    unfold P. by destruct (iocb_flag IOCB_HIPRI st).
Qed.

(** * The pages of a bio *)

Definition is_release (b : nat) (e : event) : bool :=
  match e with
  | EvReleasePages b' _ | EvCheckPagesDirty b' => bool_decide (b' = b)
  | _ => false
  end.

(** How often the pages of bio [b] were released, by [bio_release_pages]
    or by [bio_check_pages_dirty]. *)
Definition page_releases (b : nat) (tr : list event) : nat :=
  length (List.filter (is_release b) tr).

(** The releases that are not of the kind [dirty] asks for: with [dirty]
    the pages of a bio go through [bio_check_pages_dirty], without it
    through [bio_release_pages] with [mark_dirty] false (lines 183-188). *)
Definition is_other_release (dirty : bool) (e : event) : bool :=
  match e with
  | EvReleasePages _ mark => dirty || mark
  | EvCheckPagesDirty _ => negb dirty
  | _ => false
  end.

Section pages.
Context `{KH : KernelHeaders} `{IT : IovIter} {ITL : IovIterLaws}.

(** The bios whose pages are still pinned: those in flight and, while the
    loop builds one ([e] is 1), the last one. *)
Definition pinned (e : nat) (st : state) (x : nat) : Prop :=
  x ∈ st_queue st \/ e = 1%nat /\ x = (length (st_bios st) - 1)%nat.

(** [n] is 1 if [p] holds and 0 if not. *)
Definition one_if (p : Prop) (n : nat) : Prop :=
  (p -> n = 1%nat) /\ (~ p -> n = 0%nat).

(** Every bio that exists and is not pinned was released once, no other
    was released, and every release was of the kind that [k] asks for. *)
Definition released_inv (e : nat) (k : bool) (st : state) : Prop :=
  (forall x,
     one_if ((x < length (st_bios st))%nat /\ ~ pinned e st x)
       (page_releases x (st_trace st))) /\
  List.filter (is_other_release k) (st_trace st) = [].

(** A trace without releases has none of the other kind. *)
Lemma no_release_other k tr :
  (forall x, page_releases x tr = 0%nat) ->
  List.filter (is_other_release k) tr = [].
Proof.
  unfold page_releases. induction tr as [|e tr IH]; [done|].
  intros H. simpl.
  assert (is_other_release k e = false) as ->.
  { destruct e as [| | | | | b| b v| | | | | |]; try done.
    - specialize (H b). simpl in H. by rewrite bool_decide_eq_true_2 in H.
    - specialize (H b). simpl in H. by rewrite bool_decide_eq_true_2 in H. }
  apply IH. intros x. specialize (H x). simpl in H.
  destruct (is_release x e); [done|]. done.
Qed.

(** A bio that was released once, in a trace whose releases are all of one
    kind, was released by the call of that kind. *)
Lemma released_by k x tr :
  page_releases x tr = 1%nat ->
  List.filter (is_other_release k) tr = [] ->
  List.filter (is_release x) tr
  = [if k then EvCheckPagesDirty x else EvReleasePages x false].
Proof.
  unfold page_releases. intros Hl Hk.
  destruct (List.filter (is_release x) tr) as [|e [|? ?]] eqn:Ef; try done.
  assert (In e (List.filter (is_release x) tr)) as Hin
    by (rewrite Ef; by left).
  apply filter_In in Hin as [Hin Hr].
  assert (is_other_release k e = false) as Ho.
  { destruct (is_other_release k e) eqn:Eo; [|done].
    assert (In e (List.filter (is_other_release k) tr)) as Hin'
      by (by apply filter_In).
    by rewrite Hk in Hin'. }
  f_equal.
  destruct e; try done; simpl in Hr; apply bool_decide_eq_true in Hr as ->;
    destruct k; simpl in Ho; try done.
  by destruct mark_dirty.
Qed.

Lemma releases_end_io b x st :
  page_releases x (st_trace (blkdev_bio_end_io b st))
  = ((if decide (x = b) then 1 else 0)
     + page_releases x (st_trace st))%nat /\
  List.filter (is_other_release (should_dirty (st_dio st)))
    (st_trace (blkdev_bio_end_io b st))
  = List.filter (is_other_release (should_dirty (st_dio st))) (st_trace st).
Proof.
  unfold page_releases. unfold_ops.
  repeat case_match; simplify_eq; simpl;
    repeat case_bool_decide; simplify_eq; done.
Qed.

Lemma releases_bio_put k b x st :
  page_releases x (st_trace (bio_put b st)) = page_releases x (st_trace st) /\
  List.filter (is_other_release k) (st_trace (bio_put b st))
  = List.filter (is_other_release k) (st_trace st).
Proof.
  unfold page_releases. unfold_ops. repeat case_match; simplify_eq; done.
Qed.

Lemma releases_account k is_read bio x st :
  page_releases x (st_trace (dio_account is_read bio st))
  = page_releases x (st_trace st) /\
  List.filter (is_other_release k) (st_trace (dio_account is_read bio st))
  = List.filter (is_other_release k) (st_trace st).
Proof.
  unfold page_releases, dio_account. unfold_ops.
  repeat case_match; simplify_eq; done.
Qed.

(** The way out for [IOCB_NOWAIT] releases the pages without marking them
    dirty, whatever the request asked for. *)
Lemma releases_nowait_abort bio x st :
  page_releases x (st_trace (dio_nowait_abort bio st))
  = ((if decide (x = bio) then 1 else 0)
     + page_releases x (st_trace st))%nat /\
  List.filter (is_other_release false) (st_trace (dio_nowait_abort bio st))
  = List.filter (is_other_release false) (st_trace st).
Proof.
  unfold page_releases, dio_nowait_abort. unfold_ops.
  repeat case_match; simplify_eq; simpl;
    repeat case_bool_decide; simplify_eq; done.
Qed.

Definition pages_inv (e : nat) (k : bool) (st : state) : Prop :=
  dio_wf e st /\ queue_hooked st /\ released_inv e k st /\
  should_dirty (st_dio st) = k.

Lemma pages_inv_stable e k : stable (pages_inv e k).
Proof.
  split; [|done].
  intros st c Hin (Hwf & Hh & (Hr & Hd) & Hk).
  pose proof Hwf as (H0 & H1 & Hnd & Hlt).
  split; [by apply dio_wf_stable|].
  destruct (device_pick_frame st c) as (Hq & _ & Ht & _ & Hst).
  pose proof (static_bios_length _ _ Hst) as Hlen.
  destruct Hst as (_ & _ & Hhk & _ & (_ & Hsd & _) & _).
  assert (bio_endio c.1 (device_pick st c)
          = blkdev_bio_end_io c.1 (device_pick st c)) as ->.
  { unfold bio_endio. rewrite hook_of_bio_at, Hhk, (Hh _ Hin). done. }
  destruct (end_io_frame c.1 (device_pick st c)) as (Hq' & _ & Hst').
  pose proof (static_bios_length _ _ Hst') as Hlen'.
  destruct Hst' as (_ & _ & Hhk' & _ & (_ & Hsd' & _) & _).
  split.
  { intros b. rewrite Hq', Hq, Hhk', Hhk. intros ?%dequeue_subset. auto. }
  split; [|congruence].
  split.
  2: { destruct (releases_end_io c.1 0 (device_pick st c)) as [_ He].
       rewrite Hsd, Hk in He. by rewrite He, Ht. }
  intros x. destruct (releases_end_io c.1 x (device_pick st c)) as [-> _].
  rewrite Ht. specialize (Hr x). revert Hr.
  unfold one_if, pinned. rewrite Hq', Hq, Hlen', Hlen.
  pose proof (Hlt _ Hin) as Hc.
  pose proof (dequeue_not_in c.1 _ Hnd) as Hni.
  assert (x <> c.1 -> x ∈ dequeue c.1 (st_queue st) <-> x ∈ st_queue st)
    as Hiff.
  { intros Hne. split; [apply dequeue_subset|by apply dequeue_other]. }
  destruct (decide (x = c.1)) as [->|Hne]; [|specialize (Hiff Hne)];
    intros [Ha Hb]; split; intros Hp.
  - rewrite Hb; [done|]. naive_solver.
  - exfalso. apply Hp. split; [lia|]. intros [?|[? ?]]; [done|lia].
  - rewrite Ha; [done|]. naive_solver.
  - rewrite Hb; [done|]. naive_solver.
Qed.

Lemma released_frame e k st st' :
  st_trace st' = st_trace st -> st_queue st' = st_queue st ->
  length (st_bios st') = length (st_bios st) ->
  released_inv e k st -> released_inv e k st'.
Proof.
  intros Ht Hq Hl. unfold released_inv, pinned. by rewrite Ht, Hq, Hl.
Qed.

Lemma released_log e k ev st :
  (forall x, is_release x ev = false) -> is_other_release k ev = false ->
  released_inv e k st -> released_inv e k (log ev st).
Proof.
  intros Hx Hd [Hr Hdd]. unfold released_inv, page_releases, pinned, log.
  simpl. rewrite Hd. split; [|done]. intros x. rewrite Hx. apply Hr.
Qed.

(** Handing the bio that was built to the device. *)
Lemma released_enqueue k bio st :
  bio = (length (st_bios st) - 1)%nat ->
  released_inv 1 k st -> released_inv 0 k (enqueue bio st).
Proof.
  intros -> [Hr Hd]. unfold released_inv, enqueue, pinned; simpl.
  split; [|done]. intros x. specialize (Hr x). revert Hr.
  unfold one_if, pinned. rewrite elem_of_app, list_elem_of_singleton.
  intros [Ha Hb]. split; intros Hp; [apply Ha|apply Hb]; naive_solver.
Qed.

(** Releasing the pages of the bio that was built, as its completion and
    as the way out for [IOCB_NOWAIT] do. *)
Lemma released_cur k st st' :
  dio_wf 1 st -> released_inv 1 k st ->
  st_queue st' = st_queue st -> length (st_bios st') = length (st_bios st) ->
  (forall x, page_releases x (st_trace st')
             = ((if decide (x = (length (st_bios st) - 1)%nat) then 1 else 0)
                + page_releases x (st_trace st))%nat) ->
  List.filter (is_other_release k) (st_trace st')
  = List.filter (is_other_release k) (st_trace st) ->
  released_inv 0 k st'.
Proof.
  intros (_ & H1 & _ & Hlt) [Hr Hd] Hq Hl Hx Hdd.
  split; [|congruence].
  intros x. rewrite Hx. specialize (Hr x). revert Hr.
  unfold one_if, pinned. rewrite Hq, Hl.
  destruct (decide (x = (length (st_bios st) - 1)%nat)) as [->|Hne];
    intros [Ha Hb]; split; intros Hp.
  - rewrite Hb; [done|]. naive_solver.
  - exfalso. apply Hp. split; [lia|].
    intros [Hin|[? ?]]; [|done]. apply Hlt in Hin. lia.
  - rewrite Ha; [done|]. naive_solver.
  - rewrite Hb; [done|]. naive_solver.
Qed.

(** A turn of the loop: the completions that run meanwhile release by the
    call that [should_dirty] selects; the way out for [IOCB_NOWAIT]
    releases the only bio there is without marking its pages dirty. *)
Lemma dio_iterate_pages k is_read is_sync bio pos st :
  loop_inv st -> bio = (length (st_bios st) - 1)%nat ->
  released_inv 1 k st -> should_dirty (st_dio st) = k ->
  match dio_iterate is_read is_sync bio pos st with
  | inl (_, _, st') => released_inv 1 k st'
  | inr (loop_break _ _, st') => released_inv 0 k st'
  | inr (loop_return _, st') => released_inv 0 false st'
  end.
Proof.
  intros Hinv Hb HR Hk.
  assert (bio < length (st_bios st))%nat as Hlt.
  { destruct Hinv as (_ & (_ & ? & _) & _). lia. }
  assert (Z.of_nat (length (st_queue st)) <= MAX_RW_COUNT) as Hbound.
  { destruct Hinv as (_ & _ & ? & _).
    pose proof (iov_iter_count_nonneg (st_iter st)). lia. }
  pose proof (dio_iterate_core is_read is_sync bio pos st Hinv Hb) as Hcore.
  pose proof (dio_iterate_cases is_read is_sync bio pos st) as Hcases.
  destruct (dio_fill bio pos st) as [ret st1] eqn:Ef.
  cbn [fst snd] in Hcases.
  pose proof (filled_after_fill _ _ _ _ _ Hinv Hb Ef) as Hfl1.
  pose proof (filled_after_account is_read _ _ Hfl1) as Hfl2.
  destruct (dio_fill_spec _ _ _ _ _ Ef Hlt)
    as (Hq1 & _ & Hd1 & _ & Ht1 & _ & _ & _ & Hl1 & _ & _).
  assert (released_inv 1 k st1) as HR1.
  { destruct HR as [Hr Hd]. unfold released_inv, pinned.
    rewrite Ht1, Hq1, Hl1. split; [|done]. intros x. apply Hr. }
  destruct (dio_account_spec is_read bio st1)
    as (Hq2 & _ & _ & _ & _ & _ & _ & _ & Hl2 & _ & _ & _ & Hd2).
  assert (released_inv 1 k (dio_account is_read bio st1)) as HR2.
  { destruct HR1 as [Hr Hd]. unfold released_inv, pinned.
    rewrite Hq2, Hl2. split.
    - intros x. destruct (releases_account k is_read bio x st1) as [-> _].
      apply Hr.
    - destruct (releases_account k is_read bio 0 st1) as [_ ->]. done. }
  set (st2 := dio_account is_read bio st1) in *.
  assert (should_dirty (st_dio st2) = k) as Hk2.
  { rewrite Hd2, Hd1. done. }
  assert (bio = (length (st_bios st1) - 1)%nat) as Hb1 by (by rewrite Hl1).
  assert (bio = (length (st_bios st2) - 1)%nat) as Hb2 by (by rewrite Hl2).
  destruct Hcases as [(Hr & Hi)|[(Hr & _ & _ & Hi)|[(Hr & Hi)|(Hr & Hi)]]];
    rewrite Hi in Hcore |- *; clear Hi.
  - rewrite (dio_fail_eq _ _ Hfl1).
    set (sF := upd_bio bio (set_bi_status BLK_STS_IOERR) st1).
    destruct (end_io_frame bio sF) as (Hq & _ & Hst).
    pose proof (static_bios_length _ _ Hst) as Hl.
    destruct Hfl1 as (_ & _ & Hwf1 & _).
    apply (released_cur k st1); try done.
    + rewrite Hl. unfold sF; simpl. apply length_alter.
    + intros x. destruct (releases_end_io bio x sF) as [-> _].
      by rewrite <- Hb1.
    + destruct (releases_end_io bio 0 sF) as [_ He].
      change (st_dio sF) with (st_dio st1) in He.
      rewrite Hd1, Hk in He. by rewrite He.
  - destruct (dio_nowait_abort_frame bio st1) as (Hl & Hq & _).
    destruct Hcore as (_ & Hone & _).
    destruct Hfl1 as (_ & _ & Hwf1 & _).
    assert (released_inv 1 false st1) as HR1'.
    { destruct HR1 as [Hr1 _]. split; [done|].
      apply no_release_other. intros x.
      destruct (Hr1 x) as [_ Hz]. apply Hz. unfold pinned.
      intros [Hx Hn]. apply Hn. right. split; [done|]. lia. }
    apply (released_cur false st1); try done.
    + intros x. destruct (releases_nowait_abort bio x st1) as [-> _].
      by rewrite <- Hb1.
    + destruct (releases_nowait_abort bio 0 st1) as [_ ->]. done.
  - rewrite dio_submit_last_eq. cbn beta iota zeta. cbn [snd].
    pose proof (last_enqueue _ _ Hfl2) as Hdone.
    set (sP := if iocb_flag IOCB_HIPRI st2 then _ else st2) in *.
    assert (released_inv 1 k sP /\ length (st_bios sP) = length (st_bios st2)
            /\ should_dirty (st_dio sP) = k)
      as (HRP & HlP & HkP).
    { unfold sP. destruct (iocb_flag IOCB_HIPRI st2); [|done].
      destruct (bio_set_polled_frame bio st2)
        as (? & _ & _ & _ & Hdp & ? & _ & _ & _ & _ & ?).
      split; [by apply (released_frame 1 k st2)|]. split; [done|].
      by rewrite Hdp. }
    assert (pages_inv 0 k (enqueue bio sP)) as HP.
    { destruct Hdone as ((? & _) & ? & _). split_and!; try done.
      apply released_enqueue; [|done]. by rewrite HlP. }
    apply (stable_yield _ _ (pages_inv_stable 0 k)) in HP.
    destruct HP as (_ & _ & HP & _).
    destruct (iocb_flag IOCB_HIPRI st2); [|done].
    by apply (released_frame 0 k (device_yield (enqueue bio sP))).
  - destruct (continue_enqueue is_sync _ _ Hfl2) as [(Hh4 & _) Hw4].
    { by rewrite Hq2, Hq1. }
    destruct (dio_ref_up_spec is_sync bio st2)
      as (Hq3 & _ & _ & _ & Ht3 & _ & _ & _ & Hl3 & (_ & Hd3 & _) & _).
    set (sR := dio_ref_up is_sync bio st2) in *.
    assert (pages_inv 0 k (enqueue bio sR)) as HP.
    { split_and!; try done.
      - apply released_enqueue; [by rewrite Hl3|].
        by apply (released_frame 1 k st2).
      - unfold enqueue; simpl. by rewrite Hd3. }
    apply (stable_yield _ _ (pages_inv_stable 0 k)) in HP.
    destruct HP as (_ & _ & [Hr4 Hd4] & _).
    set (s4 := device_yield (enqueue bio sR)) in *.
    destruct (bio_alloc_spec
                (bio_iov_vecs_to_alloc (st_iter st2) BIO_MAX_VECS) s4)
      as (_ & Hq5 & _ & _ & _ & Ht5 & _ & _ & _ & _ & Hl5).
    unfold released_inv, pinned. rewrite Ht5, Hq5, Hl5.
    split; [|done]. intros x. specialize (Hr4 x). revert Hr4.
    unfold one_if, pinned.
    intros [Ha Hb']. split; intros Hp; [apply Ha|apply Hb']; naive_solver lia.
Qed.

Lemma dio_begin_pages k nr st :
  fresh st -> released_inv 1 k (dio_begin nr st).2.
Proof.
  intros (Hb & Hq & Ht).
  assert (st_trace (dio_begin nr st).2 = [] \/
          st_trace (dio_begin nr st).2 = [EvStartPlug]) as Htr.
  { unfold dio_begin, bio_alloc_kiocb, bio_new, bio_get, blk_start_plug.
    repeat case_match; simpl; rewrite Ht; auto. }
  assert (length (st_bios (dio_begin nr st).2) = 1%nat) as Hl.
  { unfold dio_begin, bio_alloc_kiocb, bio_new, bio_get, blk_start_plug.
    repeat case_match; simpl; rewrite ?length_alter, ?length_app, Hb; done. }
  split.
  - intros x. unfold one_if, pinned. rewrite Hl. split.
    + intros [? Hn]. exfalso. apply Hn. right. split; [done|lia].
    + intros _. by destruct Htr as [-> | ->].
  - by destruct Htr as [-> | ->].
Qed.

(** Line 223: [dio->should_dirty = is_read && iter_is_iovec(iter)]. *)
Lemma dio_begin_should_dirty nr st :
  should_dirty (st_dio (dio_begin nr st).2)
  = match iov_iter_rw (st_iter st) with READ => true | WRITE => false end
    && iter_is_iovec (st_iter st).
Proof.
  unfold dio_begin, bio_alloc_kiocb, bio_new, bio_get, blk_start_plug.
  by repeat case_match.
Qed.

End pages.

(** X14. The general path releases the pages of every bio exactly once, and
    by the call that the request asks for.  For a fresh aligned request
    [__blkdev_direct_IO] returns; then, and after any further completions,
    the calls that released the pages of a bio are: none, if the bio is
    still in flight or does not exist; otherwise exactly one, which is
    [bio_check_pages_dirty] for a read into user memory (lines 223 and
    183-184) and [bio_release_pages] with [mark_dirty] false for any other
    request (line 186), and also for the bio that the loop gives up under
    [IOCB_NOWAIT] (line 256).  So the pages of a bio are never released
    before its completion, never twice, and never by
    [bio_release_pages] with [mark_dirty] true. *)
Theorem pages_released_once `{KH : KernelHeaders} `{IT : IovIter}
    {ITL : IovIterLaws} (nr_pages : Z) (st : state) :
  fresh st -> iov_iter_count (st_iter st) <= MAX_RW_COUNT ->
  dio_misaligned (ki_pos (st_iocb st)) (st_iter st)
    (I_BDEV (bdev_file_inode (ki_filp (st_iocb st)))) = false ->
  let is_read :=
    match iov_iter_rw (st_iter st) with READ => true | WRITE => false end in
  let check_dirty :=
    is_read && iter_is_iovec (st_iter st)
    && negb (nowait_gives_up nr_pages st) in
  exists r st',
    __blkdev_direct_IO nr_pages st = Some (r, st') /\
    forall cs,
      let s := device_run cs st' in
      forall b,
        ((b < length (st_bios s))%nat /\ b ∉ st_queue s ->
         List.filter (is_release b) (st_trace s)
         = [if check_dirty then EvCheckPagesDirty b
            else EvReleasePages b false]) /\
        (b ∈ st_queue s \/ (length (st_bios s) <= b)%nat ->
         List.filter (is_release b) (st_trace s) = []).
Proof.
  intros Hfr Hc Hal is_read check_dirty.
  destruct (direct_IO_run nr_pages st Hfr Hc Hal)
    as (Hinv0 & Hb0 & r1 & st1 & Hloop & Hpost & _ & _ & Hrun).
  pose proof (loop_exit_kind nr_pages st r1 st1 Hfr Hc Hloop) as Hkind.
  set (k := is_read && iter_is_iovec (st_iter st)).
  assert (released_inv 0 match r1 with
                         | loop_return _ => false | _ => k end st1 /\
          should_dirty (st_dio st1) = k) as [HR1 Hk1].
  { eapply (dio_submit_loop_ind
              (fun s => released_inv 1 k s /\ should_dirty (st_dio s) = k)
              (fun r s => released_inv 0 match r with
                                         | loop_return _ => false
                                         | _ => k end s /\
                          should_dirty (st_dio s) = k)
              is_read (is_sync_kiocb (st_iocb st)));
      [| exact Hinv0 | exact Hb0 | | exact Hloop].
    - intros bio pos s Hi Hb [Hs Hk].
      pose proof (dio_iterate_pages k is_read
                    (is_sync_kiocb (st_iocb st)) bio pos s Hi Hb Hs Hk) as H.
      assert (bio < length (st_bios s))%nat as Hlt.
      { destruct Hi as (_ & (_ & ? & _) & _). lia. }
      pose proof (dio_iterate_static is_read
                    (is_sync_kiocb (st_iocb st)) bio pos s Hlt) as H'.
      revert H H'. unfold request_static.
      repeat case_match; intros ? (_ & -> & _); done.
    - split; [by apply dio_begin_pages|apply dio_begin_should_dirty]. }
  assert (check_dirty = match r1 with
                        | loop_return _ => false | _ => k end) as Hcd.
  { unfold check_dirty. fold k. destruct r1; rewrite Hkind; simpl;
      [apply andb_true_r|apply andb_false_r]. }
  rewrite Hcd. clear Hcd check_dirty.
  assert (forall k' s, released_inv 0 k' s ->
            forall b,
              ((b < length (st_bios s))%nat /\ b ∉ st_queue s ->
               List.filter (is_release b) (st_trace s)
               = [if k' then EvCheckPagesDirty b
                  else EvReleasePages b false]) /\
              (b ∈ st_queue s \/ (length (st_bios s) <= b)%nat ->
               List.filter (is_release b) (st_trace s) = [])) as Hread.
  { intros k' s [Hr Hd] b. destruct (Hr b) as [Ha Hb]. unfold pinned in *.
    split; intros Hp.
    - apply released_by; [|done]. apply Ha. naive_solver lia.
    - apply nil_length_inv. apply Hb. naive_solver lia. }
  destruct r1 as [ret qc|v]; cbn iota in HR1 |- *.
  - destruct Hpost as [Hdone Hret].
    assert (forall s, done_inv s -> released_inv 0 k s ->
              should_dirty (st_dio s) = k -> pages_inv 0 k s) as HP.
    { intros s ((? & _) & ? & _) ? ?. by split_and!. }
    destruct (dio_end_run (iocb_flag IOCB_HIPRI st) ret qc st1 Hdone)
      as [(_ & He)|(_ & st2 & Hw & Hq & Hdone2 & He)];
      rewrite He in Hrun.
    + eexists _, _. split; [exact Hrun|]. intros cs.
      apply Hread.
      apply (stable_run _ cs _ (pages_inv_stable 0 k)).
      destruct (negb _); [|by apply HP].
      apply HP; [by apply done_inv_log| |done].
      by apply released_log.
    + eexists _, _. split; [exact Hrun|]. intros cs.
      apply Hread.
      apply (stable_run _ cs _ (pages_inv_stable 0 k)).
      assert (pages_inv 0 k st2) as (_ & _ & HR2 & Hk2).
      { eapply (stable_wait _ _ _ _ _ (pages_inv_stable 0 k)); [exact Hw|].
        destruct (negb _); [|by apply HP].
        apply HP; [by apply done_inv_log| |done]. by apply released_log. }
      destruct (bio_put_frame (dio_bio (st_dio st2)) st2) as (Hq3 & _ & Hst3).
      pose proof (static_bios_length _ _ Hst3) as Hl3.
      apply HP; [by apply bio_put_done_inv| |].
      * destruct HR2 as [Hr Hd]. unfold released_inv, pinned.
        rewrite Hq3, Hl3. split.
        -- intros x.
           destruct (releases_bio_put k (dio_bio (st_dio st2)) x st2)
             as [-> _]. apply Hr.
        -- destruct (releases_bio_put k (dio_bio (st_dio st2)) 0 st2)
             as [_ ->]. done.
      * destruct Hst3 as (_ & _ & _ & _ & (_ & -> & _) & _). done.
  - destruct Hpost as (-> & _ & Hq & _).
    eexists _, _. split; [exact Hrun|]. intros cs.
    rewrite (device_run_idle cs st1 Hq). exact (Hread false st1 HR1).
Qed.

(** * The file position of an asynchronous request *)

Section position.
Context `{KH : KernelHeaders} `{IT : IovIter}
  {KHL : KernelHeadersLaws} {ITL : IovIterLaws}.

Lemma bio_put_iocb b st :
  st_iocb (bio_put b st) = st_iocb st /\ st_dio (bio_put b st) = st_dio st /\
  finals (st_trace (bio_put b st)) = finals (st_trace st).
Proof. unfold_ops. repeat case_match; done. Qed.

(** [dio_finalize], case by case. *)
Lemma finalize_cases st :
  dio_size (st_dio (dio_finalize st)) = dio_size (st_dio st) /\
  if is_sync (st_dio st)
  then st_iocb (dio_finalize st) = st_iocb st /\
       finals (st_trace (dio_finalize st)) = EvWake :: finals (st_trace st)
  else if sticky st =? 0
  then st_iocb (dio_finalize st) =
         set_ki_pos (wrap_s 64 (ki_pos (st_iocb st) + dio_size (st_dio st)))
           (st_iocb st) /\
       finals (st_trace (dio_finalize st))
       = EvKiComplete (dio_size (st_dio st)) :: finals (st_trace st)
  else st_iocb (dio_finalize st) = st_iocb st /\
       finals (st_trace (dio_finalize st))
       = EvKiComplete (blk_status_to_errno (sticky st))
         :: finals (st_trace st).
Proof.
  unfold dio_finalize, sticky.
  destruct (is_sync (st_dio st)); cbn [negb]; cbn beta iota; [done|].
  destruct (bi_status (bio_at (dio_bio (st_dio st)) st) =? 0);
    cbn beta iota zeta.
  - destruct (multi_bio _); [|done].
    match goal with
    | |- context [bio_put ?b ?s] =>
        destruct (bio_put_iocb b s) as (-> & -> & ->)
    end. done.
  - destruct (multi_bio _); [|done].
    match goal with
    | |- context [bio_put ?b ?s] =>
        destruct (bio_put_iocb b s) as (-> & -> & ->)
    end. done.
Qed.

(** What the completion of a Segment does to the kiocb and to the
    finalizations, [S n] Segments being not yet completed. *)
Lemma end_io_final n b st :
  dio_count (S n) st ->
  let s1 := dio_record_status b st in
  let s' := blkdev_bio_end_io b st in
  dio_size (st_dio s') = dio_size (st_dio st) /\
  sticky s' = sticky s1 /\
  match n with
  | S _ => st_iocb s' = st_iocb st /\ finals (st_trace s') = []
  | O =>
    if is_sync (st_dio st)
    then st_iocb s' = st_iocb st /\ finals (st_trace s') = [EvWake]
    else if sticky s1 =? 0
    then st_iocb s' =
           set_ki_pos (wrap_s 64 (ki_pos (st_iocb st) + dio_size (st_dio st)))
             (st_iocb st) /\
         finals (st_trace s') = [EvKiComplete (dio_size (st_dio st))]
    else st_iocb s' = st_iocb st /\
         finals (st_trace s')
         = [EvKiComplete (blk_status_to_errno (sticky s1))]
  end.
Proof.
  intros (Hb & Hm & Hs & Hf & _) s1 s'.
  assert (finals (st_trace st) = []) as Hnf by (by apply nil_length_inv).
  assert (st_dio s1 = st_dio st /\ st_iocb s1 = st_iocb st /\
          st_trace s1 = st_trace st) as (Hd1 & Hk1 & Ht1).
  { unfold s1, dio_record_status. by case_match. }
  destruct (end_io_tail_statuses b (should_dirty (st_dio st)) s1)
    as [Hst Hdb].
  assert (sticky s' = sticky s1) as Hsticky.
  { unfold sticky, s'. rewrite blkdev_bio_end_io_eq. fold s1.
    by rewrite Hdb, !status_of_bio_at, Hst. }
  unfold s' in *. rewrite blkdev_bio_end_io_eq in *. fold s1 in Hsticky |- *.
  clearbody s1. clear s'. rewrite Hsticky.
  unfold end_io_tail.
  set (step := if negb (multi_bio (st_dio s1)) then (true, s1)
               else atomic_dec_and_test_ref s1).
  assert (step.1 = (if n is O then true else false) /\
          st_iocb step.2 = st_iocb st /\
          st_trace step.2 = st_trace st /\
          dio_size (st_dio step.2) = dio_size (st_dio st) /\
          is_sync (st_dio step.2) = is_sync (st_dio st) /\
          sticky step.2 = sticky s1) as (Hl & Hk2 & Ht2 & Hz2 & Hy2 & Hs2).
  { unfold step. rewrite Hd1.
    destruct (multi_bio (st_dio st)) eqn:Em; cbn [negb]; cbn beta iota.
    - unfold atomic_dec_and_test_ref, sticky. simpl.
      rewrite Hd1, (Hm eq_refl), wrap_s_small by lia.
      split_and!; try done.
      destruct n; [done|]. apply Z.eqb_neq. lia.
    - simpl. rewrite Hd1. split_and!; try done.
      specialize (Hs eq_refl). destruct n; [done|lia]. }
  destruct step as [last s2]. cbn [fst snd] in *. subst last.
  set (s3 := if match n with O => true | S _ => false end
             then dio_finalize s2 else s2).
  assert (forall s, st_iocb (if should_dirty (st_dio st)
                             then bio_check_pages_dirty b s
                             else bio_put b (bio_release_pages b false s))
                    = st_iocb s /\
                    st_dio (if should_dirty (st_dio st)
                            then bio_check_pages_dirty b s
                            else bio_put b (bio_release_pages b false s))
                    = st_dio s /\
                    finals (st_trace
                              (if should_dirty (st_dio st)
                               then bio_check_pages_dirty b s
                               else bio_put b (bio_release_pages b false s)))
                    = finals (st_trace s)) as Hrest.
  { intros s. destruct (should_dirty (st_dio st));
      unfold bio_check_pages_dirty, bio_release_pages;
      match goal with
      | |- context [bio_put ?b ?s] =>
          destruct (bio_put_iocb b s) as (-> & -> & ->)
      end; done. }
  destruct (Hrest s3) as (Hk4 & Hd4 & Hf4).
  rewrite Hk4, Hd4, Hf4. clear Hrest Hk4 Hd4 Hf4.
  unfold s3. destruct n as [|n].
  - destruct (finalize_cases s2) as [Hz3 H3]. rewrite Hz3, Hz2.
    split_and!; try done.
    rewrite Hy2, Hs2, Hk2, Hz2, Ht2, Hnf in H3. exact H3.
  - rewrite Hk2, Ht2, Hnf, Hz2. done.
Qed.


(** Where the file position of the kiocb is: where it was when the request
    came in, until the request is finalized; from then on, for an
    asynchronous request that ended without error, behind the bytes that
    were reported to [ki_complete]. *)
Definition pos_inv (P0 : Z) (st : state) : Prop :=
  (is_sync (st_dio st) = true -> ki_pos (st_iocb st) = P0) /\
  match finals (st_trace st) with
  | [EvKiComplete v] =>
      if sticky st =? 0
      then v = dio_size (st_dio st) /\
           ki_pos (st_iocb st) = wrap_s 64 (P0 + v)
      else v = blk_status_to_errno (sticky st) /\ ki_pos (st_iocb st) = P0
  | _ => ki_pos (st_iocb st) = P0
  end.

(** One more Segment completes. *)
Lemma pos_inv_end_io P0 n b st :
  dio_count (S n) st -> pos_inv P0 st -> pos_inv P0 (blkdev_bio_end_io b st).
Proof.
  intros Hc [Hsy Hp].
  pose proof Hc as (_ & _ & _ & Hf & _).
  apply nil_length_inv in Hf. rewrite Hf in Hp.
  pose proof (end_io_final n b st Hc) as H0. cbv zeta in H0.
  destruct H0 as (Hz & Hs & H).
  destruct (end_io_frame b st)
    as (_ & _ & _ & _ & _ & _ & (Hy & _) & _).
  unfold pos_inv. rewrite Hy, Hz, Hs.
  destruct n as [|n].
  - destruct (is_sync (st_dio st)) eqn:Ey.
    + destruct H as [-> ->]. auto.
    + destruct (sticky (dio_record_status b st) =? 0) eqn:E in H |- *;
        destruct H as [-> ->]; simpl; rewrite ?E, ?Hp; done.
  - destruct H as [-> ->]. auto.
Qed.

Lemma pos_inv_frame P0 st st' :
  st_iocb st' = st_iocb st -> st_dio st' = st_dio st ->
  finals (st_trace st') = finals (st_trace st) ->
  statuses st' = statuses st ->
  pos_inv P0 st -> pos_inv P0 st'.
Proof.
  intros Hk Hd Hf Hs. unfold pos_inv, sticky.
  by rewrite Hk, Hd, Hf, !status_of_bio_at, Hs.
Qed.

Lemma pos_inv_pick P0 st c :
  finals (st_trace st) = [] -> pos_inv P0 st -> pos_inv P0 (device_pick st c).
Proof.
  intros Hf [Hsy Hp]. rewrite Hf in Hp.
  destruct (device_pick_frame st c) as (_ & _ & Ht & Hd & _).
  unfold pos_inv. rewrite Ht, Hd, Hf.
  assert (st_iocb (device_pick st c) = st_iocb st) as ->.
  { unfold device_pick. by case_match. }
  done.
Qed.

Lemma pos_inv_stable P0 e :
  stable (fun st => dio_inv e st /\ pos_inv P0 st).
Proof.
  split.
  2: { intros st s [? ?]. split; [by apply (dio_inv_stable e)|done]. }
  intros st c Hin [Hinv Hp].
  split; [by apply (dio_inv_stable e)|].
  destruct Hinv as [Hh Hc].
  destruct (device_pick_frame st c) as (_ & _ & Ht & Hd & Hst).
  destruct Hst as (_ & _ & Hk & _).
  unfold bio_endio. rewrite hook_of_bio_at, Hk, (Hh _ Hin). simpl.
  destruct (st_queue st) as [|q0 q] eqn:Eq; [by apply elem_of_nil in Hin|].
  simpl in Hc.
  assert (finals (st_trace st) = []) as Hf.
  { destruct Hc as (_ & _ & _ & Hf & _). by apply nil_length_inv. }
  apply (pos_inv_end_io P0 (length q + e)).
  - unfold dio_count. rewrite Ht, Hd. exact Hc.
  - by apply pos_inv_pick.
Qed.

Lemma statuses_log ev st : statuses (log ev st) = statuses st.
Proof. done. Qed.

Lemma dio_iterate_pos P0 rd sy bio pos st :
  loop_inv st -> bio = (length (st_bios st) - 1)%nat -> pos_inv P0 st ->
  match dio_iterate rd sy bio pos st with
  | inl (_, _, st') => pos_inv P0 st'
  | inr (_, st') => pos_inv P0 st'
  end.
Proof.
  intros Hinv Hb HP.
  assert (bio < length (st_bios st))%nat as Hlt.
  { destruct Hinv as (_ & (_ & ? & _) & _). lia. }
  assert (Z.of_nat (length (st_queue st)) <= MAX_RW_COUNT) as Hbound.
  { destruct Hinv as (_ & _ & ? & _).
    pose proof (iov_iter_count_nonneg (st_iter st)). lia. }
  pose proof (dio_iterate_cases rd sy bio pos st) as Hcases.
  destruct (dio_fill bio pos st) as [ret st1] eqn:Ef.
  cbn [fst snd] in Hcases.
  pose proof (filled_after_fill _ _ _ _ _ Hinv Hb Ef) as Hfl1.
  pose proof (filled_after_account rd _ _ Hfl1) as Hfl2.
  destruct (dio_fill_spec _ _ _ _ _ Ef Hlt)
    as (Hq1 & _ & Hd1 & Hk1 & Ht1 & _ & Hs1 & _ & Hl1 & _ & _).
  assert (pos_inv P0 st1) as HP1.
  { apply (pos_inv_frame P0 st); try done. by rewrite Ht1. }
  destruct (dio_account_spec rd bio st1)
    as (Hq2 & _ & _ & Hk2 & _ & Hs2 & _ & _ & Hl2 & Hf2 & _ & _ & Hd2).
  assert (forall s, st_iocb s = st_iocb st1 -> statuses s = statuses st1 ->
            finals (st_trace s) = finals (st_trace st1) ->
            dio_size (st_dio s) = dio_size (st_dio st1) \/
              finals (st_trace st1) = [] ->
            is_sync (st_dio s) = is_sync (st_dio st1) ->
            dio_bio (st_dio s) = dio_bio (st_dio st1) ->
            pos_inv P0 s) as Hgen.
  { intros s Hk Hs Hf Hz Hy Hdb. destruct HP1 as [Hsy Hp].
    unfold pos_inv, sticky. rewrite Hk, Hf, Hy, Hdb, !status_of_bio_at, Hs.
    split; [done|]. rewrite <- !status_of_bio_at.
    destruct Hz as [->|Hnf]; [done|]. rewrite Hnf in Hp |- *. done. }
  assert (finals (st_trace st1) = []) as Hnf1.
  { destruct Hfl1 as (_ & (_ & _ & _ & Hf & _) & _).
    rewrite Nat.add_1_r in Hf. by apply nil_length_inv. }
  assert (pos_inv P0 (dio_account rd bio st1)) as HP2.
  { apply Hgen; try done; [auto|by rewrite Hd2..]. }
  set (st2 := dio_account rd bio st1) in *.
  destruct Hcases as [(Hr & ->)|[(Hr & _ & _ & ->)|[(Hr & ->)|(Hr & ->)]]].
  - rewrite (dio_fail_eq _ _ Hfl1).
    set (sF := upd_bio bio (set_bi_status BLK_STS_IOERR) st1).
    destruct Hfl1 as (_ & Hc1 & _).
    apply (pos_inv_end_io P0 (length (st_queue st1))).
    + rewrite Nat.add_1_r in Hc1. exact Hc1.
    + destruct HP1 as [Hsy Hp]. rewrite Hnf1 in Hp.
      unfold pos_inv, sF; simpl. rewrite Hnf1. done.
  - destruct (dio_nowait_abort_frame bio st1)
      as (_ & _ & Hd & Hk & _ & Hf & _).
    destruct HP1 as [Hsy Hp]. rewrite Hnf1 in Hp.
    unfold pos_inv. rewrite Hd, Hk, Hf, Hnf1. done.
  - rewrite dio_submit_last_eq. cbn beta iota zeta. cbn [snd].
    pose proof (last_enqueue _ _ Hfl2) as Hdone.
    set (sP := if iocb_flag IOCB_HIPRI st2 then _ else st2) in *.
    assert (pos_inv P0 (enqueue bio sP)) as HPe.
    { unfold sP. destruct (iocb_flag IOCB_HIPRI st2).
      - destruct (bio_set_polled_frame bio st2)
          as (_ & _ & _ & Hk & Hd & Ht & _ & Hs & _).
        apply (pos_inv_frame P0 st2); unfold enqueue; simpl;
          rewrite ?Hk, ?Hd, ?Ht; done.
      - apply (pos_inv_frame P0 st2); done. }
    destruct Hdone as (Hi & _).
    pose proof (stable_yield _ _ (pos_inv_stable P0 0) (conj Hi HPe))
      as [_ [Hsy Hp]].
    destruct (iocb_flag IOCB_HIPRI st2); [|done].
    unfold pos_inv, sticky. simpl. done.
  - destruct (continue_enqueue sy _ _ Hfl2) as [Hi4 Hw4].
    { by rewrite Hq2, Hq1. }
    destruct (dio_ref_up_spec sy bio st2)
      as (_ & _ & _ & Hk3 & Ht3 & _ & Hs3 & _ & _ & (Hy3 & _ & Hdb3 & Hz3 & _)
          & _).
    set (sR := dio_ref_up sy bio st2) in *.
    assert (finals (st_trace st2) = []) as Hnf2 by (by rewrite Hf2).
    assert (pos_inv P0 (enqueue bio sR)) as HPe.
    { destruct HP2 as [Hsy Hp]. rewrite Hnf2 in Hp.
      unfold pos_inv, enqueue; simpl. rewrite Hk3, Ht3, Hy3.
      fold (finals (st_trace st2)). rewrite Hnf2. done. }
    pose proof (stable_yield _ _ (pos_inv_stable P0 1) (conj Hi4 HPe))
      as [_ HP4].
    set (s4 := device_yield (enqueue bio sR)) in *.
    destruct (bio_alloc_spec
                (bio_iov_vecs_to_alloc (st_iter st2) BIO_MAX_VECS) s4)
      as (_ & _ & _ & _ & Hk5 & Ht5 & Hd5 & _ & Hs5 & _ & Hl5).
    destruct HP4 as [Hsy Hp].
    unfold pos_inv, sticky. rewrite Hk5, Ht5, Hd5, status_of_bio_at, Hs5.
    split; [done|].
    assert (dio_bio (st_dio s4) < length (statuses s4))%nat as Hlt4.
    { destruct Hw4 as (H0 & H1 & _).
      destruct (device_yield_frame (enqueue bio sR))
        as (_ & _ & _ & _ & Hst).
      pose proof (static_bios_length _ _ Hst) as Hl4.
      destruct Hst as (_ & _ & _ & _ & (_ & _ & Hdb & _) & _).
      fold s4 in Hl4, Hdb.
      unfold statuses. rewrite length_map, Hl4, Hdb, H0. lia. }
    rewrite lookup_app_l by done. rewrite <- status_of_bio_at. exact Hp.
Qed.

Lemma dio_begin_pos nr st :
  fresh st -> pos_inv (ki_pos (st_iocb st)) (dio_begin nr st).2.
Proof.
  intros (_ & _ & Ht).
  unfold dio_begin, bio_alloc_kiocb, bio_new, bio_get, blk_start_plug,
    pos_inv.
  repeat case_match; simpl in *; rewrite ?Ht in *; simplify_eq; done.
Qed.


Lemma sync_stable b : stable (fun s => is_sync (st_dio s) = b).
Proof.
  split; [|done].
  intros st c _ H. destruct (device_pick_frame st c) as (_ & _ & _ & Hd & _).
  destruct (bio_endio_frame c.1 (device_pick st c))
    as (_ & _ & (_ & _ & _ & _ & (Hy & _) & _)).
  by rewrite Hy, Hd.
Qed.

(** What holds of a request once [__blkdev_direct_IO] has returned. *)
Definition settled (P0 C0 : Z) (sync : bool) (st : state) : Prop :=
  pos_inv P0 st /\ (size_done C0 st /\ report_inv st) /\
  is_sync (st_dio st) = sync.

Lemma settled_stable P0 C0 sync :
  stable (fun st => dio_inv 0 st /\ settled P0 C0 sync st).
Proof.
  pose proof (stable_and _ _ (pos_inv_stable P0 0)
                (stable_and _ _ (byte_stable C0) (sync_stable sync)))
    as [H1 H2].
  unfold settled. split.
  - intros st c Hin (? & ? & ? & ?).
    destruct (H1 st c Hin) as ((? & ?) & ? & ?); done.
  - intros st s (? & ? & ? & ?).
    destruct (H2 st s) as ((? & ?) & ? & ?); done.
Qed.

Lemma settled_position P0 C0 sync st :
  settled P0 C0 sync st ->
  (sync = true -> ki_pos (st_iocb st) = P0) /\
  (finals (st_trace st) = [] -> ki_pos (st_iocb st) = P0) /\
  (forall v, finals (st_trace st) = [EvKiComplete v] ->
     v <= C0 /\
     ki_pos (st_iocb st) = if 0 <=? v then wrap_s 64 (P0 + v) else P0).
Proof.
  intros ((Hsy & Hp) & ((_ & Hz) & _) & Hs). split_and!.
  - intros ->. auto.
  - intros Hf. by rewrite Hf in Hp.
  - intros v Hf. rewrite Hf in Hp.
    destruct (sticky st =? 0) eqn:E; destruct Hp as [-> ->].
    + split; [lia|]. by rewrite (proj2 (Z.leb_le _ _)) by lia.
    + apply Z.eqb_neq, blk_status_to_errno_neg in E.
      split; [lia|]. by rewrite (proj2 (Z.leb_gt _ _)) by lia.
Qed.

Lemma settled_finish_plug P0 C0 sync st :
  settled P0 C0 sync st -> settled P0 C0 sync (blk_finish_plug st).
Proof.
  intros (Hp & (Hz & Hr) & Hs).
  split; [|split; [split|]]; try done.
  intros v. unfold blk_finish_plug, log; simpl. rewrite elem_of_cons.
  intros [?|?]; [done|by apply Hr].
Qed.

Lemma settled_bio_put P0 C0 sync b st :
  settled P0 C0 sync st -> settled P0 C0 sync (bio_put b st).
Proof.
  intros (Hp & Hzr & Hs).
  destruct (bio_put_iocb b st) as (Hk & Hd & Hf).
  split; [|split; [|by rewrite Hd]].
  - eapply (pos_inv_frame P0 st); try done.
    unfold bio_put, bio_free, statuses.
    repeat case_match; simpl; rewrite ?map_alter_same by done; done.
  - by apply byte_bio_put.
Qed.

Lemma general_path_settled nr_pages st :
  fresh st -> iov_iter_count (st_iter st) <= MAX_RW_COUNT ->
  dio_misaligned (ki_pos (st_iocb st)) (st_iter st)
    (I_BDEV (bdev_file_inode (ki_filp (st_iocb st)))) = false ->
  exists r st',
    __blkdev_direct_IO nr_pages st = Some (r, st') /\
    forall cs,
      settled (ki_pos (st_iocb st)) (iov_iter_count (st_iter st))
        (is_sync_kiocb (st_iocb st)) (device_run cs st').
Proof.
  intros Hfr Hc Hal.
  set (C0 := iov_iter_count (st_iter st)).
  set (P0 := ki_pos (st_iocb st)).
  destruct (direct_IO_run nr_pages st Hfr Hc Hal)
    as (Hinv0 & Hb0 & r1 & st1 & Hloop & Hpost & _ & Hsync & Hrun).
  assert (size_done C0 st1 /\ report_inv st1) as HZ1.
  { eapply (dio_submit_loop_ind (size_inv C0)
              (fun _ s => size_done C0 s /\ report_inv s)
              match iov_iter_rw (st_iter st) with
              | READ => true | WRITE => false end
              (is_sync_kiocb (st_iocb st)));
      [| exact Hinv0 | exact Hb0 | by apply dio_begin_size | exact Hloop].
    intros bio pos s Hi Hb Hs.
    pose proof (dio_iterate_size C0
                  match iov_iter_rw (st_iter st) with
                  | READ => true | WRITE => false end
                  (is_sync_kiocb (st_iocb st))
                  bio pos s Hc Hi Hb Hs) as H.
    revert H. by repeat case_match. }
  assert (pos_inv P0 st1) as HP1.
  { eapply (dio_submit_loop_ind (pos_inv P0) (fun _ s => pos_inv P0 s)
              match iov_iter_rw (st_iter st) with
              | READ => true | WRITE => false end
              (is_sync_kiocb (st_iocb st)));
      [| exact Hinv0 | exact Hb0 | by apply dio_begin_pos | exact Hloop].
    intros bio pos s Hi Hb Hs.
    pose proof (dio_iterate_pos P0
                  match iov_iter_rw (st_iter st) with
                  | READ => true | WRITE => false end
                  (is_sync_kiocb (st_iocb st)) bio pos s Hi Hb Hs) as H.
    revert H. by repeat case_match. }
  assert (settled P0 C0 (is_sync_kiocb (st_iocb st)) st1) as HS1 by done.
  destruct r1 as [ret qc|v].
  - destruct Hpost as [Hdone Hret].
    assert (dio_inv 0 (if negb (iocb_flag IOCB_HIPRI st)
                       then blk_finish_plug st1 else st1) /\
            settled P0 C0 (is_sync_kiocb (st_iocb st))
              (if negb (iocb_flag IOCB_HIPRI st)
               then blk_finish_plug st1 else st1)) as HS1'.
    { destruct (negb _); [|by destruct Hdone].
      split; [by apply done_inv_log|by apply settled_finish_plug]. }
    destruct (dio_end_run (iocb_flag IOCB_HIPRI st) ret qc st1 Hdone)
      as [(_ & He)|(_ & st2 & Hw & Hq & Hdone2 & He)];
      rewrite He in Hrun.
    + eexists _, _. split; [exact Hrun|]. intros cs.
      by apply (stable_run _ cs _ (settled_stable P0 C0 _)).
    + eexists _, _. split; [exact Hrun|]. intros cs.
      apply (stable_run _ cs _ (settled_stable P0 C0 _)).
      split; [by apply bio_put_done_inv|].
      apply settled_bio_put.
      by eapply (stable_wait _ _ _ _ _ (settled_stable P0 C0 _)).
  - destruct Hpost as (-> & Hnf & Hq & Hrest).
    eexists _, _. split; [exact Hrun|]. intros cs.
    by rewrite (device_run_idle cs st1 Hq).
Qed.

End position.

(** X15. The file position of the kiocb.  For a fresh aligned request
    [__blkdev_direct_IO] returns, and then and after any further
    completions: a synchronous request has its file position where it was
    (the caller advances it by the result); so has an asynchronous one as
    long as [ki_complete] was not called; and when [ki_complete] was called
    with [v], then [v] is at most the length asked for, and the position was
    advanced by [v] when [v] is a byte count and left where it was when [v]
    is an error. *)
Theorem direct_IO_file_position `{KH : KernelHeaders} `{IT : IovIter}
    {KHL : KernelHeadersLaws} {ITL : IovIterLaws}
    (nr_pages : Z) (st : state) :
  fresh st -> iov_iter_count (st_iter st) <= MAX_RW_COUNT ->
  dio_misaligned (ki_pos (st_iocb st)) (st_iter st)
    (I_BDEV (bdev_file_inode (ki_filp (st_iocb st)))) = false ->
  exists r st',
    __blkdev_direct_IO nr_pages st = Some (r, st') /\
    forall cs,
      let s := device_run cs st' in
      (is_sync_kiocb (st_iocb st) = true ->
       ki_pos (st_iocb s) = ki_pos (st_iocb st)) /\
      (finals (st_trace s) = [] -> ki_pos (st_iocb s) = ki_pos (st_iocb st)) /\
      (forall v, finals (st_trace s) = [EvKiComplete v] ->
         v <= iov_iter_count (st_iter st) /\
         ki_pos (st_iocb s)
         = if 0 <=? v then wrap_s 64 (ki_pos (st_iocb st) + v)
           else ki_pos (st_iocb st)).
Proof.
  intros Hfr Hc Hal.
  destruct (general_path_settled nr_pages st Hfr Hc Hal)
    as (r & st' & Hrun & H).
  exists r, st'. split; [exact Hrun|]. intros cs. cbn zeta.
  by apply (settled_position _ _ _ _ (H cs)).
Qed.

(** ** Where the bios of a request lie on the device *)

(** The start sector and the size of every bio of the store. *)
Definition extents `{IovIter} (st : state) : list (Z * Z) :=
  map (fun x => (bi_sector x, bi_size x)) (st_bios st).

(** The bytes of a list of extents. *)
Definition extent_bytes (l : list (Z * Z)) : Z :=
  foldr (fun x a => x.2 + a) 0 l.

(** Extents that lie back to back from the byte offset [off]: each one
    starts at the sector of the byte at which the one before it ended. *)
Fixpoint contiguous (off : Z) (l : list (Z * Z)) : Prop :=
  match l with
  | [] => True
  | x :: l => x.1 = Z.shiftr off 9 /\ contiguous (off + x.2) l
  end.

Lemma extent_bytes_app l1 l2 :
  extent_bytes (l1 ++ l2) = extent_bytes l1 + extent_bytes l2.
Proof. induction l1 as [|x l1 IH]; simpl; lia. Qed.

Lemma contiguous_app off l1 l2 :
  contiguous off (l1 ++ l2) <->
  contiguous off l1 /\ contiguous (off + extent_bytes l1) l2.
Proof.
  revert off. induction l1 as [|x l1 IH]; intros off; simpl.
  - rewrite Z.add_0_r. tauto.
  - rewrite IH, Z.add_assoc. tauto.
Qed.

Ltac extents_solve :=
  unfold extents; unfold_ops;
  repeat case_match; simplify_eq; simpl;
  rewrite ?map_alter_same by done; done.

Section layout.
Context `{KH : KernelHeaders} `{IT : IovIter}
  {KHL : KernelHeadersLaws} {ITL : IovIterLaws}.

Lemma extents_end_io b st : extents (blkdev_bio_end_io b st) = extents st.
Proof. extents_solve. Qed.

Lemma extents_end_io_simple b st :
  extents (blkdev_bio_end_io_simple b st) = extents st.
Proof. extents_solve. Qed.

Lemma extents_bio_endio b st : extents (bio_endio b st) = extents st.
Proof.
  unfold bio_endio.
  case_match; auto using extents_end_io, extents_end_io_simple.
Qed.

Lemma extents_pick st c : extents (device_pick st c) = extents st.
Proof.
  unfold device_pick, extents, upd_bio. case_match; simpl; [done|].
  by rewrite map_alter_same.
Qed.

Lemma extents_stable L : stable (fun st => extents st = L).
Proof.
  split; [|done].
  intros st c _ <-. by rewrite extents_bio_endio, extents_pick.
Qed.

Lemma extents_bio_put b st : extents (bio_put b st) = extents st.
Proof. extents_solve. Qed.

Lemma extents_account rd bio st : extents (dio_account rd bio st) = extents st.
Proof. unfold dio_account, iocb_flag. extents_solve. Qed.

Lemma extents_ref_up sy bio st : extents (dio_ref_up sy bio st) = extents st.
Proof. unfold dio_ref_up. extents_solve. Qed.

Lemma extents_set_polled bio st : extents (bio_set_polled bio st) = extents st.
Proof. extents_solve. Qed.

Lemma extents_nowait_abort bio st :
  extents (dio_nowait_abort bio st) = extents st.
Proof. unfold dio_nowait_abort. extents_solve. Qed.

Lemma extents_fail bio st : extents (dio_fail bio st) = extents st.
Proof.
  unfold dio_fail. rewrite extents_bio_endio.
  unfold extents, upd_bio; simpl. by rewrite map_alter_same.
Qed.

Lemma extents_alloc nr st :
  exists x, extents (bio_alloc nr st).2 = extents st ++ [x].
Proof.
  unfold bio_alloc, bio_new, extents; simpl. rewrite map_app. by eexists.
Qed.

Lemma extents_fill bio pos st E x :
  extents st = E ++ [x] -> bio = length E ->
  exists n,
    extents (dio_fill bio pos st).2
    = E ++ [(wrap_u 64 (Z.shiftr pos 9), n)] /\
    n = bi_size (bio_at bio (dio_fill bio pos st).2).
Proof.
  intros HE ->. unfold extents in HE.
  apply fmap_app_inv in HE as (B & Y & -> & HY & HB).
  destruct Y as [|y [|? ?]]; simplify_eq.
  rewrite length_fmap.
  unfold dio_fill, bio_iov_iter_get_pages, extents, bio_at, upd_bio.
  simpl. rewrite HB, alter_last.
  rewrite lookup_app_r, Nat.sub_diag by done. simpl.
  case_match; simpl; rewrite ?HB, ?alter_last;
    rewrite lookup_app_r, Nat.sub_diag by done;
    rewrite map_app; simpl; eexists; (split; [reflexivity|done]).
Qed.

Section request.
Variables P0 C0 : Z.
Hypothesis P0_nonneg : 0 <= P0.
Hypothesis C0_bound : C0 <= MAX_RW_COUNT.
Hypothesis no_overflow : P0 + C0 < 2 ^ 63.

(** At the head of a turn of the loop: the bios before the one being built
    lie back to back from [P0], the offset of the turn is where they end,
    and the byte total counts them. *)
Definition layout_inv (pos : Z) (st : state) : Prop :=
  size_inv C0 st /\
  exists E x,
    extents st = E ++ [x] /\ contiguous P0 E /\
    pos = P0 + extent_bytes E /\ dio_size (st_dio st) = extent_bytes E.

Lemma dio_iterate_layout rd sy bio pos st :
  loop_inv st -> bio = (length (st_bios st) - 1)%nat -> layout_inv pos st ->
  match dio_iterate rd sy bio pos st with
  | inl (_, pos', st') => layout_inv pos' st'
  | inr (_, st') => contiguous P0 (extents st')
  end.
Proof.
  intros Hinv Hb (Hsz & E & x & HE & Hc & Hpos & Hds).
  assert (bio < length (st_bios st))%nat as Hlt.
  { destruct Hinv as (_ & (_ & ? & _) & _). lia. }
  assert (bio = length E) as HbE.
  { assert (length (extents st) = length (st_bios st)) as Hl
      by (unfold extents; by rewrite length_map).
    rewrite HE, length_app in Hl. simpl in Hl. lia. }
  pose proof (dio_iterate_size C0 rd sy bio pos st C0_bound Hinv Hb Hsz)
    as Hsize.
  pose proof (dio_iterate_cases rd sy bio pos st) as Hcases.
  destruct (extents_fill bio pos st E x HE HbE) as (n & HE1 & Hn).
  destruct (dio_fill bio pos st) as [ret st1] eqn:Ef.
  cbn [fst snd] in Hcases, HE1, Hn.
  pose proof (fill_laws _ _ _ _ _ Ef Hlt) as (_ & Hcnt1 & Hok).
  destruct (dio_fill_spec _ _ _ _ _ Ef Hlt)
    as (_ & _ & Hd1 & _ & _ & _ & _ & _ & Hl1 & _ & _).
  destruct Hsz as (_ & Hnn & Hle).
  assert (0 <= extent_bytes E) as HnnE by lia.
  assert (wrap_u 64 (Z.shiftr pos 9) = Z.shiftr pos 9) as Hsec.
  { apply wrap_u_small. rewrite Z.shiftr_div_pow2 by lia.
    pose proof (iov_iter_count_nonneg (st_iter st)).
    split; [apply Z.div_pos; lia|].
    apply Z.div_lt_upper_bound; lia. }
  assert (contiguous P0 (extents st1)) as Hc1.
  { rewrite HE1. apply contiguous_app. split; [done|]. simpl.
    rewrite Hsec, Hpos. done. }
  revert Hsize.
  destruct Hcases as [(Hr & ->)|[(Hr & _ & _ & ->)|[(Hr & ->)|(Hr & ->)]]];
    intros Hsize.
  - by rewrite extents_fail.
  - by rewrite extents_nowait_abort.
  - clear Hsize. rewrite dio_submit_last_eq. cbn beta iota zeta. cbn [snd].
    set (s2 := dio_account rd bio st1).
    set (sP := if iocb_flag IOCB_HIPRI s2 then _ else s2).
    assert (extents (device_yield (enqueue bio sP)) = extents st1) as Hy.
    { apply (stable_yield _ _ (extents_stable _)).
      unfold sP. destruct (iocb_flag IOCB_HIPRI s2);
        unfold enqueue, extents; simpl;
        fold (extents (bio_set_polled bio s2)); fold (extents s2);
        rewrite ?extents_set_polled; apply extents_account. }
    destruct (iocb_flag IOCB_HIPRI s2); [|by rewrite Hy].
    unfold extents in *. simpl. by rewrite Hy.
  - destruct (Hok Hr) as (Hpos1 & Hcnt).
    set (s2 := dio_account rd bio st1) in *.
    destruct (dio_account_spec rd bio st1)
      as (_ & _ & _ & _ & _ & _ & _ & Hsz2 & _ & _ & _ & _ & Hd2).
    fold s2 in Hsz2, Hd2.
    set (sR := dio_ref_up sy bio s2) in *.
    set (s4 := device_yield (enqueue bio sR)) in *.
    assert (extents s4 = extents st1) as He4.
    { apply (stable_yield _ _ (extents_stable _)).
      unfold enqueue, extents; simpl. fold (extents sR).
      unfold sR. rewrite extents_ref_up. apply extents_account. }
    destruct (extents_alloc (bio_iov_vecs_to_alloc (st_iter s2) BIO_MAX_VECS)
                s4) as (y & Hy).
    assert (bi_size (bio_at bio s2) = n) as Hn2.
    { rewrite Hn, !size_of_bio_at, Hsz2. done. }
    split; [exact Hsize|].
    exists (E ++ [(wrap_u 64 (Z.shiftr pos 9), n)]), y.
    rewrite Hy, He4, HE1. split; [done|].
    split; [by rewrite <- HE1|].
    rewrite extent_bytes_app. simpl. rewrite Z.add_0_r.
    rewrite Hcnt in Hcnt1. rewrite <- Hn in Hcnt1, Hpos1.
    split.
    + rewrite Hn2. rewrite wrap_s_small; [lia|lia|].
      pose proof (iov_iter_count_nonneg (st_iter st)).
      change (2 ^ (64 - 1)) with (2 ^ 63). lia.
    + destruct Hsize as (_ & _ & _).
      assert (dio_size (st_dio s4) = dio_size (st_dio s2)) as Hd4.
      { destruct (device_yield_frame (enqueue bio sR))
          as (_ & _ & _ & _ & Hst).
        destruct Hst as (_ & _ & _ & _ & (_ & _ & _ & Hz & _) & _).
        fold s4 in Hz. rewrite Hz. unfold enqueue; simpl.
        destruct (dio_ref_up_spec sy bio s2)
          as (_ & _ & _ & _ & _ & _ & _ & _ & _ & (_ & _ & _ & Hz' & _) & _).
        exact Hz'. }
      unfold bio_alloc, bio_new; simpl. rewrite Hd4, Hd2. simpl.
      rewrite Hd1, Hds, <- Hn.
      apply wrap_u_small. unfold MAX_RW_COUNT in *. lia.
Qed.

End request.

(** Induction over the turns of the loop with the offset of the turn. *)
Lemma dio_submit_loop_offset_ind (I : Z -> state -> Prop)
    (Post : loop_exit -> state -> Prop) is_read is_sync :
  (forall bio pos st,
     loop_inv st -> bio = (length (st_bios st) - 1)%nat -> I pos st ->
     match dio_iterate is_read is_sync bio pos st with
     | inl (_, pos', st') => I pos' st'
     | inr (r, st') => Post r st'
     end) ->
  forall fuel bio pos st r st',
    loop_inv st -> bio = (length (st_bios st) - 1)%nat -> I pos st ->
    dio_submit_loop fuel is_read is_sync bio pos st = Some (r, st') ->
    Post r st'.
Proof.
  intros Hstep. induction fuel as [|fuel IH];
    intros bio pos st r st' Hinv Hb HI Hl; [done|].
  simpl in Hl.
  pose proof (dio_iterate_core is_read is_sync bio pos st Hinv Hb) as Hc.
  pose proof (Hstep bio pos st Hinv Hb HI) as Hs.
  destruct (dio_iterate is_read is_sync bio pos st)
    as [[[bio' pos'] st1]|[r1 st1]].
  - destruct Hc as (Hinv' & Hb' & _). by eapply IH.
  - by simplify_eq.
Qed.

Lemma dio_begin_layout nr st :
  fresh st ->
  layout_inv (ki_pos (st_iocb st)) (iov_iter_count (st_iter st))
    (ki_pos (st_iocb st)) (dio_begin nr st).2.
Proof.
  intros Hfr. split; [by apply dio_begin_size|].
  destruct Hfr as (Hb & _ & _).
  unfold dio_begin, bio_alloc_kiocb, bio_new, bio_get, blk_start_plug,
    extents.
  eexists [], _.
  repeat case_match; simpl in *; simplify_eq; rewrite Hb; simpl;
    split_and!; try done; lia.
Qed.

End layout.

(** X16. The bios of a request lie back to back on the device.  For a fresh
    aligned request at a file position that is not negative and whose end
    does not overflow (both are checked before a request reaches the file's
    methods), [__blkdev_direct_IO] returns, and then and after any further
    completions the first bio starts at the sector of the file position and
    every later bio starts at the sector of the byte at which the bio before
    it ended. *)
Theorem direct_IO_layout `{KH : KernelHeaders} `{IT : IovIter}
    {KHL : KernelHeadersLaws} {ITL : IovIterLaws}
    (nr_pages : Z) (st : state) :
  fresh st -> iov_iter_count (st_iter st) <= MAX_RW_COUNT ->
  dio_misaligned (ki_pos (st_iocb st)) (st_iter st)
    (I_BDEV (bdev_file_inode (ki_filp (st_iocb st)))) = false ->
  0 <= ki_pos (st_iocb st) ->
  ki_pos (st_iocb st) + iov_iter_count (st_iter st) < 2 ^ 63 ->
  exists r st',
    __blkdev_direct_IO nr_pages st = Some (r, st') /\
    forall cs,
      contiguous (ki_pos (st_iocb st)) (extents (device_run cs st')).
Proof.
  intros Hfr Hc Hal Hp Hov.
  set (C0 := iov_iter_count (st_iter st)) in *.
  set (P0 := ki_pos (st_iocb st)) in *.
  destruct (direct_IO_run nr_pages st Hfr Hc Hal)
    as (Hinv0 & Hb0 & r1 & st1 & Hloop & Hpost & _ & _ & Hrun).
  assert (contiguous P0 (extents st1)) as HL1.
  { eapply (dio_submit_loop_offset_ind (layout_inv P0 C0)
              (fun _ s => contiguous P0 (extents s))
              match iov_iter_rw (st_iter st) with
              | READ => true | WRITE => false end
              (is_sync_kiocb (st_iocb st)));
      [| exact Hinv0 | exact Hb0 | by apply dio_begin_layout | exact Hloop].
    intros bio pos s Hi Hb Hs.
    pose proof (dio_iterate_layout P0 C0 Hp Hc Hov
                  match iov_iter_rw (st_iter st) with
                  | READ => true | WRITE => false end
                  (is_sync_kiocb (st_iocb st)) bio pos s Hi Hb Hs) as H.
    revert H. by repeat case_match. }
  assert (forall s, extents s = extents st1 ->
            extents (if negb (iocb_flag IOCB_HIPRI st)
                     then blk_finish_plug s else s) = extents st1) as Hfin.
  { intros s Hs. by destruct (negb _). }
  destruct r1 as [ret qc|v].
  - destruct Hpost as [Hdone Hret].
    destruct (dio_end_run (iocb_flag IOCB_HIPRI st) ret qc st1 Hdone)
      as [(_ & He)|(_ & st2 & Hw & Hq & Hdone2 & He)];
      rewrite He in Hrun.
    + eexists _, _. split; [exact Hrun|]. intros cs.
      by rewrite (stable_run _ cs _ (extents_stable _) (Hfin st1 eq_refl)).
    + eexists _, _. split; [exact Hrun|]. intros cs.
      pose proof (stable_wait _ _ _ _ _ (extents_stable _) Hw
                    (Hfin st1 eq_refl)) as H2.
      cbn beta in H2.
      rewrite <- (extents_bio_put (dio_bio (st_dio st2))) in H2.
      by rewrite (stable_run _ cs _ (extents_stable _) H2).
  - destruct Hpost as (-> & _ & Hq & _).
    eexists _, _. split; [exact Hrun|]. intros cs.
    by rewrite (device_run_idle cs st1 Hq).
Qed.

(** ** The lifetime of the bios *)

(** The reference flag and the reference count of every bio. *)
Definition counts `{IovIter} (st : state) : list (bool * Z) :=
  map (fun x => (bi_reffed x, bi_cnt x)) (st_bios st).

(** How often bio [b] was freed. *)
Definition frees `{IovIter} (b : nat) (st : state) : nat :=
  free_count b (st_trace st).

(** A step that neither touches a reference count nor frees a bio, and
    leaves the mode of the request alone. *)
Definition neutral `{IovIter} (st st' : state) : Prop :=
  counts st' = counts st /\ (forall x, frees x st' = frees x st) /\
  is_sync (st_dio st') = is_sync (st_dio st) /\
  multi_bio (st_dio st') = multi_bio (st_dio st).

Section lifetime.
Context `{KH : KernelHeaders} `{IT : IovIter} {ITL : IovIterLaws}.

Lemma counts_length st : length (counts st) = length (st_bios st).
Proof. unfold counts. apply length_map. Qed.

Lemma counts_lookup b st :
  (b < length (st_bios st))%nat ->
  counts st !! b = Some (bi_reffed (bio_at b st), bi_cnt (bio_at b st)).
Proof.
  intros Hlt. unfold counts, bio_at. rewrite list_lookup_fmap.
  destruct (lookup_lt_is_Some_2 _ _ Hlt) as [x ->]. done.
Qed.

Lemma neutral_refl st : neutral st st.
Proof. done. Qed.

Lemma neutral_trans st1 st2 st3 :
  neutral st1 st2 -> neutral st2 st3 -> neutral st1 st3.
Proof.
  intros (? & ? & ? & ?) (? & ? & ? & ?).
  split_and!; [congruence| |congruence..]. intros x. congruence.
Qed.

Lemma neutral_log e st :
  (forall b, e <> EvFree b) -> neutral st (log e st).
Proof.
  intros He. split_and!; try done. intros x. unfold frees, log; simpl.
  destruct e; try done. exfalso. by eapply He.
Qed.

Lemma counts_upd_bio b f st y :
  st_bios st !! b = Some y ->
  counts (upd_bio b f st) !! b = Some (bi_reffed (f y), bi_cnt (f y)) /\
  (forall x, x <> b -> counts (upd_bio b f st) !! x = counts st !! x) /\
  length (counts (upd_bio b f st)) = length (counts st).
Proof.
  intros Hy. unfold counts, upd_bio, upd_bios. cbn [st_bios].
  rewrite !length_map, length_alter, list_lookup_fmap, list_lookup_alter_eq.
  rewrite Hy. split_and!; [done| |done].
  intros x Hne. by rewrite !list_lookup_fmap, list_lookup_alter_ne.
Qed.

Lemma upd_bio_lookup b f st y :
  st_bios st !! b = Some y -> st_bios (upd_bio b f st) !! b = Some (f y).
Proof.
  intros Hy. unfold upd_bio, upd_bios. cbn [st_bios].
  by rewrite list_lookup_alter_eq, Hy.
Qed.

(** What [bio_put] does to the reference count of its bio, and when it
    frees it. *)
Lemma put_spec b st (r : bool) (c : Z) :
  counts st !! b = Some (r, c) ->
  let c' := if r then wrap_s 32 (c - 1) else c in
  let fr := negb r || (c' =? 0) in
  (forall x, frees x (bio_put b st)
             = ((if fr && bool_decide (x = b) then 1 else 0)
                + frees x st)%nat) /\
  counts (bio_put b st) !! b = Some (r, c') /\
  (forall x, x <> b -> counts (bio_put b st) !! x = counts st !! x) /\
  length (counts (bio_put b st)) = length (counts st).
Proof.
  intros Hl c' fr.
  assert (b < length (st_bios st))%nat as Hlt.
  { rewrite <- counts_length. by eapply lookup_lt_Some. }
  destruct (lookup_lt_is_Some_2 _ _ Hlt) as [y Hy].
  assert (bio_at b st = y) as Hat by (unfold bio_at; by rewrite Hy).
  rewrite (counts_lookup b st Hlt), Hat in Hl. injection Hl as Hr Hc.
  assert (forall s x,
            frees x (log (EvFree b) s)
            = ((if bool_decide (x = b) then 1 else 0) + frees x s)%nat)
    as Hfree.
  { intros s x. unfold frees, log; simpl.
    case_bool_decide; case_decide; simplify_eq; done. }
  unfold bio_put, bio_free. rewrite Hat, Hr, Hc.
  unfold fr, c'.
  destruct r; cbn [negb orb andb]; cbn beta iota zeta.
  - destruct (counts_upd_bio b (set_bi_cnt (wrap_s 32 (c - 1))) st y Hy)
      as (H1 & H2 & H3).
    pose proof (upd_bio_lookup b (set_bi_cnt (wrap_s 32 (c - 1))) st y Hy)
      as Hy1.
    destruct (wrap_s 32 (c - 1) =? 0) eqn:E.
    + destruct (counts_upd_bio b (set_bi_freed true) _ _ Hy1)
        as (H1' & H2' & H3').
      split_and!.
      * intros x. rewrite Hfree. done.
      * change (counts (log ?e ?s)) with (counts s). rewrite H1'. simpl.
        by rewrite Hr.
      * intros x Hne. change (counts (log ?e ?s)) with (counts s).
        by rewrite H2', H2.
      * change (counts (log ?e ?s)) with (counts s). by rewrite H3', H3.
    + split_and!; try done.
      rewrite H1. simpl. by rewrite Hr.
  - destruct (counts_upd_bio b (set_bi_freed true) st y Hy)
      as (H1 & H2 & H3).
    split_and!.
    + intros x. rewrite Hfree. done.
    + change (counts (log ?e ?s)) with (counts s). rewrite H1. simpl.
      by rewrite Hr, Hc.
    + intros x Hne. change (counts (log ?e ?s)) with (counts s).
      by rewrite H2.
    + change (counts (log ?e ?s)) with (counts s). by rewrite H3.
Qed.

(** [blkdev_bio_end_io] is steps that touch no reference, the drop of the
    reference on the dio's bio if an asynchronous request of several bios
    was finalized, and the drop of the reference on the completed bio. *)
Lemma end_io_puts n b st :
  dio_count (S n) st ->
  let drop :=
    match n with
    | O => negb (is_sync (st_dio st)) && multi_bio (st_dio st)
    | S _ => false
    end in
  exists s2 s3,
    neutral st s2 /\
    neutral (if drop then bio_put (dio_bio (st_dio st)) s2 else s2) s3 /\
    blkdev_bio_end_io b st = bio_put b s3.
Proof.
  intros (Hb & Hm & Hs & Hf & _) drop.
  rewrite blkdev_bio_end_io_eq.
  set (s1 := dio_record_status b st).
  assert (st_dio s1 = st_dio st /\ neutral st s1) as (Hd1 & Hn1).
  { unfold s1, dio_record_status. case_match; [|done].
    split; [done|]. split_and!; try done.
    unfold counts, upd_bio, upd_bios; cbn [st_bios].
    by rewrite map_alter_same. }
  clearbody s1. unfold end_io_tail.
  set (step := if negb (multi_bio (st_dio s1)) then (true, s1)
               else atomic_dec_and_test_ref s1).
  assert (step.1 = (if n is O then true else false) /\
          is_sync (st_dio step.2) = is_sync (st_dio st) /\
          multi_bio (st_dio step.2) = multi_bio (st_dio st) /\
          dio_bio (st_dio step.2) = dio_bio (st_dio st) /\
          neutral st step.2) as (Hl & Hy2 & Hm2 & Hb2 & Hn2).
  { unfold step. rewrite Hd1.
    destruct (multi_bio (st_dio st)) eqn:Em; cbn [negb]; cbn beta iota.
    - unfold atomic_dec_and_test_ref. simpl.
      rewrite Hd1, (Hm eq_refl), wrap_s_small by lia. rewrite Em.
      split_and!; try done.
      destruct n; [done|]. apply Z.eqb_neq. lia.
    - simpl. rewrite Hd1, Em. split_and!; try done.
      specialize (Hs eq_refl). destruct n; [done|lia]. }
  destruct step as [last s2]. cbn [fst snd] in *. subst last.
  assert (exists s2',
            neutral st s2' /\
            (if match n with O => true | S _ => false end
             then dio_finalize s2 else s2)
            = if drop then bio_put (dio_bio (st_dio st)) s2' else s2')
    as (s2' & Hn2' & ->).
  { unfold drop. destruct n as [|n]; [|by exists s2].
    unfold dio_finalize. rewrite Hy2.
    destruct (is_sync (st_dio st)); cbn [negb andb]; cbn beta iota.
    - eexists. split; [|reflexivity].
      eapply neutral_trans; [exact Hn2|].
      unfold blk_wake_io_task. split_and!; done.
    - destruct (bi_status _ =? 0); cbn beta iota zeta;
        change (st_dio (log ?e ?s)) with (st_dio s);
        change (st_dio (upd_iocb ?f ?s)) with (st_dio s);
        rewrite Hm2, Hb2;
        (eexists; split; [|reflexivity]);
        (eapply neutral_trans; [exact Hn2|]); split_and!; done. }
  exists s2'.
  destruct (should_dirty (st_dio st)).
  - eexists. split; [done|]. split; [|reflexivity].
    by apply neutral_log.
  - eexists. split; [done|]. split; [|reflexivity].
    by apply neutral_log.
Qed.

(** The bookkeeping of the references.  [l] lists the bios that are not
    completed yet, [fin] tells whether the request was finalized.  A bio
    other than the first holds no counted reference and was freed once if
    it is completed, and not at all if not.  The first bio, which holds the
    dio, has two references in a synchronous request until it is completed,
    and then one, for the submitter; in an asynchronous request of one bio
    it is not counted and freed when completed; in an asynchronous request
    of several bios it holds one reference until it is completed and one
    until the request is finalized, and was freed once if neither is left. *)
Definition life (l : list nat) (fin : bool) (st : state) : Prop :=
  (forall x r c, (1 <= x)%nat -> counts st !! x = Some (r, c) -> r = false) /\
  (forall x, (1 <= x)%nat ->
     one_if ((x < length (counts st))%nat /\ x ∉ l) (frees x st)) /\
  exists r0 c0,
    counts st !! 0%nat = Some (r0, c0) /\
    if is_sync (st_dio st) then
      r0 = true /\ frees 0 st = 0%nat /\
      c0 = if decide (0%nat ∈ l) then 2 else 1
    else if negb (multi_bio (st_dio st)) then
      r0 = false /\ c0 = 1 /\
      frees 0 st = if decide (0%nat ∈ l) then 0%nat else 1%nat
    else
      r0 = true /\
      c0 = (if decide (0%nat ∈ l) then 1 else 0) + (if fin then 0 else 1) /\
      frees 0 st = if c0 =? 0 then 1%nat else 0%nat.

Lemma life_frame l fin st st' :
  neutral st st' -> life l fin st -> life l fin st'.
Proof.
  intros (Hc & Hf & Hy & Hm). unfold life. rewrite Hc, Hy, Hm, !Hf.
  intros (H1 & H2 & H3). split_and!; [done| |done].
  intros x Hx. rewrite Hf. by apply H2.
Qed.

Lemma life_equiv l l' fin st :
  (forall x, x ∈ l <-> x ∈ l') -> life l fin st -> life l' fin st.
Proof.
  intros Hl (H1 & H2 & r0 & c0 & H0 & H3). split_and!; [done| |].
  - intros x Hx. specialize (H2 x Hx). revert H2. unfold one_if.
    rewrite (Hl x). done.
  - exists r0, c0. split; [done|]. revert H3.
    destruct (decide (0%nat ∈ l)) as [Hin|Hin];
      destruct (decide (0%nat ∈ l')) as [Hin'|Hin']; try done;
      exfalso; apply Hl in Hin || apply Hl in Hin'; done.
Qed.

Lemma life_fin l fin fin' st :
  is_sync (st_dio st) = true \/ multi_bio (st_dio st) = false ->
  life l fin st -> life l fin' st.
Proof.
  intros Hc (H1 & H2 & r0 & c0 & H0 & H3). split_and!; [done|done|].
  exists r0, c0. split; [done|]. revert H3.
  destruct (is_sync (st_dio st)) eqn:Ey; [done|].
  destruct Hc as [?| ->]; [done|]. done.
Qed.

(** The finalization of an asynchronous request of several bios drops its
    reference on the first bio. *)
Lemma life_drop l st :
  is_sync (st_dio st) = false -> multi_bio (st_dio st) = true ->
  life l false st -> life l true (bio_put 0 st).
Proof.
  intros Hy Hm (H1 & H2 & r0 & c0 & H0 & H3).
  rewrite Hy, Hm in H3. cbn [negb] in H3. destruct H3 as (-> & Hc & HF).
  destruct (put_spec 0 st true c0 H0) as (Hfr & Hc0 & Hcx & Hlen).
  cbn [negb orb] in Hfr, Hc0.
  destruct (bio_put_frame 0 st)
    as (_ & _ & _ & _ & _ & _ & (Hy' & _ & _ & _ & Hm') & _).
  assert (wrap_s 32 (c0 - 1) = c0 - 1) as Hw.
  { apply wrap_s_small; [lia|]. destruct (decide _); lia. }
  rewrite Hw in Hfr, Hc0.
  unfold life. rewrite Hy', Hm', Hy, Hm, Hlen. cbn [negb]. split_and!.
  - intros x r c Hx. rewrite Hcx by lia. by apply H1.
  - intros x Hx. rewrite Hfr. rewrite bool_decide_eq_false_2 by lia.
    rewrite andb_false_r. by apply H2.
  - exists true, (c0 - 1). split; [done|]. split; [done|].
    split; [destruct (decide _); lia|].
    rewrite Hfr, HF. rewrite bool_decide_eq_true_2 by done.
    rewrite andb_true_r.
    destruct (decide _); subst c0; simpl; done.
Qed.

(** The completion of bio [b] drops the reference it held. *)
Lemma life_put l l' fin b st :
  b ∈ l -> (forall x, x ∈ l' <-> x ∈ l /\ x <> b) ->
  (b < length (st_bios st))%nat ->
  life l fin st -> life l' fin (bio_put b st).
Proof.
  intros Hin Hl' Hlt (H1 & H2 & r0 & c0 & H0 & H3).
  destruct (bio_put_frame b st)
    as (_ & _ & _ & _ & _ & _ & (Hy' & _ & _ & _ & Hm') & _).
  destruct b as [|b].
  - destruct (put_spec 0 st r0 c0 H0) as (Hfr & Hc0 & Hcx & Hlen).
    assert (0%nat ∉ l') as Hni by (rewrite Hl'; naive_solver).
    unfold life. rewrite Hy', Hm', Hlen. split_and!.
    + intros x r c Hx. rewrite Hcx by lia. by apply H1.
    + intros x Hx. rewrite Hfr. rewrite bool_decide_eq_false_2 by lia.
      rewrite andb_false_r. specialize (H2 x Hx). revert H2.
      unfold one_if. rewrite Hl'. naive_solver lia.
    + eexists _, _. split; [exact Hc0|].
      rewrite Hfr. rewrite bool_decide_eq_true_2 by done.
      rewrite andb_true_r. revert H3.
      destruct (decide (0%nat ∈ l)) as [_|?]; [|done].
      destruct (decide (0%nat ∈ l')) as [?|_]; [done|].
      destruct (is_sync (st_dio st)).
      { intros (-> & -> & ->). by rewrite wrap_s_small by lia. }
      destruct (negb (multi_bio (st_dio st))).
      { by intros (-> & -> & ->). }
      intros (-> & -> & ->).
      rewrite wrap_s_small by (destruct fin; lia).
      by destruct fin.
  - assert (counts st !! S b = Some (bi_reffed (bio_at (S b) st),
                                     bi_cnt (bio_at (S b) st))) as Hb
      by (by apply counts_lookup).
    pose proof (H1 (S b) _ _ ltac:(lia) Hb) as Hr.
    rewrite Hr in Hb.
    destruct (put_spec (S b) st _ _ Hb) as (Hfr & Hcb & Hcx & Hlen).
    cbn [negb orb] in Hfr, Hcb.
    unfold life. rewrite Hy', Hm', Hlen. split_and!.
    + intros x r c Hx Hlx. destruct (decide (x = S b)) as [->|Hne].
      * rewrite Hcb in Hlx. by simplify_eq.
      * rewrite Hcx in Hlx by done. by eapply H1.
    + intros x Hx. rewrite Hfr. specialize (H2 x Hx). revert H2.
      unfold one_if. rewrite Hl', counts_length.
      case_bool_decide as Hxb; simpl.
      * subst x. intros [_ Hz]. rewrite Hz by naive_solver.
        split; [done|]. intros Hn. exfalso. apply Hn. naive_solver.
      * intros [Ha Hz]. split; intros Hp; [apply Ha|apply Hz]; naive_solver.
    + exists r0, c0. rewrite Hcx by done. split; [done|].
      rewrite Hfr. rewrite bool_decide_eq_false_2 by done.
      rewrite andb_false_r. simpl. revert H3.
      destruct (decide (0%nat ∈ l)) as [H0l|H0l];
        destruct (decide (0%nat ∈ l')) as [H0l'|H0l']; try done;
        exfalso; revert H0l'; rewrite Hl'; naive_solver.
Qed.

(** Whether the request was finalized. *)
Definition finalized (st : state) : bool :=
  match finals (st_trace st) with [] => false | _ => true end.

Lemma bio_put_mode b st :
  is_sync (st_dio (bio_put b st)) = is_sync (st_dio st) /\
  multi_bio (st_dio (bio_put b st)) = multi_bio (st_dio st) /\
  length (st_bios (bio_put b st)) = length (st_bios st).
Proof.
  destruct (bio_put_frame b st) as (_ & _ & Hst).
  pose proof (static_bios_length _ _ Hst).
  destruct Hst as (_ & _ & _ & _ & (? & _ & _ & _ & ?) & _). done.
Qed.

Lemma neutral_length st st' :
  neutral st st' -> length (st_bios st') = length (st_bios st).
Proof. intros (Hc & _). by rewrite <- !counts_length, Hc. Qed.

(** One more bio completes. *)
Lemma life_end_io l l' n b st :
  dio_count (S n) st -> dio_bio (st_dio st) = 0%nat ->
  b ∈ l -> (forall x, x ∈ l' <-> x ∈ l /\ x <> b) ->
  (b < length (st_bios st))%nat ->
  life l false st ->
  life l' (finalized (blkdev_bio_end_io b st)) (blkdev_bio_end_io b st).
Proof.
  intros Hc Hdb Hin Hl' Hlt HL.
  pose proof (end_io_count n b st Hc) as (_ & _ & _ & Hf' & _).
  assert (finalized (blkdev_bio_end_io b st)
          = match n with O => true | S _ => false end) as ->.
  { unfold finalized. destruct (finals _); destruct n; done. }
  clear Hf'.
  destruct (end_io_puts n b st Hc) as (s2 & s3 & Hn2 & Hn3 & Heq).
  rewrite Heq, Hdb in *. clear Heq.
  pose proof Hn2 as (_ & _ & Hy2 & Hm2).
  assert (life l false s2) as HL2 by (by eapply life_frame).
  apply life_put with (l := l); try done.
  { rewrite (neutral_length _ _ Hn3).
    destruct n as [|n]; [|by rewrite (neutral_length _ _ Hn2)].
    destruct (negb _ && _);
      [destruct (bio_put_mode 0 s2) as (_ & _ & ->)|];
      by rewrite (neutral_length _ _ Hn2). }
  eapply life_frame; [exact Hn3|].
  destruct n as [|n]; [|done].
  destruct (is_sync (st_dio st)) eqn:Ey; cbn [negb andb].
  { eapply life_fin; [|exact HL2]. left. congruence. }
  destruct (multi_bio (st_dio st)) eqn:Em.
  - apply life_drop; congruence.
  - eapply life_fin; [|exact HL2]. right. congruence.
Qed.

(** What completions keep: [ec] is 1 while the loop holds a reference for
    the bio it will build next. *)
Definition living (ec : nat) (st : state) : Prop :=
  dio_inv ec st /\ dio_wf 0 st /\ life (st_queue st) (finalized st) st.

Lemma dequeue_elem b q x : NoDup q -> x ∈ dequeue b q <-> x ∈ q /\ x <> b.
Proof.
  intros Hnd. split.
  - intros Hin. split; [by eapply dequeue_subset|].
    intros ->. by eapply dequeue_not_in.
  - intros [? ?]. by apply dequeue_other.
Qed.

Lemma finalized_count n st :
  dio_count n st ->
  finalized st = match n with O => true | S _ => false end.
Proof.
  intros (_ & _ & _ & Hf & _). unfold finalized.
  destruct (finals _), n; done.
Qed.

Lemma neutral_pick st c : neutral st (device_pick st c).
Proof.
  destruct (device_pick_frame st c) as (_ & _ & Ht & Hd & _).
  split_and!; rewrite ?Hd; try done.
  - unfold counts, device_pick, upd_bio, upd_bios.
    case_match; cbn [st_bios set_queue]; [done|]. by rewrite map_alter_same.
  - intros x. unfold frees. by rewrite Ht.
Qed.

Lemma living_stable ec : stable (living ec).
Proof.
  split.
  2: { intros st s (? & ? & ?).
       split_and!; [by apply (dio_inv_stable ec)|done|done]. }
  intros st c Hin (Hinv & Hwf & HL).
  split_and!; [by apply (dio_inv_stable ec)|by apply (dio_wf_stable 0)|].
  destruct Hinv as [Hh Hc]. pose proof Hwf as (Hdb & _ & Hnd & Hlt).
  destruct (device_pick_frame st c) as (Hq & _ & Ht & Hd & Hst).
  pose proof (static_bios_length _ _ Hst) as Hlen.
  destruct Hst as (_ & _ & Hk & _).
  assert (bio_endio c.1 (device_pick st c)
          = blkdev_bio_end_io c.1 (device_pick st c)) as ->.
  { unfold bio_endio. rewrite hook_of_bio_at, Hk, (Hh _ Hin). done. }
  destruct (end_io_frame c.1 (device_pick st c)) as (Hq' & _).
  rewrite Hq', Hq.
  assert (exists n, (length (st_queue st) + ec = S n)%nat) as [n Hn].
  { destruct (st_queue st); [by apply elem_of_nil in Hin|].
    simpl. eauto. }
  rewrite Hn in Hc. rewrite (finalized_count _ _ Hc) in HL.
  apply (life_end_io (st_queue st) _ n).
  - unfold dio_count. rewrite Ht, Hd. exact Hc.
  - by rewrite Hd.
  - done.
  - intros x. by apply dequeue_elem.
  - rewrite Hlen. specialize (Hlt _ Hin). lia.
  - eapply life_frame; [apply neutral_pick|]. exact HL.
Qed.

Lemma counts_owners st : counts st = map (fun o => (o.1.1, o.1.2)) (owners st).
Proof. unfold counts, owners. by rewrite map_map. Qed.

Lemma frees_account rd bio x st :
  frees x (dio_account rd bio st) = frees x st.
Proof.
  unfold frees, dio_account. unfold_ops.
  repeat case_match; simplify_eq; done.
Qed.

Lemma counts_upd_dio f st : counts (upd_dio f st) = counts st.
Proof. done. Qed.

Lemma frees_upd_dio f x st : frees x (upd_dio f st) = frees x st.
Proof. done. Qed.

(** The loop takes the reference for the bio it will build next. *)
Lemma life_ref_up l bio st :
  filled bio st -> bio ∈ l ->
  life l false st ->
  life l false (dio_ref_up (is_sync (st_dio st)) bio st).
Proof.
  intros (_ & _ & (_ & H1 & _) & Hb & Hm) Hin HL.
  unfold dio_ref_up.
  destruct (multi_bio (st_dio st)) eqn:Em; cbn [negb]; cbn beta iota.
  { eapply life_frame; [|exact HL]. split_and!; done. }
  assert (bio = 0%nat) as ->.
  { destruct (decide (2 <= length (st_bios st))%nat) as [H2|H2]; [|lia].
    apply Hm in H2. congruence. }
  destruct HL as (Hx & Hf & r0 & c0 & H0 & H3). revert H3.
  rewrite Em. cbn [negb].
  destruct (is_sync (st_dio st)) eqn:Ey; cbn [negb]; cbn beta iota zeta.
  - intros H3. split_and!; [done|done|].
    exists r0, c0. split; [done|]. simpl. by rewrite Ey.
  - rewrite (decide_True _ _ Hin). intros (-> & -> & HF).
    assert (0 < length (st_bios st))%nat as Hlt by lia.
    destruct (lookup_lt_is_Some_2 _ _ Hlt) as [y Hy].
    pose proof (counts_lookup 0 st Hlt) as Hc0.
    rewrite H0 in Hc0. injection Hc0 as Hr Hc.
    unfold bio_at in Hr, Hc. rewrite Hy in Hr, Hc. simpl in Hr, Hc.
    unfold bio_get.
    destruct (counts_upd_bio 0
                (fun x => set_bi_cnt (wrap_s 32 (bi_cnt x + 1))
                            (set_bi_reffed true x)) st y Hy)
      as (Hg0 & Hgx & Hgl).
    simpl in Hg0. rewrite <- Hc in Hg0.
    unfold life. rewrite !counts_upd_dio. split_and!.
    + intros x r c Hx1 Hl.
      rewrite Hgx in Hl by lia. by eapply Hx.
    + intros x Hx1. rewrite !frees_upd_dio, Hgl.
      specialize (Hf x Hx1). done.
    + exists true, 2.
      split; [by rewrite Hg0|]. simpl. rewrite Ey. simpl.
      rewrite (decide_True _ _ Hin). split_and!; try done.
Qed.

(** The bio that was built is handed to the device. *)
Lemma life_enqueue bio st :
  life (st_queue st ++ [bio]) false st ->
  life (st_queue (enqueue bio st)) false (enqueue bio st).
Proof. apply life_frame. split_and!; done. Qed.

(** The next bio is allocated. *)
Lemma life_alloc nr st :
  (1 <= length (st_bios st))%nat ->
  life (st_queue st) false st ->
  let st' := (bio_alloc nr st).2 in
  life (st_queue st' ++ [(length (st_bios st') - 1)%nat]) false st'.
Proof.
  intros H1 (Hx & Hf & r0 & c0 & H0 & H3) st'.
  assert (counts st' = counts st ++ [(false, 1)]) as Hc.
  { unfold st', bio_alloc, bio_new, counts; simpl. by rewrite map_app. }
  assert (length (st_bios st') = S (length (st_bios st))) as Hl.
  { rewrite <- !counts_length, Hc, length_app. simpl. lia. }
  assert (forall x, x ∈ st_queue st' ++ [(length (st_bios st') - 1)%nat]
                    <-> x ∈ st_queue st \/ x = length (st_bios st)) as Hin.
  { intros x. rewrite elem_of_app, list_elem_of_singleton, Hl.
    replace (S (length (st_bios st)) - 1)%nat with (length (st_bios st))
      by lia. done. }
  unfold life. change (frees ?x st') with (frees x st).
  change (st_dio st') with (st_dio st). rewrite Hc.
  split_and!.
  - intros x r c Hx1 Hlx. apply lookup_app_Some in Hlx as [Hlx|[_ Hlx]].
    + by eapply Hx.
    + apply list_lookup_singleton_Some in Hlx as [_ ?]. by simplify_eq.
  - intros x Hx1. specialize (Hf x Hx1). revert Hf. unfold one_if.
    rewrite Hin, length_app, !counts_length. simpl.
    intros [Ha Hz]. split; intros Hp; [apply Ha|apply Hz]; naive_solver lia.
  - exists r0, c0. split.
    { rewrite lookup_app_l; [done|]. rewrite counts_length. lia. }
    revert H3.
    destruct (decide (0%nat ∈ st_queue st)) as [H0q|H0q];
      destruct (decide (0%nat ∈ _ ++ _)) as [H0l|H0l]; try done;
      exfalso; revert H0l; rewrite Hin; naive_solver lia.
Qed.

Lemma living_finalized st : living 1 st -> finalized st = false.
Proof.
  intros ((_ & Hc) & _). rewrite Nat.add_1_r in Hc.
  by rewrite (finalized_count _ _ Hc).
Qed.

Lemma dio_iterate_life rd bio pos st :
  loop_inv st -> bio = (length (st_bios st) - 1)%nat ->
  life (st_queue st ++ [bio]) false st ->
  match dio_iterate rd (is_sync (st_dio st)) bio pos st with
  | inl (_, _, st') =>
      life (st_queue st' ++ [(length (st_bios st') - 1)%nat]) false st'
  | inr (loop_break _ _, st') => life (st_queue st') (finalized st') st'
  | inr (loop_return _, st') =>
      forall x, frees x st' = if decide (x = 0%nat) then 1%nat else 0%nat
  end.
Proof.
  intros Hinv Hb HL.
  assert (bio < length (st_bios st))%nat as Hlt.
  { destruct Hinv as (_ & (_ & ? & _) & _). lia. }
  assert (Z.of_nat (length (st_queue st)) <= MAX_RW_COUNT) as Hbound.
  { destruct Hinv as (_ & _ & ? & _).
    pose proof (iov_iter_count_nonneg (st_iter st)). lia. }
  pose proof (dio_iterate_core rd (is_sync (st_dio st)) bio pos st Hinv Hb)
    as Hcore.
  pose proof (dio_iterate_cases rd (is_sync (st_dio st)) bio pos st)
    as Hcases.
  destruct (dio_fill bio pos st) as [ret st1] eqn:Ef.
  cbn [fst snd] in Hcases.
  pose proof (filled_after_fill _ _ _ _ _ Hinv Hb Ef) as Hfl1.
  pose proof (filled_after_account rd _ _ Hfl1) as Hfl2.
  destruct (dio_fill_spec _ _ _ _ _ Ef Hlt)
    as (Hq1 & _ & Hd1 & _ & Ht1 & _ & _ & Ho1 & Hl1 & _ & _).
  assert (life (st_queue st1 ++ [bio]) false st1) as HL1.
  { rewrite Hq1. eapply life_frame; [|exact HL].
    split_and!; rewrite ?Hd1; try done.
    - by rewrite !counts_owners, Ho1.
    - intros x. unfold frees. by rewrite Ht1. }
  destruct (dio_account_spec rd bio st1)
    as (Hq2 & _ & _ & _ & _ & _ & Ho2 & _ & Hl2 & _ & _ & _ & Hd2).
  set (st2 := dio_account rd bio st1) in *.
  assert (neutral st1 st2) as Hn2.
  { split_and!; rewrite ?Hd2; try done.
    - by rewrite !counts_owners, Ho2.
    - intros x. apply frees_account. }
  assert (life (st_queue st2 ++ [bio]) false st2) as HL2.
  { rewrite Hq2. by eapply life_frame. }
  assert (bio ∉ st_queue st1) as Hnq.
  { destruct Hfl1 as (_ & _ & (_ & _ & _ & Hw) & Hb1 & _).
    intros Hin. apply Hw in Hin. lia. }
  assert (bio ∈ st_queue st1 ++ [bio]) as Hbin.
  { apply elem_of_app. right. by apply list_elem_of_singleton. }
  revert Hcore.
  destruct Hcases as [(Hr & ->)|[(Hr & _ & _ & ->)|[(Hr & ->)|(Hr & ->)]]];
    intros Hcore.
  - rewrite (dio_fail_eq _ _ Hfl1).
    set (sF := upd_bio bio (set_bi_status BLK_STS_IOERR) st1).
    destruct (end_io_frame bio sF) as (Hq & _).
    rewrite Hq.
    destruct Hfl1 as (_ & Hc1 & (Hdb & _) & _).
    rewrite Nat.add_1_r in Hc1.
    apply (life_end_io (st_queue st1 ++ [bio]) _ (length (st_queue st1)));
      try done.
    + intros x. unfold sF; simpl.
      rewrite elem_of_app, list_elem_of_singleton. naive_solver.
    + unfold sF; simpl. rewrite length_alter. lia.
    + eapply life_frame; [|exact HL1]. split_and!; try done.
      unfold counts, sF, upd_bio, upd_bios; cbn [st_bios].
      by rewrite map_alter_same.
  - destruct Hcore as (_ & Hlen & _).
    destruct (dio_nowait_abort_frame bio st1) as (Hla & _).
    assert (bio = 0%nat) as -> by lia.
    assert (0 < length (st_bios st1))%nat as Hlt1 by lia.
    destruct HL1 as (_ & Hf1 & r0 & c0 & H0 & H3).
    assert (frees 0 st1 = 0%nat) as HF0.
    { revert H3. destruct (decide (0%nat ∈ _)) as [_|?]; [|done].
      destruct (is_sync (st_dio st1)); [by intros (_ & ? & _)|].
      destruct (negb (multi_bio (st_dio st1))); [by intros (_ & _ & ?)|].
      intros (_ & -> & ->). done. }
    unfold dio_nowait_abort.
    set (sa := bio_release_pages 0 false st1).
    set (sb := bio_clear_flag_REFFED 0 sa).
    destruct (lookup_lt_is_Some_2 _ _ Hlt1) as [y Hy].
    destruct (counts_upd_bio 0 (set_bi_reffed false) sa y Hy)
      as (Hb0 & _ & Hbl).
    fold sb in Hb0, Hbl. simpl in Hb0.
    destruct (put_spec 0 sb _ _ Hb0) as (Hfr & _).
    cbn [negb orb andb] in Hfr.
    intros x. unfold blk_finish_plug.
    change (frees x (log EvFinishPlug ?s)) with (frees x s).
    rewrite Hfr. change (frees x sb) with (frees x st1).
    destruct (decide (x = 0%nat)) as [->|Hne].
    + rewrite bool_decide_eq_true_2 by done. by rewrite HF0.
    + rewrite bool_decide_eq_false_2 by done.
      destruct (Hf1 x ltac:(lia)) as [_ Hz]. rewrite Hz; [done|].
      rewrite counts_length. lia.
  - rewrite dio_submit_last_eq. cbn beta iota zeta. cbn [snd].
    pose proof (last_enqueue _ _ Hfl2) as Hdone.
    set (sP := if iocb_flag IOCB_HIPRI st2 then _ else st2) in *.
    assert (living 0 (enqueue bio sP)) as HP.
    { destruct Hdone as (Hi & Hw & _). split_and!; try done.
      assert (finalized (enqueue bio sP) = false) as ->.
      { destruct Hi as (_ & Hc). unfold enqueue in Hc at 1. simpl in Hc.
        rewrite length_app, Nat.add_0_r, Nat.add_1_r in Hc.
        by rewrite (finalized_count _ _ Hc). }
      apply life_enqueue. unfold sP.
      destruct (iocb_flag IOCB_HIPRI st2); [|done].
      destruct (bio_set_polled_frame bio st2)
        as (Hq & _ & _ & _ & Hd & Ht & _ & _ & Ho & _).
      rewrite Hq. eapply life_frame; [|exact HL2].
      split_and!; rewrite ?Hd; try done.
      - by rewrite !counts_owners, Ho.
      - intros x. unfold frees. by rewrite Ht. }
    apply (stable_yield _ _ (living_stable 0)) in HP.
    destruct HP as (_ & _ & HP).
    destruct (iocb_flag IOCB_HIPRI st2); [|done].
    eapply life_frame; [|exact HP]. split_and!; done.
  - destruct (continue_enqueue (is_sync (st_dio st)) _ _ Hfl2) as [Hi4 Hw4].
    { by rewrite Hq2, Hq1. }
    assert (is_sync (st_dio st) = is_sync (st_dio st2)) as Hys
      by (by rewrite Hd2, Hd1).
    rewrite Hys in *.
    destruct (dio_ref_up_spec (is_sync (st_dio st2)) bio st2)
      as (Hq3 & _).
    assert (bio ∈ st_queue st2 ++ [bio]) as Hbin2 by (by rewrite Hq2).
    pose proof (life_ref_up _ bio st2 Hfl2 Hbin2 HL2) as HL3.
    set (sR := dio_ref_up (is_sync (st_dio st2)) bio st2) in *.
    assert (living 1 (enqueue bio sR)) as HP.
    { split_and!; try done.
      assert (finalized (enqueue bio sR) = false) as ->.
      { destruct Hi4 as (_ & Hc). rewrite Nat.add_1_r in Hc.
        by rewrite (finalized_count _ _ Hc). }
      apply life_enqueue. by rewrite Hq3. }
    apply (stable_yield _ _ (living_stable 1)) in HP.
    pose proof (living_finalized _ HP) as Hnf.
    destruct HP as (_ & (_ & H1 & _) & HP). rewrite Hnf in HP.
    set (s4 := device_yield (enqueue bio sR)) in *.
    pose proof (life_alloc
                  (bio_iov_vecs_to_alloc (st_iter st2) BIO_MAX_VECS)
                  s4 H1 HP) as HA.
    cbn zeta in HA.
    destruct (bio_alloc _ s4) as [b5 s5] eqn:Ea. exact HA.
Qed.

Lemma dio_begin_life nr st :
  fresh st ->
  let st0 := (dio_begin nr st).2 in
  life (st_queue st0 ++ [(length (st_bios st0) - 1)%nat]) false st0.
Proof.
  intros (Hb & Hq & Ht) st0.
  assert (st_queue st0 = [] /\ length (st_bios st0) = 1%nat /\
          counts st0
          = [(is_sync_kiocb (st_iocb st),
              if is_sync_kiocb (st_iocb st) then 2 else 1)] /\
          (forall x, frees x st0 = 0%nat) /\
          is_sync (st_dio st0) = is_sync_kiocb (st_iocb st) /\
          multi_bio (st_dio st0) = false) as (Hq0 & Hl0 & Hc0 & Hf0 & Hy0 & Hm0).
  { unfold st0, dio_begin, bio_alloc_kiocb, bio_new, bio_get, blk_start_plug,
      counts, frees.
    cbn beta iota zeta.
    destruct (is_sync_kiocb (st_iocb st)); destruct (negb (iocb_flag _ _));
      cbn; rewrite ?Hb, ?Hq, ?Ht; cbn; done. }
  unfold life. rewrite Hq0, Hl0, Hc0, Hy0, Hm0. cbn [negb length app].
  split_and!.
  - intros [|x] r c Hx Hl; [lia|done].
  - intros x Hx. rewrite Hf0. split; [intros [? ?]; lia|done].
  - eexists _, _. split; [reflexivity|]. rewrite Hf0.
    destruct (decide (0%nat ∈ [(1 - 1)%nat])) as [_|Hn].
    + by destruct (is_sync_kiocb (st_iocb st)).
    + exfalso. apply Hn. by apply list_elem_of_singleton.
Qed.

(** No bio is freed twice, none while it is in flight, the first one, which
    holds the dio, not while any bio is in flight, and all of them once
    nothing is in flight. *)
Definition freed_once (st : state) : Prop :=
  (forall b, (frees b st <= 1)%nat) /\
  (forall b, b ∈ st_queue st -> frees b st = 0%nat) /\
  (st_queue st <> [] -> frees 0 st = 0%nat) /\
  (st_queue st = [] ->
   forall b, (b < length (st_bios st))%nat -> frees b st = 1%nat) /\
  (forall b, (length (st_bios st) <= b)%nat -> frees b st = 0%nat).

Lemma life_async_freed st :
  done_inv st -> is_sync (st_dio st) = false ->
  life (st_queue st) (finalized st) st -> freed_once st.
Proof.
  intros ((Hh & Hc) & (Hdb & H1 & Hnd & Hlt) & Hm) Hy
    (Hx & Hf & r0 & c0 & H0 & H3).
  rewrite Hy in H3. rewrite Nat.add_0_r in Hc.
  pose proof (finalized_count _ _ Hc) as Hfin.
  assert ((0%nat ∈ st_queue st \/ st_queue st <> [] -> frees 0 st = 0%nat) /\
          (st_queue st = [] -> frees 0 st = 1%nat) /\
          (frees 0 st <= 1)%nat) as (HB & HD & HA).
  { destruct (multi_bio (st_dio st)) eqn:Em; cbn [negb] in H3.
    - destruct H3 as (_ & Hc0 & HF). rewrite Hfin in Hc0.
      split_and!.
      + intros Hq. rewrite HF.
        assert (1 <= c0) as Hge.
        { rewrite Hc0. destruct Hq as [Hq|Hq].
          - rewrite (decide_True _ _ Hq). destruct (length _); lia.
          - destruct (st_queue st); [done|]. simpl.
            destruct (decide _); lia. }
        by rewrite (proj2 (Z.eqb_neq _ _)) by lia.
      + intros Hq. rewrite HF, Hc0, Hq.
        rewrite decide_False by apply not_elem_of_nil. done.
      + rewrite HF. destruct (c0 =? 0); lia.
    - destruct H3 as (_ & _ & HF).
      assert (length (st_bios st) = 1%nat) as Hl1.
      { destruct (decide (2 <= length (st_bios st))%nat) as [H2|H2]; [|lia].
        apply Hm in H2. congruence. }
      split_and!.
      + intros Hq. rewrite HF.
        assert (0%nat ∈ st_queue st) as Hin.
        { destruct Hq as [Hq|Hq]; [done|].
          destruct (st_queue st) as [|q0 q] eqn:Eq; [done|].
          assert (q0 ∈ q0 :: q) as Hq0 by apply list_elem_of_here.
          pose proof (Hlt q0 Hq0).
          assert (q0 = 0%nat) as -> by lia. done. }
        by rewrite (decide_True _ _ Hin).
      + intros Hq. rewrite HF, Hq.
        rewrite decide_False by apply not_elem_of_nil. done.
      + rewrite HF. destruct (decide _); lia. }
  unfold freed_once. split_and!.
  - intros [|b]; [done|].
    destruct (Hf (S b) ltac:(lia)) as [Ha Hz].
    destruct (decide ((S b < length (counts st))%nat /\ S b ∉ st_queue st))
      as [Hd|Hd]; [rewrite Ha by done|rewrite Hz by done]; lia.
  - intros [|b] Hin; [auto|].
    destruct (Hf (S b) ltac:(lia)) as [_ Hz]. apply Hz. naive_solver.
  - auto.
  - intros Hq [|b] Hb; [auto|].
    destruct (Hf (S b) ltac:(lia)) as [Ha _]. apply Ha.
    rewrite counts_length, Hq. split; [done|]. apply not_elem_of_nil.
  - intros b Hb. destruct b as [|b]; [lia|].
    destruct (Hf (S b) ltac:(lia)) as [_ Hz]. apply Hz.
    rewrite counts_length. lia.
Qed.

(** The submitter of a synchronous request drops the last reference. *)
Lemma life_sync_freed st :
  done_inv st -> st_queue st = [] -> is_sync (st_dio st) = true ->
  life (st_queue st) (finalized st) st ->
  freed_once (bio_put (dio_bio (st_dio st)) st).
Proof.
  intros (_ & (Hdb & H1 & _) & _) Hq Hy (Hx & Hf & r0 & c0 & H0 & H3).
  rewrite Hy, Hq in H3. rewrite Hq in Hf.
  rewrite decide_False in H3 by apply not_elem_of_nil.
  destruct H3 as (-> & HF & ->).
  rewrite Hdb.
  destruct (put_spec 0 st _ _ H0) as (Hfr & _ & _ & Hlen).
  cbn [negb orb] in Hfr.
  rewrite wrap_s_small in Hfr by lia. simpl in Hfr.
  destruct (bio_put_frame 0 st) as (Hq' & _).
  assert (forall b, frees b (bio_put 0 st)
                    = if decide (b < length (st_bios st))%nat
                      then 1%nat else 0%nat) as Hall.
  { intros [|b]; rewrite Hfr.
    - rewrite bool_decide_eq_true_2, HF by done.
      by rewrite decide_True by lia.
    - rewrite bool_decide_eq_false_2 by done.
      destruct (Hf (S b) ltac:(lia)) as [Ha Hz].
      rewrite counts_length in Ha, Hz.
      destruct (decide (S b < length (st_bios st))%nat).
      + rewrite Ha; [done|]. split; [done|]. apply not_elem_of_nil.
      + rewrite Hz; [done|]. naive_solver. }
  assert (length (st_bios (bio_put 0 st)) = length (st_bios st)) as Hl
    by (by rewrite <- !counts_length).
  unfold freed_once. rewrite Hq', Hq, Hl. split_and!.
  - intros b. rewrite Hall. destruct (decide _); lia.
  - intros b Hin. by apply elem_of_nil in Hin.
  - done.
  - intros _ b Hb. rewrite Hall. by rewrite decide_True.
  - intros b Hb. rewrite Hall. by rewrite decide_False by lia.
Qed.

Lemma general_path_freed nr_pages st :
  fresh st -> iov_iter_count (st_iter st) <= MAX_RW_COUNT ->
  dio_misaligned (ki_pos (st_iocb st)) (st_iter st)
    (I_BDEV (bdev_file_inode (ki_filp (st_iocb st)))) = false ->
  exists r st',
    __blkdev_direct_IO nr_pages st = Some (r, st') /\
    forall cs, freed_once (device_run cs st').
Proof.
  intros Hfr Hc Hal.
  destruct (direct_IO_run nr_pages st Hfr Hc Hal)
    as (Hinv0 & Hb0 & r1 & st1 & Hloop & Hpost & Hst & Hsync & Hrun).
  set (sync := is_sync_kiocb (st_iocb st)) in *.
  set (rd := match iov_iter_rw (st_iter st) with
             | READ => true | WRITE => false end) in *.
  assert (match r1 with
          | loop_break _ _ => life (st_queue st1) (finalized st1) st1
          | loop_return _ =>
              forall x, frees x st1
                        = if decide (x = 0%nat) then 1%nat else 0%nat
          end) as HL1.
  { eapply (dio_submit_loop_ind
              (fun s => is_sync (st_dio s) = sync /\
                 life (st_queue s ++ [(length (st_bios s) - 1)%nat]) false s)
              (fun r s =>
                 match r with
                 | loop_break _ _ => life (st_queue s) (finalized s) s
                 | loop_return _ =>
                     forall x, frees x s
                               = if decide (x = 0%nat) then 1%nat else 0%nat
                 end) rd sync);
      [| exact Hinv0 | exact Hb0 | | exact Hloop].
    - intros bio pos s Hi Hb [Hy Hs]. subst bio.
      pose proof (dio_iterate_life rd _ pos s Hi eq_refl Hs) as H.
      assert (length (st_bios s) - 1 < length (st_bios s))%nat as Hlt.
      { destruct Hi as (_ & (_ & ? & _) & _). lia. }
      pose proof (dio_iterate_static rd sync _ pos s Hlt) as H'.
      rewrite Hy in H. revert H H'.
      destruct (dio_iterate _ _ _ _ _) as [[[? ?] ?]|[[? ?|?] ?]]; try done.
      intros H (Hy' & _). split; [congruence|done].
    - split; [|by apply dio_begin_life].
      destruct Hst as (Hy & _). congruence. }
  destruct r1 as [ret qc|v].
  - destruct Hpost as [Hdone Hret].
    set (s1' := if negb (iocb_flag IOCB_HIPRI st)
                then blk_finish_plug st1 else st1).
    assert (living 0 s1' /\ done_inv s1' /\
            is_sync (st_dio s1') = is_sync (st_dio st1))
      as (HS1 & Hdone1 & Hy1).
    { unfold s1'. destruct (negb _).
      - pose proof (done_inv_log EvFinishPlug st1 eq_refl Hdone) as Hd.
        pose proof Hd as (? & ? & _).
        split_and!; done.
      - destruct Hdone as (? & ? & ?). split_and!; done. }
    destruct (dio_end_run (iocb_flag IOCB_HIPRI st) ret qc st1 Hdone)
      as [(Hy & He)|(Hy & st2 & Hw & Hq & Hdone2 & He)];
      rewrite He in Hrun.
    + eexists _, _. split; [exact Hrun|]. intros cs.
      assert (living 0 (device_run cs s1') /\
              done_inv (device_run cs s1') /\
              is_sync (st_dio (device_run cs s1')) = false)
        as ((_ & _ & HL) & Hd & Hy').
      { apply (stable_run
                 (fun s => living 0 s /\ done_inv s /\
                           is_sync (st_dio s) = false) cs s1').
        - apply stable_and; [apply living_stable|].
          apply stable_and; [apply done_inv_stable|apply sync_stable].
        - split_and!; [done|done|]. etrans; [exact Hy1|exact Hy]. }
      by apply life_async_freed.
    + eexists _, _. split; [exact Hrun|]. intros cs.
      assert (living 0 st2 /\ is_sync (st_dio st2) = true)
        as ((_ & _ & HL2) & Hy2).
      { apply (stable_wait
                 (fun s => living 0 s /\ is_sync (st_dio s) = true)
                 _ _ _ _
                 (stable_and _ _ (living_stable 0) (sync_stable true)) Hw).
        split; [exact HS1|]. etrans; [exact Hy1|exact Hy]. }
      destruct (bio_put_frame (dio_bio (st_dio st2)) st2) as (Hq3 & _).
      rewrite (device_run_idle cs); [|by rewrite Hq3].
      by apply life_sync_freed.
  - destruct Hpost as (-> & Hlen & Hq & _).
    eexists _, _. split; [exact Hrun|]. intros cs.
    rewrite (device_run_idle cs st1 Hq).
    unfold freed_once. rewrite Hq, Hlen. split_and!.
    + intros b. rewrite HL1. destruct (decide _); lia.
    + intros b Hin. by apply elem_of_nil in Hin.
    + done.
    + intros _ b Hb. rewrite HL1. rewrite decide_True by lia. done.
    + intros b Hb. rewrite HL1. rewrite decide_False by lia. done.
Qed.

End lifetime.

(** X17. No bio is freed twice, freed while it is in flight, or leaked.  For a
    fresh aligned request [__blkdev_direct_IO] returns, and then and after
    any further completions: every bio was freed at most once; a bio in
    flight was not freed; the first bio, in which the dio lives that every
    completion reads, was not freed while any bio is in flight; once
    nothing is in flight every bio of the request was freed exactly once;
    and nothing else was freed. *)
Theorem bios_freed_once `{KH : KernelHeaders} `{IT : IovIter}
    {ITL : IovIterLaws} (nr_pages : Z) (st : state) :
  fresh st -> iov_iter_count (st_iter st) <= MAX_RW_COUNT ->
  dio_misaligned (ki_pos (st_iocb st)) (st_iter st)
    (I_BDEV (bdev_file_inode (ki_filp (st_iocb st)))) = false ->
  exists r st',
    __blkdev_direct_IO nr_pages st = Some (r, st') /\
    forall cs,
      let s := device_run cs st' in
      (forall b, (free_count b (st_trace s) <= 1)%nat) /\
      (forall b, b ∈ st_queue s -> free_count b (st_trace s) = 0%nat) /\
      (st_queue s <> [] -> free_count 0 (st_trace s) = 0%nat) /\
      (st_queue s = [] ->
       forall b, (b < length (st_bios s))%nat ->
         free_count b (st_trace s) = 1%nat) /\
      (forall b, (length (st_bios s) <= b)%nat ->
         free_count b (st_trace s) = 0%nat).
Proof.
  intros Hfr Hc Hal.
  destruct (general_path_freed nr_pages st Hfr Hc Hal)
    as (r & st' & Hrun & H).
  exists r, st'. split; [exact Hrun|]. intros cs. exact (H cs).
Qed.

(** ** The first bio and the dio in it *)

Section aggregate.
Context `{KH : KernelHeaders} `{IT : IovIter} {ITL : IovIterLaws}.







End aggregate.


(** ** The flags of the bios *)

(** The operation and flags of every bio. *)
Definition opfs `{IovIter} (st : state) : list Z :=
  map bi_opf (st_bios st).

(** The bios that were handed to the device, newest first. *)
Fixpoint submitted (tr : list event) : list nat :=
  match tr with
  | [] => []
  | EvSubmit b _ :: tr => b :: submitted tr
  | _ :: tr => submitted tr
  end.

Lemma submitted_elem b n tr : EvSubmit b n ∈ tr -> b ∈ submitted tr.
Proof.
  induction tr as [|e tr IH]; [by intros ?%elem_of_nil|].
  rewrite elem_of_cons. intros [<-|Hin].
  - apply list_elem_of_here.
  - destruct e; simpl; auto. apply list_elem_of_further. auto.
Qed.

Section flags.
Context `{KH : KernelHeaders} `{IT : IovIter} {ITL : IovIterLaws}.

(** What lines 264-270 store in [bi_opf]. *)
Definition dio_opf (rd : bool) (iocb : kiocb) : Z :=
  if rd then REQ_OP_READ else dio_bio_write_op iocb.

(** What [bio_set_polled] makes of it. *)
Definition polled_opf (iocb : kiocb) (opf : Z) : Z :=
  if is_sync_kiocb iocb then Z.lor opf REQ_HIPRI
  else Z.lor (Z.lor opf REQ_HIPRI) REQ_NOWAIT.

(** Every bio that was submitted carries [base], the last bio of the store
    [last] instead. *)
Definition flags_done (base last : Z) (st : state) : Prop :=
  forall b, b ∈ submitted (st_trace st) ->
    opfs st !! b
    = Some (if bool_decide (b = (length (st_bios st) - 1)%nat)
            then last else base).

Lemma opfs_length st : length (opfs st) = length (st_bios st).
Proof. unfold opfs. apply length_map. Qed.

Lemma opf_of_bio_at b st :
  bi_opf (bio_at b st) = default 0 (opfs st !! b).
Proof.
  unfold bio_at, opfs. rewrite list_lookup_fmap.
  by destruct (st_bios st !! b).
Qed.

Lemma flags_end_io b st :
  opfs (blkdev_bio_end_io b st) = opfs st /\
  submitted (st_trace (blkdev_bio_end_io b st)) = submitted (st_trace st).
Proof.
  unfold opfs. unfold_ops.
  repeat case_match; simplify_eq; simpl;
    rewrite ?map_alter_same by done; done.
Qed.

Lemma flags_bio_put b st :
  opfs (bio_put b st) = opfs st /\
  submitted (st_trace (bio_put b st)) = submitted (st_trace st).
Proof.
  unfold opfs. unfold_ops.
  repeat case_match; simplify_eq; simpl;
    rewrite ?map_alter_same by done; done.
Qed.

Lemma flags_frame base last st st' :
  opfs st' = opfs st ->
  submitted (st_trace st') = submitted (st_trace st) ->
  flags_done base last st -> flags_done base last st'.
Proof.
  intros Ho Hs H b. rewrite Hs, Ho, <- (opfs_length st'), Ho, opfs_length.
  apply H.
Qed.

(** Completions change neither the flags nor what was submitted. *)
Definition flags_fixed (L : list Z) (S : list nat) (st : state) : Prop :=
  opfs st = L /\ submitted (st_trace st) = S.

Lemma flags_callback c st :
  opfs (bio_endio c.1 (device_pick st c)) = opfs st /\
  submitted (st_trace (bio_endio c.1 (device_pick st c)))
  = submitted (st_trace st).
Proof.
  destruct (device_pick_frame st c) as (_ & _ & Ht & _).
  assert (opfs (device_pick st c) = opfs st) as Hp.
  { unfold opfs, device_pick, upd_bio, upd_bios.
    case_match; cbn [st_bios set_queue]; [done|]. by rewrite map_alter_same. }
  unfold bio_endio. destruct (bi_end_io (bio_at c.1 (device_pick st c))).
  - split; [done|by rewrite Ht].
  - split; [|by rewrite <- Ht].
    rewrite <- Hp. unfold opfs. unfold_ops. simpl.
    by rewrite map_alter_same.
  - destruct (flags_end_io c.1 (device_pick st c)) as [Ho Hs].
    split; [by rewrite Ho|by rewrite Hs, Ht].
Qed.

Lemma fixed_stable L S : stable (flags_fixed L S).
Proof.
  split; [|done].
  intros st c _ [<- <-]. apply flags_callback.
Qed.

Lemma flags_stable base last : stable (flags_done base last).
Proof.
  split; [|done].
  intros st c _ H. destruct (flags_callback c st) as [Ho Hs].
  by eapply flags_frame.
Qed.

(** At the head of a turn of the loop: the bios before the one being built
    carry [base] and were submitted, the one being built was not. *)
Definition flags_inv (base : Z) (st : state) : Prop :=
  (exists x,
     opfs st = replicate (length (st_bios st) - 1) base ++ [x]) /\
  forall b, b ∈ submitted (st_trace st) ->
    (b < length (st_bios st) - 1)%nat.

Lemma opfs_last E x (f : bio -> bio) st :
  opfs st = E ++ [x] ->
  opfs (upd_bio (length E) f st)
  = E ++ [bi_opf (f (bio_at (length E) st))].
Proof.
  intros HE. unfold opfs in HE.
  apply fmap_app_inv in HE as (B & Y & -> & HY & HB).
  destruct Y as [|y [|? ?]]; simplify_eq.
  rewrite length_fmap.
  unfold opfs, bio_at, upd_bio, upd_bios. cbn [st_bios].
  rewrite HB, alter_last, lookup_app_r, Nat.sub_diag by done.
  by rewrite map_app.
Qed.

Lemma opfs_last_at E x st b :
  opfs st = E ++ [x] -> b = length E -> bi_opf (bio_at b st) = x.
Proof.
  intros HE ->. rewrite opf_of_bio_at, HE, lookup_app_r by done.
  by rewrite Nat.sub_diag.
Qed.

Lemma opfs_set_last E x b v st :
  opfs st = E ++ [x] -> b = length E ->
  opfs (upd_bio b (fun y => set_bi_opf (v (bi_opf y)) y) st) = E ++ [v x].
Proof.
  intros HE ->. rewrite (opfs_last E x _ st HE). simpl.
  by rewrite (opfs_last_at E x st _ HE eq_refl).
Qed.

Lemma opfs_account rd bio st E x :
  opfs st = E ++ [x] -> bio = length E ->
  opfs (dio_account rd bio st) = E ++ [dio_opf rd (st_iocb st)] /\
  submitted (st_trace (dio_account rd bio st)) = submitted (st_trace st).
Proof.
  intros HE ->. unfold dio_account.
  set (s1 := if iocb_flag IOCB_NOWAIT st then _ else st).
  assert (exists x1, opfs s1 = E ++ [x1] /\ st_trace s1 = st_trace st /\
                     st_iocb s1 = st_iocb st /\ st_dio s1 = st_dio st)
    as (x1 & H1 & Ht1 & Hk1 & Hd1).
  { unfold s1. destruct (iocb_flag IOCB_NOWAIT st); [|by eexists].
    eexists. split; [exact (opfs_last E x _ st HE)|done]. }
  clearbody s1.
  destruct rd; cbn [dio_opf]; cbn beta iota zeta.
  - pose proof (opfs_last E x1 (set_bi_opf REQ_OP_READ) s1 H1) as H2.
    simpl in H2.
    change (should_dirty (st_dio (upd_bio ?b ?f ?s)))
      with (should_dirty (st_dio s)).
    destruct (should_dirty (st_dio s1)); unfold bio_set_pages_dirty;
      simpl; by rewrite ?Ht1.
  - pose proof (opfs_last E x1 (set_bi_opf (dio_bio_write_op (st_iocb st)))
                  s1 H1) as H2.
    simpl in H2. unfold task_io_account_write. simpl. by rewrite Ht1.
Qed.

Lemma opfs_fill bio pos st :
  opfs (dio_fill bio pos st).2 = opfs st /\
  submitted (st_trace (dio_fill bio pos st).2) = submitted (st_trace st).
Proof.
  unfold dio_fill, bio_iov_iter_get_pages, opfs.
  case_match; simpl; rewrite ?map_alter_same by done; done.
Qed.

Lemma replicate_snoc {A} (n : nat) (x : A) :
  replicate n x ++ [x] = replicate (S n) x.
Proof. induction n as [|n IH]; simpl; [done|]. by rewrite IH. Qed.

Lemma dio_iterate_flags rd sy bio pos st :
  loop_inv st -> bio = (length (st_bios st) - 1)%nat ->
  flags_inv (dio_opf rd (st_iocb st)) st ->
  match dio_iterate rd sy bio pos st with
  | inl (_, _, st') => flags_inv (dio_opf rd (st_iocb st)) st'
  | inr (_, st') =>
      flags_done (dio_opf rd (st_iocb st))
        (if iocb_flag IOCB_HIPRI st
         then polled_opf (st_iocb st) (dio_opf rd (st_iocb st))
         else dio_opf rd (st_iocb st)) st'
  end.
Proof.
  intros Hinv Hb ([x Ho] & Hsub).
  set (base := dio_opf rd (st_iocb st)) in *.
  assert (bio < length (st_bios st))%nat as Hlt.
  { destruct Hinv as (_ & (_ & ? & _) & _). lia. }
  assert (bio = length (replicate (length (st_bios st) - 1) base)) as HbE
    by (by rewrite length_replicate).
  pose proof (dio_iterate_cases rd sy bio pos st) as Hcases.
  destruct (opfs_fill bio pos st) as [Ho1 Hs1].
  destruct (dio_fill bio pos st) as [ret st1] eqn:Ef.
  cbn [fst snd] in Hcases, Ho1, Hs1.
  pose proof (filled_after_fill _ _ _ _ _ Hinv Hb Ef) as Hfl1.
  pose proof (filled_after_account rd _ _ Hfl1) as Hfl2.
  destruct (dio_fill_spec _ _ _ _ _ Ef Hlt)
    as (_ & _ & _ & Hk1 & _ & _ & _ & _ & Hl1 & _ & _).
  rewrite <- Ho1 in Ho.
  destruct (opfs_account rd bio st1 _ x Ho HbE) as [Ho2 Hs2].
  rewrite Hk1 in Ho2. fold base in Ho2.
  destruct (dio_account_spec rd bio st1)
    as (_ & _ & _ & Hk2 & _ & _ & _ & _ & Hl2 & _).
  set (st2 := dio_account rd bio st1) in *.
  assert (forall s last,
            opfs s = replicate (length (st_bios st) - 1) base ++ [last] ->
            submitted (st_trace s) = submitted (st_trace st) ->
            forall last', flags_done base last' s) as Hquiet.
  { intros s last Hos Hss last' b Hin. rewrite Hss in Hin.
    pose proof (Hsub b Hin) as Hblt.
    assert (length (st_bios s) = length (st_bios st)) as Hls.
    { rewrite <- (opfs_length s), Hos, length_app, length_replicate.
      simpl. lia. }
    rewrite Hls, bool_decide_eq_false_2 by lia.
    rewrite Hos, lookup_app_l by (rewrite length_replicate; lia).
    by apply lookup_replicate_2. }
  assert (forall s last,
            opfs s = replicate (length (st_bios st) - 1) base ++ [last] ->
            submitted (st_trace s) = bio :: submitted (st_trace st) ->
            flags_done base last s) as Hsent.
  { intros s last Hos Hss b Hin. rewrite Hss in Hin.
    assert (length (st_bios s) = length (st_bios st)) as Hls.
    { rewrite <- (opfs_length s), Hos, length_app, length_replicate.
      simpl. lia. }
    rewrite Hls.
    apply elem_of_cons in Hin as [->|Hin].
    - rewrite bool_decide_eq_true_2 by lia.
      rewrite Hos, lookup_app_r by (rewrite length_replicate; lia).
      rewrite length_replicate, Hb, Nat.sub_diag. done.
    - pose proof (Hsub b Hin) as Hblt.
      rewrite bool_decide_eq_false_2 by lia.
      rewrite Hos, lookup_app_l by (rewrite length_replicate; lia).
      by apply lookup_replicate_2. }
  destruct Hcases as [(Hr & ->)|[(Hr & _ & _ & ->)|[(Hr & ->)|(Hr & ->)]]].
  - rewrite (dio_fail_eq _ _ Hfl1).
    set (sF := upd_bio bio (set_bi_status BLK_STS_IOERR) st1).
    destruct (flags_end_io bio sF) as [HoF HsF].
    apply (Hquiet _ x).
    + rewrite HoF, <- Ho. unfold opfs, sF, upd_bio, upd_bios; cbn [st_bios].
      by rewrite map_alter_same.
    + rewrite HsF. unfold sF; simpl. by rewrite Hs1.
  - apply (Hquiet _ x).
    + rewrite <- Ho. unfold opfs, dio_nowait_abort. unfold_ops.
      repeat case_match; simpl; rewrite ?map_alter_same by done; done.
    + rewrite <- Hs1. unfold dio_nowait_abort. unfold_ops.
      repeat case_match; simpl; done.
  - rewrite dio_submit_last_eq. cbn beta iota zeta. cbn [snd].
    assert (iocb_flag IOCB_HIPRI st2 = iocb_flag IOCB_HIPRI st) as Hhp
      by (unfold iocb_flag; by rewrite Hk2, Hk1).
    rewrite Hhp.
    set (sP := if iocb_flag IOCB_HIPRI st then bio_set_polled bio st2
               else st2).
    set (last := if iocb_flag IOCB_HIPRI st
                 then polled_opf (st_iocb st) base else base).
    assert (opfs sP = replicate (length (st_bios st) - 1) base ++ [last] /\
            st_trace sP = st_trace st2) as [HoP HtP].
    { unfold sP, last. destruct (iocb_flag IOCB_HIPRI st); [|done].
      unfold bio_set_polled, polled_opf.
      change (st_iocb (upd_bio ?b ?f ?s)) with (st_iocb s).
      rewrite Hk2, Hk1.
      pose proof (opfs_set_last _ base bio (fun o => Z.lor o REQ_HIPRI)
                    st2 Ho2 HbE) as H3.
      destruct (is_sync_kiocb (st_iocb st)); cbn [negb]; [done|].
      pose proof (opfs_set_last _ _ bio (fun o => Z.lor o REQ_NOWAIT)
                    _ H3 HbE) as H4.
      done. }
    assert (flags_done base last (enqueue bio sP)) as HP.
    { apply Hsent; [done|]. unfold enqueue; simpl.
      by rewrite HtP, Hs2, Hs1. }
    apply (stable_yield _ _ (flags_stable base last)) in HP.
    destruct (iocb_flag IOCB_HIPRI st); [|done].
    eapply flags_frame; [| |exact HP]; done.
  - set (sR := dio_ref_up sy bio st2).
    assert (opfs sR = opfs st2 /\ st_trace sR = st_trace st2) as [HoR HtR].
    { unfold sR, dio_ref_up, opfs, bio_get.
      repeat case_match; simpl; rewrite ?map_alter_same by done; done. }
    assert (flags_fixed (replicate (length (st_bios st) - 1) base ++ [base])
              (bio :: submitted (st_trace st)) (enqueue bio sR)) as HP.
    { split; [by rewrite <- Ho2|]. unfold enqueue; simpl.
      by rewrite HtR, Hs2, Hs1. }
    apply (stable_yield _ _ (fixed_stable _ _)) in HP.
    set (s4 := device_yield (enqueue bio sR)) in *.
    destruct HP as [Ho4 Hs4].
    assert (length (st_bios s4) = length (st_bios st)) as Hl4.
    { rewrite <- opfs_length, Ho4, length_app, length_replicate. simpl. lia. }
    destruct (bio_alloc _ s4) as [b5 s5] eqn:Ea.
    assert (s5 = (bio_alloc (bio_iov_vecs_to_alloc (st_iter st2) BIO_MAX_VECS)
                    s4).2) as -> by (by rewrite Ea).
    unfold bio_alloc, bio_new. cbn [snd].
    split.
    + exists 0. unfold opfs; simpl. rewrite map_app, length_app. simpl.
      fold (opfs s4). rewrite Ho4, Hl4, Nat.add_sub, replicate_snoc.
      do 2 f_equal. lia.
    + intros b. simpl. rewrite Hs4, length_app, Hl4. simpl.
      rewrite elem_of_cons. intros [->|Hin]; [lia|].
      specialize (Hsub b Hin). lia.
Qed.

Lemma flags_static rd k k' :
  iocb_static k k' ->
  dio_opf rd k' = dio_opf rd k /\
  (forall o, polled_opf k' o = polled_opf k o).
Proof.
  intros (_ & Hf & _ & _ & Hc).
  unfold dio_opf, polled_opf, dio_bio_write_op, is_sync_kiocb.
  by rewrite Hf, Hc.
Qed.

Lemma general_path_flags_run nr_pages st :
  fresh st -> iov_iter_count (st_iter st) <= MAX_RW_COUNT ->
  dio_misaligned (ki_pos (st_iocb st)) (st_iter st)
    (I_BDEV (bdev_file_inode (ki_filp (st_iocb st)))) = false ->
  let base :=
    dio_opf match iov_iter_rw (st_iter st) with
            | READ => true | WRITE => false end (st_iocb st) in
  exists r st',
    __blkdev_direct_IO nr_pages st = Some (r, st') /\
    forall cs,
      flags_done base
        (if iocb_flag IOCB_HIPRI st then polled_opf (st_iocb st) base
         else base) (device_run cs st').
Proof.
  intros Hfr Hc Hal base.
  destruct (direct_IO_run nr_pages st Hfr Hc Hal)
    as (Hinv0 & Hb0 & r1 & st1 & Hloop & Hpost & _ & _ & Hrun).
  set (rd := match iov_iter_rw (st_iter st) with
             | READ => true | WRITE => false end) in *.
  set (last := if iocb_flag IOCB_HIPRI st then polled_opf (st_iocb st) base
               else base).
  assert (st_iocb (dio_begin nr_pages st).2 = st_iocb st /\
          opfs (dio_begin nr_pages st).2 = [0] /\
          st_bios (dio_begin nr_pages st).2 <> [] /\
          length (st_bios (dio_begin nr_pages st).2) = 1%nat /\
          submitted (st_trace (dio_begin nr_pages st).2) = [])
    as (Hk0 & Ho0 & _ & Hl0 & Hs0).
  { destruct Hfr as (Hb & _ & Ht).
    unfold dio_begin, bio_alloc_kiocb, bio_new, bio_get, blk_start_plug,
      opfs.
    cbn beta iota zeta.
    destruct (is_sync_kiocb (st_iocb st)); destruct (negb (iocb_flag _ _));
      cbn; rewrite ?Hb, ?Ht; cbn; done. }
  assert (flags_done base last st1) as HF1.
  { eapply (dio_submit_loop_ind
              (fun s => iocb_static (st_iocb st) (st_iocb s) /\
                        flags_inv base s)
              (fun _ s => flags_done base last s) rd
              (is_sync_kiocb (st_iocb st)));
      [| exact Hinv0 | exact Hb0 | | exact Hloop].
    - intros bio pos s Hi Hb [Hk Hs].
      destruct (flags_static rd _ _ Hk) as [Hbase Hpol].
      assert (iocb_flag IOCB_HIPRI s = iocb_flag IOCB_HIPRI st) as Hhp.
      { destruct Hk as (_ & Hf & _). unfold iocb_flag. by rewrite Hf. }
      fold base in Hbase.
      pose proof (dio_iterate_flags rd (is_sync_kiocb (st_iocb st))
                    bio pos s Hi Hb) as H.
      rewrite Hbase, Hhp, Hpol in H. specialize (H Hs).
      assert (bio < length (st_bios s))%nat as Hlt.
      { destruct Hi as (_ & (_ & ? & _) & _). lia. }
      pose proof (dio_iterate_static rd (is_sync_kiocb (st_iocb st))
                    bio pos s Hlt) as H'.
      revert H H'.
      destruct (dio_iterate _ _ _ _ _) as [[[? ?] ?]|[? ?]]; [|done].
      intros H (_ & _ & _ & Hk'). split; [|done].
      unfold iocb_static in *. intuition congruence.
    - split; [rewrite Hk0; by unfold iocb_static|].
      split.
      + exists 0. by rewrite Ho0, Hl0.
      + intros b. rewrite Hs0. by intros ?%elem_of_nil. }
  assert (flags_done base last
            (if negb (iocb_flag IOCB_HIPRI st)
             then blk_finish_plug st1 else st1)) as HF1'.
  { destruct (negb _); [|done]. by eapply flags_frame; [| |exact HF1]. }
  destruct r1 as [ret qc|v].
  - destruct Hpost as [Hdone Hret].
    destruct (dio_end_run (iocb_flag IOCB_HIPRI st) ret qc st1 Hdone)
      as [(_ & He)|(_ & st2 & Hw & Hq & Hdone2 & He)];
      rewrite He in Hrun.
    + eexists _, _. split; [exact Hrun|]. intros cs.
      by apply (stable_run _ cs _ (flags_stable base last)).
    + eexists _, _. split; [exact Hrun|]. intros cs.
      apply (stable_run _ cs _ (flags_stable base last)).
      destruct (flags_bio_put (dio_bio (st_dio st2)) st2) as [Ho Hs].
      eapply flags_frame; [exact Ho|exact Hs|].
      by apply (stable_wait _ _ _ _ _ (flags_stable base last) Hw).
  - eexists _, _. split; [exact Hrun|]. intros cs.
    by apply (stable_run _ cs _ (flags_stable base last)).
Qed.

End flags.

(** X18. The flags of the bios of the general path.  For a fresh aligned
    request [__blkdev_direct_IO] returns, and then and after any further
    completions, every bio that was submitted carries [REQ_OP_READ] for a
    read and [dio_bio_write_op] of the kiocb for a write, and nothing else,
    whether the kiocb has [IOCB_NOWAIT] or not: the [REQ_NOWAIT] of line
    261 is overwritten by the assignments of lines 265 and 269.  Only the
    last bio of a request with [IOCB_HIPRI] carries more, what
    [bio_set_polled] adds. *)
Theorem general_path_flags `{KH : KernelHeaders} `{IT : IovIter}
    {ITL : IovIterLaws} (nr_pages : Z) (st : state) :
  fresh st -> iov_iter_count (st_iter st) <= MAX_RW_COUNT ->
  dio_misaligned (ki_pos (st_iocb st)) (st_iter st)
    (I_BDEV (bdev_file_inode (ki_filp (st_iocb st)))) = false ->
  let base :=
    match iov_iter_rw (st_iter st) with
    | READ => REQ_OP_READ
    | WRITE => dio_bio_write_op (st_iocb st)
    end in
  exists r st',
    __blkdev_direct_IO nr_pages st = Some (r, st') /\
    forall cs,
      let s := device_run cs st' in
      forall b n, EvSubmit b n ∈ st_trace s ->
        bi_opf (bio_at b s)
        = if iocb_flag IOCB_HIPRI st
             && bool_decide (b = (length (st_bios s) - 1)%nat)
          then if is_sync_kiocb (st_iocb st)
               then Z.lor base REQ_HIPRI
               else Z.lor (Z.lor base REQ_HIPRI) REQ_NOWAIT
          else base.
Proof.
  intros Hfr Hc Hal base.
  destruct (general_path_flags_run nr_pages st Hfr Hc Hal)
    as (r & st' & Hrun & H).
  exists r, st'. split; [exact Hrun|]. intros cs s b n Hin.
  apply submitted_elem in Hin. specialize (H cs b Hin). fold s in H.
  rewrite opf_of_bio_at, H. simpl.
  assert (dio_opf match iov_iter_rw (st_iter st) with
                  | READ => true | WRITE => false end (st_iocb st) = base)
    as -> by (unfold base, dio_opf; by destruct (iov_iter_rw _)).
  unfold polled_opf.
  destruct (iocb_flag IOCB_HIPRI st); simpl; [done|].
  by destruct (bool_decide _).
Qed.

(** * The direct I/O engine on a concrete request *)

Section linux_engine.
#[local] Existing Instance linux_headers.
#[local] Existing Instance page_iov_iter.
#[local] Existing Instance page_iov_iter_laws.
#[local] Existing Instance linux_headers_laws.

Lemma simple_path_outcome_witness :
  let st := request 0 0 false (buffer 8192 WRITE) [[(0%nat, 0)]] in
  let heap := negb (2 <=? DIO_INLINE_BIO_VECS) in
  let b := length (st_bios st) in
  let got := iter_get_pages 2 (st_iter st) in
  let alloc := if heap then [EvKmalloc 2] else [] in
  let free := if heap then [EvKfree] else [] in
  exists r st',
    __blkdev_direct_IO_simple 2 st = Some (r, st') /\
    st_queue st' = [] /\
    if heap && negb (st_kmalloc_ok st) then r = - ENOMEM /\ st' = st
    else if negb (got.1.1 =? 0) then
      r = got.1.1 /\
      st_trace st' = free ++ [EvGetPages b got.1.1] ++ alloc ++ st_trace st
    else
      let n := got.1.2 in
      let dirty :=
        match iov_iter_rw got.2 with
        | READ => iter_is_iovec got.2 | WRITE => false end in
      let account :=
        match iov_iter_rw got.2 with
        | READ => [] | WRITE => [EvAccountWrite n] end in
      st_trace st' =
        free ++ [EvReleasePages b dirty; EvWake; EvSubmit b n] ++ account
        ++ [EvGetPages b 0] ++ alloc ++ st_trace st /\
      r = if bi_status (bio_at b st') =? 0 then n
          else blk_status_to_errno (bi_status (bio_at b st')).
Proof.
  apply (simple_path_outcome 2
           (request 0 0 false (buffer 8192 WRITE) [[(0%nat, 0)]]));
    reflexivity.
Defined.

Lemma blkdev_direct_IO_returns_witness :
  let st := request 0 0 true (buffer (3 * 256 * 4096) READ) [[]; []; []] in
  exists r st',
    blkdev_direct_IO st = Some (r, st') /\
    r <= iov_iter_count (st_iter st) /\
    (is_sync_kiocb (st_iocb st) = true -> st_queue st' = []) /\
    (is_sync_kiocb (st_iocb st) = false ->
     r = - EIOCBQUEUED \/
     st_queue st' = [] /\ finals (st_trace st') = [] /\
     (r = 0 \/ r = - EINVAL \/ r = - EAGAIN)).
Proof.
  apply blkdev_direct_IO_returns.
  - repeat split.
  - vm_compute. discriminate.
  - reflexivity.
  - reflexivity.
Defined.

Lemma direct_IO_plugging_witness :
  let st :=
    request 0 (Z.lor IOCB_HIPRI IOCB_NOWAIT) true
      (buffer (3 * 256 * 4096) READ) [] in
  iocb_flag IOCB_HIPRI st = true /\
  exists st',
    __blkdev_direct_IO 256 st = Some (- EAGAIN, st') /\
    forall cs, plugs (st_trace (device_run cs st')) = [EvFinishPlug].
Proof.
  intros st. split; [reflexivity|].
  destruct (direct_IO_plugging 256 st) as (r & st' & Hr & Hg & Hp).
  - repeat split.
  - vm_compute. discriminate.
  - reflexivity.
  - exists st'. split.
    + rewrite Hr. f_equal. f_equal. apply Hg. reflexivity.
    + exact Hp.
Defined.

Lemma pages_released_once_witness :
  let st := request 0 0 true (buffer (3 * 256 * 4096) READ) [[]; []; []] in
  exists r st',
    __blkdev_direct_IO 256 st = Some (r, st') /\
    forall cs,
      let s := device_run cs st' in
      forall b,
        ((b < length (st_bios s))%nat /\ b ∉ st_queue s ->
         List.filter (is_release b) (st_trace s) = [EvCheckPagesDirty b]) /\
        (b ∈ st_queue s \/ (length (st_bios s) <= b)%nat ->
         List.filter (is_release b) (st_trace s) = []).
Proof.
  intros st. refine (pages_released_once 256 st _ _ _).
  - repeat split.
  - vm_compute. discriminate.
  - reflexivity.
Defined.

Lemma direct_IO_file_position_witness :
  let st := request 4096 0 true (buffer (3 * 256 * 4096) READ) [[]; []; []] in
  exists r st',
    __blkdev_direct_IO 256 st = Some (r, st') /\
    forall cs,
      let s := device_run cs st' in
      (is_sync_kiocb (st_iocb st) = true ->
       ki_pos (st_iocb s) = ki_pos (st_iocb st)) /\
      (finals (st_trace s) = [] -> ki_pos (st_iocb s) = ki_pos (st_iocb st)) /\
      (forall v, finals (st_trace s) = [EvKiComplete v] ->
         v <= iov_iter_count (st_iter st) /\
         ki_pos (st_iocb s)
         = if 0 <=? v then wrap_s 64 (ki_pos (st_iocb st) + v)
           else ki_pos (st_iocb st)).
Proof.
  apply (direct_IO_file_position 256).
  - repeat split.
  - vm_compute. discriminate.
  - reflexivity.
Defined.

Lemma direct_IO_layout_witness :
  let st := request 4096 0 true (buffer (3 * 256 * 4096) READ) [[]; []; []] in
  exists r st',
    __blkdev_direct_IO 256 st = Some (r, st') /\
    forall cs,
      contiguous (ki_pos (st_iocb st)) (extents (device_run cs st')).
Proof.
  apply (direct_IO_layout 256).
  - repeat split.
  - vm_compute. discriminate.
  - reflexivity.
  - vm_compute. discriminate.
  - reflexivity.
Defined.

Lemma bios_freed_once_witness :
  let st := request 0 0 true (buffer (3 * 256 * 4096) READ) [[]; []; []] in
  exists r st',
    __blkdev_direct_IO 256 st = Some (r, st') /\
    forall cs,
      let s := device_run cs st' in
      (forall b, (free_count b (st_trace s) <= 1)%nat) /\
      (forall b, b ∈ st_queue s -> free_count b (st_trace s) = 0%nat) /\
      (st_queue s <> [] -> free_count 0 (st_trace s) = 0%nat) /\
      (st_queue s = [] ->
       forall b, (b < length (st_bios s))%nat ->
         free_count b (st_trace s) = 1%nat) /\
      (forall b, (length (st_bios s) <= b)%nat ->
         free_count b (st_trace s) = 0%nat).
Proof.
  apply (bios_freed_once 256).
  - repeat split.
  - vm_compute. discriminate.
  - reflexivity.
Defined.

Lemma general_path_flags_witness :
  let st := request 0 8 true (buffer (256 * 4096) WRITE) [[]] in
  let base :=
    match iov_iter_rw (st_iter st) with
    | READ => REQ_OP_READ
    | WRITE => dio_bio_write_op (st_iocb st)
    end in
  exists r st',
    __blkdev_direct_IO 256 st = Some (r, st') /\
    forall cs,
      let s := device_run cs st' in
      forall b n, EvSubmit b n ∈ st_trace s ->
        bi_opf (bio_at b s)
        = if iocb_flag IOCB_HIPRI st
             && bool_decide (b = (length (st_bios s) - 1)%nat)
          then if is_sync_kiocb (st_iocb st)
               then Z.lor base REQ_HIPRI
               else Z.lor (Z.lor base REQ_HIPRI) REQ_NOWAIT
          else base.
Proof.
  apply (general_path_flags 256).
  - repeat split.
  - vm_compute. discriminate.
  - reflexivity.
Defined.



End linux_engine.
